(** * nwfilter_ebiptables_driver: rule compiler and apply/teardown engine

    A shallow embedding of [src/nwfilter/nwfilter_ebiptables_driver.c]
    (the ebtables/iptables driver of the network filter subsystem) and the
    properties of it that the specification states.

    Conventions of the embedding.
    - A [virBuffer] is the [string] it holds; [virBufferAdd],
      [virBufferAddLit], [virBufferAddChar] and [virBufferAsprintf] are
      string appends ([+:+]).  Allocation failure is not modelled, so
      [virBufferError] is always false and [VIR_APPEND_ELEMENT],
      [VIR_EXPAND_N], [VIR_STRDUP] and [virAsprintf] always succeed.
    - A C function returning [int] with [-1] for failure returns a [Z] here
      when the callers look at the number, and an [option] when the only
      thing a caller does with a failure is to propagate it.
    - Out parameters become components of the result.
    - Integers are [Z]; the one place where machine arithmetic can wrap
      (the comparators' subtraction) writes the wrap-around out.
    - Everything declared in other files of the repository (constants and
      types of [nwfilter_conf.h], formatters of [util/], the variable
      iterator, the hash table, the process runner) is a field of the class
      [Externals].  *)

From Stdlib Require Import ZArith List String Ascii Bool Lia.
From Stdlib Require Import DecimalString HexadecimalString.
From Stdlib Require Import Sorting.Sorted Permutation.
From stdpp Require Import base gmap strings list.
Import ListNotations.

(** String literals are read as strings; [++] is the append of lists and
    [+:+] the append of strings. *)
Open Scope string_scope.
Open Scope list_scope.

(* ===================================================================== *)
(** * Part I: the embedding                                               *)
(* ===================================================================== *)

(** ** Enumerations of [nwfilter_conf.h]

    The header is not part of the sources at hand; the constructors are the
    enumerators the driver names in its [switch] statements and comparisons,
    with the [_LAST] sentinel standing for every value the driver sends to a
    [default] branch. *)

Inductive virNWFilterRuleDirectionType :=
| VIR_NWFILTER_RULE_DIRECTION_IN
| VIR_NWFILTER_RULE_DIRECTION_OUT
| VIR_NWFILTER_RULE_DIRECTION_INOUT
| VIR_NWFILTER_RULE_DIRECTION_LAST.

Inductive virNWFilterRuleActionType :=
| VIR_NWFILTER_RULE_ACTION_DROP
| VIR_NWFILTER_RULE_ACTION_ACCEPT
| VIR_NWFILTER_RULE_ACTION_REJECT
| VIR_NWFILTER_RULE_ACTION_RETURN
| VIR_NWFILTER_RULE_ACTION_CONTINUE
| VIR_NWFILTER_RULE_ACTION_LAST.

Inductive virNWFilterRuleProtocolType :=
| VIR_NWFILTER_RULE_PROTOCOL_NONE
| VIR_NWFILTER_RULE_PROTOCOL_MAC
| VIR_NWFILTER_RULE_PROTOCOL_VLAN
| VIR_NWFILTER_RULE_PROTOCOL_STP
| VIR_NWFILTER_RULE_PROTOCOL_ARP
| VIR_NWFILTER_RULE_PROTOCOL_RARP
| VIR_NWFILTER_RULE_PROTOCOL_IP
| VIR_NWFILTER_RULE_PROTOCOL_IPV6
| VIR_NWFILTER_RULE_PROTOCOL_TCP
| VIR_NWFILTER_RULE_PROTOCOL_ICMP
| VIR_NWFILTER_RULE_PROTOCOL_IGMP
| VIR_NWFILTER_RULE_PROTOCOL_UDP
| VIR_NWFILTER_RULE_PROTOCOL_UDPLITE
| VIR_NWFILTER_RULE_PROTOCOL_ESP
| VIR_NWFILTER_RULE_PROTOCOL_AH
| VIR_NWFILTER_RULE_PROTOCOL_SCTP
| VIR_NWFILTER_RULE_PROTOCOL_ALL
| VIR_NWFILTER_RULE_PROTOCOL_TCPoIPV6
| VIR_NWFILTER_RULE_PROTOCOL_ICMPV6
| VIR_NWFILTER_RULE_PROTOCOL_UDPoIPV6
| VIR_NWFILTER_RULE_PROTOCOL_UDPLITEoIPV6
| VIR_NWFILTER_RULE_PROTOCOL_ESPoIPV6
| VIR_NWFILTER_RULE_PROTOCOL_AHoIPV6
| VIR_NWFILTER_RULE_PROTOCOL_SCTPoIPV6
| VIR_NWFILTER_RULE_PROTOCOL_ALLoIPV6
| VIR_NWFILTER_RULE_PROTOCOL_LAST.

(** [enum attrDatatype]; the last three are the ones [_printDataType] has no
    case for. *)
Inductive attrDatatype :=
| DATATYPE_UINT16
| DATATYPE_UINT8
| DATATYPE_UINT16_HEX
| DATATYPE_UINT8_HEX
| DATATYPE_MACADDR
| DATATYPE_MACMASK
| DATATYPE_IPADDR
| DATATYPE_IPMASK
| DATATYPE_IPV6ADDR
| DATATYPE_IPV6MASK
| DATATYPE_UINT32
| DATATYPE_UINT32_HEX
| DATATYPE_IPSETNAME
| DATATYPE_IPSETFLAGS
| DATATYPE_STRING
| DATATYPE_STRINGCOPY
| DATATYPE_BOOLEAN.

(** [enum ctdirStatus] *)
Inductive ctdirStatus :=
| CTDIR_STATUS_UNKNOWN
| CTDIR_STATUS_CORRECTED
| CTDIR_STATUS_OLD.

(** [enum l3_proto_idx] *)
Inductive l3_proto_idx :=
| L3_PROTO_IPV4_IDX
| L3_PROTO_IPV6_IDX
| L3_PROTO_ARP_IDX
| L3_PROTO_RARP_IDX
| L2_PROTO_MAC_IDX
| L2_PROTO_VLAN_IDX
| L2_PROTO_STP_IDX
| L3_PROTO_LAST_IDX.

(** [virFirewallLayer] of [util/virfirewall.h] *)
Inductive virFirewallLayer :=
| VIR_FIREWALL_LAYER_ETHERNET
| VIR_FIREWALL_LAYER_IPV4
| VIR_FIREWALL_LAYER_IPV6.

(** ** Declarations taken from the rest of the repository *)

(** What this file uses from headers and helpers that live elsewhere in the
    repository or in the C library.  Each field is named after the C
    identifier it stands for. *)
Class Externals := {
  (** *** Types *)
  virSocketAddr : Type;
  virMacAddr : Type;
  virNWFilterVarAccess : Type;
  (** One position of the iteration over the combinations of a rule's
      variable values. *)
  virNWFilterVarCombIter : Type;
  (** [rule->vars]: the table of the variables a rule instance sees. *)
  virNWFilterHashTable : Type;
  (** The state of everything outside the process: the kernel's tables and
      whatever else a command can read or change. *)
  World : Type;

  (** *** Constants *)
  (** [nwfilter_conf.h]: longest comment handed to the comment match. *)
  IPTABLES_MAX_COMMENT_LENGTH : nat;
  MAX_CHAINNAME_LENGTH : nat;
  MAX_IPSET_NAME_LENGTH : nat;
  VIR_MAC_STRING_BUFLEN : nat;
  INET_ADDRSTRLEN : nat;
  INET6_ADDRSTRLEN : nat;
  (** [MAX(INT_BUFSIZE_BOUND(uint32_t), INT_BUFSIZE_BOUND(int))] *)
  INT_BUFSIZE_BOUND_MAX : nat;
  NWFILTER_ENTRY_ITEM_FLAG_EXISTS : Z;
  NWFILTER_ENTRY_ITEM_FLAG_IS_NEG : Z;
  NWFILTER_ENTRY_ITEM_FLAG_HAS_VAR : Z;
  RULE_FLAG_NO_STATEMATCH : Z;
  IPTABLES_STATE_FLAGS : Z;
  NWFILTER_MAC_BGA : string;
  ETHERTYPE_IP : Z;
  ETHERTYPE_IPV6 : Z;
  ETHERTYPE_ARP : Z;
  ETHERTYPE_REVARP : Z;
  ETHERTYPE_VLAN : Z;

  (** *** Functions of [nwfilter_conf.c] and [nwfilter_params.c] *)
  (** [virNWFilterChainSuffixTypeToString(VIR_NWFILTER_CHAINSUFFIX_ROOT)] *)
  virNWFilterChainSuffixTypeToString_ROOT : string;
  virNWFilterJumpTargetTypeToString : virNWFilterRuleActionType -> string;
  virNWFilterRuleIsProtocolEthernet : virNWFilterRuleProtocolType -> bool;
  virNWFilterRuleIsProtocolIPv4 : virNWFilterRuleProtocolType -> bool;
  virNWFilterRuleIsProtocolIPv6 : virNWFilterRuleProtocolType -> bool;
  (** [virNWFilterPrintTCPFlags(buf, mask, sep, flags)]: the text it adds. *)
  virNWFilterPrintTCPFlags : Z -> ascii -> Z -> string;
  (** [virNWFilterPrintStateMatchFlags(buf, prefix, flags, disp_none)]:
      the text it adds. *)
  virNWFilterPrintStateMatchFlags : string -> Z -> bool -> string;
  (** [virNWFilterVarCombIterCreate] followed by the calls of
      [virNWFilterVarCombIterNext] until it returns [NULL]: the positions
      visited, in order; the empty list when the creation fails. *)
  virNWFilterVarCombIterCreate :
    virNWFilterHashTable -> list virNWFilterVarAccess -> list virNWFilterVarCombIter;
  (** [NULL] is [None]. *)
  virNWFilterVarCombIterGetVarValue :
    virNWFilterVarCombIter -> virNWFilterVarAccess -> option string;

  (** *** Functions of [util/] *)
  (** [NULL] is [None]. *)
  virSocketAddrFormat : virSocketAddr -> option string;
  virMacAddrFormat : virMacAddr -> string;
  (** [virStrcpy(dest, src, destbytes)]: what [dest] holds afterwards, [None]
      when it returns [NULL]. *)
  virStrcpy : string -> nat -> option string;
  (** [virParseVersionString(str, &version, true)]: [None] when it returns a
      negative number, the version otherwise. *)
  virParseVersionString : string -> option Z;
  (** [virHashGetItems(table, compar)]: the entries of the table as an array
      sorted with [compar]. *)
  virHashGetItems :
    gmap string Z -> (string * Z -> string * Z -> Z) -> list (string * Z);
  (** Running [/bin/sh -c script] with [virCommandRun]: the new state of
      the world, the exit status and the captured output. *)
  run_sh : World -> string -> World * (Z * string);
  (** Running one rule of a [virFirewall] transaction (the layer's tool with
      the rule's arguments): the new state of the world, the exit status and
      the captured output. *)
  run_fw : World -> virFirewallLayer -> list string -> World * (Z * string);

  (** *** C library *)
  (** [qsort(base, nmemb, size, compar)]: the array after the call. *)
  qsort : forall A : Type, (A -> A -> Z) -> list A -> list A;
}.

Section Embedding.
Context `{Externals}.

(** ** Text *)

(** [STREQ] *)
Definition STREQ (a b : string) : bool := String.eqb a b.

(** [STRPREFIX(a, b)]: [a] starts with [b]. *)
Definition STRPREFIX (a b : string) : bool := String.prefix b a.

(** [strstr(haystack, needle) != NULL] *)
Definition strstr (haystack needle : string) : bool :=
  match index 0 needle haystack with
  | Some _ => true
  | None => false
  end.

(** [snprintf(buf, size, ...)] of the text [s]: what [buf] holds afterwards,
    the first [size - 1] characters. *)
Definition snprintf (size : nat) (s : string) : string :=
  substring 0 (size - 1) s.

(** [snprintf(buf, bufsize, ...) >= bufsize] is an error for the callers
    that check it: the text when it fits, [None] otherwise. *)
Definition snprintf_checked (bufsize : nat) (s : string) : option string :=
  if (bufsize <=? String.length s)%nat then None else Some s.

(** [%d] and [%u] of a number that is not negative, [%x], and [%04x]. *)
Definition fmt_d (n : Z) : string :=
  DecimalString.NilZero.string_of_uint (N.to_uint (Z.to_N n)).

Definition fmt_x (n : Z) : string :=
  HexadecimalString.NilZero.string_of_uint (N.to_hex_uint (Z.to_N n)).

Fixpoint zeros (n : nat) : string :=
  match n with
  | O => ""
  | S n' => String "0" (zeros n')
  end.

Definition fmt_04x (n : Z) : string :=
  let s := fmt_x n in zeros (4 - String.length s) +:+ s.

(** The words of a command line, separated by one space. *)
Fixpoint join_words (ws : list string) : string :=
  match ws with
  | [] => ""
  | [w] => w
  | w :: rest => w +:+ " " +:+ join_words rest
  end.

(** ** Shell script fragments *)

Definition CMD_SEPARATOR : string := String "010" "".
Definition CMD_DEF_PRE : string := "cmd='".
Definition CMD_DEF_POST : string := "'".
Definition CMD_DEF (X : string) : string := CMD_DEF_PRE +:+ X +:+ CMD_DEF_POST.
(** The double quote character, as a string. *)
Definition dquote : string := String "034" "".

Definition CMD_EXEC : string :=
  "eval res=\$\(" +:+ dquote +:+ "${cmd} 2>&1" +:+ dquote
  +:+ "\)" +:+ CMD_SEPARATOR.
Definition CMD_STOPONERR (X : bool) : string :=
  if X then
    "if [ $? -ne 0 ]; then"
    +:+ "  echo " +:+ dquote
    +:+ "Failure to execute command '${cmd}' : '${res}'."
    +:+ dquote +:+ ";"
    +:+ "  exit 1;"
    +:+ "fi" +:+ CMD_SEPARATOR
  else "".

Definition COMMENT_VARNAME : string := "comment".

Definition EBTABLES_CHAIN_INCOMING : string := "PREROUTING".
Definition EBTABLES_CHAIN_OUTGOING : string := "POSTROUTING".

Definition CHAINPREFIX_HOST_IN : ascii := "I".
Definition CHAINPREFIX_HOST_OUT : ascii := "O".
Definition CHAINPREFIX_HOST_IN_TEMP : ascii := "J".
Definition CHAINPREFIX_HOST_OUT_TEMP : ascii := "P".

Definition VIRT_IN_CHAIN : string := "libvirt-in".
Definition VIRT_OUT_CHAIN : string := "libvirt-out".
Definition VIRT_IN_POST_CHAIN : string := "libvirt-in-post".
Definition HOST_IN_CHAIN : string := "libvirt-host-in".

Definition PHYSDEV_IN : string := "--physdev-in".

Definition m_state_out_str_old : string := "-m state --state NEW,ESTABLISHED".
Definition m_state_in_str_old : string := "-m state --state ESTABLISHED".
Definition m_state_out_str_new : string := "-m conntrack --ctstate NEW,ESTABLISHED".
Definition m_state_in_str_new : string := "-m conntrack --ctstate ESTABLISHED".

Definition m_physdev_in_str : string := "-m physdev --physdev-in".
Definition m_physdev_out_str : string := "-m physdev --physdev-is-bridged --physdev-out".
Definition m_physdev_out_old_str : string := "-m physdev --physdev-out".

Definition MATCH_PHYSDEV_IN : string := m_physdev_in_str.
Definition MATCH_PHYSDEV_OUT : string := m_physdev_out_str.
Definition MATCH_PHYSDEV_OUT_OLD : string := m_physdev_out_old_str.

Definition MATCH_PHYSDEV_IN_FW : list string := ["-m"; "physdev"; "--physdev-in"].
Definition MATCH_PHYSDEV_OUT_FW : list string :=
  ["-m"; "physdev"; "--physdev-is-bridged"; "--physdev-out"].
Definition MATCH_PHYSDEV_OUT_OLD_FW : list string :=
  ["-m"; "physdev"; "--physdev-out"].

(** ** The file's static variables

    The tool paths and the two probed quirks are written once by
    [ebiptablesDriverInit] and read everywhere else; the functions that read
    them take them as a record.  [NULL] is [None]. *)
Record driver_state := {
  ebtables_cmd_path : option string;
  iptables_cmd_path : option string;
  ip6tables_cmd_path : option string;
  grep_cmd_path : option string;
  iptables_ctdir_corrected : ctdirStatus;
  m_state_out_str : string;
  m_state_in_str : string;
}.

Definition MATCH_STATE_OUT (st : driver_state) : string := m_state_out_str st.
Definition MATCH_STATE_IN (st : driver_state) : string := m_state_in_str st.

(** [%s] of a string that may be [NULL] (glibc prints [(null)]). *)
Definition fmt_s_opt (s : option string) : string :=
  match s with
  | Some s => s
  | None => "(null)"
  end.

(** ** Chain names *)

(** [PRINT_ROOT_CHAIN(buf, prefix, ifname)] with [buf] of
    [MAX_CHAINNAME_LENGTH] bytes. *)
Definition PRINT_ROOT_CHAIN (prefix : ascii) (ifname : string) : string :=
  snprintf MAX_CHAINNAME_LENGTH ("libvirt-" +:+ String prefix "" +:+ "-" +:+ ifname).

(** [PRINT_CHAIN(buf, prefix, ifname, suffix)] *)
Definition PRINT_CHAIN (prefix : ascii) (ifname suffix : string) : string :=
  snprintf MAX_CHAINNAME_LENGTH (String prefix "" +:+ "-" +:+ ifname +:+ "-" +:+ suffix).

(** [PRINT_IPT_ROOT_CHAIN(buf, prefix, ifname)]; [prefix] is the pair
    [prefix[0]], [prefix[1]]. *)
Definition PRINT_IPT_ROOT_CHAIN (prefix : ascii * ascii) (ifname : string) : string :=
  snprintf MAX_CHAINNAME_LENGTH
    (String (fst prefix) (String (snd prefix) "") +:+ "-" +:+ ifname).

(** ** printCommentVar *)

(** The loop [for (i = 0; i < len; i++)] of [printCommentVar]: [n] is
    [len - i] and [buf] the text from position [i] on. *)
Fixpoint printCommentVar_loop (n : nat) (buf : string) (dest : string) : string :=
  match n, buf with
  | S n', String c rest =>
      if Ascii.eqb c "'"
      then printCommentVar_loop n' rest (dest +:+ "'\''")
      else printCommentVar_loop n' rest (dest +:+ String c "")
  | _, _ => dest
  end.

Definition printCommentVar (dest : string) (buf : string) : string :=
  let len := String.length buf in
  let dest := dest +:+ COMMENT_VARNAME +:+ "='" in
  let len := if (IPTABLES_MAX_COMMENT_LENGTH <? len)%nat
             then IPTABLES_MAX_COMMENT_LENGTH else len in
  let dest := printCommentVar_loop len buf dest in
  dest +:+ "'" +:+ CMD_SEPARATOR.

(** *** The specification's reading of [printCommentVar] *)

(** The comment cut to at most [IPTABLES_MAX_COMMENT_LENGTH] characters. *)
Definition comment_truncated (buf : string) : string :=
  substring 0 (Nat.min (String.length buf) IPTABLES_MAX_COMMENT_LENGTH) buf.

(** Every single quote replaced by the four characters ['\'']. *)
Fixpoint comment_escaped (s : string) : string :=
  match s with
  | EmptyString => EmptyString
  | String c rest =>
      (if Ascii.eqb c "'" then "'\''" else String c "") +:+ comment_escaped rest
  end.

(** How a POSIX shell reads the word after [comment=]: text between single
    quotes is taken literally up to the next single quote, a backslash outside
    quotes makes the next character literal, and an unquoted newline ends the
    word.  Any other unquoted character is outside the fragment the driver
    writes and is refused.  The result is the value assigned and the rest of
    the script. *)
Fixpoint sh_word (quoted : bool) (s : string) (acc : string) : option (string * string) :=
  match s with
  | EmptyString => None
  | String c rest =>
      if quoted then
        if Ascii.eqb c "'" then sh_word false rest acc
        else sh_word true rest (acc +:+ String c "")
      else
        if Ascii.eqb c "'" then sh_word true rest acc
        else if Ascii.eqb c "010" then Some (acc, rest)
        else if Ascii.eqb c "\" then
          match rest with
          | String d rest' => sh_word false rest' (acc +:+ String d "")
          | EmptyString => None
          end
        else None
  end.

(** ** Rule data ([nwfilter_conf.h])

    The structures are declared in a header that is not among the sources;
    the records have the members the driver reads.  Where two structures
    have a member of the same name, the record field carries the structure's
    short name in front ([tcp_ipHdr] is [tcpHdrFilter.ipHdr]).  A [union] is
    a record with one field per member: the driver reads the member that the
    [datatype] or [prtclType] next to it selects. *)

Record nwItemDesc := {
  flags : Z;
  varAccess : virNWFilterVarAccess;
  datatype : attrDatatype;
  (* union u *)
  u_macaddr : virMacAddr;
  u_ipaddr : virSocketAddr;
  u_boolean : bool;
  u_u8 : Z;
  u_u16 : Z;
  u_u32 : Z;
  u_string : string;
  u_tcpFlags_mask : Z;
  u_tcpFlags_flags : Z;
  u_ipset_setname : string;
  u_ipset_numFlags : Z;
  u_ipset_flags : Z;
}.

(** [x & FLAG] as a condition *)
Definition has_flag (x flag : Z) : bool := negb (Z.land x flag =? 0)%Z.

Definition HAS_ENTRY_ITEM (data : nwItemDesc) : bool :=
  has_flag (flags data) NWFILTER_ENTRY_ITEM_FLAG_EXISTS.

Definition ENTRY_GET_NEG_SIGN (data : nwItemDesc) : string :=
  if has_flag (flags data) NWFILTER_ENTRY_ITEM_FLAG_IS_NEG then "!" else "".

Record ethHdrDataDef := {
  dataSrcMACAddr : nwItemDesc;
  dataSrcMACMask : nwItemDesc;
  dataDstMACAddr : nwItemDesc;
  dataDstMACMask : nwItemDesc;
}.

Record ipHdrDataDef := {
  dataSrcIPAddr : nwItemDesc;
  dataSrcIPMask : nwItemDesc;
  dataDstIPAddr : nwItemDesc;
  dataDstIPMask : nwItemDesc;
  dataProtocolID : nwItemDesc;
  dataSrcIPFrom : nwItemDesc;
  dataSrcIPTo : nwItemDesc;
  dataDstIPFrom : nwItemDesc;
  dataDstIPTo : nwItemDesc;
  dataDSCP : nwItemDesc;
  dataConnlimitAbove : nwItemDesc;
  dataComment : nwItemDesc;
  dataIPSet : nwItemDesc;
  dataIPSetFlags : nwItemDesc;
}.

Record portDataDef := {
  dataSrcPortStart : nwItemDesc;
  dataSrcPortEnd : nwItemDesc;
  dataDstPortStart : nwItemDesc;
  dataDstPortEnd : nwItemDesc;
}.

Record ethHdrFilterDef := {
  eth_ethHdr : ethHdrDataDef;
  eth_dataProtocolID : nwItemDesc;
}.

Record vlanHdrFilterDef := {
  vlan_ethHdr : ethHdrDataDef;
  vlan_dataVlanID : nwItemDesc;
  vlan_dataVlanEncap : nwItemDesc;
}.

Record stpHdrFilterDef := {
  stp_ethHdr : ethHdrDataDef;
  stp_dataType : nwItemDesc;
  stp_dataFlags : nwItemDesc;
  stp_dataRootPri : nwItemDesc;
  stp_dataRootPriHi : nwItemDesc;
  stp_dataRootAddr : nwItemDesc;
  stp_dataRootAddrMask : nwItemDesc;
  stp_dataRootCost : nwItemDesc;
  stp_dataRootCostHi : nwItemDesc;
  stp_dataSndrPrio : nwItemDesc;
  stp_dataSndrPrioHi : nwItemDesc;
  stp_dataSndrAddr : nwItemDesc;
  stp_dataSndrAddrMask : nwItemDesc;
  stp_dataPort : nwItemDesc;
  stp_dataPortHi : nwItemDesc;
  stp_dataAge : nwItemDesc;
  stp_dataAgeHi : nwItemDesc;
  stp_dataMaxAge : nwItemDesc;
  stp_dataMaxAgeHi : nwItemDesc;
  stp_dataHelloTime : nwItemDesc;
  stp_dataHelloTimeHi : nwItemDesc;
  stp_dataFwdDelay : nwItemDesc;
  stp_dataFwdDelayHi : nwItemDesc;
}.

Record arpHdrFilterDef := {
  arp_ethHdr : ethHdrDataDef;
  arp_dataHWType : nwItemDesc;
  arp_dataProtocolType : nwItemDesc;
  arp_dataOpcode : nwItemDesc;
  arp_dataARPSrcMACAddr : nwItemDesc;
  arp_dataARPSrcIPAddr : nwItemDesc;
  arp_dataARPSrcIPMask : nwItemDesc;
  arp_dataARPDstMACAddr : nwItemDesc;
  arp_dataARPDstIPAddr : nwItemDesc;
  arp_dataARPDstIPMask : nwItemDesc;
  arp_dataGratuitousARP : nwItemDesc;
}.

Record ipHdrFilterDef := {
  ip_ethHdr : ethHdrDataDef;
  ip_ipHdr : ipHdrDataDef;
  ip_portData : portDataDef;
}.

Record ipv6HdrFilterDef := {
  ipv6_ethHdr : ethHdrDataDef;
  ipv6_ipHdr : ipHdrDataDef;
  ipv6_portData : portDataDef;
}.

Record tcpHdrFilterDef := {
  tcp_dataSrcMACAddr : nwItemDesc;
  tcp_ipHdr : ipHdrDataDef;
  tcp_portData : portDataDef;
  tcp_dataTCPOption : nwItemDesc;
  tcp_dataTCPFlags : nwItemDesc;
}.

Record udpHdrFilterDef := {
  udp_dataSrcMACAddr : nwItemDesc;
  udp_ipHdr : ipHdrDataDef;
  udp_portData : portDataDef;
}.

Record udpliteHdrFilterDef := {
  udplite_dataSrcMACAddr : nwItemDesc;
  udplite_ipHdr : ipHdrDataDef;
}.

Record espHdrFilterDef := {
  esp_dataSrcMACAddr : nwItemDesc;
  esp_ipHdr : ipHdrDataDef;
}.

Record ahHdrFilterDef := {
  ah_dataSrcMACAddr : nwItemDesc;
  ah_ipHdr : ipHdrDataDef;
}.

Record sctpHdrFilterDef := {
  sctp_dataSrcMACAddr : nwItemDesc;
  sctp_ipHdr : ipHdrDataDef;
  sctp_portData : portDataDef;
}.

Record icmpHdrFilterDef := {
  icmp_dataSrcMACAddr : nwItemDesc;
  icmp_ipHdr : ipHdrDataDef;
  icmp_dataICMPType : nwItemDesc;
  icmp_dataICMPCode : nwItemDesc;
}.

Record igmpHdrFilterDef := {
  igmp_dataSrcMACAddr : nwItemDesc;
  igmp_ipHdr : ipHdrDataDef;
}.

Record allHdrFilterDef := {
  all_dataSrcMACAddr : nwItemDesc;
  all_ipHdr : ipHdrDataDef;
}.

(** The union [p] of [virNWFilterRuleDef] *)
Record ruleProtocolData := {
  ethHdrFilter : ethHdrFilterDef;
  vlanHdrFilter : vlanHdrFilterDef;
  stpHdrFilter : stpHdrFilterDef;
  arpHdrFilter : arpHdrFilterDef;
  ipHdrFilter : ipHdrFilterDef;
  ipv6HdrFilter : ipv6HdrFilterDef;
  tcpHdrFilter : tcpHdrFilterDef;
  icmpHdrFilter : icmpHdrFilterDef;
  udpHdrFilter : udpHdrFilterDef;
  udpliteHdrFilter : udpliteHdrFilterDef;
  espHdrFilter : espHdrFilterDef;
  ahHdrFilter : ahHdrFilterDef;
  allHdrFilter : allHdrFilterDef;
  igmpHdrFilter : igmpHdrFilterDef;
  sctpHdrFilter : sctpHdrFilterDef;
}.

(** [virNWFilterRuleDef]; the fields carry [def_] in front ([def_flags] is
    [rule->flags]). *)
Record virNWFilterRuleDef := {
  def_flags : Z;
  def_action : virNWFilterRuleActionType;
  def_tt : virNWFilterRuleDirectionType;
  def_prtclType : virNWFilterRuleProtocolType;
  def_p : ruleProtocolData;
  (** [varAccess] with its length [nVarAccess] *)
  def_varAccess : list virNWFilterVarAccess;
}.

(** [virNWFilterRuleInst] *)
Record virNWFilterRuleInst := {
  chainSuffix : string;
  chainPriority : Z;
  def : virNWFilterRuleDef;
  priority : Z;
  vars : virNWFilterHashTable;
}.

(** [ebiptablesRuleInst] ([nwfilter_ebiptables_driver.h]), the members this
    file sets; [commandTemplate] is kept as the commands it is made of, see
    [render_cmds] below. *)

(** ** Rendering a matcher's value *)

(** [printVar]: [None] is the return value [-1]; [Some None] is [0] with
    [*done == false]; [Some (Some buf)] is [0] with [*done == true] and the
    text copied into [buf]. *)
Definition printVar (vars : virNWFilterVarCombIter) (bufsize : nat)
    (item : nwItemDesc) : option (option string) :=
  if has_flag (flags item) NWFILTER_ENTRY_ITEM_FLAG_HAS_VAR then
    match virNWFilterVarCombIterGetVarValue vars (varAccess item) with
    | None => None
    | Some val =>
        match virStrcpy val bufsize with
        | None => None
        | Some buf => Some (Some buf)
        end
    end
  else Some None.

(** The loop of the [DATATYPE_IPSETFLAGS] case: [n] iterations are left and
    [ctr] is the loop counter. *)
Fixpoint ipsetflags_loop (n : nat) (ctr : Z) (item : nwItemDesc)
    (directionIn : bool) (vb : string) : string :=
  match n with
  | O => vb
  | S n' =>
      let vb := if (ctr =? 0)%Z then vb else vb +:+ "," in
      let vb :=
        if has_flag (u_ipset_flags item) (Z.shiftl 1 ctr)
        then (if directionIn then vb +:+ "dst" else vb +:+ "src")
        else (if directionIn then vb +:+ "src" else vb +:+ "dst") in
      ipsetflags_loop n' (ctr + 1)%Z item directionIn vb
  end.

(** [virBufferContentAndReset] of a buffer that holds [vb]: the content,
    which is [NULL] ([None]) when nothing was added to the buffer. *)
Definition virBufferContentAndReset (vb : string) : option string :=
  match vb with
  | "" => None
  | _ => Some vb
  end.

(** [_printDataType]: the text left in [buf], or [None] for [-1].  In the
    [DATATYPE_IPSETFLAGS] case the loop adds nothing for an item without
    flags; [flags] is [NULL] then, [virStrcpy] reads from it and the call
    does not return.  [None] stands for that too: no text comes back. *)
Definition _printDataType (vars : virNWFilterVarCombIter) (bufsize : nat)
    (item : nwItemDesc) (asHex directionIn : bool) : option string :=
  match printVar vars bufsize item with
  | None => None
  | Some (Some buf) => Some buf
  | Some None =>
      match datatype item with
      | DATATYPE_IPADDR | DATATYPE_IPV6ADDR =>
          match virSocketAddrFormat (u_ipaddr item) with
          | None => None
          | Some data => snprintf_checked bufsize data
          end
      | DATATYPE_MACADDR | DATATYPE_MACMASK =>
          if (bufsize <? VIR_MAC_STRING_BUFLEN)%nat then None
          else Some (virMacAddrFormat (u_macaddr item))
      | DATATYPE_IPV6MASK | DATATYPE_IPMASK =>
          snprintf_checked bufsize (fmt_d (u_u8 item))
      | DATATYPE_UINT32 | DATATYPE_UINT32_HEX =>
          snprintf_checked bufsize
            (if asHex then "0x" +:+ fmt_x (u_u32 item) else fmt_d (u_u32 item))
      | DATATYPE_UINT16 | DATATYPE_UINT16_HEX =>
          snprintf_checked bufsize
            (if asHex then "0x" +:+ fmt_x (u_u16 item) else fmt_d (u_u16 item))
      | DATATYPE_UINT8 | DATATYPE_UINT8_HEX =>
          snprintf_checked bufsize
            (if asHex then "0x" +:+ fmt_x (u_u8 item) else fmt_d (u_u8 item))
      | DATATYPE_IPSETNAME =>
          virStrcpy (u_ipset_setname item) bufsize
      | DATATYPE_IPSETFLAGS =>
          let vb :=
            ipsetflags_loop (Z.to_nat (u_ipset_numFlags item)) 0 item directionIn "" in
          flags ← virBufferContentAndReset vb;
          virStrcpy flags bufsize
      | _ => None
      end
  end.

Definition printDataType (vars : virNWFilterVarCombIter) (bufsize : nat)
    (item : nwItemDesc) : option string :=
  _printDataType vars bufsize item false false.

Definition printDataTypeDirection (vars : virNWFilterVarCombIter) (bufsize : nat)
    (item : nwItemDesc) (directionIn : bool) : option string :=
  _printDataType vars bufsize item false directionIn.

Definition printDataTypeAsHex (vars : virNWFilterVarCombIter) (bufsize : nat)
    (item : nwItemDesc) : option string :=
  _printDataType vars bufsize item true false.

(** The format [" %s %s %s"] *)
Definition fmt_3s (a b c : string) : string :=
  " " +:+ a +:+ " " +:+ b +:+ " " +:+ c.

(** ** iptables support: the matchers *)

(** [iptablesHandleSrcMacAddr]: the buffer and [*srcmacskipped], or [None]
    for [-1]. *)
Definition iptablesHandleSrcMacAddr (buf : string) (vars : virNWFilterVarCombIter)
    (srcMacAddr : nwItemDesc) (directionIn : bool) : option (string * bool) :=
  if HAS_ENTRY_ITEM srcMacAddr then
    if directionIn then Some (buf, true)
    else
      match printDataType vars VIR_MAC_STRING_BUFLEN srcMacAddr with
      | None => None
      | Some macaddr =>
          Some (buf +:+ " -m mac " +:+ ENTRY_GET_NEG_SIGN srcMacAddr
                    +:+ " --mac-source " +:+ macaddr, false)
      end
  else Some (buf, false).

(** The buffers and flags of [_iptablesCreateRuleInstance] that
    [iptablesHandleIpHdr] writes. *)
Record ipt_state := {
  st_buf : string;
  st_afterStateMatch : string;
  st_prefix : string;
  st_skipRule : bool;
  st_skipMatch : bool;
}.

Definition set_buf (s : ipt_state) (b : string) : ipt_state :=
  {| st_buf := b; st_afterStateMatch := st_afterStateMatch s;
     st_prefix := st_prefix s; st_skipRule := st_skipRule s;
     st_skipMatch := st_skipMatch s |}.

Definition set_afterStateMatch (s : ipt_state) (a : string) : ipt_state :=
  {| st_buf := st_buf s; st_afterStateMatch := a;
     st_prefix := st_prefix s; st_skipRule := st_skipRule s;
     st_skipMatch := st_skipMatch s |}.

(** The address and range matchers of one side ([src] or [dst]) in
    [iptablesHandleIpHdr]. *)
Definition iptablesHandleIpHdr_addr (buf : string) (vars : virNWFilterVarCombIter)
    (addr mask from to : nwItemDesc) (opt optrange : string) : option string :=
  if HAS_ENTRY_ITEM addr then
    ipaddr ← printDataType vars INET6_ADDRSTRLEN addr;
    let buf := buf +:+ fmt_3s (ENTRY_GET_NEG_SIGN addr) opt ipaddr in
    if HAS_ENTRY_ITEM mask then
      number ← printDataType vars INT_BUFSIZE_BOUND_MAX mask;
      Some (buf +:+ "/" +:+ number)
    else Some buf
  else if HAS_ENTRY_ITEM from then
    ipaddr ← printDataType vars INET6_ADDRSTRLEN from;
    let buf := buf +:+ " -m iprange " +:+ ENTRY_GET_NEG_SIGN from +:+ " "
                   +:+ optrange +:+ " " +:+ ipaddr in
    if HAS_ENTRY_ITEM to then
      ipaddr ← printDataType vars INET6_ADDRSTRLEN to;
      Some (buf +:+ "-" +:+ ipaddr)
    else Some buf
  else Some buf.

(** [iptablesHandleIpHdr]; [None] is [-1]. *)
Definition iptablesHandleIpHdr (s : ipt_state) (vars : virNWFilterVarCombIter)
    (ipHdr : ipHdrDataDef) (directionIn : bool) : option ipt_state :=
  let src := if directionIn then "--destination" else "--source" in
  let dst := if directionIn then "--source" else "--destination" in
  let srcrange := if directionIn then "--dst-range" else "--src-range" in
  let dstrange := if directionIn then "--src-range" else "--dst-range" in
  s ← (if HAS_ENTRY_ITEM (dataIPSet ipHdr) && HAS_ENTRY_ITEM (dataIPSetFlags ipHdr)
       then
         str ← printDataType vars MAX_IPSET_NAME_LENGTH (dataIPSet ipHdr);
         let a := st_afterStateMatch s +:+ " -m set --match-set " +:+ dquote
                    +:+ str +:+ dquote +:+ " " in
         str ← printDataTypeDirection vars MAX_IPSET_NAME_LENGTH
                 (dataIPSetFlags ipHdr) directionIn;
         Some (set_afterStateMatch s (a +:+ str))
       else Some s);
  buf ← iptablesHandleIpHdr_addr (st_buf s) vars
          (dataSrcIPAddr ipHdr) (dataSrcIPMask ipHdr)
          (dataSrcIPFrom ipHdr) (dataSrcIPTo ipHdr) src srcrange;
  buf ← iptablesHandleIpHdr_addr buf vars
          (dataDstIPAddr ipHdr) (dataDstIPMask ipHdr)
          (dataDstIPFrom ipHdr) (dataDstIPTo ipHdr) dst dstrange;
  buf ← (if HAS_ENTRY_ITEM (dataDSCP ipHdr) then
           number ← printDataType vars INT_BUFSIZE_BOUND_MAX (dataDSCP ipHdr);
           Some (buf +:+ " -m dscp " +:+ ENTRY_GET_NEG_SIGN (dataDSCP ipHdr)
                     +:+ " --dscp " +:+ number)
         else Some buf);
  let s := set_buf s buf in
  s ← (if HAS_ENTRY_ITEM (dataConnlimitAbove ipHdr) then
         if directionIn then
           Some {| st_buf := st_buf s; st_afterStateMatch := st_afterStateMatch s;
                   st_prefix := st_prefix s; st_skipRule := true;
                   st_skipMatch := st_skipMatch s |}
         else
           number ← printDataType vars INT_BUFSIZE_BOUND_MAX (dataConnlimitAbove ipHdr);
           Some {| st_buf := st_buf s;
                   st_afterStateMatch :=
                     st_afterStateMatch s +:+ " -m connlimit "
                       +:+ ENTRY_GET_NEG_SIGN (dataConnlimitAbove ipHdr)
                       +:+ " --connlimit-above " +:+ number;
                   st_prefix := st_prefix s; st_skipRule := st_skipRule s;
                   st_skipMatch := true |}
       else Some s);
  if HAS_ENTRY_ITEM (dataComment ipHdr) then
    Some {| st_buf := st_buf s;
            st_afterStateMatch :=
              st_afterStateMatch s +:+ " -m comment --comment " +:+ dquote
                +:+ "$" +:+ COMMENT_VARNAME +:+ dquote;
            st_prefix := printCommentVar (st_prefix s) (u_string (dataComment ipHdr));
            st_skipRule := st_skipRule s; st_skipMatch := st_skipMatch s |}
  else Some s.

(** One side of [iptablesHandlePortData] *)
Definition iptablesHandlePortData_side (buf : string) (vars : virNWFilterVarCombIter)
    (start end_ : nwItemDesc) (opt : string) : option string :=
  if HAS_ENTRY_ITEM start then
    portstr ← printDataType vars 20 start;
    let buf := buf +:+ fmt_3s (ENTRY_GET_NEG_SIGN start) opt portstr in
    if HAS_ENTRY_ITEM end_ then
      portstr ← printDataType vars 20 end_;
      Some (buf +:+ ":" +:+ portstr)
    else Some buf
  else Some buf.

Definition iptablesHandlePortData (buf : string) (vars : virNWFilterVarCombIter)
    (portData : portDataDef) (directionIn : bool) : option string :=
  let sport := if directionIn then "--dport" else "--sport" in
  let dport := if directionIn then "--sport" else "--dport" in
  buf ← iptablesHandlePortData_side buf vars
          (dataSrcPortStart portData) (dataSrcPortEnd portData) sport;
  iptablesHandlePortData_side buf vars
    (dataDstPortStart portData) (dataDstPortEnd portData) dport.

(** [iptablesEnforceDirection] *)
Definition iptablesEnforceDirection (st : driver_state) (directionIn : bool)
    (rule : virNWFilterRuleDef) (buf : string) : string :=
  let directionIn' :=
    match iptables_ctdir_corrected st with
    | CTDIR_STATUS_UNKNOWN => None
    | CTDIR_STATUS_CORRECTED => Some (negb directionIn)
    | CTDIR_STATUS_OLD => Some directionIn
    end in
  match directionIn' with
  | None => buf
  | Some directionIn =>
      match def_tt rule with
      | VIR_NWFILTER_RULE_DIRECTION_INOUT => buf
      | _ => buf +:+ " -m conntrack --ctdir "
                 +:+ (if directionIn then "Original" else "Reply")
      end
  end.

(** ** iptables support: one rule, one direction *)

(** How the [switch] over the protocol in [_iptablesCreateRuleInstance]
    ends: at [err_exit] or the [default] branch's [return -1], at
    [exit_no_error], or at the statement after the [switch] with [bufUsed],
    [srcMacSkipped], [hasICMPType] and the buffers. *)
Inductive ipt_switch_result :=
| SwError
| SwNoError
| SwDone (bufUsed : nat) (srcMacSkipped : bool) (hasICMPType : bool) (s : ipt_state).

(** What every [case] starts with: the command up to the protocol, the
    length of the buffer at that point, the source MAC matcher and the IP
    header matchers.  [proto] is the literal after [-p]. *)
Definition ipt_case_head (chain proto : string) (vars : virNWFilterVarCombIter)
    (srcMacAddr : nwItemDesc) (ipHdr : ipHdrDataDef) (directionIn : bool)
    : option (nat * bool * ipt_state) :=
  let buf := CMD_DEF_PRE +:+ "$IPT -A " +:+ chain in
  let buf := buf +:+ " -p " +:+ proto in
  let bufUsed := String.length buf in
  '(buf, srcMacSkipped) ← iptablesHandleSrcMacAddr buf vars srcMacAddr directionIn;
  s ← iptablesHandleIpHdr
        {| st_buf := buf; st_afterStateMatch := ""; st_prefix := "";
           st_skipRule := false; st_skipMatch := false |}
        vars ipHdr directionIn;
  Some (bufUsed, srcMacSkipped, s).

Definition ipt_switch (directionIn : bool) (chain : string)
    (rule : virNWFilterRuleDef) (vars : virNWFilterVarCombIter)
    (maySkipICMP : bool) : ipt_switch_result :=
  let p := def_p rule in
  match def_prtclType rule with
  | VIR_NWFILTER_RULE_PROTOCOL_TCP | VIR_NWFILTER_RULE_PROTOCOL_TCPoIPV6 =>
      let f := tcpHdrFilter p in
      let r :=
        '(bufUsed, srcMacSkipped, s) ←
          ipt_case_head chain "tcp" vars (tcp_dataSrcMACAddr f) (tcp_ipHdr f) directionIn;
        let buf := st_buf s in
        let buf :=
          if HAS_ENTRY_ITEM (tcp_dataTCPFlags f) then
            buf +:+ " " +:+ ENTRY_GET_NEG_SIGN (tcp_dataTCPFlags f) +:+ " --tcp-flags "
                +:+ virNWFilterPrintTCPFlags (u_tcpFlags_mask (tcp_dataTCPFlags f)) " "
                      (u_tcpFlags_flags (tcp_dataTCPFlags f))
          else buf in
        buf ← iptablesHandlePortData buf vars (tcp_portData f) directionIn;
        buf ← (if HAS_ENTRY_ITEM (tcp_dataTCPOption f) then
                 number ← printDataType vars INT_BUFSIZE_BOUND_MAX (tcp_dataTCPOption f);
                 Some (buf +:+ " " +:+ ENTRY_GET_NEG_SIGN (tcp_dataTCPOption f)
                           +:+ " --tcp-option " +:+ number)
               else Some buf);
        Some (SwDone bufUsed srcMacSkipped false (set_buf s buf)) in
      from_option id SwError r
  | VIR_NWFILTER_RULE_PROTOCOL_UDP | VIR_NWFILTER_RULE_PROTOCOL_UDPoIPV6 =>
      let f := udpHdrFilter p in
      let r :=
        '(bufUsed, srcMacSkipped, s) ←
          ipt_case_head chain "udp" vars (udp_dataSrcMACAddr f) (udp_ipHdr f) directionIn;
        buf ← iptablesHandlePortData (st_buf s) vars (udp_portData f) directionIn;
        Some (SwDone bufUsed srcMacSkipped false (set_buf s buf)) in
      from_option id SwError r
  | VIR_NWFILTER_RULE_PROTOCOL_UDPLITE | VIR_NWFILTER_RULE_PROTOCOL_UDPLITEoIPV6 =>
      let f := udpliteHdrFilter p in
      let r :=
        '(bufUsed, srcMacSkipped, s) ←
          ipt_case_head chain "udplite" vars
            (udplite_dataSrcMACAddr f) (udplite_ipHdr f) directionIn;
        Some (SwDone bufUsed srcMacSkipped false s) in
      from_option id SwError r
  | VIR_NWFILTER_RULE_PROTOCOL_ESP | VIR_NWFILTER_RULE_PROTOCOL_ESPoIPV6 =>
      let f := espHdrFilter p in
      let r :=
        '(bufUsed, srcMacSkipped, s) ←
          ipt_case_head chain "esp" vars (esp_dataSrcMACAddr f) (esp_ipHdr f) directionIn;
        Some (SwDone bufUsed srcMacSkipped false s) in
      from_option id SwError r
  | VIR_NWFILTER_RULE_PROTOCOL_AH | VIR_NWFILTER_RULE_PROTOCOL_AHoIPV6 =>
      let f := ahHdrFilter p in
      let r :=
        '(bufUsed, srcMacSkipped, s) ←
          ipt_case_head chain "ah" vars (ah_dataSrcMACAddr f) (ah_ipHdr f) directionIn;
        Some (SwDone bufUsed srcMacSkipped false s) in
      from_option id SwError r
  | VIR_NWFILTER_RULE_PROTOCOL_SCTP | VIR_NWFILTER_RULE_PROTOCOL_SCTPoIPV6 =>
      let f := sctpHdrFilter p in
      let r :=
        '(bufUsed, srcMacSkipped, s) ←
          ipt_case_head chain "sctp" vars (sctp_dataSrcMACAddr f) (sctp_ipHdr f) directionIn;
        buf ← iptablesHandlePortData (st_buf s) vars (sctp_portData f) directionIn;
        Some (SwDone bufUsed srcMacSkipped false (set_buf s buf)) in
      from_option id SwError r
  | VIR_NWFILTER_RULE_PROTOCOL_ICMP | VIR_NWFILTER_RULE_PROTOCOL_ICMPV6 =>
      let f := icmpHdrFilter p in
      let isICMP :=
        match def_prtclType rule with
        | VIR_NWFILTER_RULE_PROTOCOL_ICMP => true
        | _ => false
        end in
      match ipt_case_head chain (if isICMP then "icmp" else "icmpv6") vars
              (icmp_dataSrcMACAddr f) (icmp_ipHdr f) directionIn with
      | None => SwError
      | Some (bufUsed, srcMacSkipped, s) =>
          if HAS_ENTRY_ITEM (icmp_dataICMPType f) then
            if maySkipICMP then SwNoError
            else
              let parm := if isICMP then "--icmp-type" else "--icmpv6-type" in
              let r :=
                number ← printDataType vars INT_BUFSIZE_BOUND_MAX (icmp_dataICMPType f);
                let buf := st_buf s +:+ fmt_3s (ENTRY_GET_NEG_SIGN (icmp_dataICMPType f))
                                          parm number in
                buf ← (if HAS_ENTRY_ITEM (icmp_dataICMPCode f) then
                         number ← printDataType vars INT_BUFSIZE_BOUND_MAX
                                    (icmp_dataICMPCode f);
                         Some (buf +:+ "/" +:+ number)
                       else Some buf);
                Some (SwDone bufUsed srcMacSkipped true (set_buf s buf)) in
              from_option id SwError r
          else SwDone bufUsed srcMacSkipped false s
      end
  | VIR_NWFILTER_RULE_PROTOCOL_IGMP =>
      let f := igmpHdrFilter p in
      let r :=
        '(bufUsed, srcMacSkipped, s) ←
          ipt_case_head chain "igmp" vars (igmp_dataSrcMACAddr f) (igmp_ipHdr f) directionIn;
        Some (SwDone bufUsed srcMacSkipped false s) in
      from_option id SwError r
  | VIR_NWFILTER_RULE_PROTOCOL_ALL | VIR_NWFILTER_RULE_PROTOCOL_ALLoIPV6 =>
      let f := allHdrFilter p in
      let r :=
        '(bufUsed, srcMacSkipped, s) ←
          ipt_case_head chain "all" vars (all_dataSrcMACAddr f) (all_ipHdr f) directionIn;
        Some (SwDone bufUsed srcMacSkipped false s) in
      from_option id SwError r
  | _ => SwError
  end.

(** [_iptablesCreateRuleInstance]: the return value and [*templates] after
    the call.  [match_] is [match], [None] for [NULL]. *)
Definition _iptablesCreateRuleInstance (st : driver_state) (directionIn : bool)
    (chainPrefix : ascii * ascii) (rule : virNWFilterRuleDef) (ifname : string)
    (vars : virNWFilterVarCombIter) (match_ : option string) (defMatch : bool)
    (accept_target : string) (isIPv6 maySkipICMP : bool)
    (templates : list string) : Z * list string :=
  let iptables_cmd := if isIPv6 then ip6tables_cmd_path st else iptables_cmd_path st in
  match iptables_cmd with
  | None => ((-1)%Z, templates)
  | Some _ =>
      let chain := PRINT_IPT_ROOT_CHAIN chainPrefix ifname in
      match ipt_switch directionIn chain rule vars maySkipICMP with
      | SwError => ((-1)%Z, templates)
      | SwNoError => (0%Z, templates)
      | SwDone bufUsed srcMacSkipped hasICMPType s =>
          let buf := st_buf s in
          if (srcMacSkipped && (bufUsed =? String.length buf)%nat) || st_skipRule s
          then (0%Z, templates)
          else
            let '(target, skipMatch) :=
              match def_action rule with
              | VIR_NWFILTER_RULE_ACTION_ACCEPT => (accept_target, st_skipMatch s)
              | a => (virNWFilterJumpTargetTypeToString a, defMatch)
              end in
            let buf :=
              match match_ with
              | Some m => if negb skipMatch then buf +:+ " " +:+ m else buf
              | None => buf
              end in
            let buf :=
              if defMatch && bool_decide (match_ <> None) && negb skipMatch
                 && negb hasICMPType
              then iptablesEnforceDirection st directionIn rule buf
              else buf in
            let buf :=
              if (0 <? String.length (st_afterStateMatch s))%nat
              then buf +:+ st_afterStateMatch s
              else buf in
            let buf := buf +:+ " -j " +:+ target +:+ CMD_DEF_POST +:+ CMD_SEPARATOR
                           +:+ CMD_EXEC in
            let final :=
              if (0 <? String.length (st_prefix s))%nat
              then st_prefix s +:+ buf
              else buf in
            (0%Z, (templates ++ [final])%list)
      end
  end.

(** [printStateMatchFlags]: what it stores in [*bufptr], [NULL] ([None])
    when [virNWFilterPrintStateMatchFlags] adds nothing to the buffer. *)
Definition printStateMatchFlags (flags : Z) : option string :=
  virBufferContentAndReset
    (virNWFilterPrintStateMatchFlags "-m state --state " flags false).

(** What the three blocks of the two callers share: stop at the first
    failure. *)
Definition and_then (r : Z * list string) (k : list string -> Z * list string)
    : Z * list string :=
  if (fst r <? 0)%Z then r else k (snd r).

(** [iptablesCreateRuleInstanceStateCtrl].  [rc] is not initialised in the
    source; one of the first two blocks always assigns it. *)
Definition iptablesCreateRuleInstanceStateCtrl (st : driver_state)
    (rule : virNWFilterRuleDef) (ifname : string) (vars : virNWFilterVarCombIter)
    (isIPv6 : bool) (templates : list string) : Z * list string :=
  let directionIn :=
    match def_tt rule with
    | VIR_NWFILTER_RULE_DIRECTION_IN | VIR_NWFILTER_RULE_DIRECTION_INOUT => true
    | _ => false
    end in
  let inout :=
    match def_tt rule with
    | VIR_NWFILTER_RULE_DIRECTION_INOUT => true
    | _ => false
    end in
  let stateFlags := has_flag (def_flags rule) IPTABLES_STATE_FLAGS in
  (* first block *)
  let maySkipICMP := directionIn || inout in
  let create := negb (directionIn && negb inout && stateFlags) in
  let matchState := if create && stateFlags
                    then printStateMatchFlags (def_flags rule) else None in
  let r1 :=
    if create then
      _iptablesCreateRuleInstance st directionIn ("F"%char, CHAINPREFIX_HOST_IN_TEMP)
        rule ifname vars matchState false "RETURN" isIPv6 maySkipICMP templates
    else (0%Z, templates) in
  if create && (fst r1 <? 0)%Z then r1 else
  (* second block *)
  let maySkipICMP := negb directionIn || inout in
  let create := negb (negb directionIn && stateFlags) in
  let matchState := if create && stateFlags
                    then printStateMatchFlags (def_flags rule) else None in
  let r2 :=
    if create then
      _iptablesCreateRuleInstance st (negb directionIn) ("F"%char, CHAINPREFIX_HOST_OUT_TEMP)
        rule ifname vars matchState false "ACCEPT" isIPv6 maySkipICMP (snd r1)
    else r1 in
  if create && (fst r2 <? 0)%Z then r2 else
  (* third block *)
  let maySkipICMP := directionIn in
  let create := negb (directionIn && negb inout && stateFlags) in
  let matchState :=
    if directionIn && negb inout then None
    else if stateFlags then printStateMatchFlags (def_flags rule) else None in
  if create then
    _iptablesCreateRuleInstance st directionIn ("H"%char, CHAINPREFIX_HOST_IN_TEMP)
      rule ifname vars matchState false "RETURN" isIPv6 maySkipICMP (snd r2)
  else r2.

(** [iptablesCreateRuleInstance] *)
Definition iptablesCreateRuleInstance (st : driver_state)
    (rule : virNWFilterRuleDef) (ifname : string) (vars : virNWFilterVarCombIter)
    (isIPv6 : bool) (templates : list string) : Z * list string :=
  if negb (has_flag (def_flags rule) RULE_FLAG_NO_STATEMATCH)
     && has_flag (def_flags rule) IPTABLES_STATE_FLAGS
  then iptablesCreateRuleInstanceStateCtrl st rule ifname vars isIPv6 templates
  else
    let directionIn :=
      match def_tt rule with
      | VIR_NWFILTER_RULE_DIRECTION_IN | VIR_NWFILTER_RULE_DIRECTION_INOUT => true
      | _ => false
      end in
    let inout :=
      match def_tt rule with
      | VIR_NWFILTER_RULE_DIRECTION_INOUT => true
      | _ => false
      end in
    let needState := negb inout in
    let needState :=
      if has_flag (def_flags rule) RULE_FLAG_NO_STATEMATCH then false else needState in
    (* first leg *)
    let maySkipICMP := directionIn || inout in
    let matchState :=
      if needState
      then Some (if directionIn then MATCH_STATE_IN st else MATCH_STATE_OUT st)
      else None in
    and_then
      (_iptablesCreateRuleInstance st directionIn ("F"%char, CHAINPREFIX_HOST_IN_TEMP)
         rule ifname vars matchState true "RETURN" isIPv6 maySkipICMP templates)
      (fun templates =>
    (* second leg *)
    let maySkipICMP := negb directionIn || inout in
    let matchState :=
      if needState
      then Some (if directionIn then MATCH_STATE_OUT st else MATCH_STATE_IN st)
      else None in
    and_then
      (_iptablesCreateRuleInstance st (negb directionIn) ("F"%char, CHAINPREFIX_HOST_OUT_TEMP)
         rule ifname vars matchState true "ACCEPT" isIPv6 maySkipICMP templates)
      (fun templates =>
    (* third leg *)
    let maySkipICMP := directionIn in
    let matchState :=
      if needState
      then Some (if directionIn then MATCH_STATE_IN st else MATCH_STATE_OUT st)
      else None in
    _iptablesCreateRuleInstance st directionIn ("H"%char, CHAINPREFIX_HOST_IN_TEMP)
      rule ifname vars matchState true "RETURN" isIPv6 maySkipICMP templates)).

(** ** The specification's reading of a rule's matchers *)

Definition ipHdr_items (h : ipHdrDataDef) : list nwItemDesc :=
  [dataSrcIPAddr h; dataSrcIPMask h; dataDstIPAddr h; dataDstIPMask h;
   dataProtocolID h; dataSrcIPFrom h; dataSrcIPTo h; dataDstIPFrom h;
   dataDstIPTo h; dataDSCP h; dataConnlimitAbove h; dataComment h;
   dataIPSet h; dataIPSetFlags h].

Definition portData_items (p : portDataDef) : list nwItemDesc :=
  [dataSrcPortStart p; dataSrcPortEnd p; dataDstPortStart p; dataDstPortEnd p].

(** For a rule of an IP-layer protocol: its source MAC matcher and all its
    other matchers.  [None] for the other protocols. *)
Definition l3_matchers (rule : virNWFilterRuleDef)
    : option (nwItemDesc * list nwItemDesc) :=
  let p := def_p rule in
  match def_prtclType rule with
  | VIR_NWFILTER_RULE_PROTOCOL_TCP | VIR_NWFILTER_RULE_PROTOCOL_TCPoIPV6 =>
      let f := tcpHdrFilter p in
      Some (tcp_dataSrcMACAddr f,
            ipHdr_items (tcp_ipHdr f) ++ portData_items (tcp_portData f)
            ++ [tcp_dataTCPOption f; tcp_dataTCPFlags f])
  | VIR_NWFILTER_RULE_PROTOCOL_UDP | VIR_NWFILTER_RULE_PROTOCOL_UDPoIPV6 =>
      let f := udpHdrFilter p in
      Some (udp_dataSrcMACAddr f,
            ipHdr_items (udp_ipHdr f) ++ portData_items (udp_portData f))
  | VIR_NWFILTER_RULE_PROTOCOL_UDPLITE | VIR_NWFILTER_RULE_PROTOCOL_UDPLITEoIPV6 =>
      let f := udpliteHdrFilter p in
      Some (udplite_dataSrcMACAddr f, ipHdr_items (udplite_ipHdr f))
  | VIR_NWFILTER_RULE_PROTOCOL_ESP | VIR_NWFILTER_RULE_PROTOCOL_ESPoIPV6 =>
      let f := espHdrFilter p in
      Some (esp_dataSrcMACAddr f, ipHdr_items (esp_ipHdr f))
  | VIR_NWFILTER_RULE_PROTOCOL_AH | VIR_NWFILTER_RULE_PROTOCOL_AHoIPV6 =>
      let f := ahHdrFilter p in
      Some (ah_dataSrcMACAddr f, ipHdr_items (ah_ipHdr f))
  | VIR_NWFILTER_RULE_PROTOCOL_SCTP | VIR_NWFILTER_RULE_PROTOCOL_SCTPoIPV6 =>
      let f := sctpHdrFilter p in
      Some (sctp_dataSrcMACAddr f,
            ipHdr_items (sctp_ipHdr f) ++ portData_items (sctp_portData f))
  | VIR_NWFILTER_RULE_PROTOCOL_ICMP | VIR_NWFILTER_RULE_PROTOCOL_ICMPV6 =>
      let f := icmpHdrFilter p in
      Some (icmp_dataSrcMACAddr f,
            ipHdr_items (icmp_ipHdr f) ++ [icmp_dataICMPType f; icmp_dataICMPCode f])
  | VIR_NWFILTER_RULE_PROTOCOL_IGMP =>
      let f := igmpHdrFilter p in
      Some (igmp_dataSrcMACAddr f, ipHdr_items (igmp_ipHdr f))
  | VIR_NWFILTER_RULE_PROTOCOL_ALL | VIR_NWFILTER_RULE_PROTOCOL_ALLoIPV6 =>
      let f := allHdrFilter p in
      Some (all_dataSrcMACAddr f, ipHdr_items (all_ipHdr f))
  | _ => None
  end.

(** The literal after [-p] for an IP-layer protocol. *)
Definition l3_proto_name (proto : virNWFilterRuleProtocolType) : string :=
  match proto with
  | VIR_NWFILTER_RULE_PROTOCOL_TCP | VIR_NWFILTER_RULE_PROTOCOL_TCPoIPV6 => "tcp"
  | VIR_NWFILTER_RULE_PROTOCOL_UDP | VIR_NWFILTER_RULE_PROTOCOL_UDPoIPV6 => "udp"
  | VIR_NWFILTER_RULE_PROTOCOL_UDPLITE | VIR_NWFILTER_RULE_PROTOCOL_UDPLITEoIPV6 => "udplite"
  | VIR_NWFILTER_RULE_PROTOCOL_ESP | VIR_NWFILTER_RULE_PROTOCOL_ESPoIPV6 => "esp"
  | VIR_NWFILTER_RULE_PROTOCOL_AH | VIR_NWFILTER_RULE_PROTOCOL_AHoIPV6 => "ah"
  | VIR_NWFILTER_RULE_PROTOCOL_SCTP | VIR_NWFILTER_RULE_PROTOCOL_SCTPoIPV6 => "sctp"
  | VIR_NWFILTER_RULE_PROTOCOL_ICMP => "icmp"
  | VIR_NWFILTER_RULE_PROTOCOL_ICMPV6 => "icmpv6"
  | VIR_NWFILTER_RULE_PROTOCOL_IGMP => "igmp"
  | VIR_NWFILTER_RULE_PROTOCOL_ALL | VIR_NWFILTER_RULE_PROTOCOL_ALLoIPV6 => "all"
  | _ => ""
  end.

(** The IP header matchers of a rule of an IP-layer protocol. *)
Definition l3_ipHdr (rule : virNWFilterRuleDef) : option ipHdrDataDef :=
  let p := def_p rule in
  match def_prtclType rule with
  | VIR_NWFILTER_RULE_PROTOCOL_TCP | VIR_NWFILTER_RULE_PROTOCOL_TCPoIPV6 =>
      Some (tcp_ipHdr (tcpHdrFilter p))
  | VIR_NWFILTER_RULE_PROTOCOL_UDP | VIR_NWFILTER_RULE_PROTOCOL_UDPoIPV6 =>
      Some (udp_ipHdr (udpHdrFilter p))
  | VIR_NWFILTER_RULE_PROTOCOL_UDPLITE | VIR_NWFILTER_RULE_PROTOCOL_UDPLITEoIPV6 =>
      Some (udplite_ipHdr (udpliteHdrFilter p))
  | VIR_NWFILTER_RULE_PROTOCOL_ESP | VIR_NWFILTER_RULE_PROTOCOL_ESPoIPV6 =>
      Some (esp_ipHdr (espHdrFilter p))
  | VIR_NWFILTER_RULE_PROTOCOL_AH | VIR_NWFILTER_RULE_PROTOCOL_AHoIPV6 =>
      Some (ah_ipHdr (ahHdrFilter p))
  | VIR_NWFILTER_RULE_PROTOCOL_SCTP | VIR_NWFILTER_RULE_PROTOCOL_SCTPoIPV6 =>
      Some (sctp_ipHdr (sctpHdrFilter p))
  | VIR_NWFILTER_RULE_PROTOCOL_ICMP | VIR_NWFILTER_RULE_PROTOCOL_ICMPV6 =>
      Some (icmp_ipHdr (icmpHdrFilter p))
  | VIR_NWFILTER_RULE_PROTOCOL_IGMP => Some (igmp_ipHdr (igmpHdrFilter p))
  | VIR_NWFILTER_RULE_PROTOCOL_ALL | VIR_NWFILTER_RULE_PROTOCOL_ALLoIPV6 =>
      Some (all_ipHdr (allHdrFilter p))
  | _ => None
  end.

(** [r] is [buf] with text added at its end. *)
Definition extends_buf (buf r : string) : Prop := exists x, r = buf +:+ x.

(** The text of a command template: the definition of [cmd] and the line
    that executes it. *)
Definition template_of (cmd : string) : string :=
  CMD_DEF_PRE +:+ cmd +:+ CMD_DEF_POST +:+ CMD_SEPARATOR +:+ CMD_EXEC.

(** ** ebtables support: one rule, one direction *)

(** One side of [ebtablesHandleEthHdr] *)
Definition ebtablesHandleEthHdr_side (buf : string) (vars : virNWFilterVarCombIter)
    (addr mask : nwItemDesc) (opt : string) : option string :=
  if HAS_ENTRY_ITEM addr then
    macaddr ← printDataType vars VIR_MAC_STRING_BUFLEN addr;
    let buf := buf +:+ fmt_3s opt (ENTRY_GET_NEG_SIGN addr) macaddr in
    if HAS_ENTRY_ITEM mask then
      macaddr ← printDataType vars VIR_MAC_STRING_BUFLEN mask;
      Some (buf +:+ "/" +:+ macaddr)
    else Some buf
  else Some buf.

(** [ebtablesHandleEthHdr]; [None] is [-1]. *)
Definition ebtablesHandleEthHdr (buf : string) (vars : virNWFilterVarCombIter)
    (ethHdr : ethHdrDataDef) (reverse : bool) : option string :=
  buf ← ebtablesHandleEthHdr_side buf vars
          (dataSrcMACAddr ethHdr) (dataSrcMACMask ethHdr)
          (if reverse then "-d" else "-s");
  ebtablesHandleEthHdr_side buf vars
    (dataDstMACAddr ethHdr) (dataDstMACMask ethHdr)
    (if reverse then "-s" else "-d").

(** [sizeof(field)] in [ebtablesCreateRuleInstance] *)
Definition sizeof_field : nat := Nat.max VIR_MAC_STRING_BUFLEN INET6_ADDRSTRLEN.

(** The macro [INST_ITEM(STRUCT, ITEM, CLI)] *)
Definition INST_ITEM (buf : string) (vars : virNWFilterVarCombIter)
    (item : nwItemDesc) (CLI : string) : option string :=
  if HAS_ENTRY_ITEM item then
    field ← printDataType vars sizeof_field item;
    Some (buf +:+ " " +:+ CLI +:+ " " +:+ ENTRY_GET_NEG_SIGN item +:+ " " +:+ field)
  else Some buf.

(** The macro [INST_ITEM_2PARMS(STRUCT, ITEM, ITEM_HI, CLI, SEP)] *)
Definition INST_ITEM_2PARMS (buf : string) (vars : virNWFilterVarCombIter)
    (item item_hi : nwItemDesc) (CLI SEP : string) : option string :=
  if HAS_ENTRY_ITEM item then
    field ← printDataType vars sizeof_field item;
    let buf := buf +:+ " " +:+ CLI +:+ " " +:+ ENTRY_GET_NEG_SIGN item +:+ " " +:+ field in
    if HAS_ENTRY_ITEM item_hi then
      field ← printDataType vars sizeof_field item_hi;
      Some (buf +:+ SEP +:+ field)
    else Some buf
  else Some buf.

Definition INST_ITEM_RANGE (buf : string) (vars : virNWFilterVarCombIter)
    (I I_HI : nwItemDesc) (C : string) : option string :=
  INST_ITEM_2PARMS buf vars I I_HI C ":".

Definition INST_ITEM_MASK (buf : string) (vars : virNWFilterVarCombIter)
    (I MASK : nwItemDesc) (C : string) : option string :=
  INST_ITEM_2PARMS buf vars I MASK C "/".

(** An address with an optional mask and a port with an optional end, as
    the [IP] and [IPV6] cases write them: [" %s %s %s"] then ["/%s"] or
    [":%s"]. *)
Definition ebt_item_with (buf : string) (vars : virNWFilterVarCombIter)
    (item item2 : nwItemDesc) (size : nat) (opt sep : string) : option string :=
  if HAS_ENTRY_ITEM item then
    text ← printDataType vars size item;
    let buf := buf +:+ fmt_3s opt (ENTRY_GET_NEG_SIGN item) text in
    if HAS_ENTRY_ITEM item2 then
      number ← printDataType vars INT_BUFSIZE_BOUND_MAX item2;
      Some (buf +:+ sep +:+ number)
    else Some buf
  else Some buf.

(** One of the two IP address blocks of the [ARP]/[RARP] case; [hasMask] and
    [ipmask] are the function's variables of these names, which the second
    block inherits from the first. *)
Definition ebt_arp_ip (buf : string) (vars : virNWFilterVarCombIter)
    (addr mask : nwItemDesc) (opt : string) (hasMask : bool) (ipmask : string)
    : option (string * bool * string) :=
  if HAS_ENTRY_ITEM addr then
    ipaddr ← printDataType vars INET_ADDRSTRLEN addr;
    hm ← (if HAS_ENTRY_ITEM mask then
            m ← printDataType vars INET_ADDRSTRLEN mask; Some (true, m)
          else Some (hasMask, ipmask));
    let hasMask : bool := fst hm in
    let ipmask : string := snd hm in
    Some (buf +:+ " " +:+ opt +:+ " " +:+ ENTRY_GET_NEG_SIGN addr +:+ " " +:+ ipaddr
              +:+ "/" +:+ (if hasMask then ipmask else "32"),
          hasMask, ipmask)
  else Some (buf, hasMask, ipmask).

(** The [switch] over the protocol in [ebtablesCreateRuleInstance]: the
    buffer after it, or [None] for the [return -1] of the [default] and
    [STP] branches and for [err_exit].  The array [ipmask] is read only
    after [hasMask] was set, so what it holds at first does not matter. *)
Definition ebt_switch (chain : string) (rule : virNWFilterRuleDef)
    (vars : virNWFilterVarCombIter) (reverse : bool) : option string :=
  let p := def_p rule in
  let buf0 := CMD_DEF_PRE +:+ "$EBT -t nat -A " +:+ chain in
  match def_prtclType rule with
  | VIR_NWFILTER_RULE_PROTOCOL_MAC =>
      let f := ethHdrFilter p in
      buf ← ebtablesHandleEthHdr buf0 vars (eth_ethHdr f) reverse;
      if HAS_ENTRY_ITEM (eth_dataProtocolID f) then
        number ← printDataTypeAsHex vars INT_BUFSIZE_BOUND_MAX (eth_dataProtocolID f);
        Some (buf +:+ " -p " +:+ ENTRY_GET_NEG_SIGN (eth_dataProtocolID f)
                  +:+ " " +:+ number)
      else Some buf
  | VIR_NWFILTER_RULE_PROTOCOL_VLAN =>
      let f := vlanHdrFilter p in
      buf ← ebtablesHandleEthHdr buf0 vars (vlan_ethHdr f) reverse;
      let buf := buf +:+ " -p 0x8100" in
      buf ← INST_ITEM buf vars (vlan_dataVlanID f) "--vlan-id";
      INST_ITEM buf vars (vlan_dataVlanEncap f) "--vlan-encap"
  | VIR_NWFILTER_RULE_PROTOCOL_STP =>
      let f := stpHdrFilter p in
      if reverse && HAS_ENTRY_ITEM (dataSrcMACAddr (stp_ethHdr f)) then None
      else
        buf ← ebtablesHandleEthHdr buf0 vars (stp_ethHdr f) reverse;
        let buf := buf +:+ " -d " +:+ NWFILTER_MAC_BGA in
        buf ← INST_ITEM buf vars (stp_dataType f) "--stp-type";
        buf ← INST_ITEM buf vars (stp_dataFlags f) "--stp-flags";
        buf ← INST_ITEM_RANGE buf vars (stp_dataRootPri f) (stp_dataRootPriHi f)
                "--stp-root-pri";
        buf ← INST_ITEM_MASK buf vars (stp_dataRootAddr f) (stp_dataRootAddrMask f)
                "--stp-root-addr";
        buf ← INST_ITEM_RANGE buf vars (stp_dataRootCost f) (stp_dataRootCostHi f)
                "--stp-root-cost";
        buf ← INST_ITEM_RANGE buf vars (stp_dataSndrPrio f) (stp_dataSndrPrioHi f)
                "--stp-sender-prio";
        buf ← INST_ITEM_MASK buf vars (stp_dataSndrAddr f) (stp_dataSndrAddrMask f)
                "--stp-sender-addr";
        buf ← INST_ITEM_RANGE buf vars (stp_dataPort f) (stp_dataPortHi f) "--stp-port";
        buf ← INST_ITEM_RANGE buf vars (stp_dataAge f) (stp_dataAgeHi f) "--stp-msg-age";
        buf ← INST_ITEM_RANGE buf vars (stp_dataMaxAge f) (stp_dataMaxAgeHi f)
                "--stp-max-age";
        buf ← INST_ITEM_RANGE buf vars (stp_dataHelloTime f) (stp_dataHelloTimeHi f)
                "--stp-hello-time";
        INST_ITEM_RANGE buf vars (stp_dataFwdDelay f) (stp_dataFwdDelayHi f)
          "--stp-forward-delay"
  | VIR_NWFILTER_RULE_PROTOCOL_ARP | VIR_NWFILTER_RULE_PROTOCOL_RARP =>
      let f := arpHdrFilter p in
      let isARP :=
        match def_prtclType rule with
        | VIR_NWFILTER_RULE_PROTOCOL_ARP => true
        | _ => false
        end in
      buf ← ebtablesHandleEthHdr buf0 vars (arp_ethHdr f) reverse;
      let buf := buf +:+ " -p 0x"
                     +:+ fmt_x (if isARP then ETHERTYPE_ARP else ETHERTYPE_REVARP) in
      buf ← (if HAS_ENTRY_ITEM (arp_dataHWType f) then
               number ← printDataType vars INT_BUFSIZE_BOUND_MAX (arp_dataHWType f);
               Some (buf +:+ " --arp-htype " +:+ ENTRY_GET_NEG_SIGN (arp_dataHWType f)
                         +:+ " " +:+ number)
             else Some buf);
      buf ← (if HAS_ENTRY_ITEM (arp_dataOpcode f) then
               number ← printDataType vars INT_BUFSIZE_BOUND_MAX (arp_dataOpcode f);
               Some (buf +:+ " --arp-opcode " +:+ ENTRY_GET_NEG_SIGN (arp_dataOpcode f)
                         +:+ " " +:+ number)
             else Some buf);
      buf ← (if HAS_ENTRY_ITEM (arp_dataProtocolType f) then
               number ← printDataTypeAsHex vars INT_BUFSIZE_BOUND_MAX
                          (arp_dataProtocolType f);
               Some (buf +:+ " --arp-ptype "
                         +:+ ENTRY_GET_NEG_SIGN (arp_dataProtocolType f)
                         +:+ " " +:+ number)
             else Some buf);
      '(buf, hasMask, ipmask) ←
        ebt_arp_ip buf vars (arp_dataARPSrcIPAddr f) (arp_dataARPSrcIPMask f)
          (if reverse then "--arp-ip-dst" else "--arp-ip-src") false "";
      '(buf, hasMask, ipmask) ←
        ebt_arp_ip buf vars (arp_dataARPDstIPAddr f) (arp_dataARPDstIPMask f)
          (if reverse then "--arp-ip-src" else "--arp-ip-dst") hasMask ipmask;
      buf ← (if HAS_ENTRY_ITEM (arp_dataARPSrcMACAddr f) then
               macaddr ← printDataType vars VIR_MAC_STRING_BUFLEN (arp_dataARPSrcMACAddr f);
               Some (buf +:+ fmt_3s (if reverse then "--arp-mac-dst" else "--arp-mac-src")
                                    (ENTRY_GET_NEG_SIGN (arp_dataARPSrcMACAddr f)) macaddr)
             else Some buf);
      buf ← (if HAS_ENTRY_ITEM (arp_dataARPDstMACAddr f) then
               macaddr ← printDataType vars VIR_MAC_STRING_BUFLEN (arp_dataARPDstMACAddr f);
               Some (buf +:+ fmt_3s (if reverse then "--arp-mac-src" else "--arp-mac-dst")
                                    (ENTRY_GET_NEG_SIGN (arp_dataARPDstMACAddr f)) macaddr)
             else Some buf);
      if HAS_ENTRY_ITEM (arp_dataGratuitousARP f) && u_boolean (arp_dataGratuitousARP f)
      then Some (buf +:+ " " +:+ ENTRY_GET_NEG_SIGN (arp_dataGratuitousARP f)
                     +:+ " --arp-gratuitous")
      else Some buf
  | VIR_NWFILTER_RULE_PROTOCOL_IP =>
      let f := ipHdrFilter p in
      buf ← ebtablesHandleEthHdr buf0 vars (ip_ethHdr f) reverse;
      let buf := buf +:+ " -p ipv4" in
      buf ← ebt_item_with buf vars (dataSrcIPAddr (ip_ipHdr f)) (dataSrcIPMask (ip_ipHdr f))
              INET_ADDRSTRLEN (if reverse then "--ip-destination" else "--ip-source") "/";
      buf ← ebt_item_with buf vars (dataDstIPAddr (ip_ipHdr f)) (dataDstIPMask (ip_ipHdr f))
              INET_ADDRSTRLEN (if reverse then "--ip-source" else "--ip-destination") "/";
      buf ← (if HAS_ENTRY_ITEM (dataProtocolID (ip_ipHdr f)) then
               number ← printDataType vars INT_BUFSIZE_BOUND_MAX (dataProtocolID (ip_ipHdr f));
               Some (buf +:+ " --ip-protocol "
                         +:+ ENTRY_GET_NEG_SIGN (dataProtocolID (ip_ipHdr f))
                         +:+ " " +:+ number)
             else Some buf);
      buf ← ebt_item_with buf vars
              (dataSrcPortStart (ip_portData f)) (dataSrcPortEnd (ip_portData f))
              INT_BUFSIZE_BOUND_MAX
              (if reverse then "--ip-destination-port" else "--ip-source-port") ":";
      buf ← ebt_item_with buf vars
              (dataDstPortStart (ip_portData f)) (dataDstPortEnd (ip_portData f))
              INT_BUFSIZE_BOUND_MAX
              (if reverse then "--ip-source-port" else "--ip-destination-port") ":";
      if HAS_ENTRY_ITEM (dataDSCP (ip_ipHdr f)) then
        number ← printDataTypeAsHex vars INT_BUFSIZE_BOUND_MAX (dataDSCP (ip_ipHdr f));
        Some (buf +:+ " --ip-tos " +:+ ENTRY_GET_NEG_SIGN (dataDSCP (ip_ipHdr f))
                  +:+ " " +:+ number)
      else Some buf
  | VIR_NWFILTER_RULE_PROTOCOL_IPV6 =>
      let f := ipv6HdrFilter p in
      buf ← ebtablesHandleEthHdr buf0 vars (ipv6_ethHdr f) reverse;
      let buf := buf +:+ " -p ipv6" in
      buf ← ebt_item_with buf vars
              (dataSrcIPAddr (ipv6_ipHdr f)) (dataSrcIPMask (ipv6_ipHdr f))
              INET6_ADDRSTRLEN (if reverse then "--ip6-destination" else "--ip6-source") "/";
      buf ← ebt_item_with buf vars
              (dataDstIPAddr (ipv6_ipHdr f)) (dataDstIPMask (ipv6_ipHdr f))
              INET6_ADDRSTRLEN (if reverse then "--ip6-source" else "--ip6-destination") "/";
      buf ← (if HAS_ENTRY_ITEM (dataProtocolID (ipv6_ipHdr f)) then
               number ← printDataType vars INT_BUFSIZE_BOUND_MAX
                          (dataProtocolID (ipv6_ipHdr f));
               Some (buf +:+ " --ip6-protocol "
                         +:+ ENTRY_GET_NEG_SIGN (dataProtocolID (ipv6_ipHdr f))
                         +:+ " " +:+ number)
             else Some buf);
      buf ← ebt_item_with buf vars
              (dataSrcPortStart (ipv6_portData f)) (dataSrcPortEnd (ipv6_portData f))
              INT_BUFSIZE_BOUND_MAX
              (if reverse then "--ip6-destination-port" else "--ip6-source-port") ":";
      ebt_item_with buf vars
        (dataDstPortStart (ipv6_portData f)) (dataDstPortEnd (ipv6_portData f))
        INT_BUFSIZE_BOUND_MAX
        (if reverse then "--ip6-source-port" else "--ip6-destination-port") ":"
  | VIR_NWFILTER_RULE_PROTOCOL_NONE => Some buf0
  | _ => None
  end.

(** The [switch] over the action at the end of
    [ebtablesCreateRuleInstance]. *)
Definition ebtables_target (action : virNWFilterRuleActionType) : string :=
  match action with
  | VIR_NWFILTER_RULE_ACTION_REJECT =>
      virNWFilterJumpTargetTypeToString VIR_NWFILTER_RULE_ACTION_DROP
  | a => virNWFilterJumpTargetTypeToString a
  end.

(** [ebtablesCreateRuleInstance]: [*template], or [None] for [-1]. *)
Definition ebtablesCreateRuleInstance (st : driver_state) (chainPrefix : ascii)
    (chainSuffix : string) (rule : virNWFilterRuleDef) (ifname : string)
    (vars : virNWFilterVarCombIter) (reverse : bool) : option string :=
  match ebtables_cmd_path st with
  | None => None
  | Some _ =>
      let chain :=
        if STREQ chainSuffix virNWFilterChainSuffixTypeToString_ROOT
        then PRINT_ROOT_CHAIN chainPrefix ifname
        else PRINT_CHAIN chainPrefix ifname chainSuffix in
      buf ← ebt_switch chain rule vars reverse;
      let target := ebtables_target (def_action rule) in
      Some (buf +:+ " -j " +:+ target +:+ CMD_DEF_POST +:+ CMD_SEPARATOR +:+ CMD_EXEC)
  end.

(** [ebiptablesCreateRuleInstance]: the return value with [*templates]. *)
Definition ebiptablesCreateRuleInstance (st : driver_state) (chainSuffix : string)
    (rule : virNWFilterRuleDef) (ifname : string) (vars : virNWFilterVarCombIter)
    : Z * list string :=
  let templates : list string := [] in
  if virNWFilterRuleIsProtocolEthernet (def_prtclType rule) then
    let r1 :=
      match def_tt rule with
      | VIR_NWFILTER_RULE_DIRECTION_OUT | VIR_NWFILTER_RULE_DIRECTION_INOUT =>
          let reverse :=
            match def_tt rule with
            | VIR_NWFILTER_RULE_DIRECTION_INOUT => true
            | _ => false
            end in
          match ebtablesCreateRuleInstance st CHAINPREFIX_HOST_IN_TEMP chainSuffix
                  rule ifname vars reverse with
          | None => None
          | Some template => Some (templates ++ [template])%list
          end
      | _ => Some templates
      end in
    match r1 with
    | None => ((-1)%Z, [])
    | Some templates =>
        match def_tt rule with
        | VIR_NWFILTER_RULE_DIRECTION_IN | VIR_NWFILTER_RULE_DIRECTION_INOUT =>
            match ebtablesCreateRuleInstance st CHAINPREFIX_HOST_OUT_TEMP chainSuffix
                    rule ifname vars false with
            | None => ((-1)%Z, [])
            | Some template => (0%Z, (templates ++ [template])%list)
            end
        | _ => (0%Z, templates)
        end
    end
  else
    let isIPv6 :=
      if virNWFilterRuleIsProtocolIPv6 (def_prtclType rule) then Some true
      else if virNWFilterRuleIsProtocolIPv4 (def_prtclType rule) then Some false
      else None in
    match isIPv6 with
    | None => ((-1)%Z, [])
    | Some isIPv6 =>
        let r := iptablesCreateRuleInstance st rule ifname vars isIPv6 templates in
        if (fst r <? 0)%Z then ((-1)%Z, []) else (0%Z, snd r)
    end.

(** ** Commands of the table tools

    The driver writes the commands as text (into a shell script) or as
    argument vectors (into a [virFirewall] transaction).  The embedding keeps
    each command as what it does to which chain; [fwcmd_args] gives the
    argument vector and [render_shcmd] the text the driver writes. *)

Inductive fwcmd :=
| FwNewChain (chain : string)                       (* -N chain *)
| FwFlush (chain : string)                          (* -F chain *)
| FwDeleteChain (chain : string)                    (* -X chain *)
| FwRename (old new : string)                       (* -E old new *)
| FwList (chain : string)                           (* -L chain *)
| FwAppendJump (chain : string) (matches : list string) (jump target : string)
                                                    (* -A chain matches -j target *)
| FwDeleteJump (chain : string) (matches : list string) (jump target : string).
                                                    (* -D chain matches -j target *)

Definition fwcmd_args (c : fwcmd) : list string :=
  match c with
  | FwNewChain chain => ["-N"; chain]
  | FwFlush chain => ["-F"; chain]
  | FwDeleteChain chain => ["-X"; chain]
  | FwRename old new => ["-E"; old; new]
  | FwList chain => ["-L"; chain]
  | FwAppendJump chain matches jump target => ["-A"; chain] ++ matches ++ [jump; target]
  | FwDeleteJump chain matches jump target => ["-D"; chain] ++ matches ++ [jump; target]
  end%list.

(** The shell variable a script runs a command through. *)
Inductive tool := EBT | IPT.

(** [$EBT -t nat ...] and [$IPT ...] *)
Definition tool_cmdline (t : tool) (c : fwcmd) : string :=
  match t with
  | EBT => "$EBT -t nat " +:+ join_words (fwcmd_args c)
  | IPT => "$IPT " +:+ join_words (fwcmd_args c)
  end.

(** The pieces the scripts are made of. *)
Inductive shcmd :=
(** [NWFILTER_SET_EBTABLES_SHELLVAR] and its two siblings *)
| ShSetVar (name : string) (path : option string)
(** a command on a line of its own, its status not looked at *)
| ShPlain (t : tool) (c : fwcmd)
(** [CMD_DEF(...) CMD_SEPARATOR CMD_EXEC], followed by
    [CMD_STOPONERR(true)] when [stop] is set *)
| ShEval (stop : bool) (t : tool) (c : fwcmd)
(** what [_ebtablesRemoveSubChains] writes after the shell variable *)
| ShRemoveSubChains (chains : list ascii) (ifname : string)
(** what [iptablesLinkIPTablesBaseChain] writes *)
| ShLinkIPTablesBaseChain (grep : option string) (udchain syschain : string) (pos : Z)
(** what [iptablesSetupVirtInPost] writes *)
| ShSetupVirtInPost (ifname : string).

Definition nl : string := CMD_SEPARATOR.
Definition tab : string := String "009" "".

Fixpoint string_of_chars (cs : list ascii) : string :=
  match cs with
  | [] => ""
  | c :: rest => String c (string_of_chars rest)
  end.

(** [ebtables_script_func_collect_chains] with its [%s] filled in *)
Definition ebtables_script_func_collect_chains (chains : string) : string :=
  "collect_chains()" +:+ nl +:+
  "{" +:+ nl +:+
  "  for tmp2 in $*; do" +:+ nl +:+
  "    for tmp in $($EBT -t nat -L $tmp2 | \" +:+ nl +:+
  "      sed -n " +:+ dquote +:+ "/Bridge chain/,\$ s/.*-j \\([" +:+ chains
     +:+ "]-.*\\)/\\1/p" +:+ dquote +:+ ");" +:+ nl +:+
  "    do" +:+ nl +:+
  "      echo $tmp" +:+ nl +:+
  "      collect_chains $tmp" +:+ nl +:+
  "    done" +:+ nl +:+
  "  done" +:+ nl +:+
  "}" +:+ nl.

Definition ebiptables_script_func_rm_chains : string :=
  "rm_chains()" +:+ nl +:+
  "{" +:+ nl +:+
  "  for tmp in $*; do $EBT -t nat -F $tmp; done" +:+ nl +:+
  "  for tmp in $*; do $EBT -t nat -X $tmp; done" +:+ nl +:+
  "}" +:+ nl.

Definition ebiptables_script_set_ifs : string :=
  "tmp='" +:+ nl +:+ "'" +:+ nl +:+
  "IFS=' ''" +:+ tab +:+ "'$tmp" +:+ nl.

(** The two loops of [_ebtablesRemoveSubChains] over [chains]. *)
Fixpoint collect_roots (chains : list ascii) (ifname : string) : string :=
  match chains with
  | [] => ""
  | c :: rest => " " +:+ PRINT_ROOT_CHAIN c ifname +:+ collect_roots rest ifname
  end.

Fixpoint flush_roots (chains : list ascii) (ifname : string) : string :=
  match chains with
  | [] => ""
  | c :: rest =>
      "$EBT -t nat -F " +:+ PRINT_ROOT_CHAIN c ifname +:+ nl +:+ flush_roots rest ifname
  end.

Definition render_shcmd (c : shcmd) : string :=
  match c with
  | ShSetVar name path =>
      name +:+ "=" +:+ dquote +:+ fmt_s_opt path +:+ dquote +:+ nl
  | ShPlain t c => tool_cmdline t c +:+ CMD_SEPARATOR
  | ShEval stop t c =>
      CMD_DEF (tool_cmdline t c) +:+ CMD_SEPARATOR +:+ CMD_EXEC +:+ CMD_STOPONERR stop
  | ShRemoveSubChains chains ifname =>
      ebtables_script_func_collect_chains (string_of_chars chains)
      +:+ ebiptables_script_func_rm_chains
      +:+ ebiptables_script_set_ifs
      +:+ "chains=" +:+ dquote +:+ "$(collect_chains" +:+ collect_roots chains ifname
      +:+ ")" +:+ dquote +:+ nl
      +:+ flush_roots chains ifname
      +:+ "rm_chains $chains" +:+ nl
  | ShLinkIPTablesBaseChain grep udchain syschain pos =>
      "res=$($IPT -L " +:+ syschain +:+ " -n --line-number | " +:+ fmt_s_opt grep
        +:+ " '" +:+ udchain +:+ "')" +:+ nl +:+
      "if [ $? -ne 0 ]; then" +:+ nl +:+
      "  $IPT -I " +:+ syschain +:+ " " +:+ fmt_d pos +:+ " -j " +:+ udchain +:+ nl +:+
      "else" +:+ nl +:+
      "  set dummy $res; r=$2" +:+ nl +:+
      "  if [ " +:+ dquote +:+ "${r}" +:+ dquote +:+ " != " +:+ dquote +:+ fmt_d pos
        +:+ dquote +:+ " ]; then" +:+ nl +:+
      "    " +:+ CMD_DEF ("$IPT -I " +:+ syschain +:+ " " +:+ fmt_d pos +:+ " -j " +:+ udchain)
        +:+ CMD_SEPARATOR +:+
      "    " +:+ CMD_EXEC +:+
      "    " +:+ CMD_STOPONERR true +:+
      "    r=$(( $r + 1 ))" +:+ nl +:+
      "    " +:+ CMD_DEF ("$IPT -D " +:+ syschain +:+ " ${r}") +:+ CMD_SEPARATOR +:+
      "    " +:+ CMD_EXEC +:+
      "    " +:+ CMD_STOPONERR true +:+
      "  fi" +:+ nl +:+
      "fi" +:+ nl
  | ShSetupVirtInPost ifname =>
      "res=$($IPT -n -L " +:+ VIRT_IN_POST_CHAIN +:+ " | grep " +:+ dquote +:+ "\"
        +:+ PHYSDEV_IN +:+ " " +:+ ifname +:+ dquote +:+ ")" +:+ nl +:+
      "if [ " +:+ dquote +:+ "${res}" +:+ dquote +:+ " = " +:+ dquote +:+ dquote
        +:+ " ]; then " +:+
      CMD_DEF ("$IPT" +:+ " -A " +:+ VIRT_IN_POST_CHAIN +:+ " " +:+ MATCH_PHYSDEV_IN
               +:+ " " +:+ ifname +:+ " -j ACCEPT") +:+ CMD_SEPARATOR +:+
      CMD_EXEC +:+
      CMD_STOPONERR true +:+
      "fi" +:+ nl
  end.

Fixpoint render_cmds (cs : list shcmd) : string :=
  match cs with
  | [] => ""
  | c :: rest => render_shcmd c +:+ render_cmds rest
  end.

(** What a script buffer holds: commands written directly, and command
    templates appended by [ebiptablesInstCommand] or [iptablesInstCommand],
    which are either the commands that create and link a sub-chain or the
    text the rule compiler returned for a rule. *)
Inductive shitem :=
| ShCmd (c : shcmd)
| ShInstChain (commandTemplate : list shcmd)
| ShInstRule (cmdstr : string).

Definition render_shitem (i : shitem) : string :=
  match i with
  | ShCmd c => render_shcmd c
  | ShInstChain t => render_cmds t +:+ CMD_SEPARATOR +:+ CMD_STOPONERR true
  | ShInstRule s => s +:+ CMD_SEPARATOR +:+ CMD_STOPONERR true
  end.

(** The text of a buffer. *)
Fixpoint render_script (buf : list shitem) : string :=
  match buf with
  | [] => ""
  | i :: rest => render_shitem i +:+ render_script rest
  end.

Definition NWFILTER_SET_EBTABLES_SHELLVAR (st : driver_state) : list shitem :=
  [ShCmd (ShSetVar "EBT" (ebtables_cmd_path st))].
Definition NWFILTER_SET_IPTABLES_SHELLVAR (st : driver_state) : list shitem :=
  [ShCmd (ShSetVar "IPT" (iptables_cmd_path st))].
Definition NWFILTER_SET_IP6TABLES_SHELLVAR (st : driver_state) : list shitem :=
  [ShCmd (ShSetVar "IPT" (ip6tables_cmd_path st))].

(** [ebiptablesInstCommand] and [iptablesInstCommand] of a rule's template *)
Definition ebiptablesInstCommand (cmdstr : string) : list shitem := [ShInstRule cmdstr].
Definition iptablesInstCommand (cmdstr : string) : list shitem := [ShInstRule cmdstr].

(** ** Chain topology: what the functions add to a script buffer *)

Definition tmp_or_active (isTempChain incoming : bool) : ascii :=
  if isTempChain
  then (if incoming then CHAINPREFIX_HOST_IN_TEMP else CHAINPREFIX_HOST_OUT_TEMP)
  else (if incoming then CHAINPREFIX_HOST_IN else CHAINPREFIX_HOST_OUT).

(** *** iptables *)

Definition iptablesLinkIPTablesBaseChain (st : driver_state)
    (udchain syschain : string) (pos : Z) : list shitem :=
  [ShCmd (ShLinkIPTablesBaseChain (grep_cmd_path st) udchain syschain pos)].

Definition iptablesCreateBaseChains (st : driver_state) : list shitem :=
  [ShCmd (ShPlain IPT (FwNewChain VIRT_IN_CHAIN));
   ShCmd (ShPlain IPT (FwNewChain VIRT_OUT_CHAIN));
   ShCmd (ShPlain IPT (FwNewChain VIRT_IN_POST_CHAIN));
   ShCmd (ShPlain IPT (FwNewChain HOST_IN_CHAIN))]
  ++ iptablesLinkIPTablesBaseChain st VIRT_IN_CHAIN "FORWARD" 1
  ++ iptablesLinkIPTablesBaseChain st VIRT_OUT_CHAIN "FORWARD" 2
  ++ iptablesLinkIPTablesBaseChain st VIRT_IN_POST_CHAIN "FORWARD" 3
  ++ iptablesLinkIPTablesBaseChain st HOST_IN_CHAIN "INPUT" 1.

Definition iptablesCreateTmpRootChain (prefix : ascii) (incoming : bool)
    (ifname : string) : list shitem :=
  let chainPrefix := (prefix, tmp_or_active true incoming) in
  let chain := PRINT_IPT_ROOT_CHAIN chainPrefix ifname in
  [ShCmd (ShEval true IPT (FwNewChain chain))].

Definition iptablesCreateTmpRootChains (ifname : string) : list shitem :=
  iptablesCreateTmpRootChain "F" false ifname
  ++ iptablesCreateTmpRootChain "F" true ifname
  ++ iptablesCreateTmpRootChain "H" true ifname.

Definition _iptablesRemoveRootChain (prefix : ascii) (incoming : bool)
    (ifname : string) (isTempChain : bool) : list shitem :=
  let chainPrefix := (prefix, tmp_or_active isTempChain incoming) in
  let chain := PRINT_IPT_ROOT_CHAIN chainPrefix ifname in
  [ShCmd (ShPlain IPT (FwFlush chain)); ShCmd (ShPlain IPT (FwDeleteChain chain))].

Definition iptablesRemoveTmpRootChain (prefix : ascii) (incoming : bool)
    (ifname : string) : list shitem :=
  _iptablesRemoveRootChain prefix incoming ifname true.

Definition iptablesRemoveTmpRootChains (ifname : string) : list shitem :=
  iptablesRemoveTmpRootChain "F" false ifname
  ++ iptablesRemoveTmpRootChain "F" true ifname
  ++ iptablesRemoveTmpRootChain "H" true ifname.

Definition iptablesLinkTmpRootChain (basechain : string) (prefix : ascii)
    (incoming : bool) (ifname : string) : list shitem :=
  let chainPrefix := (prefix, tmp_or_active true incoming) in
  let match_ := if incoming then MATCH_PHYSDEV_IN_FW else MATCH_PHYSDEV_OUT_FW in
  let chain := PRINT_IPT_ROOT_CHAIN chainPrefix ifname in
  [ShCmd (ShEval true IPT (FwAppendJump basechain (match_ ++ [ifname]) "-g" chain))].

Definition iptablesLinkTmpRootChains (ifname : string) : list shitem :=
  iptablesLinkTmpRootChain VIRT_OUT_CHAIN "F" false ifname
  ++ iptablesLinkTmpRootChain VIRT_IN_CHAIN "F" true ifname
  ++ iptablesLinkTmpRootChain HOST_IN_CHAIN "H" true ifname.

Definition iptablesSetupVirtInPost (ifname : string) : list shitem :=
  [ShCmd (ShSetupVirtInPost ifname)].

Definition _iptablesUnlinkRootChain (basechain : string) (prefix : ascii)
    (incoming : bool) (ifname : string) (isTempChain : bool) : list shitem :=
  let chainPrefix := (prefix, tmp_or_active isTempChain incoming) in
  let match_ := if incoming then MATCH_PHYSDEV_IN_FW else MATCH_PHYSDEV_OUT_FW in
  let chain := PRINT_IPT_ROOT_CHAIN chainPrefix ifname in
  [ShCmd (ShPlain IPT (FwDeleteJump basechain (match_ ++ [ifname]) "-g" chain))]
  ++ (if incoming then []
      else [ShCmd (ShPlain IPT (FwDeleteJump basechain
                                  (MATCH_PHYSDEV_OUT_OLD_FW ++ [ifname]) "-g" chain))]).

Definition iptablesUnlinkTmpRootChain (basechain : string) (prefix : ascii)
    (incoming : bool) (ifname : string) : list shitem :=
  _iptablesUnlinkRootChain basechain prefix incoming ifname true.

Definition iptablesUnlinkTmpRootChains (ifname : string) : list shitem :=
  iptablesUnlinkTmpRootChain VIRT_OUT_CHAIN "F" false ifname
  ++ iptablesUnlinkTmpRootChain VIRT_IN_CHAIN "F" true ifname
  ++ iptablesUnlinkTmpRootChain HOST_IN_CHAIN "H" true ifname.

(** *** ebtables *)

Definition ebtablesCreateTmpRootChain (incoming : bool) (ifname : string) : list shitem :=
  let chain := PRINT_ROOT_CHAIN (tmp_or_active true incoming) ifname in
  [ShCmd (ShEval true EBT (FwNewChain chain))].

Definition ebtablesLinkTmpRootChain (incoming : bool) (ifname : string) : list shitem :=
  let chain := PRINT_ROOT_CHAIN (tmp_or_active true incoming) ifname in
  [ShCmd (ShEval true EBT
            (FwAppendJump
               (if incoming then EBTABLES_CHAIN_INCOMING else EBTABLES_CHAIN_OUTGOING)
               [(if incoming then "-i" else "-o"); ifname] "-j" chain))].

Definition _ebtablesRemoveRootChain (incoming : bool) (ifname : string)
    (isTempChain : bool) : list shitem :=
  let chain := PRINT_ROOT_CHAIN (tmp_or_active isTempChain incoming) ifname in
  [ShCmd (ShPlain EBT (FwFlush chain)); ShCmd (ShPlain EBT (FwDeleteChain chain))].

Definition ebtablesRemoveTmpRootChain (incoming : bool) (ifname : string) : list shitem :=
  _ebtablesRemoveRootChain incoming ifname true.

Definition _ebtablesUnlinkRootChain (incoming : bool) (ifname : string)
    (isTempChain : bool) : list shitem :=
  let chain := PRINT_ROOT_CHAIN (tmp_or_active isTempChain incoming) ifname in
  [ShCmd (ShPlain EBT
            (FwDeleteJump
               (if incoming then EBTABLES_CHAIN_INCOMING else EBTABLES_CHAIN_OUTGOING)
               [(if incoming then "-i" else "-o"); ifname] "-j" chain))].

Definition ebtablesUnlinkTmpRootChain (incoming : bool) (ifname : string) : list shitem :=
  _ebtablesUnlinkRootChain incoming ifname true.

Definition _ebtablesRemoveSubChains (st : driver_state) (ifname : string)
    (chains : list ascii) : list shitem :=
  NWFILTER_SET_EBTABLES_SHELLVAR st ++ [ShCmd (ShRemoveSubChains chains ifname)].

Definition ebtablesRemoveTmpSubChains (st : driver_state) (ifname : string) : list shitem :=
  _ebtablesRemoveSubChains st ifname
    [CHAINPREFIX_HOST_IN_TEMP; CHAINPREFIX_HOST_OUT_TEMP].

(** [ebiptablesRuleInst] ([nwfilter_ebiptables_driver.h]), the members this
    file sets; [commandTemplate] is kept as the commands it is made of, its
    text is their [render_cmds]. *)
Record ebiptablesRuleInst := {
  commandTemplate : list shcmd;
  neededProtocolChain : string;
  ebt_priority : Z;
}.

(** The table [l3_protocols] *)
Definition l3_protocols_attr (idx : l3_proto_idx) : Z :=
  match idx with
  | L3_PROTO_IPV4_IDX => ETHERTYPE_IP
  | L3_PROTO_IPV6_IDX => ETHERTYPE_IPV6
  | L3_PROTO_ARP_IDX => ETHERTYPE_ARP
  | L3_PROTO_RARP_IDX => ETHERTYPE_REVARP
  | L2_PROTO_VLAN_IDX => ETHERTYPE_VLAN
  | L2_PROTO_STP_IDX => 0
  | L2_PROTO_MAC_IDX => 0
  | L3_PROTO_LAST_IDX => 0
  end.

(** [l3_protocols[idx].val]; [NULL] is [None]. *)
Definition l3_protocols_val (idx : l3_proto_idx) : option string :=
  match idx with
  | L3_PROTO_IPV4_IDX => Some "ipv4"
  | L3_PROTO_IPV6_IDX => Some "ipv6"
  | L3_PROTO_ARP_IDX => Some "arp"
  | L3_PROTO_RARP_IDX => Some "rarp"
  | L2_PROTO_VLAN_IDX => Some "vlan"
  | L2_PROTO_STP_IDX => Some "stp"
  | L2_PROTO_MAC_IDX => Some "mac"
  | L3_PROTO_LAST_IDX => None
  end.

(** The values of [enum l3_proto_idx] below [L3_PROTO_LAST_IDX], in order. *)
Definition l3_proto_indices : list l3_proto_idx :=
  [L3_PROTO_IPV4_IDX; L3_PROTO_IPV6_IDX; L3_PROTO_ARP_IDX; L3_PROTO_RARP_IDX;
   L2_PROTO_MAC_IDX; L2_PROTO_VLAN_IDX; L2_PROTO_STP_IDX].

(** [ebtablesGetProtoIdxByFiltername]; [None] is [-1]. *)
Definition ebtablesGetProtoIdxByFiltername (filtername : string) : option l3_proto_idx :=
  List.find
    (fun idx =>
       match l3_protocols_val idx with
       | Some val => STRPREFIX filtername val
       | None => false
       end)
    l3_proto_indices.

(** [ebtablesCreateTmpSubChain]: the element it appends to [*inst].  The
    callers in this file always pass a [filtername]. *)
Definition ebtablesCreateTmpSubChain (incoming : bool) (ifname : string)
    (protoidx : l3_proto_idx) (filtername : string) (priority : Z)
    : ebiptablesRuleInst :=
  let chainPrefix := tmp_or_active true incoming in
  let rootchain := PRINT_ROOT_CHAIN chainPrefix ifname in
  let chain := PRINT_CHAIN chainPrefix ifname filtername in
  let protostr : list string :=
    match protoidx with
    | L2_PROTO_MAC_IDX => []
    | L2_PROTO_STP_IDX => ["-d"; NWFILTER_MAC_BGA]
    | _ => ["-p"; "0x" +:+ fmt_04x (l3_protocols_attr protoidx)]
    end in
  {| commandTemplate :=
       [ShEval false EBT (FwFlush chain);
        ShEval false EBT (FwDeleteChain chain);
        ShEval true EBT (FwNewChain chain);
        ShEval true EBT (FwAppendJump rootchain protostr "-j" chain)];
     neededProtocolChain := virNWFilterChainSuffixTypeToString_ROOT;
     ebt_priority := priority |}.

(** ** The order of rules and chains *)

(** [int] subtraction with the wrap-around of a 32-bit machine written
    out. *)
Definition wrap32 (z : Z) : Z := ((z + 2147483648) mod 4294967296 - 2147483648)%Z.
Definition sub32 (a b : Z) : Z := wrap32 (a - b).

(** [ebiptablesRuleOrderSort] *)
Definition ebiptablesRuleOrderSort (insta instb : ebiptablesRuleInst) : Z :=
  let root := virNWFilterChainSuffixTypeToString_ROOT in
  let root_a := STREQ (neededProtocolChain insta) root in
  let root_b := STREQ (neededProtocolChain instb) root in
  if root_a && negb root_b then (-1)%Z
  else if negb root_a && root_b then 1%Z
  else sub32 (ebt_priority insta) (ebt_priority instb).

(** [virNWFilterRuleInstSort]; [virNWFilterRuleInstSortPtr] is the same
    function on the elements of the array of pointers. *)
Definition virNWFilterRuleInstSort (insta instb : virNWFilterRuleInst) : Z :=
  let root := virNWFilterChainSuffixTypeToString_ROOT in
  let root_a := STREQ (chainSuffix insta) root in
  let root_b := STREQ (chainSuffix instb) root in
  if root_a && negb root_b then (-1)%Z
  else if negb root_a && root_b then 1%Z
  else sub32 (priority insta) (priority instb).

Definition virNWFilterRuleInstSortPtr (insta instb : virNWFilterRuleInst) : Z :=
  virNWFilterRuleInstSort insta instb.

(** [ebiptablesFilterOrderSort] on the key/value pairs of a chain set; the
    value is the chain priority the stored pointer points to. *)
Definition ebiptablesFilterOrderSort (a b : string * Z) : Z :=
  sub32 (snd a) (snd b).

(** ** Running a script *)

(** One call of [ebiptablesExecCLI] that ran a script: the buffer, the flag
    [ignoreNonzero] and the exit status of the shell. *)
Record exec_entry := {
  ex_script : list shitem;
  ex_ignoreNonzero : bool;
  ex_status : Z;
}.

(** [ebiptablesExecCLI]: the world afterwards, the return value and the
    record of the run, if there was one.  The buffer is empty after the
    call. *)
Definition ebiptablesExecCLI (w : World) (buf : list shitem) (ignoreNonzero : bool)
    : World * Z * list exec_entry :=
  match buf with
  | [] => (w, 0%Z, [])
  | _ =>
      let '(w', (status, _)) := run_sh w (render_script buf) in
      (w',
       if ignoreNonzero then 0%Z else if (status =? 0)%Z then 0%Z else (-1)%Z,
       [{| ex_script := buf; ex_ignoreNonzero := ignoreNonzero; ex_status := status |}])
  end.

(** ** Applying a new generation of rules *)

(** The loop of [ebtablesCreateTmpRootAndSubChains] over the sorted chain
    names. *)
Fixpoint ebtablesCreateTmpSubChains (incoming : bool) (ifname : string)
    (filter_names : list (string * Z)) (inst : list ebiptablesRuleInst)
    : list ebiptablesRuleInst :=
  match filter_names with
  | [] => inst
  | (key, value) :: rest =>
      match ebtablesGetProtoIdxByFiltername key with
      | None => ebtablesCreateTmpSubChains incoming ifname rest inst
      | Some idx =>
          ebtablesCreateTmpSubChains incoming ifname rest
            (inst ++ [ebtablesCreateTmpSubChain incoming ifname idx key value])
      end
  end.

(** [ebtablesCreateTmpRootAndSubChains]: what it adds to the buffer, and
    [*inst] afterwards. *)
Definition ebtablesCreateTmpRootAndSubChains (ifname : string)
    (chains : gmap string Z) (incoming : bool) (inst : list ebiptablesRuleInst)
    : list shitem * list ebiptablesRuleInst :=
  let filter_names := virHashGetItems chains ebiptablesFilterOrderSort in
  (ebtablesCreateTmpRootChain incoming ifname,
   ebtablesCreateTmpSubChains incoming ifname filter_names inst).

(** The [do ... while] loop of [ebtablesRuleInstCommand] and
    [iptablesRuleInstCommand] over the positions of the iterator: the
    templates of the last call when every call succeeds.  Each call of
    [ebiptablesCreateRuleInstance] starts by setting [*templates] to
    [NULL]. *)
Fixpoint rule_inst_loop (st : driver_state) (ifname : string)
    (rule : virNWFilterRuleInst) (iter : list virNWFilterVarCombIter)
    (cmds : list string) : option (list string) :=
  match iter with
  | [] => Some cmds
  | tmp :: rest =>
      let r := ebiptablesCreateRuleInstance st (chainSuffix rule) (def rule) ifname tmp in
      if (fst r <? 0)%Z then None
      else rule_inst_loop st ifname rule rest (snd r)
  end.

(** [ebtablesRuleInstCommand]: the return value and what it adds to the
    buffer. *)
Definition ebtablesRuleInstCommand (st : driver_state) (ifname : string)
    (rule : virNWFilterRuleInst) : Z * list shitem :=
  match virNWFilterVarCombIterCreate (vars rule) (def_varAccess (def rule)) with
  | [] => ((-1)%Z, [])
  | iter =>
      match rule_inst_loop st ifname rule iter [] with
      | None => ((-1)%Z, [])
      | Some cmds => (0%Z, flat_map ebiptablesInstCommand cmds)
      end
  end.

(** [iptablesRuleInstCommand] *)
Definition iptablesRuleInstCommand (st : driver_state) (ifname : string)
    (rule : virNWFilterRuleInst) : Z * list shitem :=
  match virNWFilterVarCombIterCreate (vars rule) (def_varAccess (def rule)) with
  | [] => ((-1)%Z, [])
  | iter =>
      match rule_inst_loop st ifname rule iter [] with
      | None => ((-1)%Z, [])
      | Some cmds => (0%Z, flat_map iptablesInstCommand cmds)
      end
  end.

(** The loop "scan the rules to see which chains need to be created": the
    two chain sets after it.  A set maps a chain name to the chain priority
    of the rule that put it there last. *)
Fixpoint scan_chains (rules : list virNWFilterRuleInst)
    (chains_in_set chains_out_set : gmap string Z) : gmap string Z * gmap string Z :=
  match rules with
  | [] => (chains_in_set, chains_out_set)
  | r :: rest =>
      if virNWFilterRuleIsProtocolEthernet (def_prtclType (def r)) then
        let name := chainSuffix r in
        let chains_in_set :=
          match def_tt (def r) with
          | VIR_NWFILTER_RULE_DIRECTION_OUT | VIR_NWFILTER_RULE_DIRECTION_INOUT =>
              <[name := chainPriority r]> chains_in_set
          | _ => chains_in_set
          end in
        let chains_out_set :=
          match def_tt (def r) with
          | VIR_NWFILTER_RULE_DIRECTION_IN | VIR_NWFILTER_RULE_DIRECTION_INOUT =>
              <[name := chainPriority r]> chains_out_set
          | _ => chains_out_set
          end in
        scan_chains rest chains_in_set chains_out_set
      else scan_chains rest chains_in_set chains_out_set
  end.

(** The body of the loop "walk the list of rules and increase the priority
    of rules in case the chain priority is of higher value". *)
Definition raise_priority (r : virNWFilterRuleInst) : virNWFilterRuleInst :=
  if (priority r <? chainPriority r)%Z && negb (strstr "root" (chainSuffix r))
  then {| chainSuffix := chainSuffix r; chainPriority := chainPriority r;
          def := def r; priority := chainPriority r; vars := vars r |}
  else r.

(** The inner [while] loop of "process ebtables commands": the chains from
    position [j] on are [ebtChains]; the result is what the loop adds to the
    buffer and the chains left. *)
Fixpoint emit_chains_upto (ebtChains : list ebiptablesRuleInst) (prio : Z)
    : list shitem * list ebiptablesRuleInst :=
  match ebtChains with
  | [] => ([], [])
  | c :: rest =>
      if (ebt_priority c <=? prio)%Z then
        let '(items, remaining) := emit_chains_upto rest prio in
        (ShInstChain (commandTemplate c) :: items, remaining)
      else ([], ebtChains)
  end.

(** The loop "process ebtables commands; interleave commands from filters
    with commands for creating and connecting ebtables chains": the buffer,
    the chains not yet written, [haveIptables] and [haveIp6tables]. *)
Fixpoint process_rules (st : driver_state) (ifname : string)
    (rules : list virNWFilterRuleInst) (ebtChains : list ebiptablesRuleInst)
    (buf : list shitem) (haveIptables haveIp6tables : bool)
    : list shitem * list ebiptablesRuleInst * bool * bool :=
  match rules with
  | [] => (buf, ebtChains, haveIptables, haveIp6tables)
  | r :: rest =>
      if virNWFilterRuleIsProtocolEthernet (def_prtclType (def r)) then
        let '(items, remaining) := emit_chains_upto ebtChains (priority r) in
        let buf := buf ++ items in
        let buf := buf ++ snd (ebtablesRuleInstCommand st ifname r) in
        process_rules st ifname rest remaining buf haveIptables haveIp6tables
      else if virNWFilterRuleIsProtocolIPv4 (def_prtclType (def r)) then
        process_rules st ifname rest ebtChains buf true haveIp6tables
      else if virNWFilterRuleIsProtocolIPv6 (def_prtclType (def r)) then
        process_rules st ifname rest ebtChains buf haveIptables true
      else
        process_rules st ifname rest ebtChains buf haveIptables haveIp6tables
  end.

(** The rule commands of one IP layer, in the order of the rules. *)
Fixpoint iptables_rule_commands (st : driver_state) (ifname : string)
    (isProtocol : virNWFilterRuleProtocolType -> bool)
    (rules : list virNWFilterRuleInst) : list shitem :=
  match rules with
  | [] => []
  | r :: rest =>
      (if isProtocol (def_prtclType (def r))
       then snd (iptablesRuleInstCommand st ifname r) else [])
      ++ iptables_rule_commands st ifname isProtocol rest
  end.

(** The world and the record of the scripts run so far. *)
Definition run_state : Type := World * list exec_entry.

Definition exec (s : run_state) (buf : list shitem) (ignoreNonzero : bool)
    : run_state * Z :=
  let '(w, rc, e) := ebiptablesExecCLI (fst s) buf ignoreNonzero in
  ((w, snd s ++ e), rc).

(** The code from the label [tear_down_tmpebchains] to the end: [buf] is
    the buffer on arrival. *)
Definition tear_down_tmpebchains (st : driver_state) (ifname : string)
    (s : run_state) (buf : list shitem) : run_state * Z :=
  let buf :=
    match ebtables_cmd_path st with
    | Some _ =>
        buf ++ NWFILTER_SET_EBTABLES_SHELLVAR st
            ++ ebtablesRemoveTmpSubChains st ifname
            ++ ebtablesRemoveTmpRootChain true ifname
            ++ ebtablesRemoveTmpRootChain false ifname
    | None => buf
    end in
  let '(s, _) := exec s buf true in
  (s, (-1)%Z).

(** From the label [tear_down_tmpiptchains] on *)
Definition tear_down_tmpiptchains (st : driver_state) (ifname : string)
    (haveIptables : bool) (s : run_state) (buf : list shitem) : run_state * Z :=
  let buf :=
    if haveIptables then
      buf ++ NWFILTER_SET_IPTABLES_SHELLVAR st
          ++ iptablesUnlinkTmpRootChains ifname
          ++ iptablesRemoveTmpRootChains ifname
    else buf in
  tear_down_tmpebchains st ifname s buf.

(** From the label [tear_down_tmpip6tchains] on *)
Definition tear_down_tmpip6tchains (st : driver_state) (ifname : string)
    (haveIptables haveIp6tables : bool) (s : run_state) (buf : list shitem)
    : run_state * Z :=
  let buf :=
    if haveIp6tables then
      buf ++ NWFILTER_SET_IP6TABLES_SHELLVAR st
          ++ iptablesUnlinkTmpRootChains ifname
          ++ iptablesRemoveTmpRootChains ifname
    else buf in
  tear_down_tmpiptchains st ifname haveIptables s buf.

(** From the label [tear_down_ebsubchains_and_unlink] on *)
Definition tear_down_ebsubchains_and_unlink (st : driver_state) (ifname : string)
    (haveIptables haveIp6tables : bool) (s : run_state) (buf : list shitem)
    : run_state * Z :=
  let buf :=
    match ebtables_cmd_path st with
    | Some _ =>
        buf ++ NWFILTER_SET_EBTABLES_SHELLVAR st
            ++ ebtablesUnlinkTmpRootChain true ifname
            ++ ebtablesUnlinkTmpRootChain false ifname
    | None => buf
    end in
  tear_down_tmpip6tchains st ifname haveIptables haveIp6tables s buf.

(** The rules array as the first part of [ebiptablesApplyNewRules] leaves
    it: sorted, then with the priorities raised. *)
Definition sorted_rules (rules : list virNWFilterRuleInst) : list virNWFilterRuleInst :=
  match rules with
  | [] => rules
  | _ => qsort _ virNWFilterRuleInstSortPtr rules
  end.

(** The array [ebtChains] after "create needed chains" and its [qsort],
    with what the two calls add to the buffer. *)
Definition create_needed_chains (ifname : string)
    (chains_in_set chains_out_set : gmap string Z)
    : list shitem * list ebiptablesRuleInst :=
  let '(buf_in, ebtChains) :=
    if (0 <? size chains_in_set)%nat
    then ebtablesCreateTmpRootAndSubChains ifname chains_in_set true []
    else ([], []) in
  let '(buf_out, ebtChains) :=
    if (0 <? size chains_out_set)%nat
    then ebtablesCreateTmpRootAndSubChains ifname chains_out_set false ebtChains
    else ([], ebtChains) in
  let ebtChains :=
    match ebtChains with
    | [] => ebtChains
    | _ => qsort _ ebiptablesRuleOrderSort ebtChains
    end in
  (buf_in ++ buf_out, ebtChains).

(** The block [if (haveIptables) { ... }] and its twin for ip6tables:
    [setvar] is the shell variable line of the layer, [isProtocol] selects
    the layer's rules, [fail_early] is where the first [goto] of the block
    leads and [fail_late] where the others lead.  The result is [inl] with
    the state when the block completes and [inr] with the function's result
    when it jumps to a label. *)
Definition iptables_block (st : driver_state) (ifname : string)
    (setvar : list shitem) (isProtocol : virNWFilterRuleProtocolType -> bool)
    (rules : list virNWFilterRuleInst)
    (fail_early fail_late : run_state -> list shitem -> run_state * Z)
    (s : run_state) : run_state + run_state * Z :=
  let buf := setvar ++ iptablesUnlinkTmpRootChains ifname
                    ++ iptablesRemoveTmpRootChains ifname
                    ++ iptablesCreateBaseChains st in
  let '(s, rc) := exec s buf false in
  if (rc <? 0)%Z then inr (fail_early s []) else
  let buf := setvar ++ iptablesCreateTmpRootChains ifname in
  let '(s, rc) := exec s buf false in
  if (rc <? 0)%Z then inr (fail_late s []) else
  let buf := setvar ++ iptablesLinkTmpRootChains ifname
                    ++ iptablesSetupVirtInPost ifname in
  let '(s, rc) := exec s buf false in
  if (rc <? 0)%Z then inr (fail_late s []) else
  let buf := setvar ++ iptables_rule_commands st ifname isProtocol rules in
  let '(s, rc) := exec s buf false in
  if (rc <? 0)%Z then inr (fail_late s []) else
  inl s.

(** [ebiptablesApplyNewRules]: the world afterwards with the record of the
    scripts that were run, the return value, and the array [rules] as the
    function leaves it. *)
Definition ebiptablesApplyNewRules (st : driver_state) (w : World)
    (ifname : string) (rules : list virNWFilterRuleInst)
    : run_state * Z * list virNWFilterRuleInst :=
  let rules := sorted_rules rules in
  let '(chains_in_set, chains_out_set) := scan_chains rules ∅ ∅ in
  let s : run_state := (w, []) in
  (* cleanup whatever may exist *)
  let s :=
    match ebtables_cmd_path st with
    | Some _ =>
        fst (exec s (NWFILTER_SET_EBTABLES_SHELLVAR st
                     ++ ebtablesUnlinkTmpRootChain true ifname
                     ++ ebtablesUnlinkTmpRootChain false ifname
                     ++ ebtablesRemoveTmpSubChains st ifname
                     ++ ebtablesRemoveTmpRootChain true ifname
                     ++ ebtablesRemoveTmpRootChain false ifname) true)
    | None => s
    end in
  (* create needed chains *)
  let '(created, ebtChains) := create_needed_chains ifname chains_in_set chains_out_set in
  let buf := NWFILTER_SET_EBTABLES_SHELLVAR st ++ created in
  let '(s, rc) := exec s buf false in
  if (rc <? 0)%Z then (tear_down_tmpebchains st ifname s [], rules) else
  let rules := map raise_priority rules in
  let '(buf, remaining, haveIptables, haveIp6tables) :=
    process_rules st ifname rules ebtChains (NWFILTER_SET_EBTABLES_SHELLVAR st)
      false false in
  let buf := buf ++ map (fun c => ShInstChain (commandTemplate c)) remaining in
  let '(s, rc) := exec s buf false in
  if (rc <? 0)%Z then (tear_down_tmpebchains st ifname s [], rules) else
  let r4 :=
    if haveIptables then
      iptables_block st ifname (NWFILTER_SET_IPTABLES_SHELLVAR st)
        virNWFilterRuleIsProtocolIPv4 rules
        (tear_down_tmpebchains st ifname)
        (tear_down_tmpiptchains st ifname haveIptables) s
    else inl s in
  match r4 with
  | inr res => (res, rules)
  | inl s =>
      let r6 :=
        if haveIp6tables then
          iptables_block st ifname (NWFILTER_SET_IP6TABLES_SHELLVAR st)
            virNWFilterRuleIsProtocolIPv6 rules
            (tear_down_tmpiptchains st ifname haveIptables)
            (tear_down_tmpip6tchains st ifname haveIptables haveIp6tables) s
        else inl s in
      match r6 with
      | inr res => (res, rules)
      | inl s =>
          let buf :=
            NWFILTER_SET_EBTABLES_SHELLVAR st
            ++ (if negb (size chains_in_set =? 0)%nat
                then ebtablesLinkTmpRootChain true ifname else [])
            ++ (if negb (size chains_out_set =? 0)%nat
                then ebtablesLinkTmpRootChain false ifname else []) in
          let '(s, rc) := exec s buf false in
          if (rc <? 0)%Z
          then (tear_down_ebsubchains_and_unlink st ifname haveIptables haveIp6tables s [],
                rules)
          else (s, 0%Z, rules)
      end
  end.

(** ** The specification's reading of the apply engine *)

(** The names the chains of the active generation start with: the ebtables
    root chains [libvirt-I-...] and [libvirt-O-...], the ebtables sub-chains
    [I-...] and [O-...], and the iptables chains [FI-...], [FO-...] and
    [HI-...]. *)
Definition active_prefixes : list string :=
  ["libvirt-" +:+ String CHAINPREFIX_HOST_IN "";
   "libvirt-" +:+ String CHAINPREFIX_HOST_OUT "";
   String CHAINPREFIX_HOST_IN "-"; String CHAINPREFIX_HOST_OUT "-";
   String "F" (String CHAINPREFIX_HOST_IN "-");
   String "F" (String CHAINPREFIX_HOST_OUT "-");
   String "H" (String CHAINPREFIX_HOST_IN "-")].

Definition active_chain_name (name : string) : bool :=
  existsb (fun p => String.prefix p name) active_prefixes.

















(** ** The specification's reading of the order of commands *)

(** The rule belongs to the root chain, as the comparator tests it. *)
Definition is_root_rule (r : virNWFilterRuleInst) : bool :=
  STREQ (chainSuffix r) virNWFilterChainSuffixTypeToString_ROOT.

(** "priorities are limited to range [-1000, 1000]" *)
Definition in_priority_range (p : Z) : Prop := (-1000 <= p <= 1000)%Z.

(** [a] may stand before [b]: a rule of the root chain before a rule of
    another chain, and among rules of the same kind the lower priority
    first. *)
Definition rule_order (a b : virNWFilterRuleInst) : Prop :=
  (is_root_rule b = true -> is_root_rule a = true)
  /\ (is_root_rule a = is_root_rule b -> (priority a <= priority b)%Z).

(** What the comparators return, with the subtraction taken in [Z]. *)
Definition three_way (root_a root_b : bool) (prio_a prio_b : Z) : Z :=
  if root_a && negb root_b then (-1)%Z
  else if negb root_a && root_b then 1%Z
  else (prio_a - prio_b)%Z.

(** The pieces of a script that are commands of rules, and those that
    create sub-chains. *)
Definition is_rule_item (i : shitem) : bool :=
  match i with
  | ShInstRule _ => true
  | _ => false
  end.

Definition is_chain_item (i : shitem) : bool :=
  match i with
  | ShInstChain _ => true
  | _ => false
  end.

Definition is_ethernet_rule (r : virNWFilterRuleInst) : bool :=
  virNWFilterRuleIsProtocolEthernet (def_prtclType (def r)).

(** The script that processes the ebtables rules, as
    [ebiptablesApplyNewRules] builds it from the array of rules and the
    array of sub-chains, with what the buffer holds at first. *)
Definition rules_script (st : driver_state) (ifname : string)
    (rules : list virNWFilterRuleInst) (ebtChains : list ebiptablesRuleInst)
    (buf : list shitem) (haveIptables haveIp6tables : bool) : list shitem :=
  let '(buf, remaining, _, _) :=
    process_rules st ifname rules ebtChains buf haveIptables haveIp6tables in
  buf ++ map (fun c => ShInstChain (commandTemplate c)) remaining.

Definition ebtables_rules_script (st : driver_state) (ifname : string)
    (rules : list virNWFilterRuleInst) (ebtChains : list ebiptablesRuleInst)
    : list shitem :=
  rules_script st ifname rules ebtChains (NWFILTER_SET_EBTABLES_SHELLVAR st)
    false false.

(** The rule has a leg in the chains of the given side: [incoming] stands
    for the chains with the prefix [J], filled by rules of the directions
    out and inout; the others have the prefix [P] and are filled by rules
    of the directions in and inout. *)
Definition rule_uses_side (incoming : bool) (r : virNWFilterRuleInst) : bool :=
  match def_tt (def r) with
  | VIR_NWFILTER_RULE_DIRECTION_OUT => incoming
  | VIR_NWFILTER_RULE_DIRECTION_IN => negb incoming
  | VIR_NWFILTER_RULE_DIRECTION_INOUT => true
  | VIR_NWFILTER_RULE_DIRECTION_LAST => false
  end.

(** The piece of a script that creates a sub-chain. *)
Definition chain_item (c : ebiptablesRuleInst) : shitem :=
  ShInstChain (commandTemplate c).

(** The sub-chains [ebiptablesApplyNewRules] creates for the rules. *)
Definition needed_chains (ifname : string) (rules : list virNWFilterRuleInst)
    : list ebiptablesRuleInst :=
  let '(chains_in_set, chains_out_set) := scan_chains (sorted_rules rules) ∅ ∅ in
  snd (create_needed_chains ifname chains_in_set chains_out_set).

(** One of the two chain sets after the scan of the rules: the set for the
    side [incoming], starting from [m]. *)
Fixpoint scan_side (incoming : bool) (rules : list virNWFilterRuleInst)
    (m : gmap string Z) : gmap string Z :=
  match rules with
  | [] => m
  | r :: rest =>
      scan_side incoming rest
        (if is_ethernet_rule r && rule_uses_side incoming r
         then <[chainSuffix r := chainPriority r]> m
         else m)
  end.

(** The sub-chain of the side [incoming] for an entry of a chain set, when
    the name of the chain starts with the name of a protocol. *)
Definition subchain_of (incoming : bool) (ifname : string) (m : gmap string Z)
    (c : ebiptablesRuleInst) : Prop :=
  exists k v idx,
    m !! k = Some v /\ ebtablesGetProtoIdxByFiltername k = Some idx
    /\ c = ebtablesCreateTmpSubChain incoming ifname idx k v.

(** ** Transactions of firewall rules ([util/virfirewall.h])

    The teardown functions queue their commands in a [virFirewall] object and
    hand it to [virFirewallApply]. *)

(** The query callback of the teardown functions, with its [opaque]
    argument. *)
Inductive queryCB :=
| CB_ebtablesRemoveSubChainsQuery (chainprefixes : list ascii).

(** One queued rule: the arguments of [virFirewallAddRuleFull].
    [virFirewallAddRule] is the same with [ignoreErrors] false and no
    callback. *)
Record virFirewallRule := {
  fw_layer : virFirewallLayer;
  fw_ignoreErrors : bool;
  fw_queryCB : option queryCB;
  fw_cmd : fwcmd;
}.

(** The argument vector of a queued rule: the ethernet rules of this file
    all start with [-t nat]. *)
Definition fw_rule_args (r : virFirewallRule) : list string :=
  match fw_layer r with
  | VIR_FIREWALL_LAYER_ETHERNET => ["-t"; "nat"] ++ fwcmd_args (fw_cmd r)
  | _ => fwcmd_args (fw_cmd r)
  end.

(** A [virFirewall] with the one transaction the functions of this file
    start: the transaction's flag and its rules in the order they were
    added. *)
Record virFirewall := {
  VIR_FIREWALL_TRANSACTION_IGNORE_ERRORS : bool;
  fw_rules : list virFirewallRule;
}.

Definition virFirewallAddRuleFull (layer : virFirewallLayer) (ignoreErrors : bool)
    (cb : option queryCB) (cmd : fwcmd) : list virFirewallRule :=
  [{| fw_layer := layer; fw_ignoreErrors := ignoreErrors; fw_queryCB := cb;
      fw_cmd := cmd |}].

Definition virFirewallAddRule (layer : virFirewallLayer) (cmd : fwcmd)
    : list virFirewallRule :=
  virFirewallAddRuleFull layer false None cmd.

(** *** iptables *)

Definition _iptablesRemoveRootChainFW (layer : virFirewallLayer) (prefix : ascii)
    (incoming : bool) (ifname : string) (isTempChain : bool) : list virFirewallRule :=
  let chainPrefix := (prefix, tmp_or_active isTempChain incoming) in
  let chain := PRINT_IPT_ROOT_CHAIN chainPrefix ifname in
  virFirewallAddRuleFull layer true None (FwFlush chain)
  ++ virFirewallAddRuleFull layer true None (FwDeleteChain chain).

Definition iptablesRemoveRootChainFW (layer : virFirewallLayer) (prefix : ascii)
    (incoming : bool) (ifname : string) : list virFirewallRule :=
  _iptablesRemoveRootChainFW layer prefix incoming ifname false.

Definition iptablesRemoveTmpRootChainFW (layer : virFirewallLayer) (prefix : ascii)
    (incoming : bool) (ifname : string) : list virFirewallRule :=
  _iptablesRemoveRootChainFW layer prefix incoming ifname true.

Definition iptablesRemoveTmpRootChainsFW (layer : virFirewallLayer) (ifname : string)
    : list virFirewallRule :=
  iptablesRemoveTmpRootChainFW layer "F" false ifname
  ++ iptablesRemoveTmpRootChainFW layer "F" true ifname
  ++ iptablesRemoveTmpRootChainFW layer "H" true ifname.

Definition iptablesRemoveRootChainsFW (layer : virFirewallLayer) (ifname : string)
    : list virFirewallRule :=
  iptablesRemoveRootChainFW layer "F" false ifname
  ++ iptablesRemoveRootChainFW layer "F" true ifname
  ++ iptablesRemoveRootChainFW layer "H" true ifname.

Definition iptablesClearVirtInPostFW (layer : virFirewallLayer) (ifname : string)
    : list virFirewallRule :=
  virFirewallAddRuleFull layer true None
    (FwDeleteJump VIRT_IN_POST_CHAIN (MATCH_PHYSDEV_IN_FW ++ [ifname]) "-j" "ACCEPT").

Definition _iptablesUnlinkRootChainFW (layer : virFirewallLayer) (basechain : string)
    (prefix : ascii) (incoming : bool) (ifname : string) (isTempChain : bool)
    : list virFirewallRule :=
  let chainPrefix := (prefix, tmp_or_active isTempChain incoming) in
  let chain := PRINT_IPT_ROOT_CHAIN chainPrefix ifname in
  (if incoming
   then virFirewallAddRuleFull layer true None
          (FwDeleteJump basechain (MATCH_PHYSDEV_IN_FW ++ [ifname]) "-g" chain)
   else virFirewallAddRuleFull layer true None
          (FwDeleteJump basechain (MATCH_PHYSDEV_OUT_FW ++ [ifname]) "-g" chain))
  ++ (if negb incoming
      then virFirewallAddRuleFull layer true None
             (FwDeleteJump basechain (MATCH_PHYSDEV_OUT_OLD_FW ++ [ifname]) "-g" chain)
      else []).

Definition iptablesUnlinkRootChainFW (layer : virFirewallLayer) (basechain : string)
    (prefix : ascii) (incoming : bool) (ifname : string) : list virFirewallRule :=
  _iptablesUnlinkRootChainFW layer basechain prefix incoming ifname false.

Definition iptablesUnlinkTmpRootChainFW (layer : virFirewallLayer) (basechain : string)
    (prefix : ascii) (incoming : bool) (ifname : string) : list virFirewallRule :=
  _iptablesUnlinkRootChainFW layer basechain prefix incoming ifname true.

Definition iptablesUnlinkRootChainsFW (layer : virFirewallLayer) (ifname : string)
    : list virFirewallRule :=
  iptablesUnlinkRootChainFW layer VIRT_OUT_CHAIN "F" false ifname
  ++ iptablesUnlinkRootChainFW layer VIRT_IN_CHAIN "F" true ifname
  ++ iptablesUnlinkRootChainFW layer HOST_IN_CHAIN "H" true ifname.

Definition iptablesUnlinkTmpRootChainsFW (layer : virFirewallLayer) (ifname : string)
    : list virFirewallRule :=
  iptablesUnlinkTmpRootChainFW layer VIRT_OUT_CHAIN "F" false ifname
  ++ iptablesUnlinkTmpRootChainFW layer VIRT_IN_CHAIN "F" true ifname
  ++ iptablesUnlinkTmpRootChainFW layer HOST_IN_CHAIN "H" true ifname.

(** *** ebtables *)

Definition _ebtablesRemoveRootChainFW (incoming : bool) (ifname : string)
    (isTempChain : bool) : list virFirewallRule :=
  let chain := PRINT_ROOT_CHAIN (tmp_or_active isTempChain incoming) ifname in
  virFirewallAddRuleFull VIR_FIREWALL_LAYER_ETHERNET true None (FwFlush chain)
  ++ virFirewallAddRuleFull VIR_FIREWALL_LAYER_ETHERNET true None (FwDeleteChain chain).

Definition ebtablesRemoveRootChainFW (incoming : bool) (ifname : string)
    : list virFirewallRule :=
  _ebtablesRemoveRootChainFW incoming ifname false.

Definition ebtablesRemoveTmpRootChainFW (incoming : bool) (ifname : string)
    : list virFirewallRule :=
  _ebtablesRemoveRootChainFW incoming ifname true.

Definition _ebtablesUnlinkRootChainFW (incoming : bool) (ifname : string)
    (isTempChain : bool) : list virFirewallRule :=
  let chain := PRINT_ROOT_CHAIN (tmp_or_active isTempChain incoming) ifname in
  virFirewallAddRuleFull VIR_FIREWALL_LAYER_ETHERNET true None
    (FwDeleteJump
       (if incoming then EBTABLES_CHAIN_INCOMING else EBTABLES_CHAIN_OUTGOING)
       [(if incoming then "-i" else "-o"); ifname] "-j" chain).

Definition ebtablesUnlinkRootChainFW (incoming : bool) (ifname : string)
    : list virFirewallRule :=
  _ebtablesUnlinkRootChainFW incoming ifname false.

Definition ebtablesUnlinkTmpRootChainFW (incoming : bool) (ifname : string)
    : list virFirewallRule :=
  _ebtablesUnlinkRootChainFW incoming ifname true.

(** [strstr(line, "-j ")] followed by [tmp = tmp + 3]: the text after the
    first ["-j "], or [None] when there is none. *)
Definition after_jump (line : string) : option string :=
  match index 0 "-j " line with
  | Some n => Some (substring (n + 3) (String.length line - (n + 3)) line)
  | None => None
  end.

(** The rules [ebtablesRemoveSubChainsQuery] adds for one line: the loop
    over [chainprefixes]. *)
Definition ebtablesRemoveSubChainsQuery_line (chainprefixes : list ascii)
    (line : string) : list virFirewallRule :=
  match after_jump line with
  | None => []
  | Some tmp =>
      flat_map
        (fun prefix =>
           match tmp with
           | String c0 (String c1 _) =>
               if Ascii.eqb c0 prefix && Ascii.eqb c1 "-" then
                 virFirewallAddRuleFull VIR_FIREWALL_LAYER_ETHERNET false
                   (Some (CB_ebtablesRemoveSubChainsQuery chainprefixes)) (FwList tmp)
                 ++ virFirewallAddRuleFull VIR_FIREWALL_LAYER_ETHERNET true None
                      (FwFlush tmp)
                 ++ virFirewallAddRuleFull VIR_FIREWALL_LAYER_ETHERNET true None
                      (FwDeleteChain tmp)
               else []
           | _ => []
           end)
        chainprefixes
  end.

(** [ebtablesRemoveSubChainsQuery]: the rules it adds to the transaction;
    it always returns [0]. *)
Definition ebtablesRemoveSubChainsQuery (lines : list string)
    (chainprefixes : list ascii) : list virFirewallRule :=
  flat_map (ebtablesRemoveSubChainsQuery_line chainprefixes) lines.

Definition chainprefixes_host : list ascii :=
  [CHAINPREFIX_HOST_IN; CHAINPREFIX_HOST_OUT].

Definition chainprefixes_host_temp : list ascii :=
  [CHAINPREFIX_HOST_IN_TEMP; CHAINPREFIX_HOST_OUT_TEMP].

Definition _ebtablesRemoveSubChainsFW (ifname : string) (chainprefixes : list ascii)
    : list virFirewallRule :=
  flat_map
    (fun prefix =>
       virFirewallAddRuleFull VIR_FIREWALL_LAYER_ETHERNET false
         (Some (CB_ebtablesRemoveSubChainsQuery chainprefixes))
         (FwList (PRINT_ROOT_CHAIN prefix ifname)))
    chainprefixes.

Definition ebtablesRemoveSubChainsFW (ifname : string) : list virFirewallRule :=
  _ebtablesRemoveSubChainsFW ifname chainprefixes_host.

Definition ebtablesRemoveTmpSubChainsFW (ifname : string) : list virFirewallRule :=
  _ebtablesRemoveSubChainsFW ifname chainprefixes_host_temp.

(** *** The transactions of the teardown functions

    Each function starts a transaction with
    [VIR_FIREWALL_TRANSACTION_IGNORE_ERRORS], queues the rules below and
    returns what [virFirewallApply] returns. *)

Definition ebtablesCleanAll_fw (ifname : string) : virFirewall :=
  {| VIR_FIREWALL_TRANSACTION_IGNORE_ERRORS := true;
     fw_rules :=
       ebtablesUnlinkRootChainFW true ifname
       ++ ebtablesUnlinkRootChainFW false ifname
       ++ ebtablesRemoveSubChainsFW ifname
       ++ ebtablesRemoveRootChainFW true ifname
       ++ ebtablesRemoveRootChainFW false ifname
       ++ ebtablesUnlinkTmpRootChainFW true ifname
       ++ ebtablesUnlinkTmpRootChainFW false ifname
       ++ ebtablesRemoveTmpSubChainsFW ifname
       ++ ebtablesRemoveTmpRootChainFW true ifname
       ++ ebtablesRemoveTmpRootChainFW false ifname |}.

Definition ebiptablesTearNewRules_fw (ifname : string) : virFirewall :=
  {| VIR_FIREWALL_TRANSACTION_IGNORE_ERRORS := true;
     fw_rules :=
       iptablesUnlinkTmpRootChainsFW VIR_FIREWALL_LAYER_IPV4 ifname
       ++ iptablesRemoveTmpRootChainsFW VIR_FIREWALL_LAYER_IPV4 ifname
       ++ iptablesUnlinkTmpRootChainsFW VIR_FIREWALL_LAYER_IPV6 ifname
       ++ iptablesRemoveTmpRootChainsFW VIR_FIREWALL_LAYER_IPV6 ifname
       ++ ebtablesUnlinkTmpRootChainFW true ifname
       ++ ebtablesUnlinkTmpRootChainFW false ifname
       ++ ebtablesRemoveTmpSubChainsFW ifname
       ++ ebtablesRemoveTmpRootChainFW true ifname
       ++ ebtablesRemoveTmpRootChainFW false ifname |}.

Definition ebiptablesAllTeardown_fw (ifname : string) : virFirewall :=
  {| VIR_FIREWALL_TRANSACTION_IGNORE_ERRORS := true;
     fw_rules :=
       iptablesUnlinkRootChainsFW VIR_FIREWALL_LAYER_IPV4 ifname
       ++ iptablesClearVirtInPostFW VIR_FIREWALL_LAYER_IPV4 ifname
       ++ iptablesRemoveRootChainsFW VIR_FIREWALL_LAYER_IPV4 ifname
       ++ iptablesUnlinkRootChainsFW VIR_FIREWALL_LAYER_IPV6 ifname
       ++ iptablesClearVirtInPostFW VIR_FIREWALL_LAYER_IPV6 ifname
       ++ iptablesRemoveRootChainsFW VIR_FIREWALL_LAYER_IPV6 ifname
       ++ ebtablesUnlinkRootChainFW true ifname
       ++ ebtablesUnlinkRootChainFW false ifname
       ++ ebtablesRemoveSubChainsFW ifname
       ++ ebtablesRemoveRootChainFW true ifname
       ++ ebtablesRemoveRootChainFW false ifname |}.

(** *** Applying a transaction *)

(** The lines of a command's output ([virStringSplit(output, "\n", -1)]). *)
Fixpoint lines_from (s : string) (cur : string) : list string :=
  match s with
  | EmptyString => [cur]
  | String c rest =>
      if Ascii.eqb c "010" then cur :: lines_from rest ""
      else lines_from rest (cur +:+ String c "")
  end.

Definition output_lines (output : string) : list string := lines_from output "".

Definition run_queryCB (cb : queryCB) (lines : list string) : list virFirewallRule :=
  match cb with
  | CB_ebtablesRemoveSubChainsQuery chainprefixes =>
      ebtablesRemoveSubChainsQuery lines chainprefixes
  end.

(** One rule that was run, with its exit status. *)
Record fw_entry := {
  fe_rule : virFirewallRule;
  fe_status : Z;
}.

(** Modelled from the spec: [virFirewallApply] of [util/virfirewall.c] is not
    among the sources; this is the specification's discrete rule-list
    executor.  It submits the queued rules one at a time, in order; a rule
    that fails stops the run with [-1] unless the rule or its transaction
    says that failures are ignored; the query callback of a rule looks at
    the rule's output and queues further rules behind the ones already
    queued.  [fuel] bounds the number of rules run: [None] when it does not
    suffice. *)
Fixpoint virFirewallApply_rules (fuel : nat) (w : World) (ignoreAll : bool)
    (queue : list virFirewallRule) (log : list fw_entry)
    : option (World * Z * list fw_entry) :=
  match queue with
  | [] => Some (w, 0%Z, log)
  | r :: rest =>
      match fuel with
      | O => None
      | S fuel' =>
          let '(w', (status, output)) := run_fw w (fw_layer r) (fw_rule_args r) in
          let log := log ++ [{| fe_rule := r; fe_status := status |}] in
          if negb (status =? 0)%Z && negb (ignoreAll || fw_ignoreErrors r)
          then Some (w', (-1)%Z, log)
          else
            let added :=
              match fw_queryCB r with
              | Some cb => run_queryCB cb (output_lines output)
              | None => []
              end in
            virFirewallApply_rules fuel' w' ignoreAll (rest ++ added) log
      end
  end.

Definition virFirewallApply (fuel : nat) (w : World) (fw : virFirewall)
    : option (World * Z * list fw_entry) :=
  virFirewallApply_rules fuel w (VIR_FIREWALL_TRANSACTION_IGNORE_ERRORS fw)
    (fw_rules fw) [].

(** [ebiptablesTearNewRules], [ebiptablesAllTeardown] and
    [ebtablesCleanAll]: the world afterwards, the return value and the rules
    that were run. *)
Definition ebiptablesTearNewRules (fuel : nat) (w : World) (ifname : string)
    : option (World * Z * list fw_entry) :=
  virFirewallApply fuel w (ebiptablesTearNewRules_fw ifname).

Definition ebiptablesAllTeardown (fuel : nat) (w : World) (ifname : string)
    : option (World * Z * list fw_entry) :=
  virFirewallApply fuel w (ebiptablesAllTeardown_fw ifname).

Definition ebtablesCleanAll (fuel : nat) (w : World) (ifname : string)
    : option (World * Z * list fw_entry) :=
  virFirewallApply fuel w (ebtablesCleanAll_fw ifname).

(** ** The probes of the initialisation *)

(** [ebiptablesDriverProbeCtdir]: the value it leaves in
    [iptables_ctdir_corrected].  [release] is [utsname.release] after
    [uname], [None] when [uname] fails. *)
Definition ebiptablesDriverProbeCtdir (release : option string) : ctdirStatus :=
  match release with
  | None => CTDIR_STATUS_UNKNOWN
  | Some release =>
      match virParseVersionString release with
      | None => CTDIR_STATUS_UNKNOWN
      | Some thisversion =>
          if (2 * 1000000 + 6 * 1000 + 39 <=? thisversion)%Z
          then CTDIR_STATUS_CORRECTED
          else CTDIR_STATUS_OLD
      end
  end.

(** The driver's variables with [iptables_ctdir_corrected] set. *)
Definition set_ctdir (st : driver_state) (c : ctdirStatus) : driver_state :=
  {| ebtables_cmd_path := ebtables_cmd_path st;
     iptables_cmd_path := iptables_cmd_path st;
     ip6tables_cmd_path := ip6tables_cmd_path st;
     grep_cmd_path := grep_cmd_path st;
     iptables_ctdir_corrected := c;
     m_state_out_str := m_state_out_str st;
     m_state_in_str := m_state_in_str st |}.

(** ** The specification's reading of the teardown *)

(** The names the chains of the temporary generation start with. *)
Definition temp_prefixes : list string :=
  ["libvirt-" +:+ String CHAINPREFIX_HOST_IN_TEMP "";
   "libvirt-" +:+ String CHAINPREFIX_HOST_OUT_TEMP "";
   String CHAINPREFIX_HOST_IN_TEMP "-"; String CHAINPREFIX_HOST_OUT_TEMP "-";
   String "F" (String CHAINPREFIX_HOST_IN_TEMP "-");
   String "F" (String CHAINPREFIX_HOST_OUT_TEMP "-");
   String "H" (String CHAINPREFIX_HOST_IN_TEMP "-")].

Definition temp_chain_name (name : string) : bool :=
  existsb (fun p => String.prefix p name) temp_prefixes.

(** Every chain a command names: the chain it works on and the target of
    its jump. *)
Definition fwcmd_names (c : fwcmd) : list string :=
  match c with
  | FwNewChain chain | FwFlush chain | FwDeleteChain chain | FwList chain => [chain]
  | FwRename old new => [old; new]
  | FwAppendJump chain _ _ target | FwDeleteJump chain _ _ target => [chain; target]
  end.

(** The rules a transaction can come to run: the ones that were queued, and
    the ones the query callback of such a rule adds, whatever the output of
    the rule is. *)
Inductive queued (fw : virFirewall) : virFirewallRule -> Prop :=
| queued_first (r : virFirewallRule) :
    In r (fw_rules fw) -> queued fw r
| queued_by_callback (r r' : virFirewallRule) (cb : queryCB) (lines : list string) :
    queued fw r -> fw_queryCB r = Some cb -> In r' (run_queryCB cb lines) ->
    queued fw r'.

(** A rule that is run with its failure ignored. *)
Definition ignoring (layer : virFirewallLayer) (c : fwcmd) : virFirewallRule :=
  {| fw_layer := layer; fw_ignoreErrors := true; fw_queryCB := None; fw_cmd := c |}.

(** The listing of an ebtables chain whose output the callback searches for
    sub-chains of the given prefixes. *)
Definition listing (chainprefixes : list ascii) (chain : string) : virFirewallRule :=
  {| fw_layer := VIR_FIREWALL_LAYER_ETHERNET; fw_ignoreErrors := false;
     fw_queryCB := Some (CB_ebtablesRemoveSubChainsQuery chainprefixes);
     fw_cmd := FwList chain |}.

(** The transaction can come to unlink the iptables chain from a base
    chain, and to flush and delete it. *)
Definition removes_iptables_chain (fw : virFirewall) (layer : virFirewallLayer)
    (chain : string) : Prop :=
  (exists basechain matches,
      queued fw (ignoring layer (FwDeleteJump basechain matches "-g" chain)))
  /\ queued fw (ignoring layer (FwFlush chain))
  /\ queued fw (ignoring layer (FwDeleteChain chain)).

(** The transaction can come to unlink the ebtables root chain, to list it
    for its sub-chains, and to flush and delete it. *)
Definition removes_ebtables_root (fw : virFirewall) (chainprefixes : list ascii)
    (chain : string) : Prop :=
  (exists basechain matches,
      queued fw (ignoring VIR_FIREWALL_LAYER_ETHERNET
                   (FwDeleteJump basechain matches "-j" chain)))
  /\ queued fw (listing chainprefixes chain)
  /\ queued fw (ignoring VIR_FIREWALL_LAYER_ETHERNET (FwFlush chain))
  /\ queued fw (ignoring VIR_FIREWALL_LAYER_ETHERNET (FwDeleteChain chain)).

(** A line of a listing jumps to a sub-chain of one of the prefixes. *)
Definition jumps_to_subchain (chainprefixes : list ascii) (line name : string) : Prop :=
  after_jump line = Some name
  /\ exists p, In p chainprefixes /\ String.prefix (String p "-") name = true.

(** ** The specification's reading of the rollback of an apply *)

(** The value of the shell variable of a table tool at a point of a
    script: not set by the script so far, or set to a path. *)
Inductive tool_path :=
| Unset
| Path (path : option string).

(** The variables [$EBT] and [$IPT]. *)
Record shell_vars := {
  var_EBT : tool_path;
  var_IPT : tool_path;
}.

Definition no_vars : shell_vars := {| var_EBT := Unset; var_IPT := Unset |}.

Definition set_var (v : shell_vars) (name : string) (path : option string)
    : shell_vars :=
  if String.eqb name "EBT" then {| var_EBT := Path path; var_IPT := var_IPT v |}
  else if String.eqb name "IPT" then {| var_EBT := var_EBT v; var_IPT := Path path |}
  else v.

Definition var_of (v : shell_vars) (t : tool) : tool_path :=
  match t with
  | EBT => var_EBT v
  | IPT => var_IPT v
  end.

(** What a script asks of the table tools, in the order of the script: a
    command, with the tool it is for and the value of the tool's variable
    at that point, or the removal of the ebtables sub-chains that the
    root chains of the given prefixes jump to. *)
Inductive ran :=
| RanCmd (path : tool_path) (t : tool) (c : fwcmd)
| RanRemoveSubChains (path : tool_path) (chains : list ascii) (ifname : string).

(** The commands of rules append to chains that exist, and linking a base
    chain and setting up [libvirt-in-post] work on chains that belong to
    no interface: they create no chain of a generation and no jump to
    one, and are left out. *)
Definition shcmd_ran (v : shell_vars) (c : shcmd) : list ran :=
  match c with
  | ShPlain t c | ShEval _ t c => [RanCmd (var_of v t) t c]
  | ShRemoveSubChains chains ifname => [RanRemoveSubChains (var_of v EBT) chains ifname]
  | ShSetVar _ _ | ShLinkIPTablesBaseChain _ _ _ _ | ShSetupVirtInPost _ => []
  end.

Definition shcmd_vars (v : shell_vars) (c : shcmd) : shell_vars :=
  match c with
  | ShSetVar name path => set_var v name path
  | _ => v
  end.

Fixpoint cmds_ran (v : shell_vars) (cs : list shcmd) : list ran :=
  match cs with
  | [] => []
  | c :: rest => shcmd_ran v c ++ cmds_ran (shcmd_vars v c) rest
  end.

Definition shitem_cmds (i : shitem) : list shcmd :=
  match i with
  | ShCmd c => [c]
  | ShInstChain t => t
  | ShInstRule _ => []
  end.

Definition script_ran (buf : list shitem) : list ran :=
  cmds_ran no_vars (flat_map shitem_cmds buf).

(** [x] stands before [y] in the list. *)
Definition before_in {A : Type} (x y : A) (l : list A) : Prop :=
  exists a b c, l = a ++ x :: b ++ y :: c.




(** The script [R] undoes what the script [S] set up of the temporary
    generation.  A chain of the temporary generation that [S] creates is
    flushed and then deleted by [R], with the same tool; or it is an
    ebtables sub-chain that [S] links from a temporary root chain, and [R]
    removes the sub-chains of the temporary root chains before it flushes
    that root chain.  A jump that [S] appends to a chain outside the
    temporary generation and that leads into it is deleted by [R] before
    [R] flushes its target. *)
Definition rolled_back (ifname : string) (R S : list shitem) : Prop :=
  (forall path t chain,
      In (RanCmd path t (FwNewChain chain)) (script_ran S) ->
      temp_chain_name chain = true ->
      before_in (RanCmd path t (FwFlush chain)) (RanCmd path t (FwDeleteChain chain))
        (script_ran R)
      \/ exists c suffix matches,
           In c [CHAINPREFIX_HOST_IN_TEMP; CHAINPREFIX_HOST_OUT_TEMP]
           /\ t = EBT
           /\ chain = PRINT_CHAIN c ifname suffix
           /\ In (RanCmd path EBT
                    (FwAppendJump (PRINT_ROOT_CHAIN c ifname) matches "-j" chain))
                (script_ran S)
           /\ before_in
                (RanRemoveSubChains path
                   [CHAINPREFIX_HOST_IN_TEMP; CHAINPREFIX_HOST_OUT_TEMP] ifname)
                (RanCmd path EBT (FwFlush (PRINT_ROOT_CHAIN c ifname)))
                (script_ran R))
  /\ (forall path t base matches jump chain,
         In (RanCmd path t (FwAppendJump base matches jump chain)) (script_ran S) ->
         temp_chain_name chain = true ->
         temp_chain_name base = false ->
         before_in (RanCmd path t (FwDeleteJump base matches jump chain))
           (RanCmd path t (FwFlush chain)) (script_ran R)).






(** ** Committing a generation: renaming the temporary chains *)

(** [iptablesRenameTmpRootChainFW] *)
Definition iptablesRenameTmpRootChainFW (layer : virFirewallLayer) (prefix : ascii)
    (incoming : bool) (ifname : string) : list virFirewallRule :=
  let tmpChainPrefix :=
    (prefix, if incoming then CHAINPREFIX_HOST_IN_TEMP else CHAINPREFIX_HOST_OUT_TEMP) in
  let chainPrefix :=
    (prefix, if incoming then CHAINPREFIX_HOST_IN else CHAINPREFIX_HOST_OUT) in
  let tmpchain := PRINT_IPT_ROOT_CHAIN tmpChainPrefix ifname in
  let chain := PRINT_IPT_ROOT_CHAIN chainPrefix ifname in
  virFirewallAddRule layer (FwRename tmpchain chain).

(** [iptablesRenameTmpRootChainsFW] *)
Definition iptablesRenameTmpRootChainsFW (layer : virFirewallLayer) (ifname : string)
    : list virFirewallRule :=
  iptablesRenameTmpRootChainFW layer "F" false ifname
  ++ iptablesRenameTmpRootChainFW layer "F" true ifname
  ++ iptablesRenameTmpRootChainFW layer "H" true ifname.

(** [ebtablesRenameTmpSubChainFW]; [protocol] is [None] for [NULL]. *)
Definition ebtablesRenameTmpSubChainFW (incoming : bool) (ifname : string)
    (protocol : option string) : list virFirewallRule :=
  let tmpChainPrefix :=
    if incoming then CHAINPREFIX_HOST_IN_TEMP else CHAINPREFIX_HOST_OUT_TEMP in
  let chainPrefix := if incoming then CHAINPREFIX_HOST_IN else CHAINPREFIX_HOST_OUT in
  let '(tmpchain, chain) :=
    match protocol with
    | Some protocol =>
        (PRINT_CHAIN tmpChainPrefix ifname protocol,
         PRINT_CHAIN chainPrefix ifname protocol)
    | None =>
        (PRINT_ROOT_CHAIN tmpChainPrefix ifname, PRINT_ROOT_CHAIN chainPrefix ifname)
    end in
  virFirewallAddRule VIR_FIREWALL_LAYER_ETHERNET (FwRename tmpchain chain).

(** [ebtablesRenameTmpRootChainFW] *)
Definition ebtablesRenameTmpRootChainFW (incoming : bool) (ifname : string)
    : list virFirewallRule :=
  ebtablesRenameTmpSubChainFW incoming ifname None.

(** The query callbacks a rule of the commit can carry: the one of the
    teardown functions with its [opaque] argument, and
    [ebtablesRenameTmpSubAndRootChainsQuery], which gets none. *)
Inductive commitCB :=
| CB_teardown (cb : queryCB)
| CB_ebtablesRenameTmpSubAndRootChainsQuery.

(** A queued rule of the commit: the arguments of [virFirewallAddRuleFull]
    as in [virFirewallRule], with the wider choice of callbacks. *)
Record commitRule := {
  cr_layer : virFirewallLayer;
  cr_ignoreErrors : bool;
  cr_queryCB : option commitCB;
  cr_cmd : fwcmd;
}.

(** A rule queued by one of the functions above, as a rule of the commit. *)
Definition commit_rule (r : virFirewallRule) : commitRule :=
  {| cr_layer := fw_layer r; cr_ignoreErrors := fw_ignoreErrors r;
     cr_queryCB := option_map CB_teardown (fw_queryCB r); cr_cmd := fw_cmd r |}.

(** The text a [char] array holds: the characters before the first NUL. *)
Fixpoint c_string (a : list ascii) : string :=
  match a with
  | [] => ""
  | c :: rest => if Ascii.eqb c "000" then "" else String c (c_string rest)
  end.

(** The array after [s] and its terminator were copied to its start. *)
Definition store_string (a : list ascii) (s : string) : list ascii :=
  list_ascii_of_string s ++ ["000"%char] ++ drop (S (String.length s)) a.

(** The loop of [ebtablesRenameTmpSubAndRootChainsQuery]: the rules it adds
    for the lines from [lines[i]] on, with the array [newchain] as the
    iterations before left it.  [virStrcpyStatic] copies into the array
    when the name fits and leaves the array alone when it does not; its
    result is ignored. *)
Fixpoint ebtablesRenameTmpSubAndRootChainsQuery_loop (lines : list string)
    (newchain : list ascii) : list commitRule :=
  match lines with
  | [] => []
  | line :: rest =>
      match after_jump line with
      | None => ebtablesRenameTmpSubAndRootChainsQuery_loop rest newchain
      | Some tmp =>
          let tmp0 := match tmp with String c _ => c | EmptyString => "000"%char end in
          let tmp1 :=
            match tmp with
            | String _ (String c _) => c
            | _ => "000"%char
            end in
          if negb (Ascii.eqb tmp0 CHAINPREFIX_HOST_IN_TEMP)
             && negb (Ascii.eqb tmp0 CHAINPREFIX_HOST_OUT_TEMP)
          then ebtablesRenameTmpSubAndRootChainsQuery_loop rest newchain
          else if negb (Ascii.eqb tmp1 "-")
          then ebtablesRenameTmpSubAndRootChainsQuery_loop rest newchain
          else
            let newchain :=
              match virStrcpy tmp MAX_CHAINNAME_LENGTH with
              | Some copied => store_string newchain copied
              | None => newchain
              end in
            let newchain :=
              if Ascii.eqb (nth 0 newchain "000"%char) CHAINPREFIX_HOST_IN_TEMP
              then <[0%nat := CHAINPREFIX_HOST_IN]> newchain
              else <[0%nat := CHAINPREFIX_HOST_OUT]> newchain in
            [ {| cr_layer := VIR_FIREWALL_LAYER_ETHERNET; cr_ignoreErrors := false;
                 cr_queryCB := Some CB_ebtablesRenameTmpSubAndRootChainsQuery;
                 cr_cmd := FwList tmp |};
              {| cr_layer := VIR_FIREWALL_LAYER_ETHERNET; cr_ignoreErrors := true;
                 cr_queryCB := None; cr_cmd := FwFlush (c_string newchain) |};
              {| cr_layer := VIR_FIREWALL_LAYER_ETHERNET; cr_ignoreErrors := true;
                 cr_queryCB := None; cr_cmd := FwDeleteChain (c_string newchain) |};
              {| cr_layer := VIR_FIREWALL_LAYER_ETHERNET; cr_ignoreErrors := false;
                 cr_queryCB := None; cr_cmd := FwRename tmp (c_string newchain) |} ]
            ++ ebtablesRenameTmpSubAndRootChainsQuery_loop rest newchain
      end
  end.

(** [ebtablesRenameTmpSubAndRootChainsQuery]: the rules it adds to the
    transaction; it always returns [0].  [newchain] is what the array of
    this name holds when the function is entered. *)
Definition ebtablesRenameTmpSubAndRootChainsQuery (lines : list string)
    (newchain : list ascii) : list commitRule :=
  ebtablesRenameTmpSubAndRootChainsQuery_loop lines newchain.

(** [ebtablesRenameTmpSubAndRootChainsFW] *)
Definition ebtablesRenameTmpSubAndRootChainsFW (ifname : string) : list commitRule :=
  flat_map
    (fun c =>
       [ {| cr_layer := VIR_FIREWALL_LAYER_ETHERNET; cr_ignoreErrors := false;
            cr_queryCB := Some CB_ebtablesRenameTmpSubAndRootChainsQuery;
            cr_cmd := FwList (PRINT_ROOT_CHAIN c ifname) |} ])
    [CHAINPREFIX_HOST_IN_TEMP; CHAINPREFIX_HOST_OUT_TEMP]
  ++ map commit_rule (ebtablesRenameTmpRootChainFW true ifname)
  ++ map commit_rule (ebtablesRenameTmpRootChainFW false ifname).

(** The rules [ebiptablesTearOldRules] queues, in a transaction started
    with [VIR_FIREWALL_TRANSACTION_IGNORE_ERRORS]; the function returns
    what [virFirewallApply] returns. *)
Definition ebiptablesTearOldRules_rules (ifname : string) : list commitRule :=
  map commit_rule
    (iptablesUnlinkRootChainsFW VIR_FIREWALL_LAYER_IPV4 ifname
     ++ iptablesRemoveRootChainsFW VIR_FIREWALL_LAYER_IPV4 ifname
     ++ iptablesRenameTmpRootChainsFW VIR_FIREWALL_LAYER_IPV4 ifname
     ++ iptablesUnlinkRootChainsFW VIR_FIREWALL_LAYER_IPV6 ifname
     ++ iptablesRemoveRootChainsFW VIR_FIREWALL_LAYER_IPV6 ifname
     ++ iptablesRenameTmpRootChainsFW VIR_FIREWALL_LAYER_IPV6 ifname
     ++ ebtablesUnlinkRootChainFW true ifname
     ++ ebtablesUnlinkRootChainFW false ifname
     ++ ebtablesRemoveSubChainsFW ifname
     ++ ebtablesRemoveRootChainFW true ifname
     ++ ebtablesRemoveRootChainFW false ifname)
  ++ ebtablesRenameTmpSubAndRootChainsFW ifname.

(** What a callback of the commit adds for the lines of a listing. *)
Definition run_commitCB (cb : commitCB) (lines : list string) (newchain : list ascii)
    : list commitRule :=
  match cb with
  | CB_teardown cb => map commit_rule (run_queryCB cb lines)
  | CB_ebtablesRenameTmpSubAndRootChainsQuery =>
      ebtablesRenameTmpSubAndRootChainsQuery lines newchain
  end.

(** The rules a commit can come to run: the ones that were queued, and the
    ones a callback of such a rule adds, whatever the output of the rule is
    and whatever the array [newchain] of the callback holds at first. *)
Inductive commit_queued (first : list commitRule) : commitRule -> Prop :=
| commit_queued_first (r : commitRule) :
    In r first -> commit_queued first r
| commit_queued_by_callback (r r' : commitRule) (cb : commitCB)
    (lines : list string) (newchain : list ascii) :
    commit_queued first r -> cr_queryCB r = Some cb ->
    length newchain = MAX_CHAINNAME_LENGTH ->
    In r' (run_commitCB cb lines newchain) ->
    commit_queued first r'.

(** The name of the active generation that a name of the temporary
    generation is renamed to: [J] becomes [I] and every other first
    character [O]. *)
Definition active_name_of (tmp : string) : string :=
  match tmp with
  | String c rest =>
      String (if Ascii.eqb c CHAINPREFIX_HOST_IN_TEMP
              then CHAINPREFIX_HOST_IN else CHAINPREFIX_HOST_OUT) rest
  | EmptyString => ""
  end.

(** What the renaming callback adds for one line whose chain name fits the
    array: the chain is listed for its own sub-chains, a chain that has the
    new name is flushed and deleted, and the chain is renamed. *)
Definition rename_rules_of_line (line : string) : list commitRule :=
  match after_jump line with
  | Some (String c0 (String c1 rest) as tmp) =>
      if (Ascii.eqb c0 CHAINPREFIX_HOST_IN_TEMP || Ascii.eqb c0 CHAINPREFIX_HOST_OUT_TEMP)
         && Ascii.eqb c1 "-"
      then
        [ {| cr_layer := VIR_FIREWALL_LAYER_ETHERNET; cr_ignoreErrors := false;
             cr_queryCB := Some CB_ebtablesRenameTmpSubAndRootChainsQuery;
             cr_cmd := FwList tmp |};
          {| cr_layer := VIR_FIREWALL_LAYER_ETHERNET; cr_ignoreErrors := true;
             cr_queryCB := None; cr_cmd := FwFlush (active_name_of tmp) |};
          {| cr_layer := VIR_FIREWALL_LAYER_ETHERNET; cr_ignoreErrors := true;
             cr_queryCB := None; cr_cmd := FwDeleteChain (active_name_of tmp) |};
          {| cr_layer := VIR_FIREWALL_LAYER_ETHERNET; cr_ignoreErrors := false;
             cr_queryCB := None; cr_cmd := FwRename tmp (active_name_of tmp) |} ]
      else []
  | _ => []
  end.

(** The chain name a line of a listing jumps to, if it has one, is a C
    string (it holds no NUL) and fits an array of [MAX_CHAINNAME_LENGTH]
    characters. *)
Definition jump_target_fits (line : string) : Prop :=
  forall tmp, after_jump line = Some tmp ->
              c_string (list_ascii_of_string tmp) = tmp
              /\ (String.length tmp < MAX_CHAINNAME_LENGTH)%nat.

(** What a command of the commit may do: remove a jump to a chain, flush or
    delete a chain that is not of the temporary generation, rename a chain
    of the temporary generation to a name that is not of it, or list a
    chain.  It creates no chain and appends no rule. *)
Definition commit_cmd_ok (c : fwcmd) : Prop :=
  match c with
  | FwFlush chain | FwDeleteChain chain => temp_chain_name chain = false
  | FwDeleteJump _ _ _ target => temp_chain_name target = false
  | FwRename old new => temp_chain_name old = true /\ temp_chain_name new = false
  | FwList _ => True
  | FwNewChain _ | FwAppendJump _ _ _ _ => False
  end.

(** A renaming that stops the transaction when it fails. *)
Definition renaming (layer : virFirewallLayer) (old new : string) : commitRule :=
  {| cr_layer := layer; cr_ignoreErrors := false; cr_queryCB := None;
     cr_cmd := FwRename old new |}.
(** ** The basic rule sets

    [ebtablesApplyBasicRules], [ebtablesApplyDHCPOnlyRules] and
    [ebtablesApplyDropAllRules] first call [ebiptablesAllTeardown], then
    queue the rules below in a transaction that does not ignore errors and
    hand it to [virFirewallApply]; when that fails they call
    [ebtablesCleanAll] and return [-1]. *)

(** [ebiptablesCanApplyBasicRules] *)
Definition ebiptablesCanApplyBasicRules (st : driver_state) : bool :=
  bool_decide (ebtables_cmd_path st <> None).

(** [ebtablesCreateTmpRootChainFW] *)
Definition ebtablesCreateTmpRootChainFW (incoming : bool) (ifname : string)
    : list virFirewallRule :=
  let chainPrefix :=
    if incoming then CHAINPREFIX_HOST_IN_TEMP else CHAINPREFIX_HOST_OUT_TEMP in
  let chain := PRINT_ROOT_CHAIN chainPrefix ifname in
  virFirewallAddRule VIR_FIREWALL_LAYER_ETHERNET (FwNewChain chain).

(** [ebtablesLinkTmpRootChainFW] *)
Definition ebtablesLinkTmpRootChainFW (incoming : bool) (ifname : string)
    : list virFirewallRule :=
  let chainPrefix :=
    if incoming then CHAINPREFIX_HOST_IN_TEMP else CHAINPREFIX_HOST_OUT_TEMP in
  let chain := PRINT_ROOT_CHAIN chainPrefix ifname in
  virFirewallAddRule VIR_FIREWALL_LAYER_ETHERNET
    (FwAppendJump
       (if incoming then EBTABLES_CHAIN_INCOMING else EBTABLES_CHAIN_OUTGOING)
       [(if incoming then "-i" else "-o"); ifname] "-j" chain).

(** The transaction of [ebtablesApplyBasicRules] *)
Definition ebtablesApplyBasicRules_fw (ifname : string) (macaddr : virMacAddr)
    : virFirewall :=
  let chainPrefix := CHAINPREFIX_HOST_IN_TEMP in
  let macaddr_str := virMacAddrFormat macaddr in
  let chain := PRINT_ROOT_CHAIN chainPrefix ifname in
  {| VIR_FIREWALL_TRANSACTION_IGNORE_ERRORS := false;
     fw_rules :=
       ebtablesCreateTmpRootChainFW true ifname
       ++ virFirewallAddRule VIR_FIREWALL_LAYER_ETHERNET
            (FwAppendJump chain ["-s"; "!"; macaddr_str] "-j" "DROP")
       ++ virFirewallAddRule VIR_FIREWALL_LAYER_ETHERNET
            (FwAppendJump chain ["-p"; "IPv4"] "-j" "ACCEPT")
       ++ virFirewallAddRule VIR_FIREWALL_LAYER_ETHERNET
            (FwAppendJump chain ["-p"; "ARP"] "-j" "ACCEPT")
       ++ virFirewallAddRule VIR_FIREWALL_LAYER_ETHERNET
            (FwAppendJump chain [] "-j" "DROP")
       ++ ebtablesLinkTmpRootChainFW true ifname
       ++ ebtablesRenameTmpRootChainFW true ifname |}.

(** The two rules one iteration of the [while] loop of
    [ebtablesApplyDHCPOnlyRules] adds: the [for] loop over [ctr]. *)
Definition dhcp_reply_rules (chain_out macaddr_str : string)
    (dhcpserver : option string) : list virFirewallRule :=
  flat_map
    (fun ctr : nat =>
       let dst := if (ctr =? 0)%nat then macaddr_str else "ff:ff:ff:ff:ff:ff" in
       match dhcpserver with
       | Some dhcpserver =>
           virFirewallAddRule VIR_FIREWALL_LAYER_ETHERNET
             (FwAppendJump chain_out
                ["-d"; dst; "-p"; "ipv4"; "--ip-protocol"; "udp";
                 "--ip-src"; dhcpserver; "--ip-sport"; "67"; "--ip-dport"; "68"]
                "-j" "ACCEPT")
       | None =>
           virFirewallAddRule VIR_FIREWALL_LAYER_ETHERNET
             (FwAppendJump chain_out
                ["-d"; dst; "-p"; "ipv4"; "--ip-protocol"; "udp";
                 "--ip-sport"; "67"; "--ip-dport"; "68"]
                "-j" "ACCEPT")
       end)
    [0%nat; 1%nat].

(** The [while (true)] loop of [ebtablesApplyDHCPOnlyRules] from the
    iteration with the given [idx] on.  [dhcpsrvrs] is the list of the
    values of the variable, empty for [NULL]; [left] bounds the iterations
    that can follow this one and is [num_dhcpsrvrs - idx] at every
    iteration, so it runs out only where the loop breaks. *)
Fixpoint dhcp_servers_loop (left : nat) (idx : nat) (chain_out macaddr_str : string)
    (dhcpsrvrs : list string) : list virFirewallRule :=
  let num_dhcpsrvrs := length dhcpsrvrs in
  let dhcpserver :=
    if (idx <? num_dhcpsrvrs)%nat then nth_error dhcpsrvrs idx else None in
  dhcp_reply_rules chain_out macaddr_str dhcpserver
  ++ match left with
     | O => []
     | S left' =>
         let idx := S idx in
         if (num_dhcpsrvrs <=? idx)%nat then []
         else dhcp_servers_loop left' idx chain_out macaddr_str dhcpsrvrs
     end.

(** The transaction of [ebtablesApplyDHCPOnlyRules] *)
Definition ebtablesApplyDHCPOnlyRules_fw (ifname : string) (macaddr : virMacAddr)
    (dhcpsrvrs : list string) (leaveTemporary : bool) : virFirewall :=
  let macaddr_str := virMacAddrFormat macaddr in
  let chain_in := PRINT_ROOT_CHAIN CHAINPREFIX_HOST_IN_TEMP ifname in
  let chain_out := PRINT_ROOT_CHAIN CHAINPREFIX_HOST_OUT_TEMP ifname in
  {| VIR_FIREWALL_TRANSACTION_IGNORE_ERRORS := false;
     fw_rules :=
       ebtablesCreateTmpRootChainFW true ifname
       ++ ebtablesCreateTmpRootChainFW false ifname
       ++ virFirewallAddRule VIR_FIREWALL_LAYER_ETHERNET
            (FwAppendJump chain_in
               ["-s"; macaddr_str; "-p"; "ipv4"; "--ip-protocol"; "udp";
                "--ip-sport"; "68"; "--ip-dport"; "67"]
               "-j" "ACCEPT")
       ++ virFirewallAddRule VIR_FIREWALL_LAYER_ETHERNET
            (FwAppendJump chain_in [] "-j" "DROP")
       ++ dhcp_servers_loop (length dhcpsrvrs) 0 chain_out macaddr_str dhcpsrvrs
       ++ virFirewallAddRule VIR_FIREWALL_LAYER_ETHERNET
            (FwAppendJump chain_out [] "-j" "DROP")
       ++ ebtablesLinkTmpRootChainFW true ifname
       ++ ebtablesLinkTmpRootChainFW false ifname
       ++ (if negb leaveTemporary
           then ebtablesRenameTmpRootChainFW true ifname
                ++ ebtablesRenameTmpRootChainFW false ifname
           else []) |}.

(** The transaction of [ebtablesApplyDropAllRules] *)
Definition ebtablesApplyDropAllRules_fw (ifname : string) : virFirewall :=
  let chain_in := PRINT_ROOT_CHAIN CHAINPREFIX_HOST_IN_TEMP ifname in
  let chain_out := PRINT_ROOT_CHAIN CHAINPREFIX_HOST_OUT_TEMP ifname in
  {| VIR_FIREWALL_TRANSACTION_IGNORE_ERRORS := false;
     fw_rules :=
       ebtablesCreateTmpRootChainFW true ifname
       ++ ebtablesCreateTmpRootChainFW false ifname
       ++ virFirewallAddRule VIR_FIREWALL_LAYER_ETHERNET
            (FwAppendJump chain_in [] "-j" "DROP")
       ++ virFirewallAddRule VIR_FIREWALL_LAYER_ETHERNET
            (FwAppendJump chain_out [] "-j" "DROP")
       ++ ebtablesLinkTmpRootChainFW true ifname
       ++ ebtablesLinkTmpRootChainFW false ifname
       ++ ebtablesRenameTmpRootChainFW true ifname
       ++ ebtablesRenameTmpRootChainFW false ifname |}.

(** *** Readings of a basic rule set *)

(** The rules of a transaction that append to the given chain, in order:
    their matchers and their target. *)
Definition appended_to (chain : string) (rules : list virFirewallRule)
    : list (list string * string) :=
  flat_map
    (fun r =>
       match fw_cmd r with
       | FwAppendJump c matches _ target =>
           if String.eqb c chain then [(matches, target)] else []
       | _ => []
       end)
    rules.

(** The position of the first rule of the transaction with the given
    command, if there is one. *)
Fixpoint position_of (cmd : fwcmd -> bool) (rules : list virFirewallRule) : option nat :=
  match rules with
  | [] => None
  | r :: rest =>
      if cmd (fw_cmd r) then Some 0%nat else option_map S (position_of cmd rest)
  end.

(** The position of the last rule of the transaction with the given
    command, if there is one. *)
Fixpoint last_position_of (cmd : fwcmd -> bool) (rules : list virFirewallRule)
    : option nat :=
  match rules with
  | [] => None
  | r :: rest =>
      match last_position_of cmd rest with
      | Some n => Some (S n)
      | None => if cmd (fw_cmd r) then Some 0%nat else None
      end
  end.

Definition creates_chain (chain : string) (c : fwcmd) : bool :=
  match c with
  | FwNewChain c => String.eqb c chain
  | _ => false
  end.

Definition appends_to_chain (chain : string) (c : fwcmd) : bool :=
  match c with
  | FwAppendJump c _ _ _ => String.eqb c chain
  | _ => false
  end.

Definition jumps_to_chain (chain : string) (c : fwcmd) : bool :=
  match c with
  | FwAppendJump _ _ _ target => String.eqb target chain
  | _ => false
  end.

Definition renames_chain (chain : string) (c : fwcmd) : bool :=
  match c with
  | FwRename old _ => String.eqb old chain
  | _ => false
  end.

(** [a] is a position and comes before [b], if [b] is one. *)
Definition comes_before (a b : option nat) : Prop :=
  match a, b with
  | Some a, Some b => (a < b)%nat
  | Some _, None => True
  | None, _ => False
  end.

(** The chain is set up in stages: it is created, then filled with rules
    the last of which drops whatever reaches it, then linked to a chain of
    the system, and renamed, if at all, after that. *)
Definition chain_staged (chain : string) (rules : list virFirewallRule) : Prop :=
  comes_before (position_of (creates_chain chain) rules)
               (position_of (appends_to_chain chain) rules)
  /\ comes_before (last_position_of (appends_to_chain chain) rules)
                  (position_of (jumps_to_chain chain) rules)
  /\ comes_before (position_of (jumps_to_chain chain) rules)
                  (position_of (renames_chain chain) rules)
  /\ exists before, appended_to chain rules = before ++ [([], "DROP")].

(** The replies of DHCP servers that the rule set lets through: for each
    server (or for any server, [None]) one rule for replies to the
    interface's address and one for replies to the broadcast address. *)
Definition dhcp_replies_from (macaddr_str : string) (servers : list (option string))
    : list (list string * string) :=
  flat_map
    (fun server =>
       map (fun dst =>
              (["-d"; dst; "-p"; "ipv4"; "--ip-protocol"; "udp"]
               ++ match server with
                  | Some s => ["--ip-src"; s]
                  | None => []
                  end
               ++ ["--ip-sport"; "67"; "--ip-dport"; "68"], "ACCEPT"))
           [macaddr_str; "ff:ff:ff:ff:ff:ff"])
    servers.

(** The rules of a transaction that are run by [ebtables]. *)
Definition ethernet_rules (rules : list virFirewallRule) : list virFirewallRule :=
  List.filter
    (fun r => match fw_layer r with
              | VIR_FIREWALL_LAYER_ETHERNET => true
              | _ => false
              end)
    rules.

(** The first rule of the transaction that fails stops it: neither the
    transaction nor any of its rules ignores a failure. *)
Definition stops_at_first_failure (fw : virFirewall) : Prop :=
  VIR_FIREWALL_TRANSACTION_IGNORE_ERRORS fw = false
  /\ Forall (fun r => fw_ignoreErrors r = false) (fw_rules fw).
(** ** Readings of the rule compiler *)

(** The word of position [ctr] in the flags of an ipset matcher: the side
    the flag names, with the two sides exchanged for a leg that is compiled
    inbound. *)
Definition ipset_flag_word (item : nwItemDesc) (directionIn : bool) (ctr : nat) : string :=
  if xorb (has_flag (u_ipset_flags item) (Z.shiftl 1 (Z.of_nat ctr))) directionIn
  then "src" else "dst".

(** The words with the separator between them. *)
Fixpoint join_with (sep : string) (ws : list string) : string :=
  match ws with
  | [] => ""
  | [w] => w
  | w :: rest => w +:+ sep +:+ join_with sep rest
  end.

(** The jump target of a command of the IP layer: the target the caller
    chose for an accepted packet, and the action's own target for every
    other action. *)
Definition iptables_target (rule : virNWFilterRuleDef) (accept_target : string) : string :=
  match def_action rule with
  | VIR_NWFILTER_RULE_ACTION_ACCEPT => accept_target
  | a => virNWFilterJumpTargetTypeToString a
  end.

(** A leg of a rule with state flags: what [printStateMatchFlags] gives for
    the flags is its state match (none when it gives [NULL]), and the
    direction qualifier is not added. *)
Definition flags_leg (st : driver_state) (rule : virNWFilterRuleDef)
    (ifname : string) (vars : virNWFilterVarCombIter) (isIPv6 : bool)
    (directionIn : bool) (chainPrefix : ascii * ascii) (accept_target : string)
    (maySkipICMP : bool) (templates : list string) : Z * list string :=
  _iptablesCreateRuleInstance st directionIn chainPrefix rule ifname vars
    (printStateMatchFlags (def_flags rule)) false accept_target isIPv6
    maySkipICMP templates.

(** The number of commands a rule of the bridge layer is compiled to. *)
Definition ebtables_legs (tt : virNWFilterRuleDirectionType) : nat :=
  match tt with
  | VIR_NWFILTER_RULE_DIRECTION_INOUT => 2
  | VIR_NWFILTER_RULE_DIRECTION_IN | VIR_NWFILTER_RULE_DIRECTION_OUT => 1
  | VIR_NWFILTER_RULE_DIRECTION_LAST => 0
  end.

(** The result of a compiling function that was handed [templates]: it
    returns [0] or [-1] and has added at most [n] commands. *)
Definition grows (n : nat) (templates : list string) (r : Z * list string) : Prop :=
  (fst r = 0%Z \/ fst r = (-1)%Z)
  /\ exists added, snd r = templates ++ added /\ (length added <= n)%nat.

(** A three-way comparison that [qsort] can sort with, on the values that
    satisfy [P]: a value equals itself, exchanging the arguments exchanges
    the sign, and "not after" is transitive. *)
Definition consistent_comparator {A : Type} (P : A -> Prop) (cmp : A -> A -> Z) : Prop :=
  (forall a, P a -> cmp a a = 0%Z)
  /\ (forall a b, P a -> P b -> (cmp a b < 0)%Z <-> (0 < cmp b a)%Z)
  /\ (forall a b c, P a -> P b -> P c ->
                    (cmp a b <= 0)%Z -> (cmp b c <= 0)%Z -> (cmp a c <= 0)%Z).

(** The protocol's name is where the name of the chain starts. *)
Definition names_protocol (filtername : string) (idx : l3_proto_idx) : Prop :=
  exists val, l3_protocols_val idx = Some val /\ STRPREFIX filtername val = true.

(** ** The state match and the direction qualifier of a leg *)

(** The driver's variables with the two state match texts set. *)
Definition set_state_match (st : driver_state) (out_str in_str : string)
    : driver_state :=
  {| ebtables_cmd_path := ebtables_cmd_path st;
     iptables_cmd_path := iptables_cmd_path st;
     ip6tables_cmd_path := ip6tables_cmd_path st;
     grep_cmd_path := grep_cmd_path st;
     iptables_ctdir_corrected := iptables_ctdir_corrected st;
     m_state_out_str := out_str;
     m_state_in_str := in_str |}.

(** [ebiptablesDriverProbeStateMatch]: the world and the driver's variables
    after it.  The script is run with its status checked; [version] points
    at the first [v] of the output. *)
Definition ebiptablesDriverProbeStateMatch (st : driver_state) (w : World)
    : World * driver_state :=
  let buf := render_script (NWFILTER_SET_IPTABLES_SHELLVAR st) +:+ "$IPT --version" in
  let '(w', (status, cmdout)) := run_sh w buf in
  if negb (status =? 0)%Z then (w', st)
  else
    match index 0 "v" cmdout with
    | None => (w', st)
    | Some i =>
        let version := substring (S i) (String.length cmdout - S i) cmdout in
        match virParseVersionString version with
        | None => (w', st)
        | Some thisversion =>
            if (1 * 1000000 + 4 * 1000 + 16 <=? thisversion)%Z
            then (w', set_state_match st m_state_out_str_new m_state_in_str_new)
            else (w', st)
        end
    end.

(** The state match texts are the ones the file starts with
    ([newer] is [false]) or the ones [ebiptablesDriverProbeStateMatch]
    replaces them with ([newer] is [true]). *)
Definition state_match_is (newer : bool) (st : driver_state) : Prop :=
  m_state_out_str st = (if newer then m_state_out_str_new else m_state_out_str_old)
  /\ m_state_in_str st = (if newer then m_state_in_str_new else m_state_in_str_old).


(** The rule limits the number of connections. *)
Definition has_connlimit (rule : virNWFilterRuleDef) : bool :=
  match l3_ipHdr rule with
  | Some h => HAS_ENTRY_ITEM (dataConnlimitAbove h)
  | None => false
  end.

(** The rule is an ICMP or ICMPv6 rule that matches the type. *)
Definition has_icmp_type (rule : virNWFilterRuleDef) : bool :=
  match def_prtclType rule with
  | VIR_NWFILTER_RULE_PROTOCOL_ICMP | VIR_NWFILTER_RULE_PROTOCOL_ICMPV6 =>
      HAS_ENTRY_ITEM (icmp_dataICMPType (icmpHdrFilter (def_p rule)))
  | _ => false
  end.

(** The rule has the action accept. *)
Definition is_accept (rule : virNWFilterRuleDef) : bool :=
  match def_action rule with
  | VIR_NWFILTER_RULE_ACTION_ACCEPT => true
  | _ => false
  end.

(** The rule is for both directions. *)
Definition is_inout (rule : virNWFilterRuleDef) : bool :=
  match def_tt rule with
  | VIR_NWFILTER_RULE_DIRECTION_INOUT => true
  | _ => false
  end.

(** A leg that was handed a match leaves it out of its command: a rule with
    the action accept when it limits the number of connections, a rule with
    another action when the match is the automatic one. *)
Definition leg_skips_match (rule : virNWFilterRuleDef) (defMatch : bool) : bool :=
  if is_accept rule then has_connlimit rule else defMatch.

(** The direction qualifier for a leg compiled in the given direction, by
    what the probe of the kernel found: nothing when it found nothing or the
    rule is for both directions; [Original] for a leg compiled inbound and
    [Reply] for one compiled outbound with the old semantics, and the other
    way round with the corrected ones. *)
Definition ctdir_qualifier (c : ctdirStatus) (directionIn : bool)
    (rule : virNWFilterRuleDef) : string :=
  if is_inout rule then ""
  else
    match c with
    | CTDIR_STATUS_UNKNOWN => ""
    | CTDIR_STATUS_CORRECTED =>
        " -m conntrack --ctdir " +:+ (if directionIn then "Reply" else "Original")
    | CTDIR_STATUS_OLD =>
        " -m conntrack --ctdir " +:+ (if directionIn then "Original" else "Reply")
    end.

(** The leg's command has the direction qualifier: it was handed the
    automatic match and does not leave it out, and the rule does not match
    the ICMP type. *)
Definition leg_is_qualified (rule : virNWFilterRuleDef) (match_ : option string)
    (defMatch : bool) : bool :=
  defMatch && bool_decide (match_ <> None) && negb (leg_skips_match rule defMatch)
  && negb (has_icmp_type rule).

(** The match in a leg's command: the match it was handed, unless it
    leaves it out. *)
Definition leg_match_text (rule : virNWFilterRuleDef) (match_ : option string)
    (defMatch : bool) : string :=
  match match_ with
  | None => ""
  | Some m => if leg_skips_match rule defMatch then "" else " " +:+ m
  end.

(** What a leg writes between its matchers and what follows the state
    match: the match and the direction qualifier. *)
Definition leg_state_text (c : ctdirStatus) (directionIn : bool)
    (rule : virNWFilterRuleDef) (match_ : option string) (defMatch : bool) : string :=
  leg_match_text rule match_ defMatch
  +:+ (if leg_is_qualified rule match_ defMatch
       then ctdir_qualifier c directionIn rule else "").

(** The end of every command of a leg: the jump to the target and the line
    that executes the command. *)
Definition leg_command_end (rule : virNWFilterRuleDef) (accept_target : string)
    : string :=
  " -j " +:+ iptables_target rule accept_target +:+ CMD_DEF_POST +:+ CMD_SEPARATOR
  +:+ CMD_EXEC.

(** The tool the leg needs. *)
Definition leg_tool (st : driver_state) (isIPv6 : bool) : option string :=
  if isIPv6 then ip6tables_cmd_path st else iptables_cmd_path st.

(** The rule has no matcher at all. *)
Definition no_matchers (rule : virNWFilterRuleDef) : Prop :=
  exists srcMac others,
    l3_matchers rule = Some (srcMac, others)
    /\ HAS_ENTRY_ITEM srcMac = false
    /\ forallb (fun i => negb (HAS_ENTRY_ITEM i)) others = true.

(** ** Which tool a script runs *)

(** The piece of a script sets or runs the tool of the bridge layer,
    [$EBT], and no tool of the IP layers. *)
Definition shcmd_is_ebtables (c : shcmd) : bool :=
  match c with
  | ShSetVar name _ => String.eqb name "EBT"
  | ShPlain t _ | ShEval _ t _ =>
      match t with
      | EBT => true
      | IPT => false
      end
  | ShRemoveSubChains _ _ => true
  | ShLinkIPTablesBaseChain _ _ _ _ | ShSetupVirtInPost _ => false
  end.

(** The text of a rule's command template is a command of [$EBT] that
    appends a rule. *)
Definition ebtables_rule_text (cmdstr : string) : Prop :=
  exists rest, cmdstr = CMD_DEF_PRE +:+ "$EBT -t nat -A " +:+ rest.

Definition item_is_ebtables (i : shitem) : Prop :=
  match i with
  | ShCmd c => shcmd_is_ebtables c = true
  | ShInstChain t => forallb shcmd_is_ebtables t = true
  | ShInstRule cmdstr => ebtables_rule_text cmdstr
  end.

(** A script of the bridge layer: it starts with the line that sets
    [$EBT], and every piece of it is one of the bridge layer. *)
Definition ebtables_script (st : driver_state) (buf : list shitem) : Prop :=
  (exists rest, buf = NWFILTER_SET_EBTABLES_SHELLVAR st ++ rest)
  /\ Forall item_is_ebtables buf.

(** The rule compiled for one position of the iterator of a rule. *)
Definition compiled_at (st : driver_state) (ifname : string)
    (rule : virNWFilterRuleInst) (tmp : virNWFilterVarCombIter) : Z * list string :=
  ebiptablesCreateRuleInstance st (chainSuffix rule) (def rule) ifname tmp.

(** The commands that create a sub-chain are commands of the bridge
    layer. *)
Definition chain_is_ebtables (c : ebiptablesRuleInst) : Prop :=
  item_is_ebtables (ShInstChain (commandTemplate c)).

(** Every script that was run so far is one of the bridge layer, and there
    were at most [n] of them. *)
Definition bridge_trace (st : driver_state) (n : nat) (s : run_state) : Prop :=
  Forall (fun e => ebtables_script st (ex_script e)) (snd s)
  /\ (length (snd s) <= n)%nat.
End Embedding.

(** ** A concrete environment

    One instance of [Externals], used to run the embedding on concrete
    inputs: the constants have the values of the headers, addresses are
    given by their text, a copy into a buffer fails when the text and its
    terminator do not fit, an iterator position is the list of variable
    bindings it stands for, and the world is a script of canned answers
    with a log of what was run. *)

(** Insertion sort by a three-way comparison, standing for [qsort]. *)
Fixpoint isort_insert {A : Type} (cmp : A -> A -> Z) (x : A) (l : list A) : list A :=
  match l with
  | [] => [x]
  | y :: l' => if (cmp x y <=? 0)%Z then x :: l else y :: isort_insert cmp x l'
  end.

Fixpoint isort {A : Type} (cmp : A -> A -> Z) (l : list A) : list A :=
  match l with
  | [] => []
  | x :: l' => isort_insert cmp x (isort cmp l')
  end.

(** The names a set of flag bits stands for, separated by commas. *)
Fixpoint flag_names (names : list (Z * string)) (flags : Z) (first : bool) : string :=
  match names with
  | [] => ""
  | (bit, name) :: rest =>
      if negb (Z.land flags bit =? 0)%Z
      then (if first then "" else ",") +:+ name +:+ flag_names rest flags false
      else flag_names rest flags first
  end.

Definition tcp_flag_names : list (Z * string) :=
  [(1, "FIN"); (2, "SYN"); (4, "RST"); (8, "PSH"); (16, "ACK"); (32, "URG")]%Z.

Definition state_flag_names : list (Z * string) :=
  [(2, "NEW"); (4, "ESTABLISHED"); (8, "RELATED"); (16, "INVALID"); (32, "NONE")]%Z.

Definition lookup_binding (b : list (string * string)) (k : string) : option string :=
  match List.find (fun kv => String.eqb (fst kv) k) b with
  | Some kv => Some (snd kv)
  | None => None
  end.

(** The world of the concrete environment: what was run so far, and the
    answers (exit status and output) the next commands will get; a command
    run after the answers are used up succeeds with no output. *)
Record cworld := {
  cw_log : list string;
  cw_answers : list (Z * string);
}.

Definition cw_run (w : cworld) (what : string) : cworld * (Z * string) :=
  match cw_answers w with
  | [] => ({| cw_log := cw_log w ++ [what]; cw_answers := [] |}, (0%Z, ""))
  | a :: rest => ({| cw_log := cw_log w ++ [what]; cw_answers := rest |}, a)
  end.

Definition layer_tool (layer : virFirewallLayer) : string :=
  match layer with
  | VIR_FIREWALL_LAYER_ETHERNET => "ebtables"
  | VIR_FIREWALL_LAYER_IPV4 => "iptables"
  | VIR_FIREWALL_LAYER_IPV6 => "ip6tables"
  end.

Definition concrete_versions : list (string * Z) :=
  [("2.6.38", 2006038); ("2.6.39", 2006039); ("5.10.0", 5010000)]%Z.

Definition concrete : Externals := {|
  virSocketAddr := string;
  virMacAddr := string;
  virNWFilterVarAccess := string;
  virNWFilterVarCombIter := list (string * string);
  virNWFilterHashTable := list (list (string * string));
  World := cworld;
  IPTABLES_MAX_COMMENT_LENGTH := 256;
  MAX_CHAINNAME_LENGTH := 32;
  MAX_IPSET_NAME_LENGTH := 32;
  VIR_MAC_STRING_BUFLEN := 18;
  INET_ADDRSTRLEN := 16;
  INET6_ADDRSTRLEN := 46;
  INT_BUFSIZE_BOUND_MAX := 12;
  NWFILTER_ENTRY_ITEM_FLAG_EXISTS := 1;
  NWFILTER_ENTRY_ITEM_FLAG_IS_NEG := 2;
  NWFILTER_ENTRY_ITEM_FLAG_HAS_VAR := 4;
  RULE_FLAG_NO_STATEMATCH := 1;
  IPTABLES_STATE_FLAGS := 62;
  NWFILTER_MAC_BGA := "01:80:c2:00:00:00";
  ETHERTYPE_IP := 2048;
  ETHERTYPE_IPV6 := 34525;
  ETHERTYPE_ARP := 2054;
  ETHERTYPE_REVARP := 32821;
  ETHERTYPE_VLAN := 33024;
  virNWFilterChainSuffixTypeToString_ROOT := "root";
  virNWFilterJumpTargetTypeToString := fun a =>
    match a with
    | VIR_NWFILTER_RULE_ACTION_DROP => "DROP"
    | VIR_NWFILTER_RULE_ACTION_ACCEPT => "ACCEPT"
    | VIR_NWFILTER_RULE_ACTION_REJECT => "REJECT"
    | VIR_NWFILTER_RULE_ACTION_RETURN => "RETURN"
    | VIR_NWFILTER_RULE_ACTION_CONTINUE => "CONTINUE"
    | VIR_NWFILTER_RULE_ACTION_LAST => "(null)"
    end;
  virNWFilterRuleIsProtocolEthernet := fun p =>
    match p with
    | VIR_NWFILTER_RULE_PROTOCOL_NONE | VIR_NWFILTER_RULE_PROTOCOL_MAC
    | VIR_NWFILTER_RULE_PROTOCOL_VLAN | VIR_NWFILTER_RULE_PROTOCOL_STP
    | VIR_NWFILTER_RULE_PROTOCOL_ARP | VIR_NWFILTER_RULE_PROTOCOL_RARP
    | VIR_NWFILTER_RULE_PROTOCOL_IP | VIR_NWFILTER_RULE_PROTOCOL_IPV6 => true
    | _ => false
    end;
  virNWFilterRuleIsProtocolIPv4 := fun p =>
    match p with
    | VIR_NWFILTER_RULE_PROTOCOL_TCP | VIR_NWFILTER_RULE_PROTOCOL_ICMP
    | VIR_NWFILTER_RULE_PROTOCOL_IGMP | VIR_NWFILTER_RULE_PROTOCOL_UDP
    | VIR_NWFILTER_RULE_PROTOCOL_UDPLITE | VIR_NWFILTER_RULE_PROTOCOL_ESP
    | VIR_NWFILTER_RULE_PROTOCOL_AH | VIR_NWFILTER_RULE_PROTOCOL_SCTP
    | VIR_NWFILTER_RULE_PROTOCOL_ALL => true
    | _ => false
    end;
  virNWFilterRuleIsProtocolIPv6 := fun p =>
    match p with
    | VIR_NWFILTER_RULE_PROTOCOL_TCPoIPV6 | VIR_NWFILTER_RULE_PROTOCOL_ICMPV6
    | VIR_NWFILTER_RULE_PROTOCOL_UDPoIPV6 | VIR_NWFILTER_RULE_PROTOCOL_UDPLITEoIPV6
    | VIR_NWFILTER_RULE_PROTOCOL_ESPoIPV6 | VIR_NWFILTER_RULE_PROTOCOL_AHoIPV6
    | VIR_NWFILTER_RULE_PROTOCOL_SCTPoIPV6 | VIR_NWFILTER_RULE_PROTOCOL_ALLoIPV6 => true
    | _ => false
    end;
  virNWFilterPrintTCPFlags := fun mask sep flags =>
    flag_names tcp_flag_names mask true +:+ String sep ""
      +:+ flag_names tcp_flag_names flags true;
  virNWFilterPrintStateMatchFlags := fun prefix flags disp_none =>
    if negb disp_none && negb (Z.land flags 32 =? 0)%Z then ""
    else prefix +:+ flag_names state_flag_names flags true;
  virNWFilterVarCombIterCreate := fun vars _ => vars;
  virNWFilterVarCombIterGetVarValue := lookup_binding;
  virSocketAddrFormat := fun a => Some a;
  virMacAddrFormat := fun m => m;
  virStrcpy := fun src destbytes =>
    if (String.length src <? destbytes)%nat then Some src else None;
  virParseVersionString := fun s =>
    match List.find (fun kv => String.eqb (fst kv) s) concrete_versions with
    | Some kv => Some (snd kv)
    | None => None
    end;
  virHashGetItems := fun m cmp => isort cmp (map_to_list m);
  run_sh := fun w script => cw_run w script;
  run_fw := fun w layer args => cw_run w (layer_tool layer +:+ " " +:+ join_words args);
  qsort := fun A cmp l => isort cmp l;
|}.

(** The driver's variables after an initialisation that found all tools, an
    iptables older than 1.4.16 and a kernel with the given direction
    semantics. *)
Definition sample_state (ctdir : ctdirStatus) : driver_state := {|
  ebtables_cmd_path := Some "/sbin/ebtables";
  iptables_cmd_path := Some "/sbin/iptables";
  ip6tables_cmd_path := Some "/sbin/ip6tables";
  grep_cmd_path := Some "/bin/grep";
  iptables_ctdir_corrected := ctdir;
  m_state_out_str := m_state_out_str_old;
  m_state_in_str := m_state_in_str_old;
|}.

Section Samples.
Let X := concrete.
Existing Instance X.

(** A matcher that is absent, and matchers holding a number, an address
    or a reference to a variable. *)
Definition no_item : nwItemDesc := {|
  flags := 0; varAccess := ""; datatype := DATATYPE_STRING;
  u_macaddr := ""; u_ipaddr := ""; u_boolean := false;
  u_u8 := 0; u_u16 := 0; u_u32 := 0; u_string := "";
  u_tcpFlags_mask := 0; u_tcpFlags_flags := 0;
  u_ipset_setname := ""; u_ipset_numFlags := 0; u_ipset_flags := 0 |}.

Definition item_u16 (n : Z) : nwItemDesc := {|
  flags := 1; varAccess := ""; datatype := DATATYPE_UINT16;
  u_macaddr := ""; u_ipaddr := ""; u_boolean := false;
  u_u8 := 0; u_u16 := n; u_u32 := 0; u_string := "";
  u_tcpFlags_mask := 0; u_tcpFlags_flags := 0;
  u_ipset_setname := ""; u_ipset_numFlags := 0; u_ipset_flags := 0 |}.

Definition item_u8 (n : Z) : nwItemDesc := {|
  flags := 1; varAccess := ""; datatype := DATATYPE_UINT8;
  u_macaddr := ""; u_ipaddr := ""; u_boolean := false;
  u_u8 := n; u_u16 := 0; u_u32 := 0; u_string := "";
  u_tcpFlags_mask := 0; u_tcpFlags_flags := 0;
  u_ipset_setname := ""; u_ipset_numFlags := 0; u_ipset_flags := 0 |}.

Definition item_mac (m : string) : nwItemDesc := {|
  flags := 1; varAccess := ""; datatype := DATATYPE_MACADDR;
  u_macaddr := m; u_ipaddr := ""; u_boolean := false;
  u_u8 := 0; u_u16 := 0; u_u32 := 0; u_string := "";
  u_tcpFlags_mask := 0; u_tcpFlags_flags := 0;
  u_ipset_setname := ""; u_ipset_numFlags := 0; u_ipset_flags := 0 |}.

Definition item_ipvar (v : string) : nwItemDesc := {|
  flags := 5; varAccess := v; datatype := DATATYPE_IPADDR;
  u_macaddr := ""; u_ipaddr := ""; u_boolean := false;
  u_u8 := 0; u_u16 := 0; u_u32 := 0; u_string := "";
  u_tcpFlags_mask := 0; u_tcpFlags_flags := 0;
  u_ipset_setname := ""; u_ipset_numFlags := 0; u_ipset_flags := 0 |}.

Definition no_ethHdr : ethHdrDataDef :=
  {| dataSrcMACAddr := no_item; dataSrcMACMask := no_item;
     dataDstMACAddr := no_item; dataDstMACMask := no_item |}.

Definition no_ipHdr : ipHdrDataDef :=
  {| dataSrcIPAddr := no_item; dataSrcIPMask := no_item;
     dataDstIPAddr := no_item; dataDstIPMask := no_item;
     dataProtocolID := no_item;
     dataSrcIPFrom := no_item; dataSrcIPTo := no_item;
     dataDstIPFrom := no_item; dataDstIPTo := no_item;
     dataDSCP := no_item; dataConnlimitAbove := no_item;
     dataComment := no_item; dataIPSet := no_item; dataIPSetFlags := no_item |}.

Definition no_portData : portDataDef :=
  {| dataSrcPortStart := no_item; dataSrcPortEnd := no_item;
     dataDstPortStart := no_item; dataDstPortEnd := no_item |}.

(** Protocol data with no matcher at all. *)
Definition no_p : ruleProtocolData := {|
  ethHdrFilter := {| eth_ethHdr := no_ethHdr; eth_dataProtocolID := no_item |};
  vlanHdrFilter := {| vlan_ethHdr := no_ethHdr; vlan_dataVlanID := no_item;
                      vlan_dataVlanEncap := no_item |};
  stpHdrFilter := {|
    stp_ethHdr := no_ethHdr; stp_dataType := no_item; stp_dataFlags := no_item;
    stp_dataRootPri := no_item; stp_dataRootPriHi := no_item;
    stp_dataRootAddr := no_item; stp_dataRootAddrMask := no_item;
    stp_dataRootCost := no_item; stp_dataRootCostHi := no_item;
    stp_dataSndrPrio := no_item; stp_dataSndrPrioHi := no_item;
    stp_dataSndrAddr := no_item; stp_dataSndrAddrMask := no_item;
    stp_dataPort := no_item; stp_dataPortHi := no_item;
    stp_dataAge := no_item; stp_dataAgeHi := no_item;
    stp_dataMaxAge := no_item; stp_dataMaxAgeHi := no_item;
    stp_dataHelloTime := no_item; stp_dataHelloTimeHi := no_item;
    stp_dataFwdDelay := no_item; stp_dataFwdDelayHi := no_item |};
  arpHdrFilter := {|
    arp_ethHdr := no_ethHdr; arp_dataHWType := no_item;
    arp_dataProtocolType := no_item; arp_dataOpcode := no_item;
    arp_dataARPSrcMACAddr := no_item; arp_dataARPSrcIPAddr := no_item;
    arp_dataARPSrcIPMask := no_item; arp_dataARPDstMACAddr := no_item;
    arp_dataARPDstIPAddr := no_item; arp_dataARPDstIPMask := no_item;
    arp_dataGratuitousARP := no_item |};
  ipHdrFilter := {| ip_ethHdr := no_ethHdr; ip_ipHdr := no_ipHdr;
                    ip_portData := no_portData |};
  ipv6HdrFilter := {| ipv6_ethHdr := no_ethHdr; ipv6_ipHdr := no_ipHdr;
                      ipv6_portData := no_portData |};
  tcpHdrFilter := {| tcp_dataSrcMACAddr := no_item; tcp_ipHdr := no_ipHdr;
                     tcp_portData := no_portData; tcp_dataTCPOption := no_item;
                     tcp_dataTCPFlags := no_item |};
  icmpHdrFilter := {| icmp_dataSrcMACAddr := no_item; icmp_ipHdr := no_ipHdr;
                      icmp_dataICMPType := no_item; icmp_dataICMPCode := no_item |};
  udpHdrFilter := {| udp_dataSrcMACAddr := no_item; udp_ipHdr := no_ipHdr;
                     udp_portData := no_portData |};
  udpliteHdrFilter := {| udplite_dataSrcMACAddr := no_item; udplite_ipHdr := no_ipHdr |};
  espHdrFilter := {| esp_dataSrcMACAddr := no_item; esp_ipHdr := no_ipHdr |};
  ahHdrFilter := {| ah_dataSrcMACAddr := no_item; ah_ipHdr := no_ipHdr |};
  allHdrFilter := {| all_dataSrcMACAddr := no_item; all_ipHdr := no_ipHdr |};
  igmpHdrFilter := {| igmp_dataSrcMACAddr := no_item; igmp_ipHdr := no_ipHdr |};
  sctpHdrFilter := {| sctp_dataSrcMACAddr := no_item; sctp_ipHdr := no_ipHdr;
                      sctp_portData := no_portData |};
|}.

(** A rule of the given protocol, direction and action that has no matcher
    and no flags. *)
Definition bare_rule (proto : virNWFilterRuleProtocolType)
    (tt : virNWFilterRuleDirectionType) (action : virNWFilterRuleActionType)
    : virNWFilterRuleDef :=
  {| def_flags := 0; def_action := action; def_tt := tt;
     def_prtclType := proto; def_p := no_p; def_varAccess := [] |}.

(** [p] with one member of the union set. *)
Definition p_with_tcp (f : tcpHdrFilterDef) : ruleProtocolData := {|
  ethHdrFilter := ethHdrFilter no_p; vlanHdrFilter := vlanHdrFilter no_p;
  stpHdrFilter := stpHdrFilter no_p; arpHdrFilter := arpHdrFilter no_p;
  ipHdrFilter := ipHdrFilter no_p; ipv6HdrFilter := ipv6HdrFilter no_p;
  tcpHdrFilter := f; icmpHdrFilter := icmpHdrFilter no_p;
  udpHdrFilter := udpHdrFilter no_p; udpliteHdrFilter := udpliteHdrFilter no_p;
  espHdrFilter := espHdrFilter no_p; ahHdrFilter := ahHdrFilter no_p;
  allHdrFilter := allHdrFilter no_p; igmpHdrFilter := igmpHdrFilter no_p;
  sctpHdrFilter := sctpHdrFilter no_p |}.

Definition p_with_icmp (f : icmpHdrFilterDef) : ruleProtocolData := {|
  ethHdrFilter := ethHdrFilter no_p; vlanHdrFilter := vlanHdrFilter no_p;
  stpHdrFilter := stpHdrFilter no_p; arpHdrFilter := arpHdrFilter no_p;
  ipHdrFilter := ipHdrFilter no_p; ipv6HdrFilter := ipv6HdrFilter no_p;
  tcpHdrFilter := tcpHdrFilter no_p; icmpHdrFilter := f;
  udpHdrFilter := udpHdrFilter no_p; udpliteHdrFilter := udpliteHdrFilter no_p;
  espHdrFilter := espHdrFilter no_p; ahHdrFilter := ahHdrFilter no_p;
  allHdrFilter := allHdrFilter no_p; igmpHdrFilter := igmpHdrFilter no_p;
  sctpHdrFilter := sctpHdrFilter no_p |}.

(** An IP header whose only matcher is the source address. *)
Definition ipHdr_src (srcip : nwItemDesc) : ipHdrDataDef :=
  {| dataSrcIPAddr := srcip; dataSrcIPMask := no_item;
     dataDstIPAddr := no_item; dataDstIPMask := no_item;
     dataProtocolID := no_item;
     dataSrcIPFrom := no_item; dataSrcIPTo := no_item;
     dataDstIPFrom := no_item; dataDstIPTo := no_item;
     dataDSCP := no_item; dataConnlimitAbove := no_item;
     dataComment := no_item; dataIPSet := no_item; dataIPSetFlags := no_item |}.

(** The rule of the specification's scenario: TCP to destination port 80,
    with the given direction, action and source MAC matcher. *)
Definition tcp80_rule (tt : virNWFilterRuleDirectionType)
    (action : virNWFilterRuleActionType) (srcmac : nwItemDesc) : virNWFilterRuleDef :=
  {| def_flags := 0; def_action := action; def_tt := tt;
     def_prtclType := VIR_NWFILTER_RULE_PROTOCOL_TCP;
     def_p := p_with_tcp
                {| tcp_dataSrcMACAddr := srcmac; tcp_ipHdr := no_ipHdr;
                   tcp_portData :=
                     {| dataSrcPortStart := no_item; dataSrcPortEnd := no_item;
                        dataDstPortStart := item_u16 80; dataDstPortEnd := no_item |};
                   tcp_dataTCPOption := no_item; tcp_dataTCPFlags := no_item |};
     def_varAccess := [] |}.

(** A TCP rule whose only matcher is the source MAC address. *)
Definition tcp_srcmac_rule (tt : virNWFilterRuleDirectionType) : virNWFilterRuleDef :=
  {| def_flags := 0; def_action := VIR_NWFILTER_RULE_ACTION_ACCEPT; def_tt := tt;
     def_prtclType := VIR_NWFILTER_RULE_PROTOCOL_TCP;
     def_p := p_with_tcp
                {| tcp_dataSrcMACAddr := item_mac "52:54:00:12:34:56";
                   tcp_ipHdr := no_ipHdr; tcp_portData := no_portData;
                   tcp_dataTCPOption := no_item; tcp_dataTCPFlags := no_item |};
     def_varAccess := [] |}.

(** An inbound ICMP rule for echo requests (type 8) from the given source
    address. *)
Definition icmp_echo_rule (srcip : nwItemDesc) : virNWFilterRuleDef :=
  {| def_flags := 0; def_action := VIR_NWFILTER_RULE_ACTION_ACCEPT;
     def_tt := VIR_NWFILTER_RULE_DIRECTION_IN;
     def_prtclType := VIR_NWFILTER_RULE_PROTOCOL_ICMP;
     def_p := p_with_icmp
                {| icmp_dataSrcMACAddr := no_item; icmp_ipHdr := ipHdr_src srcip;
                   icmp_dataICMPType := item_u8 8; icmp_dataICMPCode := no_item |};
     def_varAccess := ["IP"] |}.

(** A value for the variable [IP] that is longer than an address buffer. *)
Definition overlong_ip : string :=
  "0000:0000:0000:0000:0000:0000:0000:0000:0000:00".

(** A rule instance with one iterator position and no variables. *)
Definition rule_inst (suffix : string) (chainPrio : Z) (d : virNWFilterRuleDef)
    (prio : Z) : virNWFilterRuleInst :=
  {| chainSuffix := suffix; chainPriority := chainPrio; def := d;
     priority := prio; vars := [[]] |}.

(** A world in which nothing was run yet and the scripts get the given
    answers. *)
Definition world_answering (answers : list (Z * string)) : cworld :=
  {| cw_log := []; cw_answers := answers |}.

(** Two rules of the bridge layer in sub-chains of their own. *)
Definition rule_ipv4 : virNWFilterRuleInst :=
  rule_inst "ipv4" (-700)
    (bare_rule VIR_NWFILTER_RULE_PROTOCOL_IP VIR_NWFILTER_RULE_DIRECTION_OUT
       VIR_NWFILTER_RULE_ACTION_ACCEPT) (-700).

Definition rule_arp : virNWFilterRuleInst :=
  rule_inst "arp" (-500)
    (bare_rule VIR_NWFILTER_RULE_PROTOCOL_ARP VIR_NWFILTER_RULE_DIRECTION_OUT
       VIR_NWFILTER_RULE_ACTION_ACCEPT) (-500).

(** A rule of the IP layer; its chain is the root chain. *)
Definition rule_tcp : virNWFilterRuleInst :=
  rule_inst "root" 0
    (tcp80_rule VIR_NWFILTER_RULE_DIRECTION_OUT VIR_NWFILTER_RULE_ACTION_ACCEPT no_item)
    500.

(** Two rules of the chain [ipv4] that come from filters which give the
    chain different priorities, -700 and -400. *)
Definition rule_early : virNWFilterRuleInst :=
  rule_inst "ipv4" (-700)
    (bare_rule VIR_NWFILTER_RULE_PROTOCOL_IP VIR_NWFILTER_RULE_DIRECTION_OUT
       VIR_NWFILTER_RULE_ACTION_ACCEPT) (-600).

Definition rule_late : virNWFilterRuleInst :=
  rule_inst "ipv4" (-400)
    (bare_rule VIR_NWFILTER_RULE_PROTOCOL_IP VIR_NWFILTER_RULE_DIRECTION_OUT
       VIR_NWFILTER_RULE_ACTION_DROP) 0.

(** A rule of the chain [ipv4] whose priority is below the chain's. *)
Definition rule_low : virNWFilterRuleInst :=
  rule_inst "ipv4" (-700)
    (bare_rule VIR_NWFILTER_RULE_PROTOCOL_IP VIR_NWFILTER_RULE_DIRECTION_OUT
       VIR_NWFILTER_RULE_ACTION_ACCEPT) (-800).

End Samples.


(** ** More sample rules *)

Section MoreSamples.
Let X := concrete.
Existing Instance X.

(** The MAC address of the sample interface. *)
Definition sample_mac : string := "52:54:00:12:34:56".

(** The flags of an ipset matcher: [n] flags with the given bits. *)
Definition item_ipsetflags (n bits : Z) : nwItemDesc := {|
  flags := 1; varAccess := ""; datatype := DATATYPE_IPSETFLAGS;
  u_macaddr := ""; u_ipaddr := ""; u_boolean := false;
  u_u8 := 0; u_u16 := 0; u_u32 := 0; u_string := "";
  u_tcpFlags_mask := 0; u_tcpFlags_flags := 0;
  u_ipset_setname := ""; u_ipset_numFlags := n; u_ipset_flags := bits |}.

(** The rule with other flags. *)
Definition with_flags (f : Z) (d : virNWFilterRuleDef) : virNWFilterRuleDef :=
  {| def_flags := f; def_action := def_action d; def_tt := def_tt d;
     def_prtclType := def_prtclType d; def_p := def_p d;
     def_varAccess := def_varAccess d |}.

(** An IP header whose only matcher is a limit on the connections. *)
Definition ipHdr_connlimit (n : Z) : ipHdrDataDef :=
  {| dataSrcIPAddr := no_item; dataSrcIPMask := no_item;
     dataDstIPAddr := no_item; dataDstIPMask := no_item;
     dataProtocolID := no_item;
     dataSrcIPFrom := no_item; dataSrcIPTo := no_item;
     dataDstIPFrom := no_item; dataDstIPTo := no_item;
     dataDSCP := no_item; dataConnlimitAbove := item_u16 n;
     dataComment := no_item; dataIPSet := no_item; dataIPSetFlags := no_item |}.

(** A TCP rule to port 80 that accepts at most [n] connections. *)
Definition tcp_connlimit_rule (tt : virNWFilterRuleDirectionType) (n : Z)
    : virNWFilterRuleDef :=
  {| def_flags := 0; def_action := VIR_NWFILTER_RULE_ACTION_ACCEPT; def_tt := tt;
     def_prtclType := VIR_NWFILTER_RULE_PROTOCOL_TCP;
     def_p := p_with_tcp
                {| tcp_dataSrcMACAddr := no_item; tcp_ipHdr := ipHdr_connlimit n;
                   tcp_portData :=
                     {| dataSrcPortStart := no_item; dataSrcPortEnd := no_item;
                        dataDstPortStart := item_u16 80; dataDstPortEnd := no_item |};
                   tcp_dataTCPOption := no_item; tcp_dataTCPFlags := no_item |};
     def_varAccess := [] |}.

(** [p] with the member for the spanning tree protocol set to a matcher
    of the source MAC address. *)
Definition p_with_stp_srcmac (m : string) : ruleProtocolData := {|
  ethHdrFilter := ethHdrFilter no_p; vlanHdrFilter := vlanHdrFilter no_p;
  stpHdrFilter := {|
    stp_ethHdr := {| dataSrcMACAddr := item_mac m; dataSrcMACMask := no_item;
                     dataDstMACAddr := no_item; dataDstMACMask := no_item |};
    stp_dataType := no_item; stp_dataFlags := no_item;
    stp_dataRootPri := no_item; stp_dataRootPriHi := no_item;
    stp_dataRootAddr := no_item; stp_dataRootAddrMask := no_item;
    stp_dataRootCost := no_item; stp_dataRootCostHi := no_item;
    stp_dataSndrPrio := no_item; stp_dataSndrPrioHi := no_item;
    stp_dataSndrAddr := no_item; stp_dataSndrAddrMask := no_item;
    stp_dataPort := no_item; stp_dataPortHi := no_item;
    stp_dataAge := no_item; stp_dataAgeHi := no_item;
    stp_dataMaxAge := no_item; stp_dataMaxAgeHi := no_item;
    stp_dataHelloTime := no_item; stp_dataHelloTimeHi := no_item;
    stp_dataFwdDelay := no_item; stp_dataFwdDelayHi := no_item |};
  arpHdrFilter := arpHdrFilter no_p;
  ipHdrFilter := ipHdrFilter no_p; ipv6HdrFilter := ipv6HdrFilter no_p;
  tcpHdrFilter := tcpHdrFilter no_p; icmpHdrFilter := icmpHdrFilter no_p;
  udpHdrFilter := udpHdrFilter no_p; udpliteHdrFilter := udpliteHdrFilter no_p;
  espHdrFilter := espHdrFilter no_p; ahHdrFilter := ahHdrFilter no_p;
  allHdrFilter := allHdrFilter no_p; igmpHdrFilter := igmpHdrFilter no_p;
  sctpHdrFilter := sctpHdrFilter no_p |}.

(** A rule for the spanning tree protocol that applies to both directions
    and matches the source MAC address. *)
Definition stp_srcmac_rule : virNWFilterRuleDef :=
  {| def_flags := 0; def_action := VIR_NWFILTER_RULE_ACTION_DROP;
     def_tt := VIR_NWFILTER_RULE_DIRECTION_INOUT;
     def_prtclType := VIR_NWFILTER_RULE_PROTOCOL_STP;
     def_p := p_with_stp_srcmac sample_mac; def_varAccess := [] |}.

(** The lines of a listing of [libvirt-J-vnet0]. *)
Definition sample_listing : list string :=
  ["Bridge chain: libvirt-J-vnet0, entries: 2, policy: ACCEPT";
   "-p IPv4 -j J-vnet0-ipv4";
   "-p ARP -j J-vnet0-arp"].

End MoreSamples.
(* ===================================================================== *)
(** * Part II: properties                                                 *)
(* ===================================================================== *)

Section Properties.
Context `{Externals}.

(** ** Strings *)

Lemma app_nil_l_s (s : string) : "" +:+ s = s.
Proof. reflexivity. Qed.

Lemma app_cons_s (c : ascii) (s t : string) :
  String c s +:+ t = String c (s +:+ t).
Proof. reflexivity. Qed.

Lemma app_empty_r (s : string) : s +:+ "" = s.
Proof.
  induction s as [|c s IH]; [reflexivity|]. now rewrite app_cons_s, IH.
Qed.

Lemma app_assoc_s (a b c : string) : (a +:+ b) +:+ c = a +:+ (b +:+ c).
Proof.
  induction a as [|x a IH]; [reflexivity|]. now rewrite !app_cons_s, IH.
Qed.

Ltac str_norm := rewrite ?app_assoc_s, ?app_cons_s, ?app_nil_l_s, ?app_empty_r.

(** ** printCommentVar *)

Lemma printCommentVar_loop_spec (n : nat) (buf dest : string) :
  printCommentVar_loop n buf dest
  = dest +:+ comment_escaped (substring 0 (Nat.min (String.length buf) n) buf).
Proof.
  revert buf dest.
  induction n as [|n IH]; intros buf dest.
  - rewrite Nat.min_0_r. destruct buf; simpl; now rewrite app_empty_r.
  - destruct buf as [|c rest]; simpl.
    + now rewrite app_empty_r.
    + destruct (Ascii.eqb c "'"); rewrite IH; now str_norm.
Qed.

Lemma substring_length_le (n : nat) (s : string) :
  (String.length (substring 0 n s) <= n)%nat.
Proof.
  revert s; induction n as [|n IH]; intros [|c s]; simpl; try lia.
  specialize (IH s). lia.
Qed.

Lemma sh_word_escaped (s acc rest : string) :
  sh_word true (comment_escaped s +:+ "'" +:+ CMD_SEPARATOR +:+ rest) acc
  = Some (acc +:+ s, rest).
Proof.
  revert acc; induction s as [|c s IH]; intros acc.
  - simpl. now str_norm.
  - simpl. destruct (Ascii.eqb c "'") eqn:E.
    + apply Ascii.eqb_eq in E; subst c. str_norm. simpl.
      rewrite IH. now str_norm.
    + str_norm. simpl. rewrite E, IH. now str_norm.
Qed.

(** C10.  The fragment [printCommentVar] appends is [comment='], the comment
    cut to at most [IPTABLES_MAX_COMMENT_LENGTH] characters with every single
    quote written as ['\''], and a closing quote and newline; a shell reads
    the fragment's value back as exactly the truncated comment, whatever
    the comment contains and however long it is. *)
Theorem printCommentVar_truncates_and_escapes (dest buf rest : string) :
  printCommentVar dest buf
  = dest +:+ "comment='" +:+ comment_escaped (comment_truncated buf)
         +:+ "'" +:+ CMD_SEPARATOR
  /\ (String.length (comment_truncated buf) <= IPTABLES_MAX_COMMENT_LENGTH)%nat
  /\ String.prefix (comment_truncated buf) buf = true
  /\ sh_word false ("'" +:+ comment_escaped (comment_truncated buf)
                        +:+ "'" +:+ CMD_SEPARATOR +:+ rest) ""
     = Some (comment_truncated buf, rest).
Proof.
  unfold printCommentVar, comment_truncated.
  repeat split.
  - rewrite printCommentVar_loop_spec.
    assert (E : (if (IPTABLES_MAX_COMMENT_LENGTH <? String.length buf)%nat
                 then IPTABLES_MAX_COMMENT_LENGTH else String.length buf)
                = Nat.min (String.length buf) IPTABLES_MAX_COMMENT_LENGTH).
    { destruct (Nat.ltb_spec IPTABLES_MAX_COMMENT_LENGTH (String.length buf)); lia. }
    rewrite E.
    replace (Nat.min (String.length buf)
               (Nat.min (String.length buf) IPTABLES_MAX_COMMENT_LENGTH))
      with (Nat.min (String.length buf) IPTABLES_MAX_COMMENT_LENGTH) by lia.
    unfold COMMENT_VARNAME. now str_norm.
  - etransitivity; [apply substring_length_le | lia].
  - generalize (Nat.min (String.length buf) IPTABLES_MAX_COMMENT_LENGTH) as n.
    intros n; revert buf; induction n as [|n IH]; intros [|c s]; simpl; auto.
    rewrite IH. destruct (ascii_dec c c); congruence.
  - str_norm. simpl. apply (sh_word_escaped _ "" rest).
Qed.

(** ** Legs that are not emitted *)

Lemma forallb_absent_cons (i : nwItemDesc) (l : list nwItemDesc) :
  forallb (fun i => negb (HAS_ENTRY_ITEM i)) (i :: l) = true ->
  HAS_ENTRY_ITEM i = false /\ forallb (fun i => negb (HAS_ENTRY_ITEM i)) l = true.
Proof.
  simpl. intros E. apply andb_true_iff in E as [E1 E2].
  apply negb_true_iff in E1. now split.
Qed.

(** Splits a hypothesis "all these matchers are absent" into one fact per
    matcher. *)
Ltac absent_facts H :=
  repeat match type of H with
         | forallb _ (_ :: _) = true =>
             let E := fresh "Habs" in
             apply forallb_absent_cons in H as [E H]
         end;
  clear H.

(** C6.  A leg of an IP-layer rule that is compiled for the inbound
    direction, whose source MAC matcher is present (and so skipped) and all
    of whose other matchers are absent, returns success and adds no command
    template. *)
Theorem srcmac_only_inbound_leg_is_not_emitted (st : driver_state)
    (chainPrefix : ascii * ascii) (rule : virNWFilterRuleDef) (ifname : string)
    (vars : virNWFilterVarCombIter) (match_ : option string) (defMatch : bool)
    (accept_target : string) (isIPv6 maySkipICMP : bool) (templates : list string)
    (srcMac : nwItemDesc) (others : list nwItemDesc) :
  (if isIPv6 then ip6tables_cmd_path st else iptables_cmd_path st) <> None ->
  l3_matchers rule = Some (srcMac, others) ->
  HAS_ENTRY_ITEM srcMac = true ->
  forallb (fun i => negb (HAS_ENTRY_ITEM i)) others = true ->
  (forall buf, iptablesHandleSrcMacAddr buf vars srcMac true = Some (buf, true))
  /\ _iptablesCreateRuleInstance st true chainPrefix rule ifname vars match_ defMatch
       accept_target isIPv6 maySkipICMP templates
     = (0%Z, templates).
Proof.
  intros Htool Hm Hmac Hothers. split.
  { intros buf. unfold iptablesHandleSrcMacAddr. now rewrite Hmac. }
  unfold _iptablesCreateRuleInstance.
  destruct (if isIPv6 then ip6tables_cmd_path st else iptables_cmd_path st)
    as [path|]; [clear Htool|congruence].
  unfold l3_matchers in Hm. unfold ipt_switch.
  destruct (def_prtclType rule); try discriminate Hm;
    injection Hm as <- <-; unfold ipHdr_items, portData_items in Hothers;
    cbn [app] in Hothers;
    absent_facts Hothers;
    unfold ipt_case_head, iptablesHandleSrcMacAddr, iptablesHandleIpHdr,
      iptablesHandleIpHdr_addr, iptablesHandlePortData, iptablesHandlePortData_side;
    rewrite Hmac;
    repeat match goal with E : HAS_ENTRY_ITEM _ = false |- _ => rewrite E; clear E end;
    cbn -[String.length CMD_DEF_PRE String.append]; now rewrite Nat.eqb_refl.
Qed.

(** C7 (as amended).  A leg of an ICMP or ICMPv6 rule that is compiled with
    [maySkipICMP] set and has an ICMP type matcher never adds a command
    template.  It returns success when the tool of its address family is
    available and its source MAC and IP header matchers, which are rendered
    before the type is looked at, render without error; when the tool is
    missing or one of them fails to render it returns the error. *)
Theorem icmp_skip_leg_adds_no_command (st : driver_state) (directionIn : bool)
    (chainPrefix : ascii * ascii) (rule : virNWFilterRuleDef) (ifname : string)
    (vars : virNWFilterVarCombIter) (match_ : option string) (defMatch : bool)
    (accept_target : string) (isIPv6 : bool) (templates : list string) :
  def_prtclType rule = VIR_NWFILTER_RULE_PROTOCOL_ICMP
  \/ def_prtclType rule = VIR_NWFILTER_RULE_PROTOCOL_ICMPV6 ->
  HAS_ENTRY_ITEM (icmp_dataICMPType (icmpHdrFilter (def_p rule))) = true ->
  let r := _iptablesCreateRuleInstance st directionIn chainPrefix rule ifname vars
             match_ defMatch accept_target isIPv6 true templates in
  let tool := if isIPv6 then ip6tables_cmd_path st else iptables_cmd_path st in
  let rendered :=
    ipt_case_head (PRINT_IPT_ROOT_CHAIN chainPrefix ifname)
      (l3_proto_name (def_prtclType rule)) vars
      (icmp_dataSrcMACAddr (icmpHdrFilter (def_p rule)))
      (icmp_ipHdr (icmpHdrFilter (def_p rule))) directionIn in
  snd r = templates
  /\ (tool <> None -> rendered <> None -> fst r = 0%Z)
  /\ (tool = None \/ rendered = None -> fst r = (-1)%Z).
Proof.
  intros Hproto Htype. cbv zeta.
  unfold _iptablesCreateRuleInstance.
  destruct (if isIPv6 then ip6tables_cmd_path st else iptables_cmd_path st) as [path|].
  2: { simpl. repeat split; auto. congruence. }
  unfold ipt_switch.
  destruct Hproto as [-> | ->]; cbn [l3_proto_name];
    match goal with
    | |- context [ipt_case_head ?a ?b ?c ?d ?e ?f] =>
        destruct (ipt_case_head a b c d e f) as [[[bufUsed skipped] s]|]
    end;
    rewrite ?Htype; simpl; repeat split; auto; try congruence;
    intros [?|?]; congruence.
Qed.

(** ** ebtables rules *)

Lemma extends_refl (buf : string) : extends_buf buf buf.
Proof. exists "". now rewrite app_empty_r. Qed.

Lemma extends_app (buf x : string) : extends_buf buf (buf +:+ x).
Proof. now exists x. Qed.

Lemma extends_trans (a b c : string) :
  extends_buf a b -> extends_buf b c -> extends_buf a c.
Proof. intros [x ->] [y ->]. exists (x +:+ y). now rewrite app_assoc_s. Qed.

Lemma extends_app_r (a b x : string) : extends_buf a b -> extends_buf a (b +:+ x).
Proof. intros Hab. eapply extends_trans; [exact Hab | apply extends_app]. Qed.

Create HintDb ext.
#[local] Hint Resolve extends_refl extends_app extends_app_r : ext.

(** Takes a successful computation in the option monad apart. *)
Ltac opt_inv :=
  repeat match goal with
    | H : _ ≫= _ = Some _ |- _ =>
        apply bind_Some in H; destruct H as (? & ? & H)
    | H : Some _ = Some _ |- _ => injection H as H; subst
    | H : None = Some _ |- _ => discriminate H
    | H : (if ?c then _ else _) = Some _ |- _ => destruct c eqn:?
    | H : (let '(_, _) := ?p in _) = Some _ |- _ => destruct p
    end.

Lemma ebtablesHandleEthHdr_side_extends buf vars addr mask opt r :
  ebtablesHandleEthHdr_side buf vars addr mask opt = Some r -> extends_buf buf r.
Proof. unfold ebtablesHandleEthHdr_side. intros E. opt_inv; subst; auto with ext. Qed.

Lemma ebtablesHandleEthHdr_extends buf vars ethHdr reverse r :
  ebtablesHandleEthHdr buf vars ethHdr reverse = Some r -> extends_buf buf r.
Proof.
  unfold ebtablesHandleEthHdr. intros E. opt_inv.
  eapply extends_trans; eapply ebtablesHandleEthHdr_side_extends; eassumption.
Qed.

Lemma INST_ITEM_extends buf vars item CLI r :
  INST_ITEM buf vars item CLI = Some r -> extends_buf buf r.
Proof. unfold INST_ITEM. intros E. opt_inv; subst; auto with ext. Qed.

Lemma INST_ITEM_2PARMS_extends buf vars item item_hi CLI SEP r :
  INST_ITEM_2PARMS buf vars item item_hi CLI SEP = Some r -> extends_buf buf r.
Proof. unfold INST_ITEM_2PARMS. intros E. opt_inv; subst; auto with ext. Qed.

Lemma ebt_item_with_extends buf vars item item2 size opt sep r :
  ebt_item_with buf vars item item2 size opt sep = Some r -> extends_buf buf r.
Proof. unfold ebt_item_with. intros E. opt_inv; subst; auto with ext. Qed.

Lemma ebt_arp_ip_extends buf vars addr mask opt hasMask ipmask r h m :
  ebt_arp_ip buf vars addr mask opt hasMask ipmask = Some (r, h, m) ->
  extends_buf buf r.
Proof.
  unfold ebt_arp_ip. intros E.
  destruct (HAS_ENTRY_ITEM addr); [|injection E as <- _ _; auto with ext].
  apply bind_Some in E as (ip & _ & E). apply bind_Some in E as (hm & _ & E).
  injection E as <- _ _. auto with ext.
Qed.

(** Turns the successful helper calls among the hypotheses into equations
    for the buffers they returned. *)
Ltac ext_facts :=
  repeat match goal with
    | H : ebtablesHandleEthHdr _ _ _ _ = Some _ |- _ =>
        apply ebtablesHandleEthHdr_extends in H; destruct H as [? ->]
    | H : INST_ITEM _ _ _ _ = Some _ |- _ =>
        apply INST_ITEM_extends in H; destruct H as [? ->]
    | H : INST_ITEM_RANGE _ _ _ _ _ = Some _ |- _ =>
        apply INST_ITEM_2PARMS_extends in H; destruct H as [? ->]
    | H : INST_ITEM_MASK _ _ _ _ _ = Some _ |- _ =>
        apply INST_ITEM_2PARMS_extends in H; destruct H as [? ->]
    | H : ebt_item_with _ _ _ _ _ _ _ = Some _ |- _ =>
        apply ebt_item_with_extends in H; destruct H as [? ->]
    | H : ebt_arp_ip _ _ _ _ _ _ _ = Some _ |- _ =>
        apply ebt_arp_ip_extends in H; destruct H as [? ->]
    end.

Lemma ebt_switch_extends chain rule vars reverse buf :
  ebt_switch chain rule vars reverse = Some buf ->
  extends_buf (CMD_DEF_PRE +:+ "$EBT -t nat -A " +:+ chain) buf.
Proof.
  unfold ebt_switch. cbv zeta.
  generalize (CMD_DEF_PRE +:+ "$EBT -t nat -A " +:+ chain) as buf0.
  intros buf0 E.
  destruct (def_prtclType rule); try discriminate E.
  all: opt_inv; repeat match goal with x : _ * _ |- _ => destruct x end.
  all: ext_facts; subst.
  all: first [ apply extends_refl
             | unfold extends_buf; rewrite ?app_assoc_s; eexists; reflexivity ].
Qed.

(** C8.  A command that [ebtablesCreateRuleInstance] generates is the
    definition of [cmd] as [$EBT -t nat -A], the chain, the rule's matchers,
    [-j] and a jump target, followed by the line that executes it.  For the
    action reject the jump target is the name of the drop target; for every
    other action it is the name of the action's own target. *)
Theorem ebtables_reject_is_downgraded_to_drop (st : driver_state) (chainPrefix : ascii)
    (chainSuffix : string) (rule : virNWFilterRuleDef) (ifname : string)
    (vars : virNWFilterVarCombIter) (reverse : bool) (template : string) :
  ebtablesCreateRuleInstance st chainPrefix chainSuffix rule ifname vars reverse
  = Some template ->
  exists chain matchers target : string,
    chain = (if STREQ chainSuffix virNWFilterChainSuffixTypeToString_ROOT
             then PRINT_ROOT_CHAIN chainPrefix ifname
             else PRINT_CHAIN chainPrefix ifname chainSuffix)
    /\ template = CMD_DEF_PRE +:+ "$EBT -t nat -A " +:+ chain +:+ matchers
                  +:+ " -j " +:+ target
                  +:+ CMD_DEF_POST +:+ CMD_SEPARATOR +:+ CMD_EXEC
    /\ (def_action rule = VIR_NWFILTER_RULE_ACTION_REJECT ->
        target = virNWFilterJumpTargetTypeToString VIR_NWFILTER_RULE_ACTION_DROP)
    /\ (def_action rule <> VIR_NWFILTER_RULE_ACTION_REJECT ->
        target = virNWFilterJumpTargetTypeToString (def_action rule)).
Proof.
  unfold ebtablesCreateRuleInstance. intros E.
  destruct (ebtables_cmd_path st) as [path|]; [|discriminate E].
  cbv zeta in E. apply bind_Some in E as (buf & Hbuf & E).
  injection E as <-.
  apply ebt_switch_extends in Hbuf as [matchers ->].
  eexists _, matchers, (ebtables_target (def_action rule)).
  split; [reflexivity|]. split; [now rewrite !app_assoc_s|].
  unfold ebtables_target.
  split; [intros -> | intros Hne]; [reflexivity|].
  destruct (def_action rule); congruence.
Qed.

(** ** The automatic state match *)

Lemma iptablesHandleIpHdr_skipMatch s0 vars ipHdr directionIn s :
  iptablesHandleIpHdr s0 vars ipHdr directionIn = Some s ->
  HAS_ENTRY_ITEM (dataConnlimitAbove ipHdr) = false ->
  st_skipMatch s = st_skipMatch s0.
Proof.
  unfold iptablesHandleIpHdr. intros E Hc. rewrite Hc in E. cbv zeta in E.
  opt_inv; subst; reflexivity.
Qed.

Lemma ipt_case_head_skipMatch chain proto vars srcMacAddr ipHdr directionIn bu sk s :
  ipt_case_head chain proto vars srcMacAddr ipHdr directionIn = Some (bu, sk, s) ->
  HAS_ENTRY_ITEM (dataConnlimitAbove ipHdr) = false ->
  st_skipMatch s = false.
Proof.
  unfold ipt_case_head. cbv zeta. intros E Hc.
  apply bind_Some in E as ([buf skipped] & _ & E).
  apply bind_Some in E as (s' & Hs' & E). injection E as _ _ <-.
  now rewrite (iptablesHandleIpHdr_skipMatch _ _ _ _ _ Hs' Hc).
Qed.

Lemma default_SwDone (r : option ipt_switch_result) bu sk hi s :
  default SwError r = SwDone bu sk hi s -> r = Some (SwDone bu sk hi s).
Proof. destruct r; simpl; congruence. Qed.

Lemma ipt_switch_skipMatch directionIn chain rule vars maySkipICMP bu sk hi s :
  ipt_switch directionIn chain rule vars maySkipICMP = SwDone bu sk hi s ->
  (forall h, l3_ipHdr rule = Some h -> HAS_ENTRY_ITEM (dataConnlimitAbove h) = false) ->
  st_skipMatch s = false.
Proof.
  unfold ipt_switch, l3_ipHdr. cbv zeta. intros E Hc.
  destruct (def_prtclType rule); try discriminate E;
    specialize (Hc _ eq_refl);
    match type of E with
    | context [ipt_case_head ?a ?b ?c ?d ?e ?f] =>
        destruct (ipt_case_head a b c d e f) as [[[bu' sk'] s']|] eqn:Hh;
          [pose proof (ipt_case_head_skipMatch _ _ _ _ _ _ _ _ _ Hh Hc) as Hs'
          |discriminate E]
    end;
    cbn [mbind option_bind] in E;
    repeat match type of E with
      | (if ?x then _ else _) = _ => destruct x eqn:?; try discriminate E
      end;
    try apply default_SwDone in E;
    opt_inv; simplify_eq; exact Hs'.
Qed.


(** ** Every command template appends to a temporary chain *)
















(** ** What a leg puts into its command *)

Lemma iptablesHandleIpHdr_flags s0 vars ipHdr directionIn s :
  iptablesHandleIpHdr s0 vars ipHdr directionIn = Some s ->
  st_skipRule s = (HAS_ENTRY_ITEM (dataConnlimitAbove ipHdr) && directionIn)
                  || st_skipRule s0
  /\ st_skipMatch s = (HAS_ENTRY_ITEM (dataConnlimitAbove ipHdr) && negb directionIn)
                      || st_skipMatch s0.
Proof.
  unfold iptablesHandleIpHdr. intros E. cbv zeta in E.
  destruct (HAS_ENTRY_ITEM (dataConnlimitAbove ipHdr)), directionIn;
    opt_inv; subst; cbn; split; reflexivity.
Qed.

Lemma ipt_case_head_flags chain proto vars srcMacAddr ipHdr directionIn bu sk s :
  ipt_case_head chain proto vars srcMacAddr ipHdr directionIn = Some (bu, sk, s) ->
  st_skipRule s = HAS_ENTRY_ITEM (dataConnlimitAbove ipHdr) && directionIn
  /\ st_skipMatch s = HAS_ENTRY_ITEM (dataConnlimitAbove ipHdr) && negb directionIn.
Proof.
  unfold ipt_case_head. cbv zeta. intros E.
  apply bind_Some in E as ([buf skipped] & _ & E).
  apply bind_Some in E as (s' & Hs' & E). injection E as _ _ <-.
  destruct (iptablesHandleIpHdr_flags _ _ _ _ _ Hs') as [-> ->].
  cbn [st_skipRule st_skipMatch]. now rewrite !orb_false_r.
Qed.

Lemma ipt_switch_flags directionIn chain rule vars maySkipICMP bu sk hi s :
  ipt_switch directionIn chain rule vars maySkipICMP = SwDone bu sk hi s ->
  st_skipRule s = has_connlimit rule && directionIn
  /\ st_skipMatch s = has_connlimit rule && negb directionIn
  /\ hi = has_icmp_type rule.
Proof.
  unfold ipt_switch, has_connlimit, l3_ipHdr, has_icmp_type. cbv zeta. intros E.
  destruct (def_prtclType rule); try discriminate E;
    match type of E with
    | context [ipt_case_head ?a ?b ?c ?d ?e ?f] =>
        destruct (ipt_case_head a b c d e f) as [[[bu' sk'] s']|] eqn:Hh;
          [destruct (ipt_case_head_flags _ _ _ _ _ _ _ _ _ Hh) as [Hr Hm]
          |discriminate E]
    end;
    cbn [mbind option_bind] in E;
    repeat match type of E with
      | (if ?x then _ else _) = _ => destruct x eqn:?; try discriminate E
      end;
    try apply default_SwDone in E;
    opt_inv; simplify_eq; cbn [st_skipRule st_skipMatch set_buf];
    repeat split; assumption.
Qed.
Lemma iptablesEnforceDirection_qualifier st directionIn rule buf :
  iptablesEnforceDirection st directionIn rule buf
  = buf +:+ ctdir_qualifier (iptables_ctdir_corrected st) directionIn rule.
Proof.
  unfold iptablesEnforceDirection, ctdir_qualifier, is_inout.
  destruct (iptables_ctdir_corrected st), (def_tt rule), directionIn;
    cbn [negb]; now rewrite ?app_empty_r.
Qed.

(** How a leg ends does not depend on the match it is handed nor on what
    the probes found, and where it adds a command, the match and the
    direction qualifier stand between the same two texts. *)
Lemma leg_command st directionIn chainPrefix rule ifname vars accept_target isIPv6
    maySkipICMP templates :
  let leg st' match_ defMatch :=
    _iptablesCreateRuleInstance st' directionIn chainPrefix rule ifname vars
      match_ defMatch accept_target isIPv6 maySkipICMP templates in
  (forall st' match_ defMatch,
      leg_tool st' isIPv6 = leg_tool st isIPv6 ->
      leg st' match_ defMatch = ((-1)%Z, templates))
  \/ (forall st' match_ defMatch,
         leg_tool st' isIPv6 = leg_tool st isIPv6 ->
         leg st' match_ defMatch = (0%Z, templates))
  \/ exists pre post : string,
       forall st' match_ defMatch,
         leg_tool st' isIPv6 = leg_tool st isIPv6 ->
         leg st' match_ defMatch
         = (0%Z,
            templates
            ++ [pre +:+ leg_state_text (iptables_ctdir_corrected st') directionIn rule
                          match_ defMatch
                    +:+ post +:+ leg_command_end rule accept_target]).
Proof.
  cbv zeta. unfold _iptablesCreateRuleInstance, leg_tool.
  destruct (if isIPv6 then ip6tables_cmd_path st else iptables_cmd_path st)
    as [path|] eqn:Htool.
  2: { left. intros st' match_ defMatch ->. reflexivity. }
  destruct (ipt_switch directionIn (PRINT_IPT_ROOT_CHAIN chainPrefix ifname) rule vars
              maySkipICMP) as [| |bu sk hi s] eqn:Hsw.
  { left. intros st' match_ defMatch ->. reflexivity. }
  { right; left. intros st' match_ defMatch ->. reflexivity. }
  destruct (ipt_switch_flags _ _ _ _ _ _ _ _ _ Hsw) as (Hrule & Hmatch & ->).
  destruct ((sk && (bu =? String.length (st_buf s))%nat) || st_skipRule s) eqn:Hskip.
  { right; left. intros st' match_ defMatch ->. reflexivity. }
  right; right.
  apply orb_false_elim in Hskip as [_ Hnorule].
  assert (Hsm : st_skipMatch s = has_connlimit rule).
  { rewrite Hmatch. rewrite Hnorule in Hrule.
    destruct (has_connlimit rule), directionIn; try reflexivity; discriminate Hrule. }
  exists (if (0 <? String.length (st_prefix s))%nat
          then st_prefix s +:+ st_buf s else st_buf s),
         (if (0 <? String.length (st_afterStateMatch s))%nat
          then st_afterStateMatch s else "").
  intros st' match_ defMatch ->.
  unfold leg_state_text, leg_match_text, leg_is_qualified, leg_skips_match, is_accept,
    leg_command_end, iptables_target.
  rewrite Hsm.
  destruct (def_action rule); cbv beta iota zeta;
    rewrite ?iptablesEnforceDirection_qualifier;
    generalize (ctdir_qualifier (iptables_ctdir_corrected st') directionIn rule) as q;
    intros q;
    destruct match_ as [m|], defMatch, (has_connlimit rule), (has_icmp_type rule);
    cbn [negb andb bool_decide decide_rel];
    repeat match goal with
      | |- context [bool_decide ?P] =>
          first [ rewrite (bool_decide_eq_true_2 P) by discriminate
                | rewrite (bool_decide_eq_false_2 P) by (intros Hn; now apply Hn) ]
      end;
    cbn [negb andb];
    destruct (0 <? String.length (st_prefix s))%nat,
             (0 <? String.length (st_afterStateMatch s))%nat;
    do 3 f_equal; rewrite ?app_empty_r, ?app_assoc_s; reflexivity.
Qed.
(** A leg of a rule without matchers always adds its command when the tool
    is there: the command appends to the chain, names the protocol, and has
    the match and the qualifier before the jump. *)
Lemma leg_without_matchers st directionIn chainPrefix rule ifname vars match_ defMatch
    accept_target isIPv6 maySkipICMP templates :
  leg_tool st isIPv6 <> None ->
  no_matchers rule ->
  _iptablesCreateRuleInstance st directionIn chainPrefix rule ifname vars
    match_ defMatch accept_target isIPv6 maySkipICMP templates
  = (0%Z,
     templates
     ++ [CMD_DEF_PRE +:+ "$IPT -A " +:+ PRINT_IPT_ROOT_CHAIN chainPrefix ifname
           +:+ " -p " +:+ l3_proto_name (def_prtclType rule)
           +:+ leg_state_text (iptables_ctdir_corrected st) directionIn rule
                 match_ defMatch
           +:+ leg_command_end rule accept_target]).
Proof.
  intros Htool (srcMac & others & Hm & Hmac & Hothers).
  assert (Hc : has_connlimit rule = false /\ has_icmp_type rule = false).
  { unfold has_connlimit, has_icmp_type, l3_ipHdr. unfold l3_matchers in Hm.
    destruct (def_prtclType rule); try discriminate Hm;
      injection Hm as <- <-; unfold ipHdr_items, portData_items in Hothers;
      cbn [app] in Hothers; absent_facts Hothers; split; try reflexivity; assumption. }
  destruct Hc as [Hconn Hicmp].
  unfold _iptablesCreateRuleInstance, leg_tool in *.
  destruct (if isIPv6 then ip6tables_cmd_path st else iptables_cmd_path st)
    as [path|]; [clear Htool|congruence].
  unfold leg_state_text, leg_match_text, leg_is_qualified, leg_skips_match, is_accept,
    leg_command_end, iptables_target.
  rewrite Hconn, Hicmp.
  unfold l3_matchers in Hm. unfold ipt_switch, l3_proto_name.
  destruct (def_prtclType rule); try discriminate Hm;
    injection Hm as <- <-; unfold ipHdr_items, portData_items in Hothers;
    cbn [app] in Hothers;
    absent_facts Hothers;
    unfold ipt_case_head, iptablesHandleSrcMacAddr, iptablesHandleIpHdr,
      iptablesHandleIpHdr_addr, iptablesHandlePortData, iptablesHandlePortData_side;
    rewrite Hmac;
    repeat match goal with E : HAS_ENTRY_ITEM _ = false |- _ => rewrite E; clear E end;
    cbn -[String.length CMD_DEF_PRE String.append iptablesEnforceDirection];
    (destruct (def_action rule); cbv beta iota zeta;
     rewrite ?iptablesEnforceDirection_qualifier;
     generalize (ctdir_qualifier (iptables_ctdir_corrected st) directionIn rule) as q;
     intros q;
     destruct match_ as [m|], defMatch;
     cbn [negb andb bool_decide decide_rel];
     repeat match goal with
       | |- context [bool_decide ?P] =>
           first [ rewrite (bool_decide_eq_true_2 P) by discriminate
                 | rewrite (bool_decide_eq_false_2 P) by (intros Hn; now apply Hn) ]
       end;
     cbn [negb andb];
     change (String.length "") with 0%nat; cbn [Nat.ltb Nat.leb];
     do 3 f_equal; rewrite ?app_empty_r, ?app_nil_l_s, ?app_assoc_s; reflexivity).
Qed.

(** ** The direction qualifier *)

(** C5.  A leg of a rule of the IP layer, compiled with the direction
    semantics that [ebiptablesDriverProbeCtdir] found in the kernel's
    release, ends the same way whatever the release is: with an error,
    without a command, or with one command; and the commands for two
    releases differ in the direction qualifier alone, which stands right
    after the state match.  The qualifier is there only in a command that
    has the automatic state match of a rule that has one direction and does
    not match the ICMP type.  It is omitted when the release could not be
    read or parsed; it is [-m conntrack --ctdir] with the polarity inverted
    (a leg compiled inbound gets [Reply], one compiled outbound [Original])
    when the version is at least 2.6.39, and with the polarity as it is
    when the version is older.  A leg of a rule without matchers always
    adds its command when the tool is there. *)
Theorem ctdir_qualifier_follows_probe (st : driver_state) (directionIn : bool)
    (chainPrefix : ascii * ascii) (rule : virNWFilterRuleDef) (ifname : string)
    (vars : virNWFilterVarCombIter) (match_ : option string) (defMatch : bool)
    (accept_target : string) (isIPv6 maySkipICMP : bool) (templates : list string) :
  let leg release :=
    _iptablesCreateRuleInstance (set_ctdir st (ebiptablesDriverProbeCtdir release))
      directionIn chainPrefix rule ifname vars match_ defMatch accept_target isIPv6
      maySkipICMP templates in
  let qualifier release :=
    if leg_is_qualified rule match_ defMatch && negb (is_inout rule) then
      match release ≫= virParseVersionString with
      | None => ""
      | Some version =>
          " -m conntrack --ctdir "
          +:+ (if (2006039 <=? version)%Z
               then (if directionIn then "Reply" else "Original")
               else (if directionIn then "Original" else "Reply"))
      end
    else "" in
  ((forall release, leg release = ((-1)%Z, templates))
   \/ (forall release, leg release = (0%Z, templates))
   \/ exists pre post : string,
        forall release,
          leg release
          = (0%Z,
             templates
             ++ [pre +:+ leg_match_text rule match_ defMatch +:+ qualifier release
                     +:+ post +:+ leg_command_end rule accept_target]))
  /\ (leg_tool st isIPv6 <> None ->
      no_matchers rule ->
      forall release,
        leg release
        = (0%Z,
           templates
           ++ [CMD_DEF_PRE +:+ "$IPT -A " +:+ PRINT_IPT_ROOT_CHAIN chainPrefix ifname
                 +:+ " -p " +:+ l3_proto_name (def_prtclType rule)
                 +:+ leg_match_text rule match_ defMatch +:+ qualifier release
                 +:+ leg_command_end rule accept_target])).
Proof.
  cbv zeta.
  assert (Hq : forall release,
             (if leg_is_qualified rule match_ defMatch
              then ctdir_qualifier (ebiptablesDriverProbeCtdir release) directionIn rule
              else "")
             = (if leg_is_qualified rule match_ defMatch && negb (is_inout rule) then
                  match release ≫= virParseVersionString with
                  | None => ""
                  | Some version =>
                      " -m conntrack --ctdir "
                      +:+ (if (2006039 <=? version)%Z
                           then (if directionIn then "Reply" else "Original")
                           else (if directionIn then "Original" else "Reply"))
                  end
                else "")).
  { intros release. unfold ctdir_qualifier, ebiptablesDriverProbeCtdir.
    change (2 * 1000000 + 6 * 1000 + 39)%Z with 2006039%Z.
    destruct (leg_is_qualified rule match_ defMatch), (is_inout rule);
      cbn [andb negb]; try reflexivity.
    destruct release as [r|]; cbn [mbind option_bind]; [|reflexivity].
    destruct (virParseVersionString r) as [v|]; [|reflexivity].
    destruct (2006039 <=? v)%Z; reflexivity. }
  split.
  - destruct (leg_command st directionIn chainPrefix rule ifname vars accept_target
                isIPv6 maySkipICMP templates) as [Hleg | [Hleg | (pre & post & Hleg)]].
    + left. intros release. now apply Hleg.
    + right; left. intros release. now apply Hleg.
    + right; right. exists pre, post. intros release.
      rewrite (Hleg (set_ctdir st (ebiptablesDriverProbeCtdir release)) match_ defMatch
                 eq_refl).
      unfold leg_state_text. cbn [iptables_ctdir_corrected set_ctdir].
      now rewrite Hq, !app_assoc_s.
  - intros Htool Hnone release.
    rewrite (leg_without_matchers (set_ctdir st (ebiptablesDriverProbeCtdir release))
               directionIn chainPrefix rule ifname vars match_ defMatch accept_target
               isIPv6 maySkipICMP templates Htool Hnone).
    unfold leg_state_text. cbn [iptables_ctdir_corrected set_ctdir].
    now rewrite Hq, !app_assoc_s.
Qed.

(** ** The automatic state match *)

(** [ebiptablesDriverProbeStateMatch] leaves the state match texts the file
    starts with or replaces both with the newer ones. *)
Lemma ebiptablesDriverProbeStateMatch_texts (st : driver_state) (w : World) :
  state_match_is false st ->
  exists newer, state_match_is newer (snd (ebiptablesDriverProbeStateMatch st w)).
Proof.
  intros Hst. unfold ebiptablesDriverProbeStateMatch. cbv zeta.
  destruct (run_sh w _) as [w' [status cmdout]].
  destruct (negb (status =? 0)%Z); [now exists false|].
  destruct (index 0 "v" cmdout) as [i|]; [|now exists false].
  destruct (virParseVersionString _) as [v|]; [|now exists false].
  destruct (_ <=? v)%Z; [|now exists false].
  exists true. split; reflexivity.
Qed.

(** ** Chain names *)

Lemma snprintf_keeps (p s : string) (n : nat) :
  (String.length p < n)%nat ->
  snprintf n (p +:+ s) = p +:+ snprintf (n - String.length p) s.
Proof.
  unfold snprintf. revert n.
  induction p as [|c p IH]; intros n Hn; simpl in *.
  - now rewrite Nat.sub_0_r.
  - destruct n as [|[|n]]; try lia. rewrite !app_cons_s. simpl.
    f_equal. specialize (IH (S n)). simpl in IH. rewrite Nat.sub_0_r in IH.
    rewrite IH by lia. repeat f_equal; lia.
Qed.

Lemma prefix_nil (s : string) : String.prefix "" s = true.
Proof. destruct s; reflexivity. Qed.

(** A name that starts with a temporary prefix is not one of the active
    generation. *)
Lemma temp_sub_chain_not_active (c : ascii) (name : string) :
  c = CHAINPREFIX_HOST_IN_TEMP \/ c = CHAINPREFIX_HOST_OUT_TEMP ->
  String.prefix (String c "-") name = true ->
  active_chain_name name = false.
Proof.
  intros Hc Hp.
  destruct name as [|a name]; cbn -[ascii_dec] in Hp; [discriminate|].
  destruct (ascii_dec c a) as [<-|]; [|discriminate].
  destruct name as [|b rest]; cbn -[ascii_dec] in Hp; [discriminate|].
  destruct (ascii_dec "-" b) as [<-|]; [|discriminate].
  destruct Hc as [-> | ->]; reflexivity.
Qed.


Lemma PRINT_ROOT_CHAIN_temp_not_active (c : ascii) (ifname : string) :
  (10 <= MAX_CHAINNAME_LENGTH)%nat ->
  c = CHAINPREFIX_HOST_IN_TEMP \/ c = CHAINPREFIX_HOST_OUT_TEMP ->
  active_chain_name (PRINT_ROOT_CHAIN c ifname) = false.
Proof.
  intros Hmax Hc. unfold PRINT_ROOT_CHAIN.
  change ("libvirt-" +:+ String c "" +:+ "-" +:+ ifname)
    with (("libvirt-" +:+ String c "") +:+ ("-" +:+ ifname)).
  rewrite snprintf_keeps by (destruct Hc as [-> | ->]; simpl; lia).
  destruct Hc as [-> | ->]; reflexivity.
Qed.

Lemma active_prefixes_eq :
  active_prefixes = ["libvirt-I"; "libvirt-O"; "I-"; "O-"; "FI-"; "FO-"; "HI-"].
Proof. reflexivity. Qed.

(** No name of the active generation has [J] or [P] as its second
    character. *)
Lemma second_char_temp_not_active (a c : ascii) (rest : string) :
  c = CHAINPREFIX_HOST_IN_TEMP \/ c = CHAINPREFIX_HOST_OUT_TEMP ->
  active_chain_name (String a (String c rest)) = false.
Proof.
  intros Hc. unfold active_chain_name. rewrite active_prefixes_eq.
  cbn -[ascii_dec].
  destruct Hc as [-> | ->]; unfold CHAINPREFIX_HOST_IN_TEMP, CHAINPREFIX_HOST_OUT_TEMP;
    repeat match goal with
      | |- context [ascii_dec ?x ?y] =>
          destruct (ascii_dec x y) as [?|?]; try discriminate
      end; reflexivity.
Qed.

Lemma PRINT_IPT_ROOT_CHAIN_temp_not_active (p c : ascii) (ifname : string) :
  (10 <= MAX_CHAINNAME_LENGTH)%nat ->
  c = CHAINPREFIX_HOST_IN_TEMP \/ c = CHAINPREFIX_HOST_OUT_TEMP ->
  active_chain_name (PRINT_IPT_ROOT_CHAIN (p, c) ifname) = false.
Proof.
  intros Hmax Hc. unfold PRINT_IPT_ROOT_CHAIN. cbn [fst snd].
  change (String p (String c "") +:+ "-" +:+ ifname)
    with (String p (String c "") +:+ ("-" +:+ ifname)).
  rewrite snprintf_keeps by (simpl; lia).
  rewrite !app_cons_s. now apply second_char_temp_not_active.
Qed.


(** ** Scripts that spare the active generation *)

Create HintDb spares.








Lemma tmp_or_active_temp (incoming : bool) :
  tmp_or_active true incoming = CHAINPREFIX_HOST_IN_TEMP
  \/ tmp_or_active true incoming = CHAINPREFIX_HOST_OUT_TEMP.
Proof. destruct incoming; [left|right]; reflexivity. Qed.

Section Spares.
Hypothesis Hmax : (10 <= MAX_CHAINNAME_LENGTH)%nat.




















Hypothesis Hq :
  forall (l : list ebiptablesRuleInst) (x : ebiptablesRuleInst),
    In x (qsort _ ebiptablesRuleOrderSort l) -> In x l.





(** *** Running the scripts *)




(** *** The error paths *)








(** *** The whole function *)


End Spares.

(** ** The rollback of an apply *)


Lemma before_in_cons {A : Type} (x y z : A) (l : list A) :
  before_in x y l -> before_in x y (z :: l).
Proof. intros (a & b & c & ->). now exists (z :: a), b, c. Qed.

Lemma before_in_app_l {A : Type} (x y : A) (a l : list A) :
  before_in x y l -> before_in x y (a ++ l).
Proof.
  intros Hl. induction a as [|z a IH]; [exact Hl|]. now apply before_in_cons.
Qed.





Lemma rolled_back_longer (ifname : string) (R R' S : list shitem) (a : list ran) :
  script_ran R' = a ++ script_ran R ->
  rolled_back ifname R S -> rolled_back ifname R' S.
Proof.
  intros HR [Hnew Hlink]. split.
  - intros path t chain Hin Htemp.
    destruct (Hnew path t chain Hin Htemp) as [Hb | (c & sfx & m & Hc & Ht & Hn & Hj & Hb)].
    + left. rewrite HR. now apply before_in_app_l.
    + right. exists c, sfx, m. repeat split; try assumption.
      rewrite HR. now apply before_in_app_l.
  - intros path t base matches jump chain Hin Ht Hb.
    rewrite HR. apply before_in_app_l. now apply (Hlink path t base matches jump chain).
Qed.







(** *** What the scripts of an apply set up *)







Section Rollback.
Hypothesis Hmax : (10 <= MAX_CHAINNAME_LENGTH)%nat.
Hypothesis Hq :
  forall (l : list ebiptablesRuleInst) (x : ebiptablesRuleInst),
    In x (qsort _ ebiptablesRuleOrderSort l) -> In x l.




Variable st : driver_state.
Variable ifname : string.

(** **** What the scripts run *)






(** **** What undoes them *)










(** **** The error paths *)

Hypothesis Hebt : ebtables_cmd_path st <> None.








(** **** The whole function *)


End Rollback.


(** ** The order of rules and commands *)

Lemma sub32_small (x y : Z) :
  (-2147483648 <= x - y < 2147483648)%Z -> sub32 x y = (x - y)%Z.
Proof.
  intros Hr. unfold sub32, wrap32. rewrite Z.mod_small; lia.
Qed.

Lemma virNWFilterRuleInstSort_three_way (a b : virNWFilterRuleInst) :
  in_priority_range (priority a) -> in_priority_range (priority b) ->
  virNWFilterRuleInstSort a b
  = three_way (is_root_rule a) (is_root_rule b) (priority a) (priority b).
Proof.
  unfold in_priority_range, virNWFilterRuleInstSort, three_way, is_root_rule.
  intros Ha Hb. cbv zeta. rewrite sub32_small by lia. reflexivity.
Qed.

Lemma ebiptablesRuleOrderSort_three_way (a b : ebiptablesRuleInst) :
  in_priority_range (ebt_priority a) -> in_priority_range (ebt_priority b) ->
  ebiptablesRuleOrderSort a b
  = three_way (STREQ (neededProtocolChain a) virNWFilterChainSuffixTypeToString_ROOT)
      (STREQ (neededProtocolChain b) virNWFilterChainSuffixTypeToString_ROOT)
      (ebt_priority a) (ebt_priority b).
Proof.
  unfold in_priority_range, ebiptablesRuleOrderSort, three_way.
  intros Ha Hb. cbv zeta. rewrite sub32_small by lia. reflexivity.
Qed.

Lemma StronglySorted_weaken {A : Type} (R R' : A -> A -> Prop) (l : list A) :
  (forall a b, In a l -> In b l -> R a b -> R' a b) ->
  StronglySorted R l -> StronglySorted R' l.
Proof.
  intros Himp Hs. induction Hs as [|x l Hs IH Hx]; constructor.
  - apply IH. intros a b Ha Hb. apply Himp; now right.
  - rewrite List.Forall_forall in *. intros y Hy.
    apply Himp; [now left|now right|now apply Hx].
Qed.

Lemma three_way_order (a b : virNWFilterRuleInst) :
  (three_way (is_root_rule a) (is_root_rule b) (priority a) (priority b) <= 0)%Z ->
  rule_order a b.
Proof.
  unfold three_way, rule_order.
  destruct (is_root_rule a), (is_root_rule b); cbn; intros Hle; split;
    intros; try congruence; lia.
Qed.

(** *** The rule commands in a script *)

Lemma raise_priority_keeps (r : virNWFilterRuleInst) :
  chainSuffix (raise_priority r) = chainSuffix r
  /\ chainPriority (raise_priority r) = chainPriority r
  /\ def (raise_priority r) = def r
  /\ vars (raise_priority r) = vars r.
Proof. unfold raise_priority. destruct (_ && _); repeat split. Qed.

Lemma rule_inst_loop_ext st ifname r r' iter cmds :
  chainSuffix r = chainSuffix r' -> def r = def r' ->
  rule_inst_loop st ifname r iter cmds = rule_inst_loop st ifname r' iter cmds.
Proof.
  intros Hs Hd. revert cmds. induction iter as [|tmp iter IH]; intros cmds; simpl.
  - reflexivity.
  - rewrite Hs, Hd. destruct (_ <? 0)%Z; [reflexivity|apply IH].
Qed.

Lemma ebtablesRuleInstCommand_raise st ifname r :
  ebtablesRuleInstCommand st ifname (raise_priority r)
  = ebtablesRuleInstCommand st ifname r.
Proof.
  destruct (raise_priority_keeps r) as (Hs & _ & Hd & Hv).
  unfold ebtablesRuleInstCommand. rewrite Hv, Hd.
  destruct (virNWFilterVarCombIterCreate _ _) as [|tmp iter]; [reflexivity|].
  now rewrite (rule_inst_loop_ext st ifname (raise_priority r) r).
Qed.

Lemma iptablesRuleInstCommand_raise st ifname r :
  iptablesRuleInstCommand st ifname (raise_priority r)
  = iptablesRuleInstCommand st ifname r.
Proof.
  destruct (raise_priority_keeps r) as (Hs & _ & Hd & Hv).
  unfold iptablesRuleInstCommand. rewrite Hv, Hd.
  destruct (virNWFilterVarCombIterCreate _ _) as [|tmp iter]; [reflexivity|].
  now rewrite (rule_inst_loop_ext st ifname (raise_priority r) r).
Qed.

Lemma rule_commands_are_rule_items (cmds : list string) :
  List.filter is_rule_item (flat_map ebiptablesInstCommand cmds)
  = flat_map ebiptablesInstCommand cmds
  /\ List.filter is_chain_item (flat_map ebiptablesInstCommand cmds) = [].
Proof.
  induction cmds as [|c cmds [IH1 IH2]]; simpl; [now split|].
  rewrite IH1, IH2. now split.
Qed.

Lemma ebtablesRuleInstCommand_items st ifname r :
  List.filter is_rule_item (snd (ebtablesRuleInstCommand st ifname r))
  = snd (ebtablesRuleInstCommand st ifname r)
  /\ List.filter is_chain_item (snd (ebtablesRuleInstCommand st ifname r)) = [].
Proof.
  unfold ebtablesRuleInstCommand.
  destruct (virNWFilterVarCombIterCreate _ _); [now split|].
  destruct (rule_inst_loop _ _ _ _ _); [|now split].
  apply rule_commands_are_rule_items.
Qed.

Lemma emit_chains_upto_items (ebtChains : list ebiptablesRuleInst) (prio : Z) :
  let r := emit_chains_upto ebtChains prio in
  List.filter is_rule_item (fst r) = []
  /\ List.filter is_chain_item (fst r) = fst r
  /\ map (fun c => ShInstChain (commandTemplate c)) ebtChains
     = fst r ++ map (fun c => ShInstChain (commandTemplate c)) (snd r).
Proof.
  induction ebtChains as [|c rest IH]; simpl; [now repeat split|].
  destruct (ebt_priority c <=? prio)%Z; [|now repeat split].
  destruct (emit_chains_upto rest prio) as [items remaining].
  cbn [fst snd] in *. destruct IH as (IH1 & IH2 & IH3).
  simpl. rewrite IH1, IH2, IH3. now repeat split.
Qed.

Lemma process_rules_items st ifname rules :
  forall ebtChains buf h4 h6,
    let r := process_rules st ifname rules ebtChains buf h4 h6 in
    List.filter is_rule_item (fst (fst (fst r)))
    = List.filter is_rule_item buf
      ++ flat_map (fun r => snd (ebtablesRuleInstCommand st ifname r))
           (List.filter is_ethernet_rule rules)
    /\ List.filter is_chain_item (fst (fst (fst r)))
       ++ map (fun c => ShInstChain (commandTemplate c)) (snd (fst (fst r)))
       = List.filter is_chain_item buf
         ++ map (fun c => ShInstChain (commandTemplate c)) ebtChains.
Proof.
  induction rules as [|r rules IH]; intros ebtChains buf h4 h6; simpl.
  - rewrite app_nil_r. now split.
  - unfold is_ethernet_rule at 1.
    destruct (virNWFilterRuleIsProtocolEthernet (def_prtclType (def r))).
    + pose proof (emit_chains_upto_items ebtChains (priority r)) as He.
      cbv zeta in He.
      destruct (emit_chains_upto ebtChains (priority r)) as [items remaining].
      cbn [fst snd] in He. destruct He as (He1 & He2 & He3).
      destruct (ebtablesRuleInstCommand_items st ifname r) as [Hc1 Hc2].
      specialize (IH remaining
                    ((buf ++ items) ++ snd (ebtablesRuleInstCommand st ifname r))
                    h4 h6).
      cbv zeta in IH. destruct IH as [IH1 IH2]. split.
      * rewrite IH1, !List.filter_app, He1, Hc1, app_nil_r. simpl.
        now rewrite <- app_assoc.
      * rewrite IH2, !List.filter_app, He2, Hc2, app_nil_r, He3.
        now rewrite <- app_assoc.
    + destruct (virNWFilterRuleIsProtocolIPv4 _); [apply IH|].
      destruct (virNWFilterRuleIsProtocolIPv6 _); apply IH.
Qed.

Lemma is_ethernet_rule_raise (r : virNWFilterRuleInst) :
  is_ethernet_rule (raise_priority r) = is_ethernet_rule r.
Proof.
  unfold is_ethernet_rule. now destruct (raise_priority_keeps r) as (_ & _ & -> & _).
Qed.

Lemma filter_map_raise (rules : list virNWFilterRuleInst) :
  List.filter is_ethernet_rule (map raise_priority rules)
  = map raise_priority (List.filter is_ethernet_rule rules).
Proof.
  induction rules as [|r rules IH]; [reflexivity|].
  cbn [map List.filter]. rewrite is_ethernet_rule_raise.
  destruct (is_ethernet_rule r); cbn [map]; now rewrite IH.
Qed.

Lemma ebtables_rules_script_items st ifname rules ebtChains :
  List.filter is_rule_item
    (ebtables_rules_script st ifname (map raise_priority rules) ebtChains)
  = flat_map (fun r => snd (ebtablesRuleInstCommand st ifname r))
      (List.filter is_ethernet_rule rules)
  /\ List.filter is_chain_item
       (ebtables_rules_script st ifname (map raise_priority rules) ebtChains)
     = map (fun c => ShInstChain (commandTemplate c)) ebtChains.
Proof.
  unfold ebtables_rules_script, rules_script.
  pose proof (process_rules_items st ifname (map raise_priority rules) ebtChains
                (NWFILTER_SET_EBTABLES_SHELLVAR st) false false) as Hp.
  cbv zeta in Hp.
  destruct (process_rules st ifname (map raise_priority rules) ebtChains
              (NWFILTER_SET_EBTABLES_SHELLVAR st) false false)
    as [[[buf remaining] h4] h6].
  cbn [fst snd] in Hp. destruct Hp as [Hp1 Hp2].
  assert (Hrem : forall l : list ebiptablesRuleInst,
             List.filter is_rule_item
               (map (fun c => ShInstChain (commandTemplate c)) l) = []
             /\ List.filter is_chain_item
                  (map (fun c => ShInstChain (commandTemplate c)) l)
                = map (fun c => ShInstChain (commandTemplate c)) l).
  { induction l as [|c l [IH1 IH2]]; simpl; [now split|]. now rewrite IH1, IH2. }
  destruct (Hrem remaining) as [Hr1 Hr2]. split.
  - rewrite List.filter_app, Hr1, app_nil_r, Hp1, filter_map_raise. simpl.
    clear. induction (List.filter is_ethernet_rule rules) as [|r l IH]; simpl.
    + reflexivity.
    + now rewrite ebtablesRuleInstCommand_raise, IH.
  - rewrite List.filter_app, Hr2, Hp2. reflexivity.
Qed.

Lemma iptables_rule_commands_order st ifname isProtocol rules :
  iptables_rule_commands st ifname isProtocol (map raise_priority rules)
  = flat_map (fun r => snd (iptablesRuleInstCommand st ifname r))
      (List.filter (fun r => isProtocol (def_prtclType (def r))) rules).
Proof.
  induction rules as [|r rules IH]; simpl; [reflexivity|].
  destruct (raise_priority_keeps r) as (_ & _ & -> & _).
  rewrite IH, iptablesRuleInstCommand_raise.
  destruct (isProtocol _); reflexivity.
Qed.

(** C2 (as amended).  With priorities within [-1000, 1000] the comparators
    return a negative number, zero or a positive number according to
    root-chain membership first and then the difference of the priorities.
    When [qsort] has sorted the array of rules by the comparator, every rule
    of the root chain stands before every rule of another chain, and among
    the rules of the root chain and among the others the priorities ascend.
    The ebtables script holds the commands of the rules of the bridge layer
    in the order of the array, and the commands that create the sub-chains
    in the order of the array of sub-chains, the two interleaved; the script
    of each IP layer holds the commands of the layer's rules in the order of
    the array. *)
Theorem rules_are_compiled_in_sorted_order (st : driver_state) (ifname : string)
    (rules : list virNWFilterRuleInst) :
  Forall (fun r => in_priority_range (priority r)) rules ->
  Permutation (sorted_rules rules) rules ->
  StronglySorted (fun a b => (virNWFilterRuleInstSortPtr a b <= 0)%Z)
    (sorted_rules rules) ->
  (forall a b : virNWFilterRuleInst,
      in_priority_range (priority a) -> in_priority_range (priority b) ->
      virNWFilterRuleInstSort a b
      = three_way (is_root_rule a) (is_root_rule b) (priority a) (priority b))
  /\ (forall a b : ebiptablesRuleInst,
        in_priority_range (ebt_priority a) -> in_priority_range (ebt_priority b) ->
        ebiptablesRuleOrderSort a b
        = three_way
            (STREQ (neededProtocolChain a) virNWFilterChainSuffixTypeToString_ROOT)
            (STREQ (neededProtocolChain b) virNWFilterChainSuffixTypeToString_ROOT)
            (ebt_priority a) (ebt_priority b))
  /\ StronglySorted rule_order (sorted_rules rules)
  /\ (forall ebtChains : list ebiptablesRuleInst,
        let script := ebtables_rules_script st ifname
                        (map raise_priority (sorted_rules rules)) ebtChains in
        List.filter is_rule_item script
        = flat_map (fun r => snd (ebtablesRuleInstCommand st ifname r))
            (List.filter is_ethernet_rule (sorted_rules rules))
        /\ List.filter is_chain_item script
           = map (fun c => ShInstChain (commandTemplate c)) ebtChains)
  /\ (forall isProtocol : virNWFilterRuleProtocolType -> bool,
        iptables_rule_commands st ifname isProtocol
          (map raise_priority (sorted_rules rules))
        = flat_map (fun r => snd (iptablesRuleInstCommand st ifname r))
            (List.filter (fun r => isProtocol (def_prtclType (def r)))
               (sorted_rules rules))).
Proof.
  intros Hrange Hperm Hsorted.
  split; [apply virNWFilterRuleInstSort_three_way|].
  split; [apply ebiptablesRuleOrderSort_three_way|].
  split; [|split].
  - apply (StronglySorted_weaken
             (fun a b => (virNWFilterRuleInstSortPtr a b <= 0)%Z)); [|exact Hsorted].
    intros a b Ha Hb Hle. apply three_way_order.
    unfold virNWFilterRuleInstSortPtr in Hle.
    rewrite List.Forall_forall in Hrange.
    rewrite <- virNWFilterRuleInstSort_three_way; [exact Hle| |];
      apply Hrange; eapply Permutation_in; eassumption.
  - intros ebtChains. apply ebtables_rules_script_items.
  - intros isProtocol. apply iptables_rule_commands_order.
Qed.

(** ** Sub-chains are created before their rules *)

Lemma scan_chains_sides (rules : list virNWFilterRuleInst) :
  forall chains_in_set chains_out_set,
    scan_chains rules chains_in_set chains_out_set
    = (scan_side true rules chains_in_set, scan_side false rules chains_out_set).
Proof.
  induction rules as [|r rules IH]; intros cin cout; simpl; [reflexivity|].
  unfold is_ethernet_rule, rule_uses_side.
  destruct (virNWFilterRuleIsProtocolEthernet _); cbn [andb]; [|apply IH].
  rewrite IH. destruct (def_tt (def r)); reflexivity.
Qed.

(** An entry of a chain set was there at first or is the chain priority of
    a rule of the bridge layer that uses the side. *)
Lemma scan_side_origin incoming rules :
  forall m k v,
    scan_side incoming rules m !! k = Some v ->
    m !! k = Some v
    \/ exists x, In x rules /\ is_ethernet_rule x = true
                 /\ rule_uses_side incoming x = true
                 /\ chainSuffix x = k /\ chainPriority x = v.
Proof.
  induction rules as [|r rules IH]; intros m k v Hl; simpl in Hl; [now left|].
  apply IH in Hl as [Hl | (x & Hx & Hrest)].
  - destruct (is_ethernet_rule r && rule_uses_side incoming r) eqn:E; [|now left].
    apply andb_prop in E as [E1 E2].
    destruct (decide (chainSuffix r = k)) as [Hk|Hk].
    + subst k. rewrite lookup_insert_eq in Hl. injection Hl as <-.
      right. exists r. repeat split; auto. now left.
    + rewrite lookup_insert_ne in Hl by exact Hk. now left.
  - right. exists x. split; [now right|exact Hrest].
Qed.

Lemma scan_side_mono incoming rules :
  forall m k, is_Some (m !! k) -> is_Some (scan_side incoming rules m !! k).
Proof.
  induction rules as [|r rules IH]; intros m k Hk; simpl; [exact Hk|].
  apply IH. destruct (_ && _); [|exact Hk].
  destruct (decide (chainSuffix r = k)) as [<-|Hne].
  - rewrite lookup_insert_eq. eauto.
  - now rewrite lookup_insert_ne.
Qed.

Lemma scan_side_present incoming rules :
  forall m x,
    In x rules -> is_ethernet_rule x = true -> rule_uses_side incoming x = true ->
    is_Some (scan_side incoming rules m !! chainSuffix x).
Proof.
  induction rules as [|r rules IH]; intros m x Hx He Hu; [destruct Hx|].
  simpl. destruct Hx as [->|Hx].
  - rewrite He, Hu. cbn [andb]. apply scan_side_mono.
    rewrite lookup_insert_eq. eauto.
  - now apply IH.
Qed.

Lemma ebtablesCreateTmpSubChains_spec incoming ifname names :
  forall inst c,
    In c (ebtablesCreateTmpSubChains incoming ifname names inst)
    <-> In c inst
        \/ exists k v idx,
             In (k, v) names /\ ebtablesGetProtoIdxByFiltername k = Some idx
             /\ c = ebtablesCreateTmpSubChain incoming ifname idx k v.
Proof.
  induction names as [|[key value] names IH]; intros inst c; simpl.
  - split; [now left|]. intros [Hc | (k & v & idx & [] & _)]. exact Hc.
  - destruct (ebtablesGetProtoIdxByFiltername key) as [idx0|] eqn:Eidx;
      rewrite IH; clear IH.
    + rewrite in_app_iff. simpl. split.
      * intros [[Hc | [<- | []]] | (k & v & idx & Hin & Hidx & ->)].
        -- now left.
        -- right. exists key, value, idx0. repeat split; auto.
        -- right. exists k, v, idx. repeat split; auto.
      * intros [Hc | (k & v & idx & [Heq | Hin] & Hidx & ->)].
        -- left. now left.
        -- injection Heq as -> ->. left. right. left. congruence.
        -- right. exists k, v, idx. repeat split; auto.
    + split.
      * intros [Hc | (k & v & idx & Hin & Hidx & ->)]; [now left|].
        right. exists k, v, idx. repeat split; auto.
      * intros [Hc | (k & v & idx & [Heq | Hin] & Hidx & ->)]; [now left| |].
        -- injection Heq as -> ->. congruence.
        -- right. exists k, v, idx. repeat split; auto.
Qed.

Section Chains.

(** [virHashGetItems] returns the entries of the table. *)
Hypothesis Hhash :
  forall (m : gmap string Z) (cmp : string * Z -> string * Z -> Z) (k : string) (v : Z),
    In (k, v) (virHashGetItems m cmp) <-> m !! k = Some v.

(** [qsort] sorts an array of sub-chains whose priorities are in the
    range. *)
Hypothesis Hqsort :
  forall l : list ebiptablesRuleInst,
    Forall (fun c => in_priority_range (ebt_priority c)) l ->
    Permutation (qsort _ ebiptablesRuleOrderSort l) l
    /\ StronglySorted (fun a b => (ebiptablesRuleOrderSort a b <= 0)%Z)
         (qsort _ ebiptablesRuleOrderSort l).

Lemma size_pos_of_lookup (m : gmap string Z) (k : string) (v : Z) :
  m !! k = Some v -> (0 <? size m)%nat = true.
Proof.
  intros Hl. apply Nat.ltb_lt. destruct (size m) eqn:E; [|lia].
  apply map_size_empty_iff in E. subst m. rewrite lookup_empty in Hl. discriminate.
Qed.

Lemma create_needed_chains_spec ifname (cin cout : gmap string Z) :
  (forall k v, cin !! k = Some v -> in_priority_range v) ->
  (forall k v, cout !! k = Some v -> in_priority_range v) ->
  let chains := snd (create_needed_chains ifname cin cout) in
  (forall c, In c chains <-> subchain_of true ifname cin c \/ subchain_of false ifname cout c)
  /\ StronglySorted (fun a b => (ebt_priority a <= ebt_priority b)%Z) chains.
Proof.
  intros Hin Hout. cbv zeta.
  unfold create_needed_chains, ebtablesCreateTmpRootAndSubChains.
  set (inst_in := if (0 <? size cin)%nat
                  then ebtablesCreateTmpSubChains true ifname
                         (virHashGetItems cin ebiptablesFilterOrderSort) []
                  else []).
  set (inst_out := if (0 <? size cout)%nat
                   then ebtablesCreateTmpSubChains false ifname
                          (virHashGetItems cout ebiptablesFilterOrderSort) inst_in
                   else inst_in).
  assert (Hmem_in : forall c, In c inst_in <-> subchain_of true ifname cin c).
  { intros c. unfold inst_in, subchain_of.
    destruct (0 <? size cin)%nat eqn:E.
    - rewrite ebtablesCreateTmpSubChains_spec. split.
      + intros [[] | (k & v & idx & Hk & Hidx & ->)].
        exists k, v, idx. rewrite Hhash in Hk. auto.
      + intros (k & v & idx & Hk & Hidx & ->). right.
        exists k, v, idx. rewrite Hhash. auto.
    - split; [intros []|]. intros (k & v & idx & Hk & _).
      apply size_pos_of_lookup in Hk. congruence. }
  assert (Hmem_out : forall c, In c inst_out
                               <-> subchain_of true ifname cin c
                                   \/ subchain_of false ifname cout c).
  { intros c. unfold inst_out.
    destruct (0 <? size cout)%nat eqn:E.
    - rewrite ebtablesCreateTmpSubChains_spec, Hmem_in.
      unfold subchain_of at 2. split.
      + intros [Hc | (k & v & idx & Hk & Hidx & ->)]; [now left|].
        right. exists k, v, idx. rewrite Hhash in Hk. auto.
      + intros [Hc | (k & v & idx & Hk & Hidx & ->)]; [now left|].
        right. exists k, v, idx. rewrite Hhash. auto.
    - rewrite Hmem_in. split; [now left|]. intros [Hc | (k & v & idx & Hk & _)].
      + exact Hc.
      + apply size_pos_of_lookup in Hk. congruence. }
  assert (Hwf : Forall (fun c => in_priority_range (ebt_priority c)) inst_out).
  { apply List.Forall_forall. intros c Hc. apply Hmem_out in Hc.
    destruct Hc as [(k & v & idx & Hk & _ & ->) | (k & v & idx & Hk & _ & ->)];
      cbn; eauto. }
  assert (Hroot : forall c, In c inst_out ->
                            neededProtocolChain c = virNWFilterChainSuffixTypeToString_ROOT).
  { intros c Hc. apply Hmem_out in Hc.
    destruct Hc as [(k & v & idx & _ & _ & ->) | (k & v & idx & _ & _ & ->)];
      reflexivity. }
  assert (Hshape : snd (let '(buf_in, ebtChains) :=
                          if (0 <? size cin)%nat
                          then (ebtablesCreateTmpRootChain true ifname,
                                ebtablesCreateTmpSubChains true ifname
                                  (virHashGetItems cin ebiptablesFilterOrderSort) [])
                          else ([], []) in
                        let '(buf_out, ebtChains0) :=
                          if (0 <? size cout)%nat
                          then (ebtablesCreateTmpRootChain false ifname,
                                ebtablesCreateTmpSubChains false ifname
                                  (virHashGetItems cout ebiptablesFilterOrderSort)
                                  ebtChains)
                          else ([], ebtChains) in
                        (buf_in ++ buf_out,
                         match ebtChains0 with
                         | [] => ebtChains0
                         | _ :: _ => qsort ebiptablesRuleInst ebiptablesRuleOrderSort
                                       ebtChains0
                         end))
                 = match inst_out with
                   | [] => inst_out
                   | _ :: _ => qsort _ ebiptablesRuleOrderSort inst_out
                   end).
  { unfold inst_out, inst_in.
    destruct (0 <? size cin)%nat, (0 <? size cout)%nat; reflexivity. }
  rewrite Hshape. clear Hshape.
  destruct inst_out as [|c0 rest] eqn:Einst.
  - split; [|constructor]. intros c. rewrite <- Hmem_out. reflexivity.
  - rewrite <- Einst in *. destruct (Hqsort inst_out Hwf) as [Hperm Hsorted]. split.
    + intros c. rewrite <- Hmem_out. split; apply Permutation_in; [|symmetry]; exact Hperm.
    + apply (StronglySorted_weaken
               (fun a b => (ebiptablesRuleOrderSort a b <= 0)%Z)); [|exact Hsorted].
      intros a b Ha Hb Hle.
      apply (Permutation_in _ Hperm) in Ha, Hb.
      rewrite List.Forall_forall in Hwf.
      rewrite ebiptablesRuleOrderSort_three_way in Hle by (apply Hwf; assumption).
      rewrite (Hroot a Ha), (Hroot b Hb) in Hle. unfold three_way, STREQ in Hle.
      rewrite String.eqb_refl in Hle. cbn in Hle. lia.
Qed.

End Chains.

(** *** The loop that interleaves rules and sub-chains *)

Lemma rules_script_cons_ethernet st ifname x rules chains buf h4 h6 :
  is_ethernet_rule x = true ->
  rules_script st ifname (x :: rules) chains buf h4 h6
  = rules_script st ifname rules (snd (emit_chains_upto chains (priority x)))
      ((buf ++ fst (emit_chains_upto chains (priority x)))
       ++ snd (ebtablesRuleInstCommand st ifname x)) h4 h6.
Proof.
  unfold is_ethernet_rule, rules_script. intros He. simpl. rewrite He.
  destruct (emit_chains_upto chains (priority x)) as [items remaining]. reflexivity.
Qed.

Lemma rules_script_cons_other st ifname x rules chains buf h4 h6 :
  is_ethernet_rule x = false ->
  exists h4' h6',
    rules_script st ifname (x :: rules) chains buf h4 h6
    = rules_script st ifname rules chains buf h4' h6'.
Proof.
  unfold is_ethernet_rule, rules_script. intros He. simpl. rewrite He.
  destruct (virNWFilterRuleIsProtocolIPv4 _); [now exists true, h6|].
  destruct (virNWFilterRuleIsProtocolIPv6 _); [now exists h4, true|].
  now exists h4, h6.
Qed.

Lemma rules_script_extends st ifname rules :
  forall chains buf h4 h6,
    exists post, rules_script st ifname rules chains buf h4 h6 = buf ++ post.
Proof.
  induction rules as [|x rules IH]; intros chains buf h4 h6.
  - unfold rules_script. simpl. eauto.
  - destruct (is_ethernet_rule x) eqn:He.
    + rewrite rules_script_cons_ethernet by exact He.
      destruct (IH (snd (emit_chains_upto chains (priority x)))
                  ((buf ++ fst (emit_chains_upto chains (priority x)))
                   ++ snd (ebtablesRuleInstCommand st ifname x)) h4 h6) as [post ->].
      rewrite <- !app_assoc. eauto.
    + destruct (rules_script_cons_other st ifname x rules chains buf h4 h6 He)
        as (h4' & h6' & ->). apply IH.
Qed.

Lemma emit_chains_upto_split (chains : list ebiptablesRuleInst) (prio : Z) :
  StronglySorted (fun a b => (ebt_priority a <= ebt_priority b)%Z) chains ->
  exists emitted,
    chains = emitted ++ snd (emit_chains_upto chains prio)
    /\ fst (emit_chains_upto chains prio) = map chain_item emitted
    /\ Forall (fun c => (prio < ebt_priority c)%Z) (snd (emit_chains_upto chains prio))
    /\ StronglySorted (fun a b => (ebt_priority a <= ebt_priority b)%Z)
         (snd (emit_chains_upto chains prio)).
Proof.
  induction 1 as [|c rest Hs IH Hc]; simpl.
  - exists []. repeat split; constructor.
  - destruct (ebt_priority c <=? prio)%Z eqn:E.
    + destruct IH as (emitted & Hsplit & Hitems & Hgt & Hsorted).
      destruct (emit_chains_upto rest prio) as [items remaining]. cbn [fst snd] in *.
      exists (c :: emitted). simpl. rewrite <- Hsplit, Hitems. now repeat split.
    + exists []. cbn [fst snd]. apply Z.leb_gt in E. repeat split.
      * constructor; [lia|]. rewrite List.Forall_forall in *. intros x Hx.
        specialize (Hc x Hx). lia.
      * now constructor.
Qed.

(** In the script, the commands of a rule of the bridge layer come after
    what the buffer held at first and after the creation of every
    sub-chain whose priority is not above the rule's. *)
Lemma rules_script_before st ifname :
  forall rs1 r rs2 chains buf h4 h6,
    StronglySorted (fun a b => (ebt_priority a <= ebt_priority b)%Z) chains ->
    is_ethernet_rule r = true ->
    exists pre post,
      rules_script st ifname (rs1 ++ r :: rs2) chains buf h4 h6
      = pre ++ snd (ebtablesRuleInstCommand st ifname r) ++ post
      /\ (forall i, In i buf -> In i pre)
      /\ (forall c, In c chains -> (ebt_priority c <= priority r)%Z ->
                    In (chain_item c) pre).
Proof.
  induction rs1 as [|x rs1 IH]; intros r rs2 chains buf h4 h6 Hsorted He.
  - cbn [app]. rewrite rules_script_cons_ethernet by exact He.
    destruct (emit_chains_upto_split chains (priority r) Hsorted)
      as (emitted & Hsplit & Hitems & Hgt & _).
    destruct (rules_script_extends st ifname rs2
                (snd (emit_chains_upto chains (priority r)))
                ((buf ++ fst (emit_chains_upto chains (priority r)))
                 ++ snd (ebtablesRuleInstCommand st ifname r)) h4 h6) as [post ->].
    exists (buf ++ fst (emit_chains_upto chains (priority r))), post.
    split; [now rewrite <- !app_assoc|]. split.
    + intros i Hi. apply in_or_app. now left.
    + intros c Hc Hle. apply in_or_app. right. rewrite Hitems.
      rewrite Hsplit in Hc. apply in_app_or in Hc as [Hc|Hc].
      * now apply in_map.
      * rewrite List.Forall_forall in Hgt. specialize (Hgt c Hc). lia.
  - cbn [app]. destruct (is_ethernet_rule x) eqn:Hx.
    + rewrite rules_script_cons_ethernet by exact Hx.
      destruct (emit_chains_upto_split chains (priority x) Hsorted)
        as (emitted & Hsplit & Hitems & _ & Hsorted').
      destruct (IH r rs2 (snd (emit_chains_upto chains (priority x)))
                  ((buf ++ fst (emit_chains_upto chains (priority x)))
                   ++ snd (ebtablesRuleInstCommand st ifname x)) h4 h6 Hsorted' He)
        as (pre & post & Heq & Hbuf & Hchains).
      exists pre, post. split; [exact Heq|]. split.
      * intros i Hi. apply Hbuf. apply in_or_app. left. apply in_or_app. now left.
      * intros c Hc Hle. rewrite Hsplit in Hc. apply in_app_or in Hc as [Hc|Hc].
        -- apply Hbuf. apply in_or_app. left. apply in_or_app. right.
           rewrite Hitems. now apply in_map.
        -- now apply Hchains.
    + destruct (rules_script_cons_other st ifname x (rs1 ++ r :: rs2) chains buf h4 h6 Hx)
        as (h4' & h6' & ->). now apply IH.
Qed.

Lemma raise_priority_spec (r : virNWFilterRuleInst) :
  priority (raise_priority r)
  = (if (priority r <? chainPriority r)%Z && negb (strstr "root" (chainSuffix r))
     then chainPriority r else priority r).
Proof. unfold raise_priority. destruct (_ && _); reflexivity. Qed.

(** C3.  The walk over the rules sets the priority of a rule to the
    priority of its chain when that is greater, unless [strstr] finds the
    name of the chain in the text [root], and leaves the rule as it is
    otherwise; a rule of the root chain is left as it is.  When the rules
    that share a chain carry the same chain priority, a rule of the bridge
    layer whose chain name starts with the name of a protocol finds, in the
    script that holds its commands, the commands that create its sub-chain
    before its own.  The hash table and [qsort] are assumed to do what
    their documentation says. *)
Theorem subchain_is_created_before_its_rules (st : driver_state) (ifname : string)
    (rules : list virNWFilterRuleInst) :
  virNWFilterChainSuffixTypeToString_ROOT = "root" ->
  (forall (m : gmap string Z) (cmp : string * Z -> string * Z -> Z) (k : string) (v : Z),
      In (k, v) (virHashGetItems m cmp) <-> m !! k = Some v) ->
  (forall l : list ebiptablesRuleInst,
      Forall (fun c => in_priority_range (ebt_priority c)) l ->
      Permutation (qsort _ ebiptablesRuleOrderSort l) l
      /\ StronglySorted (fun a b => (ebiptablesRuleOrderSort a b <= 0)%Z)
           (qsort _ ebiptablesRuleOrderSort l)) ->
  Permutation (sorted_rules rules) rules ->
  Forall (fun r => in_priority_range (chainPriority r)) rules ->
  (forall a b, In a rules -> In b rules ->
               is_ethernet_rule a = true -> is_ethernet_rule b = true ->
               chainSuffix a = chainSuffix b -> chainPriority a = chainPriority b) ->
  (forall r,
      priority (raise_priority r)
      = (if (priority r <? chainPriority r)%Z && negb (strstr "root" (chainSuffix r))
         then chainPriority r else priority r)
      /\ chainSuffix (raise_priority r) = chainSuffix r
      /\ chainPriority (raise_priority r) = chainPriority r
      /\ def (raise_priority r) = def r
      /\ vars (raise_priority r) = vars r)
  /\ (forall r, is_root_rule r = true -> raise_priority r = r)
  /\ (forall rs1 r rs2 incoming idx,
        sorted_rules rules = rs1 ++ r :: rs2 ->
        is_ethernet_rule r = true ->
        rule_uses_side incoming r = true ->
        strstr "root" (chainSuffix r) = false ->
        ebtablesGetProtoIdxByFiltername (chainSuffix r) = Some idx ->
        exists pre post,
          ebtables_rules_script st ifname (map raise_priority (sorted_rules rules))
            (needed_chains ifname rules)
          = pre ++ snd (ebtablesRuleInstCommand st ifname r) ++ post
          /\ In (chain_item (ebtablesCreateTmpSubChain incoming ifname idx
                               (chainSuffix r) (chainPriority r))) pre).
Proof.
  intros Hroot Hhash Hqsort Hperm Hrange Hsame.
  split; [|split].
  - intros r. split; [apply raise_priority_spec|apply raise_priority_keeps].
  - intros r Hr. unfold is_root_rule, STREQ in Hr. apply String.eqb_eq in Hr.
    rewrite Hroot in Hr. unfold raise_priority. rewrite Hr.
    change (strstr "root" "root") with true. now rewrite andb_false_r.
  - intros rs1 r rs2 incoming idx Hsplit He Huse Hstr Hidx.
    assert (Hin_sorted : In r (sorted_rules rules)).
    { rewrite Hsplit. apply in_or_app. right. now left. }
    set (cin := scan_side true (sorted_rules rules) ∅).
    set (cout := scan_side false (sorted_rules rules) ∅).
    assert (Hvals : forall inc k v,
               scan_side inc (sorted_rules rules) ∅ !! k = Some v ->
               exists x, In x rules /\ is_ethernet_rule x = true
                         /\ chainSuffix x = k /\ chainPriority x = v).
    { intros inc k v Hl. apply scan_side_origin in Hl as [Hl | (x & Hx & Hex & _ & Hk & Hv)].
      - rewrite lookup_empty in Hl. discriminate.
      - exists x. repeat split; auto. now apply (Permutation_in _ Hperm). }
    assert (Hrange' : forall inc k v,
               scan_side inc (sorted_rules rules) ∅ !! k = Some v -> in_priority_range v).
    { intros inc k v Hl. destruct (Hvals inc k v Hl) as (x & Hx & _ & _ & <-).
      rewrite List.Forall_forall in Hrange. now apply Hrange. }
    destruct (create_needed_chains_spec Hhash Hqsort ifname cin cout
                (Hrange' true) (Hrange' false)) as [Hmem Hsorted].
    assert (Hchains : needed_chains ifname rules
                      = snd (create_needed_chains ifname cin cout)).
    { unfold needed_chains. now rewrite scan_chains_sides. }
    rewrite Hchains.
    (* the rule's sub-chain is among the chains *)
    assert (Hc : In (ebtablesCreateTmpSubChain incoming ifname idx (chainSuffix r)
                       (chainPriority r))
                   (snd (create_needed_chains ifname cin cout))).
    { apply Hmem.
      destruct (scan_side_present incoming (sorted_rules rules) ∅ r Hin_sorted He Huse)
        as [v Hv].
      destruct (Hvals incoming _ _ Hv) as (x & Hx & Hex & Hk & Hpv).
      assert (v = chainPriority r) as ->.
      { rewrite <- Hpv. apply Hsame; auto. now apply (Permutation_in _ Hperm). }
      destruct incoming; [left|right]; exists (chainSuffix r), (chainPriority r), idx;
        repeat split; assumption. }
    (* the script *)
    rewrite Hsplit, map_app. cbn [map]. unfold ebtables_rules_script.
    destruct (rules_script_before st ifname (map raise_priority rs1) (raise_priority r)
                (map raise_priority rs2) (snd (create_needed_chains ifname cin cout))
                (NWFILTER_SET_EBTABLES_SHELLVAR st) false false Hsorted)
      as (pre & post & Heq & _ & Hbefore).
    { now rewrite is_ethernet_rule_raise. }
    exists pre, post. rewrite Heq, ebtablesRuleInstCommand_raise. split; [reflexivity|].
    apply Hbefore; [exact Hc|]. cbn [ebt_priority ebtablesCreateTmpSubChain].
    rewrite raise_priority_spec, Hstr. cbn [negb]. rewrite andb_true_r.
    destruct (priority r <? chainPriority r)%Z eqn:E; [lia|].
    apply Z.ltb_ge in E. exact E.
Qed.

(** ** Teardown *)

Lemma temp_prefixes_eq :
  temp_prefixes = ["libvirt-J"; "libvirt-P"; "J-"; "P-"; "FJ-"; "FP-"; "HJ-"].
Proof. reflexivity. Qed.

Lemma prefix_cons_inv (p c : ascii) (name : string) :
  String.prefix (String p (String c "")) name = true ->
  exists rest, name = String p (String c rest).
Proof.
  intros Hp.
  destruct name as [|a name]; cbn -[ascii_dec] in Hp; [discriminate|].
  destruct (ascii_dec p a) as [<-|]; [|discriminate].
  destruct name as [|b rest]; cbn -[ascii_dec] in Hp; [discriminate|].
  destruct (ascii_dec c b) as [<-|]; [|discriminate].
  now exists rest.
Qed.

Lemma prefix_cons_intro (p c : ascii) (rest : string) :
  String.prefix (String p (String c "")) (String p (String c rest)) = true.
Proof.
  cbn -[ascii_dec]. destruct (ascii_dec p p); [|congruence].
  destruct (ascii_dec c c); [apply prefix_nil|congruence].
Qed.

(** A name that starts with an active prefix and a dash is not one of the
    temporary generation. *)
Lemma active_sub_chain_not_temp (c : ascii) (name : string) :
  In c chainprefixes_host ->
  String.prefix (String c "-") name = true ->
  temp_chain_name name = false.
Proof.
  intros Hc Hp. apply prefix_cons_inv in Hp as [rest ->].
  destruct Hc as [<-|[<-|[]]]; reflexivity.
Qed.

Lemma second_char_active_not_temp (a c : ascii) (rest : string) :
  In c chainprefixes_host ->
  temp_chain_name (String a (String c rest)) = false.
Proof.
  intros Hc. unfold temp_chain_name. rewrite temp_prefixes_eq.
  cbn -[ascii_dec].
  destruct Hc as [<-|[<-|[]]]; unfold CHAINPREFIX_HOST_IN, CHAINPREFIX_HOST_OUT;
    repeat match goal with
      | |- context [ascii_dec ?x ?y] =>
          destruct (ascii_dec x y) as [?|?]; try discriminate
      end; reflexivity.
Qed.

Lemma tmp_or_active_active (incoming : bool) :
  In (tmp_or_active false incoming) chainprefixes_host.
Proof. destruct incoming; [left|right; left]; reflexivity. Qed.

Section Teardown.
Hypothesis Hmax : (10 <= MAX_CHAINNAME_LENGTH)%nat.

Lemma PRINT_ROOT_CHAIN_active_not_temp (c : ascii) (ifname : string) :
  In c chainprefixes_host ->
  temp_chain_name (PRINT_ROOT_CHAIN c ifname) = false.
Proof.
  intros Hc. unfold PRINT_ROOT_CHAIN.
  change ("libvirt-" +:+ String c "" +:+ "-" +:+ ifname)
    with (("libvirt-" +:+ String c "") +:+ ("-" +:+ ifname)).
  rewrite snprintf_keeps by (destruct Hc as [<-|[<-|[]]]; simpl; lia).
  destruct Hc as [<-|[<-|[]]]; reflexivity.
Qed.

Lemma PRINT_IPT_ROOT_CHAIN_active_not_temp (p c : ascii) (ifname : string) :
  In c chainprefixes_host ->
  temp_chain_name (PRINT_IPT_ROOT_CHAIN (p, c) ifname) = false.
Proof.
  intros Hc. unfold PRINT_IPT_ROOT_CHAIN. cbn [fst snd].
  change (String p (String c "") +:+ "-" +:+ ifname)
    with (String p (String c "") +:+ ("-" +:+ ifname)).
  rewrite snprintf_keeps by (simpl; lia).
  rewrite !app_cons_s. now apply second_char_active_not_temp.
Qed.

End Teardown.

(** *** The query callback *)

Lemma ebtablesRemoveSubChainsQuery_shape chainprefixes lines r :
  In r (ebtablesRemoveSubChainsQuery lines chainprefixes) ->
  exists line name,
    In line lines /\ jumps_to_subchain chainprefixes line name
    /\ (r = listing chainprefixes name
        \/ r = ignoring VIR_FIREWALL_LAYER_ETHERNET (FwFlush name)
        \/ r = ignoring VIR_FIREWALL_LAYER_ETHERNET (FwDeleteChain name)).
Proof.
  unfold ebtablesRemoveSubChainsQuery. intros Hr.
  apply in_flat_map in Hr as (line & Hline & Hr).
  unfold ebtablesRemoveSubChainsQuery_line in Hr.
  destruct (after_jump line) as [tmp|] eqn:Etmp; [|destruct Hr].
  apply in_flat_map in Hr as (p & Hp & Hr).
  destruct tmp as [|c0 [|c1 rest]]; try destruct Hr.
  destruct (Ascii.eqb c0 p && Ascii.eqb c1 "-") eqn:E; [|destruct Hr].
  apply andb_prop in E as [E0 E1].
  apply Ascii.eqb_eq in E0, E1. subst c0 c1.
  exists line, (String p (String "-" rest)). split; [exact Hline|]. split.
  - split; [exact Etmp|]. exists p. split; [exact Hp|apply prefix_cons_intro].
  - unfold listing, ignoring, virFirewallAddRuleFull in *. simpl in Hr.
    destruct Hr as [<-|[<-|[<-|[]]]]; auto.
Qed.

Lemma ebtablesRemoveSubChainsQuery_finds chainprefixes lines line name :
  In line lines -> jumps_to_subchain chainprefixes line name ->
  In (listing chainprefixes name) (ebtablesRemoveSubChainsQuery lines chainprefixes)
  /\ In (ignoring VIR_FIREWALL_LAYER_ETHERNET (FwFlush name))
       (ebtablesRemoveSubChainsQuery lines chainprefixes)
  /\ In (ignoring VIR_FIREWALL_LAYER_ETHERNET (FwDeleteChain name))
       (ebtablesRemoveSubChainsQuery lines chainprefixes).
Proof.
  intros Hline (Etmp & p & Hp & Hname).
  apply prefix_cons_inv in Hname as [rest ->].
  assert (Hrules : forall r,
             In r [listing chainprefixes (String p (String "-" rest));
                   ignoring VIR_FIREWALL_LAYER_ETHERNET
                     (FwFlush (String p (String "-" rest)));
                   ignoring VIR_FIREWALL_LAYER_ETHERNET
                     (FwDeleteChain (String p (String "-" rest)))] ->
             In r (ebtablesRemoveSubChainsQuery lines chainprefixes)).
  { intros r Hr. unfold ebtablesRemoveSubChainsQuery.
    apply in_flat_map. exists line. split; [exact Hline|].
    unfold ebtablesRemoveSubChainsQuery_line. rewrite Etmp.
    apply in_flat_map. exists p. split; [exact Hp|].
    rewrite !Ascii.eqb_refl. exact Hr. }
  repeat split; apply Hrules; simpl; auto.
Qed.

(** *** The transaction of [ebiptablesAllTeardown] *)

Section AllTeardown.
Hypothesis Hmax : (10 <= MAX_CHAINNAME_LENGTH)%nat.

(** Proves that the chains a queued rule names are not of the temporary
    generation. *)
Ltac not_temp :=
  repeat first
    [ apply List.Forall_nil | apply List.Forall_cons
    | apply (PRINT_ROOT_CHAIN_active_not_temp Hmax)
    | apply (PRINT_IPT_ROOT_CHAIN_active_not_temp Hmax)
    | apply tmp_or_active_active
    | solve [left; reflexivity] | solve [right; left; reflexivity]
    | reflexivity ].

Lemma all_teardown_first_rules ifname r :
  In r (fw_rules (ebiptablesAllTeardown_fw ifname)) ->
  (fw_queryCB r = None
   \/ fw_queryCB r = Some (CB_ebtablesRemoveSubChainsQuery chainprefixes_host))
  /\ (fw_ignoreErrors r = true \/ exists chain, r = listing chainprefixes_host chain)
  /\ Forall (fun n => temp_chain_name n = false) (fwcmd_names (fw_cmd r)).
Proof.
  unfold ebiptablesAllTeardown_fw, iptablesUnlinkRootChainsFW, iptablesUnlinkRootChainFW,
    _iptablesUnlinkRootChainFW, iptablesClearVirtInPostFW, iptablesRemoveRootChainsFW,
    iptablesRemoveRootChainFW, _iptablesRemoveRootChainFW, ebtablesUnlinkRootChainFW,
    _ebtablesUnlinkRootChainFW, ebtablesRemoveSubChainsFW, _ebtablesRemoveSubChainsFW,
    ebtablesRemoveRootChainFW, _ebtablesRemoveRootChainFW, virFirewallAddRuleFull.
  cbn [fw_rules app flat_map negb chainprefixes_host]. intros Hr.
  repeat (destruct Hr as [<-|Hr]); try destruct Hr;
    (split; [|split]);
    cbn [fw_queryCB fw_ignoreErrors fw_cmd fwcmd_names];
    try (left; reflexivity);
    try (right; reflexivity);
    try (right; eexists; reflexivity);
    not_temp.
Qed.

Lemma all_teardown_queued ifname r :
  queued (ebiptablesAllTeardown_fw ifname) r ->
  (fw_queryCB r = None
   \/ fw_queryCB r = Some (CB_ebtablesRemoveSubChainsQuery chainprefixes_host))
  /\ (fw_ignoreErrors r = true \/ exists chain, r = listing chainprefixes_host chain)
  /\ Forall (fun n => temp_chain_name n = false) (fwcmd_names (fw_cmd r)).
Proof.
  induction 1 as [r Hr | r r' cb lines Hq IH Hcb Hr'].
  - exact (all_teardown_first_rules ifname r Hr).
  - destruct IH as ([Hnone | Hsome] & _ & _); [congruence|].
    rewrite Hsome in Hcb. injection Hcb as <-. cbn [run_queryCB] in Hr'.
    apply ebtablesRemoveSubChainsQuery_shape in Hr'
      as (line & name & _ & (_ & p & Hp & Hname) & Hshape).
    pose proof (active_sub_chain_not_temp p name Hp Hname) as Hnot.
    destruct Hshape as [-> | [-> | ->]]; cbn; repeat split; auto.
    right. now exists name.
Qed.

End AllTeardown.

(** Finds a rule among the ones [ebiptablesAllTeardown] queues. *)
Ltac in_all_teardown :=
  apply queued_first;
  unfold ebiptablesAllTeardown_fw, iptablesUnlinkRootChainsFW, iptablesUnlinkRootChainFW,
    _iptablesUnlinkRootChainFW, iptablesClearVirtInPostFW, iptablesRemoveRootChainsFW,
    iptablesRemoveRootChainFW, _iptablesRemoveRootChainFW, ebtablesUnlinkRootChainFW,
    _ebtablesUnlinkRootChainFW, ebtablesRemoveSubChainsFW, _ebtablesRemoveSubChainsFW,
    ebtablesRemoveRootChainFW, _ebtablesRemoveRootChainFW, virFirewallAddRuleFull,
    ignoring, listing;
  cbn [fw_rules app flat_map negb chainprefixes_host tmp_or_active];
  repeat first [left; reflexivity | right].

Lemma all_teardown_removes_iptables_chains ifname layer :
  layer = VIR_FIREWALL_LAYER_IPV4 \/ layer = VIR_FIREWALL_LAYER_IPV6 ->
  let fw := ebiptablesAllTeardown_fw ifname in
  removes_iptables_chain fw layer
    (PRINT_IPT_ROOT_CHAIN ("F"%char, CHAINPREFIX_HOST_OUT) ifname)
  /\ removes_iptables_chain fw layer
       (PRINT_IPT_ROOT_CHAIN ("F"%char, CHAINPREFIX_HOST_IN) ifname)
  /\ removes_iptables_chain fw layer
       (PRINT_IPT_ROOT_CHAIN ("H"%char, CHAINPREFIX_HOST_IN) ifname).
Proof.
  intros [-> | ->]; cbv zeta; unfold removes_iptables_chain; repeat split;
    try (eexists _, _); in_all_teardown.
Qed.

Lemma all_teardown_removes_ebtables_roots ifname :
  let fw := ebiptablesAllTeardown_fw ifname in
  removes_ebtables_root fw chainprefixes_host (PRINT_ROOT_CHAIN CHAINPREFIX_HOST_IN ifname)
  /\ removes_ebtables_root fw chainprefixes_host
       (PRINT_ROOT_CHAIN CHAINPREFIX_HOST_OUT ifname).
Proof.
  cbv zeta; unfold removes_ebtables_root; repeat split;
    try (eexists _, _); in_all_teardown.
Qed.

Lemma all_teardown_discovers_subchains ifname line name :
  jumps_to_subchain chainprefixes_host line name ->
  let fw := ebiptablesAllTeardown_fw ifname in
  queued fw (listing chainprefixes_host name)
  /\ queued fw (ignoring VIR_FIREWALL_LAYER_ETHERNET (FwFlush name))
  /\ queued fw (ignoring VIR_FIREWALL_LAYER_ETHERNET (FwDeleteChain name)).
Proof.
  intros Hjump. cbv zeta.
  assert (Hroot : queued (ebiptablesAllTeardown_fw ifname)
                    (listing chainprefixes_host
                       (PRINT_ROOT_CHAIN CHAINPREFIX_HOST_IN ifname)))
    by in_all_teardown.
  destruct (ebtablesRemoveSubChainsQuery_finds chainprefixes_host [line] line name)
    as (H1 & H2 & H3); [now left|exact Hjump|].
  repeat split;
    apply (queued_by_callback _ _ _ (CB_ebtablesRemoveSubChainsQuery chainprefixes_host)
             [line] Hroot); auto.
Qed.

(** C9, what the code does.  [ebiptablesAllTeardown] starts a transaction
    that ignores errors.  The transaction can come to unlink, flush and
    delete the chains [FO], [FI] and [HI] of the interface on both IP layers
    and the ebtables root chains [libvirt-I] and [libvirt-O] of the
    interface; it lists the two root chains, and for every line of a listing
    that jumps to a chain whose name starts with [I-] or [O-] it lists,
    flushes and deletes that chain too.  Every rule it can come to run
    ignores its failure or is such a listing, and none of them names a chain
    of the temporary generation: that generation is left as it is.  The
    rules are queued in this order: for IPv4 and then for IPv6 the removal
    of the jumps to [FO], [FI] and [HI], the removal of the interface's rule
    in [libvirt-in-post], and the flush and the deletion of [FO], [FI] and
    [HI]; then for the bridge layer the removal of the jumps to the two root
    chains, their listings, and the flush and the deletion of each. *)
Theorem all_teardown_removes_the_active_generation (ifname : string) :
  (10 <= MAX_CHAINNAME_LENGTH)%nat ->
  let fw := ebiptablesAllTeardown_fw ifname in
  VIR_FIREWALL_TRANSACTION_IGNORE_ERRORS fw = true
  /\ (forall layer,
        layer = VIR_FIREWALL_LAYER_IPV4 \/ layer = VIR_FIREWALL_LAYER_IPV6 ->
        removes_iptables_chain fw layer
          (PRINT_IPT_ROOT_CHAIN ("F"%char, CHAINPREFIX_HOST_OUT) ifname)
        /\ removes_iptables_chain fw layer
             (PRINT_IPT_ROOT_CHAIN ("F"%char, CHAINPREFIX_HOST_IN) ifname)
        /\ removes_iptables_chain fw layer
             (PRINT_IPT_ROOT_CHAIN ("H"%char, CHAINPREFIX_HOST_IN) ifname))
  /\ removes_ebtables_root fw chainprefixes_host
       (PRINT_ROOT_CHAIN CHAINPREFIX_HOST_IN ifname)
  /\ removes_ebtables_root fw chainprefixes_host
       (PRINT_ROOT_CHAIN CHAINPREFIX_HOST_OUT ifname)
  /\ (forall line name,
        jumps_to_subchain chainprefixes_host line name ->
        queued fw (listing chainprefixes_host name)
        /\ queued fw (ignoring VIR_FIREWALL_LAYER_ETHERNET (FwFlush name))
        /\ queued fw (ignoring VIR_FIREWALL_LAYER_ETHERNET (FwDeleteChain name)))
  /\ (forall r,
        queued fw r ->
        (fw_ignoreErrors r = true \/ exists chain, r = listing chainprefixes_host chain)
        /\ Forall (fun n => temp_chain_name n = false) (fwcmd_names (fw_cmd r)))
  /\ (let FO := PRINT_IPT_ROOT_CHAIN ("F"%char, CHAINPREFIX_HOST_OUT) ifname in
      let FI := PRINT_IPT_ROOT_CHAIN ("F"%char, CHAINPREFIX_HOST_IN) ifname in
      let HI := PRINT_IPT_ROOT_CHAIN ("H"%char, CHAINPREFIX_HOST_IN) ifname in
      let rootI := PRINT_ROOT_CHAIN CHAINPREFIX_HOST_IN ifname in
      let rootO := PRINT_ROOT_CHAIN CHAINPREFIX_HOST_OUT ifname in
      let ip layer :=
        map (ignoring layer)
          [FwDeleteJump "libvirt-out"
             ["-m"; "physdev"; "--physdev-is-bridged"; "--physdev-out"; ifname] "-g" FO;
           FwDeleteJump "libvirt-out" ["-m"; "physdev"; "--physdev-out"; ifname] "-g" FO;
           FwDeleteJump "libvirt-in" ["-m"; "physdev"; "--physdev-in"; ifname] "-g" FI;
           FwDeleteJump "libvirt-host-in" ["-m"; "physdev"; "--physdev-in"; ifname]
             "-g" HI;
           FwDeleteJump "libvirt-in-post" ["-m"; "physdev"; "--physdev-in"; ifname]
             "-j" "ACCEPT";
           FwFlush FO; FwDeleteChain FO;
           FwFlush FI; FwDeleteChain FI;
           FwFlush HI; FwDeleteChain HI] in
      fw_rules fw
      = ip VIR_FIREWALL_LAYER_IPV4 ++ ip VIR_FIREWALL_LAYER_IPV6
        ++ [ignoring VIR_FIREWALL_LAYER_ETHERNET
              (FwDeleteJump "PREROUTING" ["-i"; ifname] "-j" rootI);
            ignoring VIR_FIREWALL_LAYER_ETHERNET
              (FwDeleteJump "POSTROUTING" ["-o"; ifname] "-j" rootO);
            listing chainprefixes_host rootI;
            listing chainprefixes_host rootO;
            ignoring VIR_FIREWALL_LAYER_ETHERNET (FwFlush rootI);
            ignoring VIR_FIREWALL_LAYER_ETHERNET (FwDeleteChain rootI);
            ignoring VIR_FIREWALL_LAYER_ETHERNET (FwFlush rootO);
            ignoring VIR_FIREWALL_LAYER_ETHERNET (FwDeleteChain rootO)]).
Proof.
  intros Hmax. cbv zeta.
  split; [reflexivity|].
  split; [intros layer Hlayer; now apply all_teardown_removes_iptables_chains|].
  split; [apply all_teardown_removes_ebtables_roots|].
  split; [apply all_teardown_removes_ebtables_roots|].
  split; [intros line name; apply all_teardown_discovers_subchains|].
  split; [|reflexivity].
  intros r Hr. now destruct (all_teardown_queued Hmax ifname r Hr) as (_ & ? & ?).
Qed.

(** ** The other teardown functions *)

Lemma temp_prefix_cases (p : ascii) :
  In p chainprefixes_host_temp ->
  p = CHAINPREFIX_HOST_IN_TEMP \/ p = CHAINPREFIX_HOST_OUT_TEMP.
Proof. intros [<-|[<-|[]]]; auto. Qed.

Section TearNewRules.
Hypothesis Hmax : (10 <= MAX_CHAINNAME_LENGTH)%nat.

(** Proves that the chains a queued rule names are not of the active
    generation. *)
Ltac not_active :=
  repeat first
    [ apply List.Forall_nil | apply List.Forall_cons
    | apply (PRINT_ROOT_CHAIN_temp_not_active _ _ Hmax)
    | apply (PRINT_IPT_ROOT_CHAIN_temp_not_active _ _ _ Hmax)
    | apply tmp_or_active_temp
    | solve [left; reflexivity] | solve [right; reflexivity]
    | reflexivity ].

Lemma tear_new_first_rules ifname r :
  In r (fw_rules (ebiptablesTearNewRules_fw ifname)) ->
  (fw_queryCB r = None
   \/ fw_queryCB r = Some (CB_ebtablesRemoveSubChainsQuery chainprefixes_host_temp))
  /\ (fw_ignoreErrors r = true
      \/ exists chain, r = listing chainprefixes_host_temp chain)
  /\ Forall (fun n => active_chain_name n = false) (fwcmd_names (fw_cmd r)).
Proof.
  unfold ebiptablesTearNewRules_fw, iptablesUnlinkTmpRootChainsFW,
    iptablesUnlinkTmpRootChainFW, _iptablesUnlinkRootChainFW,
    iptablesRemoveTmpRootChainsFW, iptablesRemoveTmpRootChainFW,
    _iptablesRemoveRootChainFW, ebtablesUnlinkTmpRootChainFW,
    _ebtablesUnlinkRootChainFW, ebtablesRemoveTmpSubChainsFW, _ebtablesRemoveSubChainsFW,
    ebtablesRemoveTmpRootChainFW, _ebtablesRemoveRootChainFW, virFirewallAddRuleFull.
  cbn [fw_rules app flat_map negb chainprefixes_host_temp]. intros Hr.
  repeat (destruct Hr as [<-|Hr]); try destruct Hr;
    (split; [|split]);
    cbn [fw_queryCB fw_ignoreErrors fw_cmd fwcmd_names];
    try (left; reflexivity);
    try (right; reflexivity);
    try (right; eexists; reflexivity);
    not_active.
Qed.

Lemma tear_new_queued ifname r :
  queued (ebiptablesTearNewRules_fw ifname) r ->
  (fw_queryCB r = None
   \/ fw_queryCB r = Some (CB_ebtablesRemoveSubChainsQuery chainprefixes_host_temp))
  /\ (fw_ignoreErrors r = true
      \/ exists chain, r = listing chainprefixes_host_temp chain)
  /\ Forall (fun n => active_chain_name n = false) (fwcmd_names (fw_cmd r)).
Proof.
  induction 1 as [r Hr | r r' cb lines Hq IH Hcb Hr'].
  - exact (tear_new_first_rules ifname r Hr).
  - destruct IH as ([Hnone | Hsome] & _ & _); [congruence|].
    rewrite Hsome in Hcb. injection Hcb as <-. cbn [run_queryCB] in Hr'.
    apply ebtablesRemoveSubChainsQuery_shape in Hr'
      as (line & name & _ & (_ & p & Hp & Hname) & Hshape).
    pose proof (temp_sub_chain_not_active p name (temp_prefix_cases p Hp) Hname)
      as Hnot.
    destruct Hshape as [-> | [-> | ->]]; cbn; repeat split; auto.
    right. now exists name.
Qed.

End TearNewRules.

(** Finds a rule among the ones [ebiptablesTearNewRules] queues. *)
Ltac in_tear_new :=
  apply queued_first;
  unfold ebiptablesTearNewRules_fw, iptablesUnlinkTmpRootChainsFW,
    iptablesUnlinkTmpRootChainFW, _iptablesUnlinkRootChainFW,
    iptablesRemoveTmpRootChainsFW, iptablesRemoveTmpRootChainFW,
    _iptablesRemoveRootChainFW, ebtablesUnlinkTmpRootChainFW,
    _ebtablesUnlinkRootChainFW, ebtablesRemoveTmpSubChainsFW, _ebtablesRemoveSubChainsFW,
    ebtablesRemoveTmpRootChainFW, _ebtablesRemoveRootChainFW, virFirewallAddRuleFull,
    ignoring, listing;
  cbn [fw_rules app flat_map negb chainprefixes_host_temp tmp_or_active];
  repeat first [left; reflexivity | right].

(** X1.  [ebiptablesTearNewRules] starts a transaction that ignores
    errors.  The transaction can come to unlink, flush and delete the chains
    [FP], [FJ] and [HJ] of the interface on both IP layers and the ebtables
    root chains [libvirt-J] and [libvirt-P] of the interface; it lists the
    two root chains, and for every line of a listing that jumps to a chain
    whose name starts with [J-] or [P-] it lists, flushes and deletes that
    chain too.  Every rule it can come to run ignores its failure or is
    such a listing, and none of them names a chain of the active
    generation. *)
Theorem tear_new_rules_removes_the_temporary_generation_only (ifname : string) :
  (10 <= MAX_CHAINNAME_LENGTH)%nat ->
  let fw := ebiptablesTearNewRules_fw ifname in
  VIR_FIREWALL_TRANSACTION_IGNORE_ERRORS fw = true
  /\ (forall layer,
        layer = VIR_FIREWALL_LAYER_IPV4 \/ layer = VIR_FIREWALL_LAYER_IPV6 ->
        removes_iptables_chain fw layer
          (PRINT_IPT_ROOT_CHAIN ("F"%char, CHAINPREFIX_HOST_OUT_TEMP) ifname)
        /\ removes_iptables_chain fw layer
             (PRINT_IPT_ROOT_CHAIN ("F"%char, CHAINPREFIX_HOST_IN_TEMP) ifname)
        /\ removes_iptables_chain fw layer
             (PRINT_IPT_ROOT_CHAIN ("H"%char, CHAINPREFIX_HOST_IN_TEMP) ifname))
  /\ removes_ebtables_root fw chainprefixes_host_temp
       (PRINT_ROOT_CHAIN CHAINPREFIX_HOST_IN_TEMP ifname)
  /\ removes_ebtables_root fw chainprefixes_host_temp
       (PRINT_ROOT_CHAIN CHAINPREFIX_HOST_OUT_TEMP ifname)
  /\ (forall line name,
        jumps_to_subchain chainprefixes_host_temp line name ->
        queued fw (listing chainprefixes_host_temp name)
        /\ queued fw (ignoring VIR_FIREWALL_LAYER_ETHERNET (FwFlush name))
        /\ queued fw (ignoring VIR_FIREWALL_LAYER_ETHERNET (FwDeleteChain name)))
  /\ (forall r,
        queued fw r ->
        (fw_ignoreErrors r = true
         \/ exists chain, r = listing chainprefixes_host_temp chain)
        /\ Forall (fun n => active_chain_name n = false) (fwcmd_names (fw_cmd r))).
Proof.
  intros Hmax. cbv zeta.
  split; [reflexivity|].
  split.
  { intros layer [-> | ->]; unfold removes_iptables_chain; repeat split;
      try (eexists _, _); in_tear_new. }
  split; [unfold removes_ebtables_root; repeat split; try (eexists _, _); in_tear_new|].
  split; [unfold removes_ebtables_root; repeat split; try (eexists _, _); in_tear_new|].
  split.
  { intros line name Hjump.
    assert (Hroot : queued (ebiptablesTearNewRules_fw ifname)
                      (listing chainprefixes_host_temp
                         (PRINT_ROOT_CHAIN CHAINPREFIX_HOST_IN_TEMP ifname)))
      by in_tear_new.
    destruct (ebtablesRemoveSubChainsQuery_finds chainprefixes_host_temp [line] line name)
      as (H1 & H2 & H3); [now left|exact Hjump|].
    repeat split;
      apply (queued_by_callback _ _ _
               (CB_ebtablesRemoveSubChainsQuery chainprefixes_host_temp)
               [line] Hroot); auto. }
  intros r Hr. now destruct (tear_new_queued Hmax ifname r Hr) as (_ & ? & ?).
Qed.

(** The rules of a transaction that are run by [ebtables]. *)
Lemma ethernet_rules_app (a b : list virFirewallRule) :
  ethernet_rules (a ++ b) = ethernet_rules a ++ ethernet_rules b.
Proof. apply List.filter_app. Qed.

(** X2.  The transaction of [ebtablesCleanAll] ignores errors and is made
    of the ebtables rules of [ebiptablesAllTeardown] followed by the
    ebtables rules of [ebiptablesTearNewRules]: it removes the ebtables
    chains of both generations and runs no other tool. *)
Theorem clean_all_is_both_ebtables_teardowns (ifname : string) :
  let fw := ebtablesCleanAll_fw ifname in
  VIR_FIREWALL_TRANSACTION_IGNORE_ERRORS fw = true
  /\ fw_rules fw
     = ethernet_rules (fw_rules (ebiptablesAllTeardown_fw ifname))
       ++ ethernet_rules (fw_rules (ebiptablesTearNewRules_fw ifname))
  /\ Forall (fun r => fw_layer r = VIR_FIREWALL_LAYER_ETHERNET) (fw_rules fw).
Proof.
  cbv zeta. split; [reflexivity|].
  assert (Hrules : fw_rules (ebtablesCleanAll_fw ifname)
                   = ethernet_rules (fw_rules (ebiptablesAllTeardown_fw ifname))
                     ++ ethernet_rules (fw_rules (ebiptablesTearNewRules_fw ifname))).
  { unfold ebtablesCleanAll_fw, ebiptablesAllTeardown_fw, ebiptablesTearNewRules_fw.
    cbn [fw_rules]. rewrite !ethernet_rules_app.
    destruct ifname; reflexivity. }
  split; [exact Hrules|].
  rewrite Hrules. apply List.Forall_app. split;
    apply List.Forall_forall; intros r Hr; unfold ethernet_rules in Hr;
    apply List.filter_In in Hr as [_ Hr]; destruct (fw_layer r);
    first [reflexivity | discriminate Hr].
Qed.

(** ** The commit of a generation *)

Lemma c_string_store (s : string) (rest : list ascii) :
  c_string (list_ascii_of_string s) = s ->
  c_string (list_ascii_of_string s ++ "000"%char :: rest) = s.
Proof.
  induction s as [|c s IH]; intros Hs; [reflexivity|].
  cbn [list_ascii_of_string app c_string] in *.
  destruct (Ascii.eqb c "000"); [discriminate Hs|].
  injection Hs as Hs. now rewrite IH.
Qed.

(** What the renaming callback leaves in [newchain] for a name that was
    copied: the name with its first character replaced. *)
Lemma newchain_after_copy (c0 : ascii) (rest : string) (newchain : list ascii) :
  let tmp := String c0 rest in
  c_string (list_ascii_of_string tmp) = tmp ->
  let stored := store_string newchain tmp in
  c_string (if Ascii.eqb (nth 0 stored "000"%char) CHAINPREFIX_HOST_IN_TEMP
            then <[0%nat := CHAINPREFIX_HOST_IN]> stored
            else <[0%nat := CHAINPREFIX_HOST_OUT]> stored)
  = active_name_of tmp.
Proof.
  intros tmp Htmp stored. unfold stored, store_string, tmp, active_name_of.
  unfold tmp in Htmp. clear tmp stored.
  cbn [list_ascii_of_string app nth].
  cbn [list_ascii_of_string c_string] in Htmp.
  destruct (Ascii.eqb c0 "000"); [discriminate Htmp|]. injection Htmp as Hrest.
  destruct (Ascii.eqb c0 CHAINPREFIX_HOST_IN_TEMP);
    cbn [insert list_insert c_string]; change (Ascii.eqb _ "000") with false; cbn iota;
    f_equal; now apply c_string_store.
Qed.

(** The array after the first character was set starts with [I] or [O]. *)
Lemma newchain_first_char (a : list ascii) :
  (0 < length a)%nat ->
  exists c rest,
    (c = CHAINPREFIX_HOST_IN \/ c = CHAINPREFIX_HOST_OUT)
    /\ c_string (if Ascii.eqb (nth 0 a "000"%char) CHAINPREFIX_HOST_IN_TEMP
                 then <[0%nat := CHAINPREFIX_HOST_IN]> a
                 else <[0%nat := CHAINPREFIX_HOST_OUT]> a)
       = String c rest.
Proof.
  intros Hlen. destruct a as [|x a]; [simpl in Hlen; lia|].
  cbn [nth]. destruct (Ascii.eqb x CHAINPREFIX_HOST_IN_TEMP); cbn [insert list_insert c_string];
    change (Ascii.eqb _ "000") with false; cbn iota;
    eexists _, _; (split; [|reflexivity]); auto.
Qed.

Lemma temp_chain_name_first_char (c : ascii) (rest : string) :
  c = CHAINPREFIX_HOST_IN \/ c = CHAINPREFIX_HOST_OUT ->
  temp_chain_name (String c rest) = false.
Proof.
  intros [-> | ->]; unfold temp_chain_name; rewrite temp_prefixes_eq;
    cbn -[ascii_dec];
    repeat match goal with
      | |- context [ascii_dec ?x ?y] =>
          destruct (ascii_dec x y) as [?|?]; try discriminate
      end; reflexivity.
Qed.

Lemma temp_chain_name_sub_chain (c : ascii) (rest : string) :
  c = CHAINPREFIX_HOST_IN_TEMP \/ c = CHAINPREFIX_HOST_OUT_TEMP ->
  temp_chain_name (String c (String "-" rest)) = true.
Proof. intros [-> | ->]; destruct rest; reflexivity. Qed.

(** The shape of the rules the renaming callback adds. *)
Lemma rename_query_shape (lines : list string) (newchain : list ascii) (r : commitRule) :
  (0 < length newchain)%nat ->
  In r (ebtablesRenameTmpSubAndRootChainsQuery lines newchain) ->
  exists (c0 : ascii) (rest new : string),
    (c0 = CHAINPREFIX_HOST_IN_TEMP \/ c0 = CHAINPREFIX_HOST_OUT_TEMP)
    /\ temp_chain_name new = false
    /\ let tmp := String c0 (String "-" rest) in
       (r = {| cr_layer := VIR_FIREWALL_LAYER_ETHERNET; cr_ignoreErrors := false;
               cr_queryCB := Some CB_ebtablesRenameTmpSubAndRootChainsQuery;
               cr_cmd := FwList tmp |}
        \/ r = {| cr_layer := VIR_FIREWALL_LAYER_ETHERNET; cr_ignoreErrors := true;
                  cr_queryCB := None; cr_cmd := FwFlush new |}
        \/ r = {| cr_layer := VIR_FIREWALL_LAYER_ETHERNET; cr_ignoreErrors := true;
                  cr_queryCB := None; cr_cmd := FwDeleteChain new |}
        \/ r = {| cr_layer := VIR_FIREWALL_LAYER_ETHERNET; cr_ignoreErrors := false;
                  cr_queryCB := None; cr_cmd := FwRename tmp new |}).
Proof.
  unfold ebtablesRenameTmpSubAndRootChainsQuery.
  revert newchain. induction lines as [|line lines IH]; intros newchain Hlen Hr;
    [destruct Hr|].
  cbn [ebtablesRenameTmpSubAndRootChainsQuery_loop] in Hr.
  destruct (after_jump line) as [tmp|]; [|now apply (IH newchain)].
  cbv zeta in Hr.
  destruct tmp as [|c0 [|c1 rest]].
  - cbn in Hr. now apply (IH newchain).
  - destruct (negb (Ascii.eqb c0 CHAINPREFIX_HOST_IN_TEMP)
              && negb (Ascii.eqb c0 CHAINPREFIX_HOST_OUT_TEMP));
      [now apply (IH newchain)|].
    cbn in Hr. now apply (IH newchain).
  - destruct (negb (Ascii.eqb c0 CHAINPREFIX_HOST_IN_TEMP)
              && negb (Ascii.eqb c0 CHAINPREFIX_HOST_OUT_TEMP)) eqn:E0;
      [now apply (IH newchain)|].
    destruct (negb (Ascii.eqb c1 "-")) eqn:E1; [now apply (IH newchain)|].
    apply negb_false_iff, Ascii.eqb_eq in E1. subst c1.
    assert (Hc0 : c0 = CHAINPREFIX_HOST_IN_TEMP \/ c0 = CHAINPREFIX_HOST_OUT_TEMP).
    { apply andb_false_iff in E0 as [E0 | E0];
        apply negb_false_iff, Ascii.eqb_eq in E0; auto. }
    match type of Hr with
    | context [virStrcpy ?s ?n] =>
        set (b := match virStrcpy s n with
                  | Some copied => store_string newchain copied
                  | None => newchain
                  end) in Hr;
        assert (Hb : (0 < length b)%nat)
    end.
    { unfold b. destruct (virStrcpy _ _) as [copied|]; [|exact Hlen].
      unfold store_string. rewrite length_app. simpl. lia. }
    match type of Hr with
    | In r (_ ++ ebtablesRenameTmpSubAndRootChainsQuery_loop lines ?a) =>
        set (a' := a) in Hr;
        assert (Ha : (0 < length a')%nat)
          by (unfold a';
              destruct (Ascii.eqb (nth 0 b "000"%char) CHAINPREFIX_HOST_IN_TEMP);
              now rewrite length_insert)
    end.
    apply in_app_or in Hr as [Hr | Hr]; [|now apply (IH a')].
    destruct (newchain_first_char b Hb) as (c & rest' & Hc & Hnew).
    fold a' in Hnew.
    exists c0, rest, (c_string a').
    split; [exact Hc0|]. split.
    { rewrite Hnew. now apply temp_chain_name_first_char. }
    cbv zeta. simpl in Hr.
    destruct Hr as [<-|[<-|[<-|[<-|[]]]]]; auto.
Qed.


Lemma prefix_app (p s : string) : String.prefix p (p +:+ s) = true.
Proof.
  induction p as [|c p IH]; [apply prefix_nil|].
  rewrite app_cons_s. cbn -[ascii_dec]. destruct (ascii_dec c c); [exact IH|congruence].
Qed.

Lemma temp_chain_name_prefix (p s : string) :
  In p temp_prefixes -> temp_chain_name (p +:+ s) = true.
Proof.
  intros Hp. unfold temp_chain_name. apply existsb_exists.
  exists p. split; [exact Hp|apply prefix_app].
Qed.

Section TearOldRules.
Hypothesis Hmax : (10 <= MAX_CHAINNAME_LENGTH)%nat.

Lemma PRINT_ROOT_CHAIN_temp_is_temp (c : ascii) (ifname : string) :
  c = CHAINPREFIX_HOST_IN_TEMP \/ c = CHAINPREFIX_HOST_OUT_TEMP ->
  temp_chain_name (PRINT_ROOT_CHAIN c ifname) = true.
Proof.
  intros Hc. unfold PRINT_ROOT_CHAIN.
  change ("libvirt-" +:+ String c "" +:+ "-" +:+ ifname)
    with (("libvirt-" +:+ String c "") +:+ ("-" +:+ ifname)).
  rewrite snprintf_keeps by (destruct Hc as [-> | ->]; simpl; lia).
  apply temp_chain_name_prefix.
  destruct Hc as [-> | ->]; [left|right; left]; reflexivity.
Qed.

Lemma PRINT_IPT_ROOT_CHAIN_temp_is_temp (p c : ascii) (ifname : string) :
  p = "F"%char \/ p = "H"%char ->
  c = CHAINPREFIX_HOST_IN_TEMP \/ c = CHAINPREFIX_HOST_OUT_TEMP ->
  (p, c) <> ("H"%char, CHAINPREFIX_HOST_OUT_TEMP) ->
  temp_chain_name (PRINT_IPT_ROOT_CHAIN (p, c) ifname) = true.
Proof.
  intros Hp Hc Hne. unfold PRINT_IPT_ROOT_CHAIN. cbn [fst snd].
  change (String p (String c "") +:+ "-" +:+ ifname)
    with (String p (String c "-") +:+ ifname).
  rewrite snprintf_keeps by (simpl; lia).
  apply temp_chain_name_prefix.
  destruct Hp as [-> | ->], Hc as [-> | ->]; try congruence;
    unfold temp_prefixes; simpl; auto 10.
Qed.

Lemma tear_old_first_rules ifname r :
  In r (ebiptablesTearOldRules_rules ifname) ->
  (cr_queryCB r = None
   \/ cr_queryCB r
      = Some (CB_teardown (CB_ebtablesRemoveSubChainsQuery chainprefixes_host))
   \/ cr_queryCB r = Some CB_ebtablesRenameTmpSubAndRootChainsQuery)
  /\ commit_cmd_ok (cr_cmd r).
Proof.
  unfold ebiptablesTearOldRules_rules, ebtablesRenameTmpSubAndRootChainsFW,
    iptablesUnlinkRootChainsFW, iptablesUnlinkRootChainFW, _iptablesUnlinkRootChainFW,
    iptablesRemoveRootChainsFW, iptablesRemoveRootChainFW, _iptablesRemoveRootChainFW,
    iptablesRenameTmpRootChainsFW, iptablesRenameTmpRootChainFW,
    ebtablesUnlinkRootChainFW, _ebtablesUnlinkRootChainFW, ebtablesRemoveSubChainsFW,
    _ebtablesRemoveSubChainsFW, ebtablesRemoveRootChainFW, _ebtablesRemoveRootChainFW,
    ebtablesRenameTmpRootChainFW, ebtablesRenameTmpSubChainFW,
    virFirewallAddRule, virFirewallAddRuleFull, commit_rule.
  cbn [app flat_map negb chainprefixes_host map fw_layer fw_ignoreErrors fw_queryCB
       fw_cmd option_map tmp_or_active].
  intros Hr.
  repeat (destruct Hr as [<-|Hr]); try destruct Hr;
    (split; [auto|]); cbn [cr_cmd commit_cmd_ok]; try exact I;
    repeat split;
    first
      [ apply (PRINT_ROOT_CHAIN_active_not_temp Hmax)
      | apply (PRINT_IPT_ROOT_CHAIN_active_not_temp Hmax)
      | apply PRINT_ROOT_CHAIN_temp_is_temp
      | apply PRINT_IPT_ROOT_CHAIN_temp_is_temp ];
    first [ solve [left; reflexivity] | solve [right; left; reflexivity]
          | solve [right; reflexivity] | discriminate | idtac ].
Qed.

Lemma tear_old_queued ifname r :
  commit_queued (ebiptablesTearOldRules_rules ifname) r ->
  (cr_queryCB r = None
   \/ cr_queryCB r
      = Some (CB_teardown (CB_ebtablesRemoveSubChainsQuery chainprefixes_host))
   \/ cr_queryCB r = Some CB_ebtablesRenameTmpSubAndRootChainsQuery)
  /\ commit_cmd_ok (cr_cmd r).
Proof.
  induction 1 as [r Hr | r r' cb lines newchain Hq IH Hcb Hlen Hr'].
  - exact (tear_old_first_rules ifname r Hr).
  - destruct IH as ([Hnone | [Hsome | Hsome]] & _); [congruence| |];
      rewrite Hsome in Hcb; injection Hcb as <-; cbn [run_commitCB] in Hr'.
    + apply in_map_iff in Hr' as (r0 & <- & Hr0). cbn [run_queryCB] in Hr0.
      apply ebtablesRemoveSubChainsQuery_shape in Hr0
        as (line & name & _ & (_ & p & Hp & Hname) & Hshape).
      pose proof (active_sub_chain_not_temp p name Hp Hname) as Hnot.
      destruct Hshape as [-> | [-> | ->]]; cbn; auto.
    + apply rename_query_shape in Hr' as (c0 & rest & new & Hc0 & Hnew & Hshape);
        [|lia].
      cbv zeta in Hshape.
      destruct Hshape as [-> | [-> | [-> | ->]]]; cbn; auto.
      split; [auto|]. split; [|exact Hnew]. now apply temp_chain_name_sub_chain.
Qed.

End TearOldRules.

(** Finds a rule among the ones [ebiptablesTearOldRules] queues. *)
Ltac in_tear_old :=
  apply commit_queued_first;
  unfold ebiptablesTearOldRules_rules, ebtablesRenameTmpSubAndRootChainsFW,
    iptablesUnlinkRootChainsFW, iptablesUnlinkRootChainFW, _iptablesUnlinkRootChainFW,
    iptablesRemoveRootChainsFW, iptablesRemoveRootChainFW, _iptablesRemoveRootChainFW,
    iptablesRenameTmpRootChainsFW, iptablesRenameTmpRootChainFW,
    ebtablesUnlinkRootChainFW, _ebtablesUnlinkRootChainFW, ebtablesRemoveSubChainsFW,
    _ebtablesRemoveSubChainsFW, ebtablesRemoveRootChainFW, _ebtablesRemoveRootChainFW,
    ebtablesRenameTmpRootChainFW, ebtablesRenameTmpSubChainFW,
    virFirewallAddRule, virFirewallAddRuleFull, commit_rule, renaming;
  cbn [app flat_map negb chainprefixes_host map fw_layer fw_ignoreErrors fw_queryCB
       fw_cmd option_map tmp_or_active];
  repeat first [left; reflexivity | right].

(** X3.  The commit of a generation, [ebiptablesTearOldRules], queues the
    renaming of the temporary chains [FP], [FJ] and [HJ] of the interface to
    [FO], [FI] and [HI] on both IP layers and of the ebtables root chains
    [libvirt-J] and [libvirt-P] to [libvirt-I] and [libvirt-O].  Whatever
    the listings show and whatever the array of the renaming callback holds
    at first, every command the transaction can come to run removes a jump
    to, flushes or deletes a chain that is not of the temporary generation,
    renames a chain of the temporary generation to a name that is not of
    it, or lists a chain; none creates a chain or appends a rule. *)
Theorem tear_old_rules_destroys_no_temporary_chain (ifname : string) :
  (10 <= MAX_CHAINNAME_LENGTH)%nat ->
  let rules := ebiptablesTearOldRules_rules ifname in
  (forall layer,
      layer = VIR_FIREWALL_LAYER_IPV4 \/ layer = VIR_FIREWALL_LAYER_IPV6 ->
      commit_queued rules
        (renaming layer (PRINT_IPT_ROOT_CHAIN ("F"%char, CHAINPREFIX_HOST_OUT_TEMP) ifname)
           (PRINT_IPT_ROOT_CHAIN ("F"%char, CHAINPREFIX_HOST_OUT) ifname))
      /\ commit_queued rules
           (renaming layer (PRINT_IPT_ROOT_CHAIN ("F"%char, CHAINPREFIX_HOST_IN_TEMP) ifname)
              (PRINT_IPT_ROOT_CHAIN ("F"%char, CHAINPREFIX_HOST_IN) ifname))
      /\ commit_queued rules
           (renaming layer (PRINT_IPT_ROOT_CHAIN ("H"%char, CHAINPREFIX_HOST_IN_TEMP) ifname)
              (PRINT_IPT_ROOT_CHAIN ("H"%char, CHAINPREFIX_HOST_IN) ifname)))
  /\ commit_queued rules
       (renaming VIR_FIREWALL_LAYER_ETHERNET
          (PRINT_ROOT_CHAIN CHAINPREFIX_HOST_IN_TEMP ifname)
          (PRINT_ROOT_CHAIN CHAINPREFIX_HOST_IN ifname))
  /\ commit_queued rules
       (renaming VIR_FIREWALL_LAYER_ETHERNET
          (PRINT_ROOT_CHAIN CHAINPREFIX_HOST_OUT_TEMP ifname)
          (PRINT_ROOT_CHAIN CHAINPREFIX_HOST_OUT ifname))
  /\ (forall r, commit_queued rules r -> commit_cmd_ok (cr_cmd r)).
Proof.
  intros Hmax. cbv zeta.
  split; [intros layer [-> | ->]; repeat split; in_tear_old|].
  split; [in_tear_old|]. split; [in_tear_old|].
  intros r Hr. now destruct (tear_old_queued Hmax ifname r Hr).
Qed.

Lemma rename_rules_of_line_skip (line : string) :
  after_jump line = None -> rename_rules_of_line line = [].
Proof. unfold rename_rules_of_line. now intros ->. Qed.

(** X4.  When [virStrcpy] copies every text that fits its destination, and
    the chain names that the lines of a listing jump to fit an array of
    [MAX_CHAINNAME_LENGTH] characters, the renaming callback adds for every
    line that jumps to a chain whose name starts with [J-] or [P-], and for
    no other line, four rules: the chain is listed for sub-chains of its
    own, the chain that has the active name ([J] replaced by [I], [P] by
    [O]) is flushed and deleted with failures ignored, and the chain is
    renamed to the active name.  What its array held at first does not
    matter. *)
Theorem rename_callback_renames_to_the_active_name (lines : list string)
    (newchain : list ascii) :
  (forall (src : string) (destbytes : nat),
      (String.length src < destbytes)%nat -> virStrcpy src destbytes = Some src) ->
  Forall jump_target_fits lines ->
  ebtablesRenameTmpSubAndRootChainsQuery lines newchain
  = flat_map rename_rules_of_line lines.
Proof.
  intros Hcopy Hfit. unfold ebtablesRenameTmpSubAndRootChainsQuery.
  revert newchain. induction Hfit as [|line lines Hline Hfit IH]; intros newchain;
    [reflexivity|].
  cbn [ebtablesRenameTmpSubAndRootChainsQuery_loop flat_map].
  unfold rename_rules_of_line at 1. unfold jump_target_fits in Hline.
  destruct (after_jump line) as [tmp|]; [|apply IH].
  destruct (Hline tmp eq_refl) as [Hstr Hlen]. cbv zeta.
  destruct tmp as [|c0 [|c1 rest]]; [apply IH| |].
  - destruct (negb (Ascii.eqb c0 CHAINPREFIX_HOST_IN_TEMP)
              && negb (Ascii.eqb c0 CHAINPREFIX_HOST_OUT_TEMP)); apply IH.
  - rewrite <- negb_orb.
    destruct (Ascii.eqb c0 CHAINPREFIX_HOST_IN_TEMP
              || Ascii.eqb c0 CHAINPREFIX_HOST_OUT_TEMP); cbn [negb andb]; [|apply IH].
    destruct (Ascii.eqb c1 "-"); cbn [negb]; [|apply IH].
    rewrite (Hcopy _ _ Hlen).
    rewrite (newchain_after_copy c0 (String c1 rest) newchain Hstr).
    cbn [app]. now rewrite IH.
Qed.

(** ** The basic rule sets *)

Lemma position_of_app (f : fwcmd -> bool) (a b : list virFirewallRule) :
  position_of f (a ++ b)
  = match position_of f a with
    | Some n => Some n
    | None => option_map (Nat.add (length a)) (position_of f b)
    end.
Proof.
  induction a as [|r a IH]; cbn [app position_of length].
  - now destruct (position_of f b).
  - destruct (f (fw_cmd r)); [reflexivity|]. rewrite IH.
    destruct (position_of f a); [reflexivity|].
    now destruct (position_of f b).
Qed.

Lemma last_position_of_app (f : fwcmd -> bool) (a b : list virFirewallRule) :
  last_position_of f (a ++ b)
  = match last_position_of f b with
    | Some n => Some (length a + n)%nat
    | None => last_position_of f a
    end.
Proof.
  induction a as [|r a IH]; cbn [app last_position_of length].
  - now destruct (last_position_of f b).
  - rewrite IH. now destruct (last_position_of f b).
Qed.

Lemma position_of_none (f : fwcmd -> bool) (l : list virFirewallRule) :
  Forall (fun r => f (fw_cmd r) = false) l ->
  position_of f l = None /\ last_position_of f l = None.
Proof.
  induction 1 as [|r l Hr _ [IH1 IH2]]; [now split|].
  cbn [position_of last_position_of]. now rewrite Hr, IH1, IH2.
Qed.

Lemma appended_to_app (chain : string) (a b : list virFirewallRule) :
  appended_to chain (a ++ b) = appended_to chain a ++ appended_to chain b.
Proof. apply flat_map_app. Qed.

(** The root chains of the temporary generation, with the part of the
    name that does not depend on the interface written out. *)
Lemma PRINT_ROOT_CHAIN_temp_eq (ifname : string) :
  (10 <= MAX_CHAINNAME_LENGTH)%nat ->
  exists x,
    PRINT_ROOT_CHAIN CHAINPREFIX_HOST_IN_TEMP ifname = "libvirt-J" +:+ x
    /\ PRINT_ROOT_CHAIN CHAINPREFIX_HOST_OUT_TEMP ifname = "libvirt-P" +:+ x
    /\ PRINT_ROOT_CHAIN CHAINPREFIX_HOST_IN ifname = "libvirt-I" +:+ x
    /\ PRINT_ROOT_CHAIN CHAINPREFIX_HOST_OUT ifname = "libvirt-O" +:+ x.
Proof.
  intros Hmax. exists (snprintf (MAX_CHAINNAME_LENGTH - 9) ("-" +:+ ifname)).
  unfold PRINT_ROOT_CHAIN.
  repeat split;
    match goal with
    | |- snprintf _ ("libvirt-" +:+ String ?c "" +:+ "-" +:+ ifname) = _ =>
        change ("libvirt-" +:+ String c "" +:+ "-" +:+ ifname)
          with (("libvirt-" +:+ String c "") +:+ ("-" +:+ ifname))
    end;
    rewrite snprintf_keeps by (simpl; lia); reflexivity.
Qed.

(** *** The loop over the DHCP servers *)

Lemma nth_error_lookup {A : Type} (l : list A) (i : nat) : nth_error l i = l !! i.
Proof.
  revert i. induction l as [|x l IH]; intros [|i]; try reflexivity. apply IH.
Qed.

Lemma dhcp_servers_loop_from (chain_out macaddr_str : string) (dhcpsrvrs : list string)
    (n idx : nat) :
  (idx < length dhcpsrvrs)%nat ->
  n = (length dhcpsrvrs - idx)%nat ->
  dhcp_servers_loop n idx chain_out macaddr_str dhcpsrvrs
  = flat_map (dhcp_reply_rules chain_out macaddr_str) (map Some (drop idx dhcpsrvrs)).
Proof.
  revert idx. induction n as [|n IH]; intros idx Hidx Hn; [lia|].
  cbn [dhcp_servers_loop]. cbv zeta.
  apply Nat.ltb_lt in Hidx as Hlt. rewrite Hlt.
  destruct (nth_error dhcpsrvrs idx) as [x|] eqn:Ex;
    [|apply nth_error_None in Ex; lia].
  assert (Hdrop : drop idx dhcpsrvrs = x :: drop (S idx) dhcpsrvrs).
  { apply drop_S. now rewrite <- nth_error_lookup. }
  rewrite Hdrop. cbn [map flat_map]. f_equal.
  destruct (length dhcpsrvrs <=? S idx)%nat eqn:E.
  - apply Nat.leb_le in E. rewrite drop_ge by lia. reflexivity.
  - apply Nat.leb_gt in E. apply IH; lia.
Qed.

(** The servers the loop makes rules for: the listed ones, or any server
    when none is listed. *)
Lemma dhcp_servers_loop_all (chain_out macaddr_str : string) (dhcpsrvrs : list string) :
  dhcp_servers_loop (length dhcpsrvrs) 0 chain_out macaddr_str dhcpsrvrs
  = flat_map (dhcp_reply_rules chain_out macaddr_str)
      (match dhcpsrvrs with
       | [] => [None]
       | _ => map Some dhcpsrvrs
       end).
Proof.
  destruct dhcpsrvrs as [|x l] eqn:E.
  - reflexivity.
  - rewrite <- E.
    rewrite (dhcp_servers_loop_from _ _ _ (length dhcpsrvrs) 0);
      [now rewrite drop_0| subst; simpl; lia | lia].
Qed.

Lemma dhcp_reply_rules_shape (chain_out macaddr_str : string)
    (servers : list (option string)) :
  Forall (fun r => exists matches,
              fw_cmd r = FwAppendJump chain_out matches "-j" "ACCEPT")
    (flat_map (dhcp_reply_rules chain_out macaddr_str) servers).
Proof.
  induction servers as [|s servers IH]; [constructor|].
  cbn [flat_map]. apply List.Forall_app. split; [|exact IH].
  unfold dhcp_reply_rules, virFirewallAddRule, virFirewallAddRuleFull.
  destruct s; cbn [flat_map app]; repeat constructor; eexists; reflexivity.
Qed.

Lemma appended_to_dhcp_reply_rules (chain_out macaddr_str : string)
    (servers : list (option string)) :
  appended_to chain_out (flat_map (dhcp_reply_rules chain_out macaddr_str) servers)
  = dhcp_replies_from macaddr_str servers.
Proof.
  induction servers as [|s servers IH]; [reflexivity|].
  cbn [flat_map]. rewrite appended_to_app, IH.
  unfold dhcp_replies_from at 2. cbn [flat_map]. f_equal.
  unfold dhcp_reply_rules, virFirewallAddRule, virFirewallAddRuleFull, appended_to.
  destruct s; cbn [flat_map app fw_cmd Nat.eqb map];
    rewrite String.eqb_refl; reflexivity.
Qed.


(** Rewrites the names of the root chains so that they compare by
    computation. *)
Ltac root_chain_names Hmax ifname :=
  let x := fresh "x" in
  let E1 := fresh "E" in let E2 := fresh "E" in
  let E3 := fresh "E" in let E4 := fresh "E" in
  destruct (PRINT_ROOT_CHAIN_temp_eq ifname Hmax) as (x & E1 & E2 & E3 & E4);
  rewrite ?E1, ?E2, ?E3, ?E4; clear E1 E2 E3 E4;
  rewrite ?app_cons_s, ?app_nil_l_s.

(** X5.  In the rule sets of [ebtablesApplyDHCPOnlyRules] the chain of the
    traffic from the interface lets through the DHCP requests of the
    interface's address (UDP from port 68 to port 67) and drops everything
    else, and the chain of the traffic to the interface lets through DHCP
    replies (UDP from port 67 to port 68) to the interface's address or the
    broadcast address, from each of the listed servers, or from any server
    when none is listed, and drops everything else. *)
Theorem dhcp_only_rules_pass_dhcp_alone (ifname : string) (macaddr : virMacAddr)
    (dhcpsrvrs : list string) (leaveTemporary : bool) :
  (10 <= MAX_CHAINNAME_LENGTH)%nat ->
  let rules :=
    fw_rules (ebtablesApplyDHCPOnlyRules_fw ifname macaddr dhcpsrvrs leaveTemporary) in
  let macaddr_str := virMacAddrFormat macaddr in
  appended_to (PRINT_ROOT_CHAIN CHAINPREFIX_HOST_IN_TEMP ifname) rules
  = [(["-s"; macaddr_str; "-p"; "ipv4"; "--ip-protocol"; "udp";
       "--ip-sport"; "68"; "--ip-dport"; "67"], "ACCEPT");
     ([], "DROP")]
  /\ appended_to (PRINT_ROOT_CHAIN CHAINPREFIX_HOST_OUT_TEMP ifname) rules
     = dhcp_replies_from macaddr_str
         (match dhcpsrvrs with
          | [] => [None]
          | _ => map Some dhcpsrvrs
          end)
       ++ [([], "DROP")].
Proof.
  intros Hmax. cbv zeta.
  unfold ebtablesApplyDHCPOnlyRules_fw. cbn [fw_rules].
  rewrite dhcp_servers_loop_all.
  unfold ebtablesCreateTmpRootChainFW, ebtablesLinkTmpRootChainFW,
    ebtablesRenameTmpRootChainFW, ebtablesRenameTmpSubChainFW,
    virFirewallAddRule, virFirewallAddRuleFull.
  rewrite !appended_to_app.
  set (servers := match dhcpsrvrs with [] => [None] | _ => map Some dhcpsrvrs end).
  split.
  - assert (Hloop : appended_to (PRINT_ROOT_CHAIN CHAINPREFIX_HOST_IN_TEMP ifname)
                      (flat_map (dhcp_reply_rules
                                   (PRINT_ROOT_CHAIN CHAINPREFIX_HOST_OUT_TEMP ifname)
                                   (virMacAddrFormat macaddr)) servers) = []).
    { pose proof (dhcp_reply_rules_shape
                    (PRINT_ROOT_CHAIN CHAINPREFIX_HOST_OUT_TEMP ifname)
                    (virMacAddrFormat macaddr) servers) as Hshape.
      induction Hshape as [|r l [m Hr] _ IH]; [reflexivity|].
      unfold appended_to in *. cbn [flat_map]. rewrite IH, Hr.
      root_chain_names Hmax ifname. reflexivity. }
    rewrite Hloop. clear Hloop.
    destruct leaveTemporary; root_chain_names Hmax ifname;
      cbn [appended_to flat_map fw_cmd app negb String.eqb Ascii.eqb Bool.eqb];
      rewrite ?String.eqb_refl; reflexivity.
  - rewrite appended_to_dhcp_reply_rules.
    destruct leaveTemporary; root_chain_names Hmax ifname;
      cbn [appended_to flat_map fw_cmd app negb String.eqb Ascii.eqb Bool.eqb];
      rewrite ?String.eqb_refl; cbn [app]; now rewrite ?List.app_nil_r.
Qed.


Lemma dhcp_loop_rules_stop (chain_out macaddr_str : string)
    (servers : list (option string)) :
  Forall (fun r => fw_ignoreErrors r = false)
    (flat_map (dhcp_reply_rules chain_out macaddr_str) servers).
Proof.
  induction servers as [|s servers IH]; [constructor|].
  cbn [flat_map]. apply List.Forall_app. split; [|exact IH].
  unfold dhcp_reply_rules, virFirewallAddRule, virFirewallAddRuleFull.
  destruct s; cbn [flat_map app]; repeat constructor.
Qed.

(** Evaluates the positions in a list of rules that is written out. *)
Ltac positions :=
  unfold EBTABLES_CHAIN_INCOMING, EBTABLES_CHAIN_OUTGOING;
  cbn [negb position_of last_position_of creates_chain appends_to_chain jumps_to_chain
       renames_chain fw_cmd option_map app String.eqb Ascii.eqb Bool.eqb
       comes_before appended_to flat_map length Nat.add];
  rewrite ?String.eqb_refl;
  cbn [position_of last_position_of option_map comes_before app length Nat.add].

(** Gives the part of a written-out list before its last element. *)
Ltac all_but_last :=
  match goal with
  | |- exists before, ?l = before ++ [_] => exists (removelast l); reflexivity
  end.


Lemma basic_rules_staged (ifname : string) (macaddr : virMacAddr) :
  (10 <= MAX_CHAINNAME_LENGTH)%nat ->
  chain_staged (PRINT_ROOT_CHAIN CHAINPREFIX_HOST_IN_TEMP ifname)
    (fw_rules (ebtablesApplyBasicRules_fw ifname macaddr))
  /\ stops_at_first_failure (ebtablesApplyBasicRules_fw ifname macaddr).
Proof.
  intros Hmax.
  unfold ebtablesApplyBasicRules_fw, ebtablesCreateTmpRootChainFW,
    ebtablesLinkTmpRootChainFW, ebtablesRenameTmpRootChainFW,
    ebtablesRenameTmpSubChainFW, virFirewallAddRule, virFirewallAddRuleFull,
    stops_at_first_failure, chain_staged.
  cbn [fw_rules VIR_FIREWALL_TRANSACTION_IGNORE_ERRORS app].
  root_chain_names Hmax ifname. positions.
  repeat split; try lia; try all_but_last; repeat constructor.
Qed.

Lemma drop_all_rules_staged (ifname : string) :
  (10 <= MAX_CHAINNAME_LENGTH)%nat ->
  chain_staged (PRINT_ROOT_CHAIN CHAINPREFIX_HOST_IN_TEMP ifname)
    (fw_rules (ebtablesApplyDropAllRules_fw ifname))
  /\ chain_staged (PRINT_ROOT_CHAIN CHAINPREFIX_HOST_OUT_TEMP ifname)
       (fw_rules (ebtablesApplyDropAllRules_fw ifname))
  /\ stops_at_first_failure (ebtablesApplyDropAllRules_fw ifname).
Proof.
  intros Hmax.
  unfold ebtablesApplyDropAllRules_fw, ebtablesCreateTmpRootChainFW,
    ebtablesLinkTmpRootChainFW, ebtablesRenameTmpRootChainFW,
    ebtablesRenameTmpSubChainFW, virFirewallAddRule, virFirewallAddRuleFull,
    stops_at_first_failure, chain_staged.
  cbn [fw_rules VIR_FIREWALL_TRANSACTION_IGNORE_ERRORS app].
  root_chain_names Hmax ifname. positions.
  repeat split; try lia; try all_but_last; repeat constructor.
Qed.


Lemma dhcp_only_rules_staged (ifname : string) (macaddr : virMacAddr)
    (dhcpsrvrs : list string) (leaveTemporary : bool) :
  (10 <= MAX_CHAINNAME_LENGTH)%nat ->
  let fw := ebtablesApplyDHCPOnlyRules_fw ifname macaddr dhcpsrvrs leaveTemporary in
  chain_staged (PRINT_ROOT_CHAIN CHAINPREFIX_HOST_IN_TEMP ifname) (fw_rules fw)
  /\ chain_staged (PRINT_ROOT_CHAIN CHAINPREFIX_HOST_OUT_TEMP ifname) (fw_rules fw)
  /\ stops_at_first_failure fw.
Proof.
  intros Hmax. cbv zeta.
  unfold ebtablesApplyDHCPOnlyRules_fw, stops_at_first_failure.
  cbn [fw_rules VIR_FIREWALL_TRANSACTION_IGNORE_ERRORS].
  rewrite dhcp_servers_loop_all.
  set (servers := match dhcpsrvrs with [] => [None] | _ => map Some dhcpsrvrs end).
  pose proof (dhcp_reply_rules_shape (PRINT_ROOT_CHAIN CHAINPREFIX_HOST_OUT_TEMP ifname)
                (virMacAddrFormat macaddr) servers) as Hshape.
  pose proof (dhcp_loop_rules_stop (PRINT_ROOT_CHAIN CHAINPREFIX_HOST_OUT_TEMP ifname)
                (virMacAddrFormat macaddr) servers) as Hstop.
  pose proof (appended_to_dhcp_reply_rules
                (PRINT_ROOT_CHAIN CHAINPREFIX_HOST_OUT_TEMP ifname)
                (virMacAddrFormat macaddr) servers) as Hout.
  assert (Hfirst : exists r l,
             flat_map (dhcp_reply_rules
                         (PRINT_ROOT_CHAIN CHAINPREFIX_HOST_OUT_TEMP ifname)
                         (virMacAddrFormat macaddr)) servers = r :: l).
  { unfold servers. destruct dhcpsrvrs; cbn; eexists _, _; reflexivity. }
  destruct Hfirst as (r0 & l0 & Hfirst).
  set (L := flat_map _ servers) in *.
  unfold ebtablesCreateTmpRootChainFW, ebtablesLinkTmpRootChainFW,
    ebtablesRenameTmpRootChainFW, ebtablesRenameTmpSubChainFW,
    virFirewallAddRule, virFirewallAddRuleFull.
  revert Hshape Hout. root_chain_names Hmax ifname. intros Hshape Hout.
  assert (Hnone : forall f : fwcmd -> bool,
             (forall m, f (FwAppendJump (String "l" (String "i" (String "b" (String "v"
                          (String "i" (String "r" (String "t" (String "-"
                          (String "P" x))))))))) m "-j" "ACCEPT") = false) ->
             position_of f L = None /\ last_position_of f L = None).
  { intros f Hf. apply position_of_none.
    eapply List.Forall_impl; [|exact Hshape]. intros r [m ->]. apply Hf. }
  assert (Hin : appended_to (String "l" (String "i" (String "b" (String "v"
                  (String "i" (String "r" (String "t" (String "-"
                  (String "J" x))))))))) L = []).
  { clear -Hshape. induction Hshape as [|r l [m Hr] _ IH]; [reflexivity|].
    unfold appended_to in *. cbn [flat_map]. now rewrite IH, Hr. }
  assert (Hpos : position_of
                   (appends_to_chain (String "l" (String "i" (String "b" (String "v"
                      (String "i" (String "r" (String "t" (String "-"
                      (String "P" x)))))))))) L = Some 0%nat).
  { rewrite Hfirst in Hshape |- *. inversion Hshape as [|? ? [m Hr0] _]; subst.
    cbn [position_of]. rewrite Hr0. cbn [appends_to_chain].
    now rewrite String.eqb_refl. }
  unfold chain_staged.
  rewrite !position_of_app, !last_position_of_app, !appended_to_app, Hin, Hout, Hpos.
  repeat match goal with
    | |- context [position_of ?f L] =>
        rewrite (proj1 (Hnone f ltac:(intros; reflexivity)))
    | |- context [last_position_of ?f L] =>
        rewrite (proj2 (Hnone f ltac:(intros; reflexivity)))
    end.
  split; [|split].
  - destruct leaveTemporary; positions;
      repeat split; try lia; try all_but_last.
  - destruct leaveTemporary; positions;
      repeat split; try lia; eexists; rewrite ?List.app_nil_r; reflexivity.
  - split; [reflexivity|].
    repeat first [apply List.Forall_app; split | exact Hstop];
      destruct leaveTemporary; repeat constructor.
Qed.


(** X6.  In the rule sets of [ebtablesApplyBasicRules],
    [ebtablesApplyDHCPOnlyRules] and [ebtablesApplyDropAllRules] every root
    chain that is set up is created before the first rule is appended to
    it, gets all its rules, the last of which drops whatever reaches it,
    before the jump to it is appended to [PREROUTING] or [POSTROUTING], and
    is renamed to its active name, where it is renamed at all, after that.
    Neither the transactions nor their rules ignore a failure, so a chain
    that could not be filled is not linked. *)
Theorem basic_rule_sets_are_filled_before_they_are_linked (ifname : string)
    (macaddr : virMacAddr) (dhcpsrvrs : list string) (leaveTemporary : bool) :
  (10 <= MAX_CHAINNAME_LENGTH)%nat ->
  let chain_in := PRINT_ROOT_CHAIN CHAINPREFIX_HOST_IN_TEMP ifname in
  let chain_out := PRINT_ROOT_CHAIN CHAINPREFIX_HOST_OUT_TEMP ifname in
  let basic := ebtablesApplyBasicRules_fw ifname macaddr in
  let dhcp := ebtablesApplyDHCPOnlyRules_fw ifname macaddr dhcpsrvrs leaveTemporary in
  let drop_all := ebtablesApplyDropAllRules_fw ifname in
  chain_staged chain_in (fw_rules basic)
  /\ chain_staged chain_in (fw_rules dhcp)
  /\ chain_staged chain_out (fw_rules dhcp)
  /\ chain_staged chain_in (fw_rules drop_all)
  /\ chain_staged chain_out (fw_rules drop_all)
  /\ stops_at_first_failure basic
  /\ stops_at_first_failure dhcp
  /\ stops_at_first_failure drop_all.
Proof.
  intros Hmax. cbv zeta.
  destruct (basic_rules_staged ifname macaddr Hmax) as [Hb Hbs].
  destruct (dhcp_only_rules_staged ifname macaddr dhcpsrvrs leaveTemporary Hmax)
    as (Hd1 & Hd2 & Hds).
  destruct (drop_all_rules_staged ifname Hmax) as (Ha1 & Ha2 & Has).
  exact (conj Hb (conj Hd1 (conj Hd2 (conj Ha1 (conj Ha2 (conj Hbs (conj Hds Has))))))).
Qed.

(** ** Rendering values *)

Lemma snprintf_checked_fits (bufsize : nat) (data s : string) :
  snprintf_checked bufsize data = Some s -> (String.length s < bufsize)%nat.
Proof.
  unfold snprintf_checked. destruct (bufsize <=? String.length data)%nat eqn:E;
    [discriminate|].
  intros [= <-]. now apply Nat.leb_gt in E.
Qed.

(** X7.  When [virStrcpy] only succeeds for a text that fits its
    destination, and the text of the item's MAC address fits a buffer of
    [VIR_MAC_STRING_BUFLEN] characters, every text that [_printDataType]
    returns fits the buffer it was asked to fill, terminator included,
    whatever the type of the item and whether the text comes from a
    variable or from the item itself. *)
Theorem printDataType_result_fits_the_buffer (vars : virNWFilterVarCombIter)
    (bufsize : nat) (item : nwItemDesc) (asHex directionIn : bool) (s : string) :
  (forall (src : string) (destbytes : nat) (dest : string),
      virStrcpy src destbytes = Some dest ->
      dest = src /\ (String.length src < destbytes)%nat) ->
  (String.length (virMacAddrFormat (u_macaddr item)) < VIR_MAC_STRING_BUFLEN)%nat ->
  _printDataType vars bufsize item asHex directionIn = Some s ->
  (String.length s < bufsize)%nat.
Proof.
  intros Hcopy Hmac. unfold _printDataType, printVar.
  destruct (has_flag (flags item) NWFILTER_ENTRY_ITEM_FLAG_HAS_VAR).
  - destruct (virNWFilterVarCombIterGetVarValue vars (varAccess item)) as [val|];
      [|discriminate].
    destruct (virStrcpy val bufsize) as [buf|] eqn:E; [|discriminate].
    intros [= <-]. now destruct (Hcopy _ _ _ E) as [-> ?].
  - destruct (datatype item); try discriminate;
      try (now apply snprintf_checked_fits);
      try (destruct (virSocketAddrFormat (u_ipaddr item)); [|discriminate];
           now apply snprintf_checked_fits);
      try (destruct (bufsize <? VIR_MAC_STRING_BUFLEN)%nat eqn:E; [discriminate|];
           intros [= <-]; apply Nat.ltb_ge in E; lia);
      intros E; try (apply bind_Some in E as (flags & _ & E));
      now destruct (Hcopy _ _ _ E) as [-> ?].
Qed.

Lemma join_with_cons (sep w : string) (ws : list string) :
  join_with sep (w :: ws)
  = w +:+ String.concat "" (map (fun x => sep +:+ x) ws).
Proof.
  revert w. induction ws as [|v ws IH]; intros w.
  - cbn. now rewrite app_empty_r.
  - change (join_with sep (w :: v :: ws)) with (w +:+ sep +:+ join_with sep (v :: ws)).
    rewrite IH. cbn [map String.concat].
    destruct ws as [|u ws]; cbn [map String.concat];
      now rewrite ?app_nil_l_s, ?app_empty_r, ?app_assoc_s.
Qed.

Lemma ipsetflags_loop_from (n k : nat) (item : nwItemDesc) (directionIn : bool)
    (vb : string) :
  ipsetflags_loop n (Z.of_nat (S k)) item directionIn vb
  = vb +:+ String.concat ""
             (map (fun ctr => "," +:+ ipset_flag_word item directionIn ctr)
                (seq (S k) n)).
Proof.
  revert k vb. induction n as [|n IH]; intros k vb;
    [cbn; now rewrite app_empty_r|].
  cbn [ipsetflags_loop seq map]. cbv zeta.
  replace (Z.of_nat (S k) =? 0)%Z with false by (symmetry; apply Z.eqb_neq; lia).
  replace (Z.of_nat (S k) + 1)%Z with (Z.of_nat (S (S k))) by lia.
  rewrite IH. unfold ipset_flag_word.
  destruct (has_flag _ _), directionIn; cbn [xorb];
    destruct n; cbn [seq map String.concat]; now rewrite ?app_assoc_s, ?app_empty_r.
Qed.


(** X8.  For an ipset flags item that is not taken from a variable, with
    at least one flag and a number of flags that the shift can take,
    [printDataTypeDirection] copies into the buffer one word per flag,
    separated by commas: [src] for a flag that is set and [dst] for one that
    is not, and the other way round for a leg that is compiled inbound. *)
Theorem ipset_flags_follow_the_direction (vars : virNWFilterVarCombIter)
    (bufsize : nat) (item : nwItemDesc) (directionIn : bool) :
  has_flag (flags item) NWFILTER_ENTRY_ITEM_FLAG_HAS_VAR = false ->
  datatype item = DATATYPE_IPSETFLAGS ->
  (0 < u_ipset_numFlags item < 31)%Z ->
  printDataTypeDirection vars bufsize item directionIn
  = virStrcpy
      (join_with ","
         (map (ipset_flag_word item directionIn)
            (seq 0 (Z.to_nat (u_ipset_numFlags item)))))
      bufsize
  /\ forall ctr : nat,
       ipset_flag_word item directionIn ctr = "src"
       <-> ipset_flag_word item (negb directionIn) ctr = "dst".
Proof.
  intros Hvar Htype Hnum. split.
  - unfold printDataTypeDirection, _printDataType, printVar.
    rewrite Hvar, Htype. cbv zeta.
    destruct (Z.to_nat (u_ipset_numFlags item)) as [|n] eqn:En; [lia|].
    assert (Hloop : ipsetflags_loop (S n) 0 item directionIn ""
                    = join_with ","
                        (map (ipset_flag_word item directionIn) (seq 0 (S n)))).
    { cbn [ipsetflags_loop seq map]. cbv zeta.
      change (0 =? 0)%Z with true. cbn iota.
      change (0 + 1)%Z with (Z.of_nat 1).
      rewrite ipsetflags_loop_from, join_with_cons, map_map.
      unfold ipset_flag_word at 2. change (Z.of_nat 0) with 0%Z.
      destruct (has_flag (u_ipset_flags item) _), directionIn; reflexivity. }
    rewrite Hloop. cbn [seq map]. rewrite join_with_cons.
    unfold ipset_flag_word at 1 3.
    destruct (xorb _ _); rewrite !app_cons_s; reflexivity.
  - intros ctr. unfold ipset_flag_word.
    destruct (has_flag (u_ipset_flags item) _), directionIn; cbn; split; congruence.
Qed.

(** ** One leg of a rule of the IP layer *)

(** How a leg can end: with the error and the templates as they were, with
    success and no command, or with success and one command that ends with
    the jump to the target. *)
Lemma ipt_leg_outcome st directionIn chainPrefix rule ifname vars match_ defMatch
    accept_target isIPv6 maySkipICMP templates :
  let r := _iptablesCreateRuleInstance st directionIn chainPrefix rule ifname vars
             match_ defMatch accept_target isIPv6 maySkipICMP templates in
  r = ((-1)%Z, templates) \/ r = (0%Z, templates)
  \/ exists body : string,
       r = (0%Z, templates ++ [body +:+ " -j " +:+ iptables_target rule accept_target
                                +:+ CMD_DEF_POST +:+ CMD_SEPARATOR +:+ CMD_EXEC]).
Proof.
  cbv zeta. unfold _iptablesCreateRuleInstance.
  destruct (if isIPv6 then ip6tables_cmd_path st else iptables_cmd_path st)
    as [path|]; [|now left].
  destruct (ipt_switch directionIn (PRINT_IPT_ROOT_CHAIN chainPrefix ifname) rule vars
              maySkipICMP) as [| |bu sk hi s]; [now left|now right; left|].
  destruct (_ || _); [now right; left|].
  right; right. unfold iptables_target.
  destruct (def_action rule); cbn iota beta;
    match goal with
    | |- context [?b +:+ " -j " +:+ ?t +:+ CMD_DEF_POST +:+ CMD_SEPARATOR +:+ CMD_EXEC] =>
        destruct (0 <? String.length (st_prefix s))%nat;
          [exists (st_prefix s +:+ b); now rewrite app_assoc_s
          |exists b; reflexivity]
    end.
Qed.


(** X9.  A leg of a rule of the IP layer adds at most one command, and
    only when it returns success.  The command is the definition of [cmd]
    ending with the jump to a target, followed by the line that executes
    it; the target is the one the caller chose for the action accept, and
    the name of the action's own target for every other action, reject
    included. *)
Theorem iptables_leg_jumps_to_the_action_target (st : driver_state) (directionIn : bool)
    (chainPrefix : ascii * ascii) (rule : virNWFilterRuleDef) (ifname : string)
    (vars : virNWFilterVarCombIter) (match_ : option string) (defMatch : bool)
    (accept_target : string) (isIPv6 maySkipICMP : bool) (templates : list string) :
  let r := _iptablesCreateRuleInstance st directionIn chainPrefix rule ifname vars
             match_ defMatch accept_target isIPv6 maySkipICMP templates in
  let target :=
    match def_action rule with
    | VIR_NWFILTER_RULE_ACTION_ACCEPT => accept_target
    | VIR_NWFILTER_RULE_ACTION_DROP =>
        virNWFilterJumpTargetTypeToString VIR_NWFILTER_RULE_ACTION_DROP
    | VIR_NWFILTER_RULE_ACTION_REJECT =>
        virNWFilterJumpTargetTypeToString VIR_NWFILTER_RULE_ACTION_REJECT
    | VIR_NWFILTER_RULE_ACTION_RETURN =>
        virNWFilterJumpTargetTypeToString VIR_NWFILTER_RULE_ACTION_RETURN
    | VIR_NWFILTER_RULE_ACTION_CONTINUE =>
        virNWFilterJumpTargetTypeToString VIR_NWFILTER_RULE_ACTION_CONTINUE
    | VIR_NWFILTER_RULE_ACTION_LAST =>
        virNWFilterJumpTargetTypeToString VIR_NWFILTER_RULE_ACTION_LAST
    end in
  r = ((-1)%Z, templates) \/ r = (0%Z, templates)
  \/ exists body : string,
       r = (0%Z, templates ++ [body +:+ " -j " +:+ target
                                +:+ CMD_DEF_POST +:+ CMD_SEPARATOR +:+ CMD_EXEC]).
Proof.
  cbv zeta.
  pose proof (ipt_leg_outcome st directionIn chainPrefix rule ifname vars match_ defMatch
                accept_target isIPv6 maySkipICMP templates) as Hr.
  cbv zeta in Hr. unfold iptables_target in Hr.
  destruct (def_action rule); exact Hr.
Qed.

(** ** The legs of a rule of the IP layer *)

Lemma grows_leg st directionIn chainPrefix rule ifname vars match_ defMatch
    accept_target isIPv6 maySkipICMP templates :
  grows 1 templates
    (_iptablesCreateRuleInstance st directionIn chainPrefix rule ifname vars
       match_ defMatch accept_target isIPv6 maySkipICMP templates).
Proof.
  destruct (ipt_leg_outcome st directionIn chainPrefix rule ifname vars match_ defMatch
              accept_target isIPv6 maySkipICMP templates) as [-> | [-> | [body ->]]];
    (split; [cbn; auto|]).
  - exists []. rewrite List.app_nil_r. split; [reflexivity|simpl; lia].
  - exists []. rewrite List.app_nil_r. split; [reflexivity|simpl; lia].
  - eexists. split; [reflexivity|simpl; lia].
Qed.

Lemma grows_same (n : nat) (templates : list string) :
  grows n templates (0%Z, templates).
Proof.
  split; [now left|]. exists []. rewrite List.app_nil_r. split; [reflexivity|simpl; lia].
Qed.

Lemma grows_and_then (n m : nat) (templates : list string) (r : Z * list string)
    (k : list string -> Z * list string) :
  grows n templates r ->
  (forall ts, grows m ts (k ts)) ->
  grows (n + m) templates (and_then r k).
Proof.
  intros [Hrc (added & Hadded & Hlen)] Hk. unfold and_then.
  destruct (fst r <? 0)%Z.
  - split; [exact Hrc|]. exists added. split; [exact Hadded|lia].
  - destruct (Hk (snd r)) as [Hrc' (added' & Hadded' & Hlen')].
    split; [exact Hrc'|]. exists (added ++ added').
    rewrite Hadded', Hadded, <- List.app_assoc, length_app.
    split; [reflexivity|lia].
Qed.

Lemma grows_more (n m : nat) (templates : list string) (r : Z * list string) :
  (n <= m)%nat -> grows n templates r -> grows m templates r.
Proof.
  intros Hnm [Hrc (added & Hadded & Hlen)]. split; [exact Hrc|].
  exists added. split; [exact Hadded|lia].
Qed.

(** The legs of a rule that has state flags. *)
Lemma iptablesCreateRuleInstanceStateCtrl_legs st rule ifname vars isIPv6 templates :
  has_flag (def_flags rule) IPTABLES_STATE_FLAGS = true ->
  iptablesCreateRuleInstanceStateCtrl st rule ifname vars isIPv6 templates
  = match def_tt rule with
    | VIR_NWFILTER_RULE_DIRECTION_IN =>
        flags_leg st rule ifname vars isIPv6 false ("F"%char, CHAINPREFIX_HOST_OUT_TEMP)
          "ACCEPT" false templates
    | VIR_NWFILTER_RULE_DIRECTION_INOUT =>
        and_then
          (flags_leg st rule ifname vars isIPv6 true ("F"%char, CHAINPREFIX_HOST_IN_TEMP)
             "RETURN" true templates)
          (fun templates =>
             and_then
               (flags_leg st rule ifname vars isIPv6 false
                  ("F"%char, CHAINPREFIX_HOST_OUT_TEMP) "ACCEPT" true templates)
               (fun templates =>
                  flags_leg st rule ifname vars isIPv6 true
                    ("H"%char, CHAINPREFIX_HOST_IN_TEMP) "RETURN" true templates))
    | _ =>
        and_then
          (flags_leg st rule ifname vars isIPv6 false ("F"%char, CHAINPREFIX_HOST_IN_TEMP)
             "RETURN" false templates)
          (fun templates =>
             flags_leg st rule ifname vars isIPv6 false
               ("H"%char, CHAINPREFIX_HOST_IN_TEMP) "RETURN" false templates)
    end.
Proof.
  intros Hflags. unfold iptablesCreateRuleInstanceStateCtrl, and_then, flags_leg.
  rewrite Hflags. cbv zeta.
  destruct (def_tt rule); cbn [andb negb orb fst snd];
    repeat match goal with
      | |- context [if (fst ?r <? 0)%Z then _ else _] => destruct (fst r <? 0)%Z
      end; reflexivity.
Qed.


Lemma grows_iptablesCreateRuleInstance st rule ifname vars isIPv6 templates :
  grows 3 templates (iptablesCreateRuleInstance st rule ifname vars isIPv6 templates).
Proof.
  unfold iptablesCreateRuleInstance.
  destruct (negb _ && has_flag (def_flags rule) IPTABLES_STATE_FLAGS) eqn:E.
  - apply andb_prop in E as [_ E].
    rewrite (iptablesCreateRuleInstanceStateCtrl_legs _ _ _ _ _ _ E).
    unfold flags_leg.
    destruct (def_tt rule).
    + apply (grows_more 1); [lia|apply grows_leg].
    + apply (grows_more (1 + 1)); [lia|].
      apply grows_and_then; [apply grows_leg|intros; apply grows_leg].
    + apply (grows_and_then 1 2); [apply grows_leg|intros].
      apply (grows_and_then 1 1); [apply grows_leg|intros; apply grows_leg].
    + apply (grows_more (1 + 1)); [lia|].
      apply grows_and_then; [apply grows_leg|intros; apply grows_leg].
  - cbv zeta.
    apply (grows_and_then 1 2); [apply grows_leg|intros].
    apply (grows_and_then 1 1); [apply grows_leg|intros; apply grows_leg].
Qed.

(** X10.  A rule of the IP layer that has state flags and does not switch
    the state match off is compiled into the chains of its own direction
    only, each leg with what [printStateMatchFlags] prints for the flags
    as its state match and without the direction qualifier: a rule of
    direction in into [FP] (target [ACCEPT]), a rule of direction out into
    [FJ] and [HJ] (target [RETURN]), and a rule for both directions into
    [FJ], [FP] and [HJ].  For the flag [NONE] nothing is printed, the
    state match is [NULL] and the legs carry no state match.  A leg that
    fails ends the compilation. *)
Theorem rule_with_state_flags_is_compiled_one_way (st : driver_state)
    (rule : virNWFilterRuleDef) (ifname : string) (vars : virNWFilterVarCombIter)
    (isIPv6 : bool) (templates : list string) :
  has_flag (def_flags rule) RULE_FLAG_NO_STATEMATCH = false ->
  has_flag (def_flags rule) IPTABLES_STATE_FLAGS = true ->
  iptablesCreateRuleInstance st rule ifname vars isIPv6 templates
  = match def_tt rule with
    | VIR_NWFILTER_RULE_DIRECTION_IN =>
        flags_leg st rule ifname vars isIPv6 false ("F"%char, CHAINPREFIX_HOST_OUT_TEMP)
          "ACCEPT" false templates
    | VIR_NWFILTER_RULE_DIRECTION_INOUT =>
        and_then
          (flags_leg st rule ifname vars isIPv6 true ("F"%char, CHAINPREFIX_HOST_IN_TEMP)
             "RETURN" true templates)
          (fun templates =>
             and_then
               (flags_leg st rule ifname vars isIPv6 false
                  ("F"%char, CHAINPREFIX_HOST_OUT_TEMP) "ACCEPT" true templates)
               (fun templates =>
                  flags_leg st rule ifname vars isIPv6 true
                    ("H"%char, CHAINPREFIX_HOST_IN_TEMP) "RETURN" true templates))
    | _ =>
        and_then
          (flags_leg st rule ifname vars isIPv6 false ("F"%char, CHAINPREFIX_HOST_IN_TEMP)
             "RETURN" false templates)
          (fun templates =>
             flags_leg st rule ifname vars isIPv6 false
               ("H"%char, CHAINPREFIX_HOST_IN_TEMP) "RETURN" false templates)
    end.
Proof.
  intros Hno Hflags. unfold iptablesCreateRuleInstance.
  rewrite Hno, Hflags. cbn [negb andb].
  now apply iptablesCreateRuleInstanceStateCtrl_legs.
Qed.

(** X11.  Compiling a rule for one position of its variables gives all of
    its commands or none: the result is [0] or [-1], a failure leaves no
    command behind, and there are at most three commands.  A rule of the
    bridge layer that compiles has one command when its direction is in or
    out and two when it is inout. *)
Theorem rule_instance_is_all_or_nothing (st : driver_state) (chainSuffix : string)
    (rule : virNWFilterRuleDef) (ifname : string) (vars : virNWFilterVarCombIter) :
  let r := ebiptablesCreateRuleInstance st chainSuffix rule ifname vars in
  (fst r = 0%Z \/ fst r = (-1)%Z)
  /\ (fst r = (-1)%Z -> snd r = [])
  /\ (length (snd r) <= 3)%nat
  /\ (virNWFilterRuleIsProtocolEthernet (def_prtclType rule) = true ->
      fst r = 0%Z -> length (snd r) = ebtables_legs (def_tt rule)).
Proof.
  cbv zeta. unfold ebiptablesCreateRuleInstance. cbv zeta.
  destruct (virNWFilterRuleIsProtocolEthernet (def_prtclType rule)).
  - destruct (def_tt rule);
      repeat match goal with
        | |- context [ebtablesCreateRuleInstance ?a ?c ?s ?r ?i ?v ?b] =>
            destruct (ebtablesCreateRuleInstance a c s r i v b)
        end;
      cbn; repeat split; auto; try lia; try discriminate.
  - destruct (if virNWFilterRuleIsProtocolIPv6 (def_prtclType rule) then Some true
              else if virNWFilterRuleIsProtocolIPv4 (def_prtclType rule) then Some false
              else None) as [isIPv6|].
    + destruct (grows_iptablesCreateRuleInstance st rule ifname vars isIPv6 [])
        as [Hrc (added & Hadded & Hlen)].
      destruct (fst (iptablesCreateRuleInstance st rule ifname vars isIPv6 []) <? 0)%Z
        eqn:E; cbn [fst snd].
      * repeat split; auto; simpl; try lia; discriminate.
      * rewrite Hadded. cbn [app].
        repeat split; auto; try lia; discriminate.
    + cbn. repeat split; auto; try lia; discriminate.
Qed.


(** ** Legs that are left out *)

Lemma iptablesHandleIpHdr_skipRule s0 vars ipHdr s :
  iptablesHandleIpHdr s0 vars ipHdr true = Some s ->
  HAS_ENTRY_ITEM (dataConnlimitAbove ipHdr) = true ->
  st_skipRule s = true.
Proof.
  unfold iptablesHandleIpHdr. intros E Hc. rewrite Hc in E. cbv zeta in E.
  opt_inv; subst; reflexivity.
Qed.

Lemma ipt_case_head_skipRule chain proto vars srcMacAddr ipHdr bu sk s :
  ipt_case_head chain proto vars srcMacAddr ipHdr true = Some (bu, sk, s) ->
  HAS_ENTRY_ITEM (dataConnlimitAbove ipHdr) = true ->
  st_skipRule s = true.
Proof.
  unfold ipt_case_head. cbv zeta. intros E Hc.
  apply bind_Some in E as ([buf skipped] & _ & E).
  apply bind_Some in E as (s' & Hs' & E). injection E as _ _ <-.
  exact (iptablesHandleIpHdr_skipRule _ _ _ _ Hs' Hc).
Qed.

Lemma ipt_switch_skipRule chain rule vars maySkipICMP bu sk hi s h :
  ipt_switch true chain rule vars maySkipICMP = SwDone bu sk hi s ->
  l3_ipHdr rule = Some h ->
  HAS_ENTRY_ITEM (dataConnlimitAbove h) = true ->
  st_skipRule s = true.
Proof.
  unfold ipt_switch, l3_ipHdr. cbv zeta. intros E Hh Hc.
  destruct (def_prtclType rule); try discriminate E; injection Hh as <-;
    match type of E with
    | context [ipt_case_head ?a ?b ?c ?d ?e ?f] =>
        destruct (ipt_case_head a b c d e f) as [[[bu' sk'] s']|] eqn:Hhead;
          [pose proof (ipt_case_head_skipRule _ _ _ _ _ _ _ _ Hhead Hc) as Hs'
          |discriminate E]
    end;
    cbn [mbind option_bind] in E;
    repeat match type of E with
      | (if ?x then _ else _) = _ => destruct x eqn:?; try discriminate E
      end;
    try apply default_SwDone in E;
    opt_inv; simplify_eq; exact Hs'.
Qed.

(** X12.  A leg of a rule of the IP layer that is compiled inbound and
    whose IP header has a limit on the number of connections adds no
    command, whatever else the rule matches: the limit is only enforced in
    the legs that are compiled outbound. *)
Theorem connlimit_leg_is_compiled_outbound_only (st : driver_state)
    (chainPrefix : ascii * ascii) (rule : virNWFilterRuleDef) (ifname : string)
    (vars : virNWFilterVarCombIter) (match_ : option string) (defMatch : bool)
    (accept_target : string) (isIPv6 maySkipICMP : bool) (templates : list string)
    (ipHdr : ipHdrDataDef) :
  l3_ipHdr rule = Some ipHdr ->
  HAS_ENTRY_ITEM (dataConnlimitAbove ipHdr) = true ->
  snd (_iptablesCreateRuleInstance st true chainPrefix rule ifname vars match_ defMatch
         accept_target isIPv6 maySkipICMP templates)
  = templates.
Proof.
  intros Hh Hc. unfold _iptablesCreateRuleInstance.
  destruct (if isIPv6 then ip6tables_cmd_path st else iptables_cmd_path st)
    as [path|]; [|reflexivity].
  destruct (ipt_switch true (PRINT_IPT_ROOT_CHAIN chainPrefix ifname) rule vars
              maySkipICMP) as [| |bu sk hi s] eqn:Hsw; try reflexivity.
  rewrite (ipt_switch_skipRule _ _ _ _ _ _ _ _ _ Hsw Hh Hc).
  now rewrite orb_true_r.
Qed.

(** X13.  A rule for the spanning tree protocol that applies to both
    directions and matches the source MAC address cannot be compiled: the
    leg that exchanges source and destination would need the destination
    for the address of the bridge group.  The compilation fails and leaves
    no command. *)
Theorem stp_inout_rule_with_source_mac_is_refused (st : driver_state)
    (chainSuffix : string) (rule : virNWFilterRuleDef) (ifname : string)
    (vars : virNWFilterVarCombIter) :
  virNWFilterRuleIsProtocolEthernet VIR_NWFILTER_RULE_PROTOCOL_STP = true ->
  def_prtclType rule = VIR_NWFILTER_RULE_PROTOCOL_STP ->
  def_tt rule = VIR_NWFILTER_RULE_DIRECTION_INOUT ->
  HAS_ENTRY_ITEM (dataSrcMACAddr (stp_ethHdr (stpHdrFilter (def_p rule)))) = true ->
  ebtablesCreateRuleInstance st CHAINPREFIX_HOST_IN_TEMP chainSuffix rule ifname vars true
  = None
  /\ ebiptablesCreateRuleInstance st chainSuffix rule ifname vars = ((-1)%Z, []).
Proof.
  intros Heth Hproto Htt Hmac.
  assert (Hleg : ebtablesCreateRuleInstance st CHAINPREFIX_HOST_IN_TEMP chainSuffix rule
                   ifname vars true = None).
  { unfold ebtablesCreateRuleInstance. destruct (ebtables_cmd_path st); [|reflexivity].
    cbv zeta. unfold ebt_switch. rewrite Hproto. cbv zeta. rewrite Hmac. reflexivity. }
  split; [exact Hleg|].
  unfold ebiptablesCreateRuleInstance. rewrite Hproto, Heth, Htt. cbv zeta.
  now rewrite Hleg.
Qed.

(** ** The comparators *)

Lemma three_way_consistent {A : Type} (root : A -> bool) (prio : A -> Z) :
  consistent_comparator (fun _ => True)
    (fun a b => three_way (root a) (root b) (prio a) (prio b)).
Proof.
  unfold consistent_comparator, three_way. repeat split.
  - intros a _. destruct (root a); cbn; lia.
  - destruct (root a), (root b); cbn; lia.
  - destruct (root a), (root b); cbn; lia.
  - intros a b c _ _ _. destruct (root a), (root b), (root c); cbn; lia.
Qed.

(** X14.  For priorities within [-1000, 1000] the three comparators this
    file hands to [qsort] and [virHashGetItems] are consistent: an element
    equals itself, exchanging the arguments exchanges the sign of the
    result, and the order is transitive.  Outside the range the
    subtraction can wrap: of two chains with the priorities 2147483647 and
    -1 the comparator puts the first before the second. *)
Theorem comparators_are_consistent_within_the_priority_range :
  consistent_comparator (fun r => in_priority_range (priority r)) virNWFilterRuleInstSort
  /\ consistent_comparator (fun c => in_priority_range (ebt_priority c))
       ebiptablesRuleOrderSort
  /\ consistent_comparator (fun kv : string * Z => in_priority_range (snd kv))
       ebiptablesFilterOrderSort
  /\ (ebiptablesFilterOrderSort ("a", 2147483647%Z) ("b", (-1)%Z) < 0)%Z.
Proof.
  split; [|split; [|split]].
  - destruct (three_way_consistent is_root_rule priority) as (Hr & Ha & Ht).
    repeat split; intros;
      rewrite ?virNWFilterRuleInstSort_three_way in * by assumption.
    + now apply Hr.
    + now apply Ha.
    + now apply Ha.
    + eapply Ht; eauto.
  - destruct (three_way_consistent
                (fun c => STREQ (neededProtocolChain c)
                            virNWFilterChainSuffixTypeToString_ROOT) ebt_priority)
      as (Hr & Ha & Ht).
    repeat split; intros;
      rewrite ?ebiptablesRuleOrderSort_three_way in * by assumption.
    + now apply Hr.
    + now apply Ha.
    + now apply Ha.
    + eapply Ht; eauto.
  - unfold ebiptablesFilterOrderSort, in_priority_range.
    repeat split; intros; rewrite ?sub32_small in * by lia; lia.
  - reflexivity.
Qed.

(** ** The protocol of a chain *)

Lemma prefix_inv (p s : string) :
  String.prefix p s = true -> exists rest, s = p +:+ rest.
Proof.
  revert s. induction p as [|c p IH]; intros s Hp; [now exists s|].
  destruct s as [|a s]; cbn -[ascii_dec] in Hp; [discriminate|].
  destruct (ascii_dec c a) as [<-|]; [|discriminate].
  destruct (IH s Hp) as [rest ->]. now exists rest.
Qed.

(** X15.  [ebtablesGetProtoIdxByFiltername] finds the protocol whose name
    the name of the chain starts with, and only that: no name of a chain
    starts with the names of two protocols, so the order of the table does
    not matter, and a name that starts with none of them, [root] for one,
    has no protocol. *)
Theorem chain_name_has_the_protocol_it_starts_with (filtername : string)
    (idx : l3_proto_idx) :
  (ebtablesGetProtoIdxByFiltername filtername = Some idx
   <-> names_protocol filtername idx)
  /\ ebtablesGetProtoIdxByFiltername "root" = None
  /\ ebtablesGetProtoIdxByFiltername filtername <> Some L3_PROTO_LAST_IDX.
Proof.
  assert (Hiff : forall i, ebtablesGetProtoIdxByFiltername filtername = Some i
                           <-> names_protocol filtername i).
  { intros i. unfold names_protocol, ebtablesGetProtoIdxByFiltername. split.
    - intros Hf. apply find_some in Hf as [_ Hf].
      destruct (l3_protocols_val i) as [val|]; [|discriminate]. now exists val.
    - intros (val & Hval & Hp). unfold STRPREFIX in *.
      apply prefix_inv in Hp as [rest ->].
      destruct i; cbn in Hval; try discriminate; injection Hval as <-;
        unfold l3_proto_indices; cbn -[ascii_dec String.prefix];
        unfold STRPREFIX; rewrite ?app_cons_s, ?app_nil_l_s;
        cbn -[ascii_dec]; rewrite ?prefix_nil; reflexivity. }
  split; [apply Hiff|]. split; [reflexivity|].
  intros Hlast. apply Hiff in Hlast as (val & Hval & _). discriminate.
Qed.


(** ** Chain names *)

Lemma substring_all (m : nat) (s : string) :
  (String.length s <= m)%nat -> substring 0 m s = s.
Proof.
  revert s. induction m as [|m IH]; intros [|c s] Hlen; cbn in *; try reflexivity;
    try lia.
  f_equal. apply IH. lia.
Qed.

Lemma snprintf_fits (n : nat) (s : string) :
  (0 < n)%nat -> (String.length (snprintf n s) < n)%nat.
Proof.
  intros Hn. unfold snprintf. pose proof (substring_length_le (n - 1) s). lia.
Qed.

Lemma snprintf_all (n : nat) (s : string) :
  (String.length s < n)%nat -> snprintf n s = s.
Proof. intros Hlen. unfold snprintf. apply substring_all. lia. Qed.

Lemma app_inv_head_s (p a b : string) : p +:+ a = p +:+ b -> a = b.
Proof.
  induction p as [|c p IH]; [auto|]. rewrite !app_cons_s. intros [= E]. auto.
Qed.

Lemma length_app_s (a b : string) :
  String.length (a +:+ b) = (String.length a + String.length b)%nat.
Proof.
  induction a as [|c a IH]; [reflexivity|]. rewrite app_cons_s. cbn. now rewrite IH.
Qed.

Lemma substring_app_cut (m : nat) (p a : string) :
  (m <= String.length p)%nat -> substring 0 m (p +:+ a) = substring 0 m p.
Proof.
  revert p. induction m as [|m IH]; intros [|c p] Hlen; cbn in *; try lia.
  - now destruct a.
  - reflexivity.
  - rewrite app_cons_s. cbn. f_equal. apply IH. lia.
Qed.

(** X16.  When the name of the interface and the suffixes are short enough
    for the names not to be cut, a chain name fits its buffer of
    [MAX_CHAINNAME_LENGTH] characters, terminator included, and the chains
    of different interfaces, of different generations and sides, and of
    different sub-chains of an interface have different names.  A name of
    an interface that is too long is cut: two interfaces whose names agree
    on the part that fits get the same root chain. *)
Theorem chain_names_are_distinct_when_they_fit (c c' p p' : ascii)
    (ifname ifname' suffix suffix' : string) :
  (0 < MAX_CHAINNAME_LENGTH)%nat ->
  (String.length ifname + 10 < MAX_CHAINNAME_LENGTH)%nat ->
  (String.length ifname' + 10 < MAX_CHAINNAME_LENGTH)%nat ->
  (String.length ifname + String.length suffix + 3 < MAX_CHAINNAME_LENGTH)%nat ->
  (String.length ifname + String.length suffix' + 3 < MAX_CHAINNAME_LENGTH)%nat ->
  (String.length (PRINT_ROOT_CHAIN c ifname) < MAX_CHAINNAME_LENGTH
   /\ String.length (PRINT_CHAIN c ifname suffix) < MAX_CHAINNAME_LENGTH
   /\ String.length (PRINT_IPT_ROOT_CHAIN (p, c) ifname) < MAX_CHAINNAME_LENGTH)%nat
  /\ (PRINT_ROOT_CHAIN c ifname = PRINT_ROOT_CHAIN c' ifname' ->
      c = c' /\ ifname = ifname')
  /\ (PRINT_IPT_ROOT_CHAIN (p, c) ifname = PRINT_IPT_ROOT_CHAIN (p', c') ifname' ->
      p = p' /\ c = c' /\ ifname = ifname')
  /\ (PRINT_CHAIN c ifname suffix = PRINT_CHAIN c' ifname suffix' ->
      c = c' /\ suffix = suffix')
  /\ (forall long a b : string,
        (MAX_CHAINNAME_LENGTH <= String.length long + 11)%nat ->
        PRINT_ROOT_CHAIN c (long +:+ a) = PRINT_ROOT_CHAIN c (long +:+ b)).
Proof.
  intros Hmax Hif Hif' Hsfx Hsfx'.
  unfold PRINT_ROOT_CHAIN, PRINT_CHAIN, PRINT_IPT_ROOT_CHAIN. cbn [fst snd].
  split; [split; [|split]; now apply snprintf_fits|].
  split; [|split; [|split]].
  - rewrite !snprintf_all by (rewrite ?app_cons_s, ?app_nil_l_s; cbn; lia).
    rewrite !app_cons_s, !app_nil_l_s. intros [= -> E]. auto.
  - rewrite !snprintf_all by (rewrite ?app_cons_s, ?app_nil_l_s; cbn; lia).
    rewrite !app_cons_s, !app_nil_l_s. intros [= -> -> E]. auto.
  - rewrite !snprintf_all
      by (rewrite ?app_cons_s, ?app_nil_l_s; cbn; rewrite length_app_s; cbn; lia).
    rewrite !app_cons_s, !app_nil_l_s. intros [= -> E].
    apply app_inv_head_s in E. injection E as E. auto.
  - intros long a b Hlong. unfold snprintf.
    change ("libvirt-" +:+ String c "" +:+ "-" +:+ long +:+ a)
      with (("libvirt-" +:+ String c "" +:+ "-") +:+ (long +:+ a)).
    change ("libvirt-" +:+ String c "" +:+ "-" +:+ long +:+ b)
      with (("libvirt-" +:+ String c "" +:+ "-") +:+ (long +:+ b)).
    rewrite <- !app_assoc_s.
    rewrite (substring_app_cut _ _ a), (substring_app_cut _ _ b);
      [reflexivity| |]; rewrite !length_app_s; cbn [String.length]; lia.
Qed.


(** ** The sub-chains that are created *)

(** X17.  When [virHashGetItems] returns the entries of its table and
    [qsort] sorts, [ebiptablesApplyNewRules] creates a sub-chain only for a
    side and a chain that a rule of the bridge layer uses, and only when
    the chain's name starts with the name of a protocol; the sub-chain has
    the chain priority of such a rule, and the array of sub-chains is in
    ascending order of priority.  A chain whose name starts with no
    protocol's name gets no sub-chain. *)
Theorem subchains_are_created_for_protocol_chains_only (ifname : string)
    (rules : list virNWFilterRuleInst) :
  (forall (m : gmap string Z) (cmp : string * Z -> string * Z -> Z) (k : string) (v : Z),
      In (k, v) (virHashGetItems m cmp) <-> m !! k = Some v) ->
  (forall l : list ebiptablesRuleInst,
      Forall (fun c => in_priority_range (ebt_priority c)) l ->
      Permutation (qsort _ ebiptablesRuleOrderSort l) l
      /\ StronglySorted (fun a b => (ebiptablesRuleOrderSort a b <= 0)%Z)
           (qsort _ ebiptablesRuleOrderSort l)) ->
  Permutation (sorted_rules rules) rules ->
  Forall (fun r => in_priority_range (chainPriority r)) rules ->
  (forall c,
      In c (needed_chains ifname rules) ->
      exists incoming x idx,
        In x rules /\ is_ethernet_rule x = true /\ rule_uses_side incoming x = true
        /\ ebtablesGetProtoIdxByFiltername (chainSuffix x) = Some idx
        /\ c = ebtablesCreateTmpSubChain incoming ifname idx (chainSuffix x)
                 (chainPriority x))
  /\ StronglySorted (fun a b => (ebt_priority a <= ebt_priority b)%Z)
       (needed_chains ifname rules).
Proof.
  intros Hhash Hqsort Hperm Hrange.
  unfold needed_chains. rewrite scan_chains_sides.
  assert (Horigin : forall inc k v,
             scan_side inc (sorted_rules rules) ∅ !! k = Some v ->
             exists x, In x rules /\ is_ethernet_rule x = true
                       /\ rule_uses_side inc x = true
                       /\ chainSuffix x = k /\ chainPriority x = v).
  { intros inc k v Hl.
    apply scan_side_origin in Hl as [Hl | (x & Hx & Hex & Hu & Hk & Hv)].
    - rewrite lookup_empty in Hl. discriminate.
    - exists x. repeat split; auto. now apply (Permutation_in _ Hperm). }
  assert (Hvals : forall inc k v,
             scan_side inc (sorted_rules rules) ∅ !! k = Some v -> in_priority_range v).
  { intros inc k v Hl. destruct (Horigin inc k v Hl) as (x & Hx & _ & _ & _ & <-).
    rewrite List.Forall_forall in Hrange. now apply Hrange. }
  destruct (create_needed_chains_spec Hhash Hqsort ifname
              (scan_side true (sorted_rules rules) ∅)
              (scan_side false (sorted_rules rules) ∅)
              (Hvals true) (Hvals false)) as [Hmem Hsorted].
  split; [|exact Hsorted].
  intros c Hc. apply Hmem in Hc.
  destruct Hc as [(k & v & idx & Hk & Hidx & ->) | (k & v & idx & Hk & Hidx & ->)];
    apply Horigin in Hk as (x & Hx & Hex & Hu & <- & <-);
    eexists _, x, idx; repeat split; eauto.
Qed.


(** ** The rule commands and the scripts of an apply *)

Lemma rule_inst_loop_last st ifname rule (iter : list virNWFilterVarCombIter) last :
  forall cmds,
    Forall (fun tmp => fst (compiled_at st ifname rule tmp) = 0%Z) (iter ++ [last]) ->
    rule_inst_loop st ifname rule (iter ++ [last]) cmds
    = Some (snd (compiled_at st ifname rule last)).
Proof.
  induction iter as [|tmp iter IH]; intros cmds Hall; cbn [app rule_inst_loop].
  - apply List.Forall_inv in Hall. unfold compiled_at in Hall. cbv zeta.
    rewrite Hall. reflexivity.
  - pose proof (List.Forall_inv Hall) as Htmp. unfold compiled_at in Htmp.
    cbv zeta. rewrite Htmp. cbn [Z.ltb Z.compare].
    apply IH. exact (List.Forall_inv_tail Hall).
Qed.

Lemma rule_inst_loop_fails st ifname rule (iter : list virNWFilterVarCombIter) :
  forall cmds,
    Exists (fun tmp => fst (compiled_at st ifname rule tmp) = (-1)%Z) iter ->
    rule_inst_loop st ifname rule iter cmds = None.
Proof.
  induction iter as [|tmp iter IH]; intros cmds Hex.
  - inversion Hex.
  - cbn [rule_inst_loop]. cbv zeta.
    destruct (fst (ebiptablesCreateRuleInstance st (chainSuffix rule) (def rule) ifname tmp)
              <? 0)%Z eqn:E; [reflexivity|].
    apply IH. inversion Hex as [? ? Hhere|? ? Hlater]; subst; [|exact Hlater].
    unfold compiled_at in Hhere. rewrite Hhere in E. discriminate E.
Qed.

(** X18.  A rule is compiled once for every position of the iterator over
    the values of its variables, and each compilation starts from an empty
    array of commands: when every position compiles, the commands that
    [ebtablesRuleInstCommand] and [iptablesRuleInstCommand] add to the
    buffer are those of the last position alone.  When a position does not
    compile, or the iterator could not be created, they return [-1] and add
    nothing. *)
Theorem rule_commands_are_those_of_the_last_position (st : driver_state)
    (ifname : string) (rule : virNWFilterRuleInst) :
  let positions :=
    virNWFilterVarCombIterCreate (vars rule) (def_varAccess (def rule)) in
  (forall iter last,
      positions = iter ++ [last] ->
      Forall (fun tmp => fst (compiled_at st ifname rule tmp) = 0%Z) positions ->
      ebtablesRuleInstCommand st ifname rule
      = (0%Z, map ShInstRule (snd (compiled_at st ifname rule last)))
      /\ iptablesRuleInstCommand st ifname rule
         = (0%Z, map ShInstRule (snd (compiled_at st ifname rule last))))
  /\ (positions = []
      \/ Exists (fun tmp => fst (compiled_at st ifname rule tmp) = (-1)%Z) positions ->
      ebtablesRuleInstCommand st ifname rule = ((-1)%Z, [])
      /\ iptablesRuleInstCommand st ifname rule = ((-1)%Z, [])).
Proof.
  cbv zeta. unfold ebtablesRuleInstCommand, iptablesRuleInstCommand.
  split.
  - intros iter last Hpos Hall. rewrite Hpos in *.
    pose proof (rule_inst_loop_last _ _ _ _ _ [] Hall) as Hloop.
    assert (Hflat : forall cmds : list string,
               flat_map ebiptablesInstCommand cmds = map ShInstRule cmds
               /\ flat_map iptablesInstCommand cmds = map ShInstRule cmds).
    { induction cmds as [|c cmds [IH1 IH2]]; [split; reflexivity|].
      cbn [flat_map map ebiptablesInstCommand iptablesInstCommand app].
      rewrite IH1, IH2. split; reflexivity. }
    destruct (Hflat (snd (compiled_at st ifname rule last))) as [<- <-].
    destruct (iter ++ [last]) as [|x l] eqn:E;
      [destruct iter; discriminate E|].
    rewrite Hloop. split; reflexivity.
  - intros [-> | Hex]; [split; reflexivity|].
    pose proof (rule_inst_loop_fails _ _ _ _ [] Hex) as Hloop.
    destruct (virNWFilterVarCombIterCreate _ _) as [|x l]; [split; reflexivity|].
    rewrite Hloop. split; reflexivity.
Qed.
Lemma ebtablesCreateRuleInstance_text st c chainSuffix rule ifname vars reverse t :
  ebtablesCreateRuleInstance st c chainSuffix rule ifname vars reverse = Some t ->
  ebtables_rule_text t.
Proof.
  intros E. unfold ebtablesCreateRuleInstance in E.
  destruct (ebtables_cmd_path st); [|discriminate E]. cbv zeta in E.
  apply bind_Some in E as (buf & Hbuf & E). injection E as <-.
  apply ebt_switch_extends in Hbuf as [x ->].
  eexists. rewrite !app_assoc_s. reflexivity.
Qed.

Lemma ebiptablesCreateRuleInstance_text st chainSuffix rule ifname vars :
  virNWFilterRuleIsProtocolEthernet (def_prtclType rule) = true ->
  Forall ebtables_rule_text
    (snd (ebiptablesCreateRuleInstance st chainSuffix rule ifname vars)).
Proof.
  intros He. unfold ebiptablesCreateRuleInstance. cbv zeta. rewrite He.
  destruct (def_tt rule);
    repeat match goal with
      | |- context [ebtablesCreateRuleInstance ?a ?c ?s ?r ?i ?v ?b] =>
          let E := fresh "E" in
          destruct (ebtablesCreateRuleInstance a c s r i v b) eqn:E;
            [apply ebtablesCreateRuleInstance_text in E|]
      end;
    cbn [snd app]; repeat (apply List.Forall_cons; [assumption|]);
    apply List.Forall_nil.
Qed.

Lemma rule_inst_loop_text st ifname rule iter :
  is_ethernet_rule rule = true ->
  forall cmds r,
    Forall ebtables_rule_text cmds ->
    rule_inst_loop st ifname rule iter cmds = Some r ->
    Forall ebtables_rule_text r.
Proof.
  intros He.
  induction iter as [|tmp iter IH]; intros cmds r Hcmds E; simpl in E.
  - now injection E as <-.
  - destruct (_ <? 0)%Z; [discriminate|].
    apply (IH _ _ (ebiptablesCreateRuleInstance_text _ _ _ _ _ He) E).
Qed.

Lemma ebtablesRuleInstCommand_is_ebtables st ifname r :
  is_ethernet_rule r = true ->
  Forall item_is_ebtables (snd (ebtablesRuleInstCommand st ifname r)).
Proof.
  intros He. unfold ebtablesRuleInstCommand.
  destruct (virNWFilterVarCombIterCreate _ _) as [|x l]; [constructor|].
  destruct (rule_inst_loop _ _ _ _ _) as [cmds|] eqn:E; [|constructor].
  apply (rule_inst_loop_text _ _ _ _ He _ _ (List.Forall_nil _)) in E.
  cbn [snd]. induction E as [|c cmds Hc _ IH]; [constructor|].
  cbn [flat_map ebiptablesInstCommand app]. constructor; [exact Hc|exact IH].
Qed.

Lemma ebtablesCreateTmpSubChain_is_ebtables incoming ifname idx key value :
  chain_is_ebtables (ebtablesCreateTmpSubChain incoming ifname idx key value).
Proof. destruct idx; reflexivity. Qed.

Lemma ebtablesCreateTmpSubChains_is_ebtables incoming ifname names :
  forall inst,
    Forall chain_is_ebtables inst ->
    Forall chain_is_ebtables (ebtablesCreateTmpSubChains incoming ifname names inst).
Proof.
  induction names as [|[key value] names IH]; intros inst Hinst; simpl; [exact Hinst|].
  destruct (ebtablesGetProtoIdxByFiltername key); apply IH; [|exact Hinst].
  apply List.Forall_app. split; [exact Hinst|].
  constructor; [apply ebtablesCreateTmpSubChain_is_ebtables|constructor].
Qed.

Lemma create_needed_chains_is_ebtables ifname chains_in_set chains_out_set :
  (forall (l : list ebiptablesRuleInst) (x : ebiptablesRuleInst),
      In x (qsort _ ebiptablesRuleOrderSort l) -> In x l) ->
  let r := create_needed_chains ifname chains_in_set chains_out_set in
  Forall item_is_ebtables (fst r) /\ Forall chain_is_ebtables (snd r).
Proof.
  intros Hq. unfold create_needed_chains, ebtablesCreateTmpRootAndSubChains. cbv zeta.
  set (inner := ebtablesCreateTmpSubChains true ifname
                  (virHashGetItems chains_in_set ebiptablesFilterOrderSort) []).
  assert (Hinner : Forall chain_is_ebtables inner)
    by (apply ebtablesCreateTmpSubChains_is_ebtables; constructor).
  assert (Hsort : forall l, Forall chain_is_ebtables l ->
                    Forall chain_is_ebtables
                      match l with
                      | [] => l
                      | _ => qsort _ ebiptablesRuleOrderSort l
                      end).
  { intros l Hl. destruct l as [|c l]; [exact Hl|].
    apply List.Forall_forall. intros x Hx. apply Hq in Hx.
    exact (proj1 (List.Forall_forall _ _) Hl x Hx). }
  destruct (0 <? size chains_in_set)%nat; destruct (0 <? size chains_out_set)%nat;
    cbn [fst snd]; (split; [|first [apply Hsort | apply List.Forall_nil]]);
    repeat first [ apply List.Forall_app; split
                 | apply ebtablesCreateTmpSubChains_is_ebtables
                 | exact Hinner
                 | destruct incoming
                 | constructor; [reflexivity|]
                 | constructor ].
Qed.

Lemma emit_chains_upto_is_ebtables (ebtChains : list ebiptablesRuleInst) (prio : Z) :
  Forall chain_is_ebtables ebtChains ->
  let r := emit_chains_upto ebtChains prio in
  Forall item_is_ebtables (fst r) /\ Forall chain_is_ebtables (snd r).
Proof.
  induction 1 as [|c rest Hc Hrest IH]; simpl; [split; constructor|].
  destruct (ebt_priority c <=? prio)%Z.
  - destruct (emit_chains_upto rest prio) as [items remaining].
    cbn [fst snd] in *. destruct IH as [IH1 IH2].
    split; [constructor; [exact Hc|exact IH1]|exact IH2].
  - split; [constructor|constructor; assumption].
Qed.

Lemma process_rules_bridge st ifname rules :
  Forall (fun r => is_ethernet_rule r = true) rules ->
  forall ebtChains buf,
    Forall chain_is_ebtables ebtChains ->
    Forall item_is_ebtables buf ->
    let r := process_rules st ifname rules ebtChains buf false false in
    (exists rest, fst (fst (fst r)) = buf ++ rest)
    /\ Forall item_is_ebtables (fst (fst (fst r)))
    /\ Forall chain_is_ebtables (snd (fst (fst r)))
    /\ snd (fst r) = false /\ snd r = false.
Proof.
  induction 1 as [|r rules Hr Hrules IH]; intros ebtChains buf Hchains Hbuf; simpl.
  - split; [exists []; now rewrite app_nil_r|]. repeat split; assumption.
  - unfold is_ethernet_rule in Hr. rewrite Hr.
    destruct (emit_chains_upto_is_ebtables ebtChains (priority r) Hchains) as [He1 He2].
    destruct (emit_chains_upto ebtChains (priority r)) as [items remaining].
    cbn [fst snd] in He1, He2.
    destruct (IH remaining ((buf ++ items) ++ snd (ebtablesRuleInstCommand st ifname r))
                He2) as ([rest Hrest] & Hall & Hrem & H4 & H6).
    { repeat (apply List.Forall_app; split); try assumption.
      apply ebtablesRuleInstCommand_is_ebtables. exact Hr. }
    split; [|repeat split; assumption].
    rewrite Hrest, <- !app_assoc. eexists. reflexivity.
Qed.

Lemma exec_bridge st (n : nat) (s : run_state) (buf : list shitem) (ignore : bool) :
  bridge_trace st n s ->
  buf = [] \/ ebtables_script st buf ->
  bridge_trace st (S n) (fst (exec s buf ignore)).
Proof.
  intros [Htr Hlen] Hbuf. unfold exec, ebiptablesExecCLI.
  destruct buf as [|i buf].
  - cbn. rewrite app_nil_r. split; [exact Htr|cbn [snd]; lia].
  - destruct Hbuf as [Hbuf|Hbuf]; [discriminate Hbuf|].
    destruct (run_sh (fst s) (render_script (i :: buf))) as [w' [status out]].
    cbn [fst snd]. split.
    + cbn [fst snd]. apply List.Forall_app. split; [exact Htr|].
      constructor; [exact Hbuf|constructor].
    + cbn [fst snd]. rewrite List.length_app. cbn [length]. lia.
Qed.

Lemma bridge_trace_le st (n m : nat) (s : run_state) :
  (n <= m)%nat -> bridge_trace st n s -> bridge_trace st m s.
Proof. intros Hle [Htr Hlen]. split; [exact Htr|lia]. Qed.

Lemma ebtables_script_app st (buf rest : list shitem) :
  ebtables_script st buf -> Forall item_is_ebtables rest ->
  ebtables_script st (buf ++ rest).
Proof.
  intros [[x ->] Hall] Hrest. split.
  - exists (x ++ rest). now rewrite <- app_assoc.
  - apply List.Forall_app. split; assumption.
Qed.

Lemma ebtables_script_shellvar st (rest : list shitem) :
  Forall item_is_ebtables rest ->
  ebtables_script st (NWFILTER_SET_EBTABLES_SHELLVAR st ++ rest).
Proof.
  intros Hrest. split; [now exists rest|].
  apply List.Forall_app. split; [|exact Hrest].
  constructor; [reflexivity|constructor].
Qed.

Ltac bridge_pieces :=
  repeat first [ apply List.Forall_app; split
               | apply List.Forall_nil
               | apply List.Forall_cons; [reflexivity|]
               | assumption ].

Lemma tear_down_tmpebchains_bridge st ifname (n : nat) (s : run_state)
    (buf : list shitem) :
  bridge_trace st n s ->
  buf = [] \/ ebtables_script st buf ->
  bridge_trace st (S n) (fst (tear_down_tmpebchains st ifname s buf)).
Proof.
  intros Hs Hbuf. unfold tear_down_tmpebchains.
  match goal with
  | |- context [exec s ?b true] =>
      pose proof (exec_bridge st n s b true Hs) as Hex;
      destruct (exec s b true) as [s' rc]
  end.
  cbn [fst] in *. apply Hex.
  destruct (ebtables_cmd_path st) eqn:Hpath; [right|exact Hbuf].
  destruct Hbuf as [-> | Hbuf].
  - cbn [app]. apply (ebtables_script_shellvar st).
    unfold ebtablesRemoveTmpSubChains, _ebtablesRemoveSubChains,
      ebtablesRemoveTmpRootChain, _ebtablesRemoveRootChain,
      NWFILTER_SET_EBTABLES_SHELLVAR.
    bridge_pieces.
  - apply ebtables_script_app; [exact Hbuf|].
    unfold ebtablesRemoveTmpSubChains, _ebtablesRemoveSubChains,
      ebtablesRemoveTmpRootChain, _ebtablesRemoveRootChain,
      NWFILTER_SET_EBTABLES_SHELLVAR.
    bridge_pieces.
Qed.

(** X19.  When every rule of the interface is a rule of the bridge layer,
    and the sorting functions return elements of the arrays they were
    given, [ebiptablesApplyNewRules] runs at most five scripts, on the way
    and on its error paths, and each of them is a script of the bridge
    layer: it starts with the line that sets [$EBT], and it sets or runs
    none of the tools of the IP layers. *)
Theorem bridge_rules_run_the_bridge_tool_only (st : driver_state) (w : World)
    (ifname : string) (rules : list virNWFilterRuleInst) :
  (forall (l : list ebiptablesRuleInst) (x : ebiptablesRuleInst),
      In x (qsort _ ebiptablesRuleOrderSort l) -> In x l) ->
  (forall x, In x (sorted_rules rules) -> In x rules) ->
  Forall (fun r => is_ethernet_rule r = true) rules ->
  let trace := snd (fst (fst (ebiptablesApplyNewRules st w ifname rules))) in
  Forall (fun e => ebtables_script st (ex_script e)) trace
  /\ (length trace <= 5)%nat.
Proof.
  intros Hq Hsorted Hrules. cbv zeta.
  assert (Hraised : Forall (fun r => is_ethernet_rule r = true)
                      (map raise_priority (sorted_rules rules))).
  { apply List.Forall_forall. intros x Hx.
    apply List.in_map_iff in Hx as (y & <- & Hy).
    rewrite is_ethernet_rule_raise.
    exact (proj1 (List.Forall_forall _ _) Hrules y (Hsorted y Hy)). }
  change (bridge_trace st 5 (fst (fst (ebiptablesApplyNewRules st w ifname rules)))).
  unfold ebiptablesApplyNewRules. cbv zeta.
  destruct (scan_chains (sorted_rules rules) ∅ ∅) as [chains_in_set chains_out_set].
  (* cleanup whatever may exist *)
  match goal with
  | |- context [match ebtables_cmd_path st with
                | Some _ => fst (exec ?s0 ?b true)
                | None => _ end] =>
      assert (Hs1 : bridge_trace st 1
                      match ebtables_cmd_path st with
                      | Some _ => fst (exec s0 b true)
                      | None => s0
                      end);
      [ assert (Hs0 : bridge_trace st 0 s0) by (split; [constructor|cbn; lia]);
        destruct (ebtables_cmd_path st) eqn:Hpath;
        [ apply (exec_bridge st 0 s0 b true Hs0); right;
          apply (ebtables_script_shellvar st);
          unfold ebtablesUnlinkTmpRootChain, _ebtablesUnlinkRootChain,
            ebtablesRemoveTmpSubChains, _ebtablesRemoveSubChains,
            ebtablesRemoveTmpRootChain, _ebtablesRemoveRootChain,
            NWFILTER_SET_EBTABLES_SHELLVAR;
          bridge_pieces
        | apply (bridge_trace_le st 0 1); [lia|exact Hs0] ]
      | generalize dependent
          (match ebtables_cmd_path st with
           | Some _ => fst (exec s0 b true)
           | None => s0
           end) ]
  end.
  intros s1 Hs1.
  (* create needed chains *)
  pose proof (create_needed_chains_is_ebtables ifname chains_in_set chains_out_set Hq)
    as [Hcreated HebtChains].
  destruct (create_needed_chains ifname chains_in_set chains_out_set)
    as [created ebtChains]. cbn [fst snd] in Hcreated, HebtChains.
  pose proof (exec_bridge st 1 s1 (NWFILTER_SET_EBTABLES_SHELLVAR st ++ created) false
                Hs1 (or_intror (ebtables_script_shellvar st created Hcreated))) as Hs2.
  destruct (exec s1 (NWFILTER_SET_EBTABLES_SHELLVAR st ++ created) false) as [s2 rc2].
  cbn [fst] in Hs2.
  destruct (rc2 <? 0)%Z.
  { cbn [fst]. apply (bridge_trace_le st 3 5); [lia|].
    apply tear_down_tmpebchains_bridge; [exact Hs2|left; reflexivity]. }
  (* the rules and the sub-chains *)
  pose proof (process_rules_bridge st ifname (map raise_priority (sorted_rules rules))
                Hraised ebtChains (NWFILTER_SET_EBTABLES_SHELLVAR st) HebtChains) as Hpr.
  cbv zeta in Hpr.
  destruct (process_rules st ifname (map raise_priority (sorted_rules rules)) ebtChains
              (NWFILTER_SET_EBTABLES_SHELLVAR st) false false)
    as [[[buf remaining] haveIptables] haveIp6tables].
  cbn [fst snd] in Hpr.
  destruct Hpr as ([rest Hrest] & Hbuf & Hremaining & -> & ->);
    [constructor; [reflexivity|constructor]|].
  assert (Hscript : ebtables_script st
                      (buf ++ map (fun c => ShInstChain (commandTemplate c)) remaining)).
  { split.
    - rewrite Hrest, <- app_assoc. eexists. reflexivity.
    - apply List.Forall_app. split; [exact Hbuf|].
      clear -Hremaining. induction Hremaining; simpl; constructor; assumption. }
  match goal with
  | |- context [exec s2 ?b false] =>
      pose proof (exec_bridge st 2 s2 b false Hs2 (or_intror Hscript)) as Hs3;
      destruct (exec s2 b false) as [s3 rc3]; cbn [fst] in Hs3
  end.
  destruct (rc3 <? 0)%Z.
  { cbn [fst]. apply (bridge_trace_le st 4 5); [lia|].
    apply tear_down_tmpebchains_bridge; [exact Hs3|left; reflexivity]. }
  (* link the ebtables root chains *)
  match goal with
  | |- context [exec s3 ?b false] =>
      assert (Hlink : ebtables_script st b);
      [ apply (ebtables_script_shellvar st);
        unfold ebtablesLinkTmpRootChain;
        destruct (negb (size chains_in_set =? 0)%nat);
        destruct (negb (size chains_out_set =? 0)%nat); bridge_pieces
      | pose proof (exec_bridge st 3 s3 b false Hs3 (or_intror Hlink)) as Hs4;
        destruct (exec s3 b false) as [s4 rc4]; cbn [fst] in Hs4 ]
  end.
  destruct (rc4 <? 0)%Z.
  - cbn [fst].
    unfold tear_down_ebsubchains_and_unlink, tear_down_tmpip6tchains,
      tear_down_tmpiptchains.
    apply tear_down_tmpebchains_bridge; [exact Hs4|].
    destruct (ebtables_cmd_path st) eqn:Hpath; [right|left; reflexivity].
    cbn [app]. apply (ebtables_script_shellvar st).
    unfold ebtablesUnlinkTmpRootChain, _ebtablesUnlinkRootChain. bridge_pieces.
  - cbn [fst]. apply (bridge_trace_le st 4 5); [lia|exact Hs4].
Qed.
End Properties.
(* ===================================================================== *)
(** * Part III: the embedding run on concrete inputs                      *)
(* ===================================================================== *)

Section Concrete.
Existing Instance concrete.

(** ** The sort of the concrete environment *)

Lemma isort_insert_In {A : Type} (cmp : A -> A -> Z) (x y : A) (l : list A) :
  In y (isort_insert cmp x l) -> y = x \/ In y l.
Proof.
  induction l as [|z l IH]; simpl.
  - intros [<-|[]]. now left.
  - destruct (cmp x z <=? 0)%Z; simpl.
    + intros [<-|H]; [now left|now right].
    + intros [<-|H]; [right; now left|].
      destruct (IH H) as [->|Hl]; [now left|right; now right].
Qed.

Lemma isort_In {A : Type} (cmp : A -> A -> Z) (l : list A) (y : A) :
  In y (isort cmp l) -> In y l.
Proof.
  induction l as [|x l IH]; simpl; [tauto|].
  intros H. destruct (isort_insert_In _ _ _ _ H) as [->|Hl]; [now left|].
  right. now apply IH.
Qed.

Lemma isort_insert_Permutation {A : Type} (cmp : A -> A -> Z) (x : A) (l : list A) :
  Permutation (isort_insert cmp x l) (x :: l).
Proof.
  induction l as [|y l IH]; simpl; [reflexivity|].
  destruct (cmp x y <=? 0)%Z; [reflexivity|].
  rewrite IH. apply perm_swap.
Qed.

Lemma isort_Permutation {A : Type} (cmp : A -> A -> Z) (l : list A) :
  Permutation (isort cmp l) l.
Proof.
  induction l as [|x l IH]; simpl; [reflexivity|].
  rewrite isort_insert_Permutation. now constructor.
Qed.

Lemma isort_insert_sorted {A : Type} (cmp : A -> A -> Z) (P : A -> Prop) :
  (forall a b, P a -> P b -> (cmp a b <= 0)%Z \/ (cmp b a <= 0)%Z) ->
  (forall a b c, P a -> P b -> P c ->
                 (cmp a b <= 0)%Z -> (cmp b c <= 0)%Z -> (cmp a c <= 0)%Z) ->
  forall (x : A) (l : list A),
    P x -> Forall P l ->
    StronglySorted (fun a b => (cmp a b <= 0)%Z) l ->
    StronglySorted (fun a b => (cmp a b <= 0)%Z) (isort_insert cmp x l).
Proof.
  intros Htotal Htrans x l Hx Hl Hs.
  induction Hs as [|y l Hs IH Hy]; simpl.
  - repeat constructor.
  - apply List.Forall_cons_iff in Hl as [Py Pl].
    destruct (cmp x y <=? 0)%Z eqn:E.
    + apply Z.leb_le in E. constructor; [now constructor|].
      constructor; [exact E|].
      rewrite List.Forall_forall in *. intros z Hz.
      apply (Htrans x y z); auto.
    + apply Z.leb_gt in E. constructor; [now apply IH|].
      apply List.Forall_forall. intros z Hz.
      apply isort_insert_In in Hz as [->|Hz].
      * destruct (Htotal x y Hx Py); [lia|assumption].
      * rewrite List.Forall_forall in Hy. now apply Hy.
Qed.

Lemma isort_sorted {A : Type} (cmp : A -> A -> Z) (P : A -> Prop) :
  (forall a b, P a -> P b -> (cmp a b <= 0)%Z \/ (cmp b a <= 0)%Z) ->
  (forall a b c, P a -> P b -> P c ->
                 (cmp a b <= 0)%Z -> (cmp b c <= 0)%Z -> (cmp a c <= 0)%Z) ->
  forall l : list A,
    Forall P l -> StronglySorted (fun a b => (cmp a b <= 0)%Z) (isort cmp l).
Proof.
  intros Htotal Htrans l Hl. induction Hl as [|x l Hx Hl IH]; simpl; [constructor|].
  apply (isort_insert_sorted cmp P Htotal Htrans); auto.
  apply List.Forall_forall. intros y Hy. apply isort_In in Hy.
  rewrite List.Forall_forall in Hl. now apply Hl.
Qed.

(** The sort of the concrete environment sorts sub-chains whose priorities
    are in the range. *)
Lemma concrete_qsort_chains (l : list ebiptablesRuleInst) :
  Forall (fun c => in_priority_range (ebt_priority c)) l ->
  Permutation (qsort _ ebiptablesRuleOrderSort l) l
  /\ StronglySorted (fun a b => (ebiptablesRuleOrderSort a b <= 0)%Z)
       (qsort _ ebiptablesRuleOrderSort l).
Proof.
  intros Hl. split; [apply isort_Permutation|].
  apply (isort_sorted ebiptablesRuleOrderSort
           (fun c => in_priority_range (ebt_priority c))); [| |exact Hl].
  - intros a b Ha Hb. rewrite !ebiptablesRuleOrderSort_three_way by assumption.
    unfold three_way, in_priority_range in *.
    destruct (STREQ (neededProtocolChain a) _), (STREQ (neededProtocolChain b) _);
      cbn; lia.
  - intros a b c Ha Hb Hc. rewrite !ebiptablesRuleOrderSort_three_way by assumption.
    unfold three_way, in_priority_range in *.
    destruct (STREQ (neededProtocolChain a) _), (STREQ (neededProtocolChain b) _),
      (STREQ (neededProtocolChain c) _); cbn; lia.
Qed.

(** The hash table of the concrete environment returns its entries. *)
Lemma concrete_virHashGetItems (m : gmap string Z)
    (cmp : string * Z -> string * Z -> Z) (k : string) (v : Z) :
  In (k, v) (virHashGetItems m cmp) <-> m !! k = Some v.
Proof.
  change (virHashGetItems m cmp) with (isort cmp (map_to_list m)).
  rewrite <- elem_of_map_to_list, list_elem_of_In.
  split; apply Permutation_in; [|symmetry]; apply isort_Permutation.
Qed.


(** C2, counterexample to the claim as stated.  Two ebtables rules, one in
    the chain [ipv4] with priority -700 and one in the chain [arp] with
    priority -500, are applied to [vnet0] and every script succeeds.  In
    the third script the commands that create the sub-chain [J-vnet0-arp],
    an item whose needed chain is the root chain, come after the command of
    the rule in [J-vnet0-ipv4], an item of a chain that is not the root
    chain. *)
Lemma subchain_creation_follows_a_rule_command :
  let st := sample_state CTDIR_STATUS_CORRECTED in
  let r := @ebiptablesApplyNewRules concrete st (world_answering []) "vnet0"
             [rule_arp; rule_ipv4] in
  let create_ipv4 := ebtablesCreateTmpSubChain true "vnet0" L3_PROTO_IPV4_IDX "ipv4" (-700) in
  let create_arp := ebtablesCreateTmpSubChain true "vnet0" L3_PROTO_ARP_IDX "arp" (-500) in
  snd (fst r) = 0%Z
  /\ option_map ex_script (nth_error (snd (fst (fst r))) 2)
     = Some [ShCmd (ShSetVar "EBT" (Some "/sbin/ebtables"));
             ShInstChain (commandTemplate create_ipv4);
             ShInstRule (template_of "$EBT -t nat -A J-vnet0-ipv4 -p ipv4 -j ACCEPT");
             ShInstChain (commandTemplate create_arp);
             ShInstRule (template_of "$EBT -t nat -A J-vnet0-arp -p 0x806 -j ACCEPT")]
  /\ snd (ebtablesRuleInstCommand st "vnet0" rule_ipv4)
     = [ShInstRule (template_of "$EBT -t nat -A J-vnet0-ipv4 -p ipv4 -j ACCEPT")]
  /\ is_root_rule rule_ipv4 = false
  /\ STREQ (neededProtocolChain create_arp) virNWFilterChainSuffixTypeToString_ROOT = true.
Proof. vm_compute. repeat split. Qed.

(** C2, the amended claim at a concrete input: a rule of the root chain
    with priority 500 and the two rules above.  The sorted array has the
    rule of the root chain first and the others by ascending priority. *)
Lemma rules_are_compiled_in_sorted_order_witness :
  StronglySorted rule_order (sorted_rules [rule_arp; rule_tcp; rule_ipv4])
  /\ sorted_rules [rule_arp; rule_tcp; rule_ipv4] = [rule_tcp; rule_ipv4; rule_arp].
Proof.
  destruct (@rules_are_compiled_in_sorted_order concrete
              (sample_state CTDIR_STATUS_CORRECTED) "vnet0"
              [rule_arp; rule_tcp; rule_ipv4])
    as (_ & _ & Hsorted & _).
  - repeat constructor; simpl; lia.
  - apply (isort_Permutation virNWFilterRuleInstSortPtr [rule_arp; rule_tcp; rule_ipv4]).
  - change (sorted_rules [rule_arp; rule_tcp; rule_ipv4])
      with [rule_tcp; rule_ipv4; rule_arp].
    repeat constructor; apply Z.leb_le; vm_compute; reflexivity.
  - split; [exact Hsorted|reflexivity].
Defined.

(** C3, the input on which the guarantee fails.  Two rules of the chain
    [ipv4], the first with priority -600 from a filter that gives the chain
    the priority -700, the second with priority 0 from a filter that gives
    it the priority -400.  The chain set keeps the priority of the rule
    scanned last, -400, so the only sub-chain is created with that
    priority, and in the third script the command of the first rule, which
    appends to [J-vnet0-ipv4], stands before the commands that create
    [J-vnet0-ipv4].  Neither priority was raised. *)
Lemma rule_command_precedes_creation_of_its_chain :
  let st := sample_state CTDIR_STATUS_CORRECTED in
  let r := @ebiptablesApplyNewRules concrete st (world_answering []) "vnet0"
             [rule_late; rule_early] in
  let create := ebtablesCreateTmpSubChain true "vnet0" L3_PROTO_IPV4_IDX "ipv4" (-400) in
  needed_chains "vnet0" [rule_late; rule_early] = [create]
  /\ option_map ex_script (nth_error (snd (fst (fst r))) 2)
     = Some [ShCmd (ShSetVar "EBT" (Some "/sbin/ebtables"));
             ShInstRule (template_of "$EBT -t nat -A J-vnet0-ipv4 -p ipv4 -j ACCEPT");
             chain_item create;
             ShInstRule (template_of "$EBT -t nat -A J-vnet0-ipv4 -p ipv4 -j DROP")]
  /\ snd (ebtablesRuleInstCommand st "vnet0" rule_early)
     = [ShInstRule (template_of "$EBT -t nat -A J-vnet0-ipv4 -p ipv4 -j ACCEPT")]
  /\ map priority (snd r) = [(-600)%Z; 0%Z].
Proof. vm_compute. repeat split. Qed.

(** C3 at a concrete input: a rule of the chain [ipv4] with priority -800,
    below the chain's -700, and a rule of the chain [arp].  The commands
    that create [J-vnet0-ipv4] stand before the rule's command. *)
Lemma subchain_is_created_before_its_rules_witness :
  let st := sample_state CTDIR_STATUS_CORRECTED in
  priority (raise_priority rule_low) = (-700)%Z
  /\ exists pre post,
       ebtables_rules_script st "vnet0"
         (map raise_priority (sorted_rules [rule_arp; rule_low]))
         (needed_chains "vnet0" [rule_arp; rule_low])
       = pre ++ snd (ebtablesRuleInstCommand st "vnet0" rule_low) ++ post
       /\ In (chain_item (ebtablesCreateTmpSubChain true "vnet0" L3_PROTO_IPV4_IDX
                            "ipv4" (-700))) pre.
Proof.
  cbv zeta.
  destruct (@subchain_is_created_before_its_rules concrete
              (sample_state CTDIR_STATUS_CORRECTED) "vnet0" [rule_arp; rule_low])
    as (Hraise & _ & Hbefore).
  - reflexivity.
  - apply concrete_virHashGetItems.
  - apply concrete_qsort_chains.
  - apply (isort_Permutation virNWFilterRuleInstSortPtr [rule_arp; rule_low]).
  - repeat constructor; simpl; lia.
  - intros a b [<-|[<-|[]]] [<-|[<-|[]]] _ _ Hsuffix;
      first [reflexivity | discriminate Hsuffix].
  - split.
    + destruct (Hraise rule_low) as [-> _]. reflexivity.
    + apply (Hbefore [] rule_low [rule_arp] true L3_PROTO_IPV4_IDX); reflexivity.
Defined.



(** C6 at a concrete input: an inbound TCP rule that only matches the
    source MAC address; its leg for the chain [FJ-vnet0] is compiled with
    [directionIn] set and adds nothing to the templates. *)
Lemma srcmac_only_inbound_leg_is_not_emitted_witness :
  _iptablesCreateRuleInstance (sample_state CTDIR_STATUS_CORRECTED) true
    ("F"%char, CHAINPREFIX_HOST_IN_TEMP)
    (tcp_srcmac_rule VIR_NWFILTER_RULE_DIRECTION_IN) "vnet0" []
    (Some m_state_in_str_old) true "RETURN" false false []
  = (0%Z, []).
Proof.
  refine (proj2 (srcmac_only_inbound_leg_is_not_emitted
                   (sample_state CTDIR_STATUS_CORRECTED)
                   ("F"%char, CHAINPREFIX_HOST_IN_TEMP)
                   (tcp_srcmac_rule VIR_NWFILTER_RULE_DIRECTION_IN) "vnet0" []
                   (Some m_state_in_str_old) true "RETURN" false false []
                   (item_mac "52:54:00:12:34:56") _ _ eq_refl eq_refl eq_refl)).
  simpl. discriminate.
Defined.

(** C7, counterexample to the claim as stated.  An inbound ICMP rule with a
    type matcher whose source address is the variable [IP]; the leg for the
    chain [FJ-vnet0] is compiled with [maySkipICMP] set.  With a value for
    [IP] that does not fit the address buffer the leg reports the error
    instead of returning success. *)
Lemma icmp_skip_leg_can_fail :
  let rule := icmp_echo_rule (item_ipvar "IP") in
  def_prtclType rule = VIR_NWFILTER_RULE_PROTOCOL_ICMP
  /\ HAS_ENTRY_ITEM (icmp_dataICMPType (icmpHdrFilter (def_p rule))) = true
  /\ _iptablesCreateRuleInstance (sample_state CTDIR_STATUS_CORRECTED) true
       ("F"%char, CHAINPREFIX_HOST_IN_TEMP) rule "vnet0" [("IP", overlong_ip)]
       (Some m_state_in_str_old) true "RETURN" false true []
     = ((-1)%Z, []).
Proof. vm_compute. repeat split. Qed.

(** C7, the amended claim at a concrete input: the same rule with a value
    for [IP] that fits. *)
Lemma icmp_skip_leg_adds_no_command_witness :
  let rule := icmp_echo_rule (item_ipvar "IP") in
  let r := _iptablesCreateRuleInstance (sample_state CTDIR_STATUS_CORRECTED) true
             ("F"%char, CHAINPREFIX_HOST_IN_TEMP) rule "vnet0" [("IP", "10.1.2.3")]
             (Some m_state_in_str_old) true "RETURN" false true [] in
  snd r = [] /\ fst r = 0%Z.
Proof.
  cbv zeta.
  pose proof (icmp_skip_leg_adds_no_command (sample_state CTDIR_STATUS_CORRECTED) true
                ("F"%char, CHAINPREFIX_HOST_IN_TEMP) (icmp_echo_rule (item_ipvar "IP"))
                "vnet0" [("IP", "10.1.2.3")] (Some m_state_in_str_old) true "RETURN"
                false [] (or_introl eq_refl) eq_refl) as (Hs & Hok & _).
  split; [exact Hs|]. apply Hok; vm_compute; discriminate.
Defined.

(** C8 at a concrete input: an ARP rule with action reject for the chain
    [J-vnet0-arp] jumps to [DROP]. *)
Lemma ebtables_reject_is_downgraded_to_drop_witness :
  exists matchers target : string,
    ebtablesCreateRuleInstance (sample_state CTDIR_STATUS_CORRECTED)
      CHAINPREFIX_HOST_IN_TEMP "arp"
      (bare_rule VIR_NWFILTER_RULE_PROTOCOL_ARP VIR_NWFILTER_RULE_DIRECTION_INOUT
         VIR_NWFILTER_RULE_ACTION_REJECT) "vnet0" [] true
    = Some (CMD_DEF_PRE +:+ "$EBT -t nat -A " +:+ "J-vnet0-arp" +:+ matchers
            +:+ " -j " +:+ target +:+ CMD_DEF_POST +:+ CMD_SEPARATOR +:+ CMD_EXEC)
    /\ target = "DROP".
Proof.
  destruct (ebtables_reject_is_downgraded_to_drop
              (sample_state CTDIR_STATUS_CORRECTED) CHAINPREFIX_HOST_IN_TEMP "arp"
              (bare_rule VIR_NWFILTER_RULE_PROTOCOL_ARP VIR_NWFILTER_RULE_DIRECTION_INOUT
                 VIR_NWFILTER_RULE_ACTION_REJECT) "vnet0" [] true _ eq_refl)
    as (chain & matchers & target & Hchain & Htemplate & Hreject & _).
  exists matchers, target. split.
  - vm_compute in Hchain. rewrite <- Hchain, <- Htemplate. reflexivity.
  - exact (Hreject eq_refl).
Defined.

(** C9, the input on which the teardown falls short of its description
    ("remove all possible user defined tables and rules that were created
    for the given interface").  The transaction of
    [ebiptablesAllTeardown] for [vnet0] names no chain of the temporary
    generation: its ebtables rules are the eight below, its iptables rules
    name [FO-vnet0], [FI-vnet0], [HI-vnet0] and base chains, and from a
    listing that jumps to [I-vnet0-ipv4], [J-vnet0-ipv4] and [P-vnet0-arp]
    the callback takes the first chain only.  [libvirt-J-vnet0] is named by
    the transaction of [ebiptablesTearNewRules]. *)
Lemma all_teardown_keeps_the_temporary_generation :
  let fw := ebiptablesAllTeardown_fw "vnet0" in
  map fw_rule_args
    (List.filter (fun r => match fw_layer r with
                           | VIR_FIREWALL_LAYER_ETHERNET => true
                           | _ => false
                           end) (fw_rules fw))
  = [["-t"; "nat"; "-D"; "PREROUTING"; "-i"; "vnet0"; "-j"; "libvirt-I-vnet0"];
     ["-t"; "nat"; "-D"; "POSTROUTING"; "-o"; "vnet0"; "-j"; "libvirt-O-vnet0"];
     ["-t"; "nat"; "-L"; "libvirt-I-vnet0"];
     ["-t"; "nat"; "-L"; "libvirt-O-vnet0"];
     ["-t"; "nat"; "-F"; "libvirt-I-vnet0"];
     ["-t"; "nat"; "-X"; "libvirt-I-vnet0"];
     ["-t"; "nat"; "-F"; "libvirt-O-vnet0"];
     ["-t"; "nat"; "-X"; "libvirt-O-vnet0"]]
  /\ forallb (fun r => forallb (fun n => negb (temp_chain_name n))
                        (fwcmd_names (fw_cmd r))) (fw_rules fw) = true
  /\ map fw_rule_args
       (run_queryCB (CB_ebtablesRemoveSubChainsQuery chainprefixes_host)
          ["-p IPv4 -j I-vnet0-ipv4"; "-p IPv4 -j J-vnet0-ipv4"; "-p ARP -j P-vnet0-arp"])
     = [["-t"; "nat"; "-L"; "I-vnet0-ipv4"];
        ["-t"; "nat"; "-F"; "I-vnet0-ipv4"];
        ["-t"; "nat"; "-X"; "I-vnet0-ipv4"]]
  /\ temp_chain_name "libvirt-J-vnet0" = true
  /\ existsb (fun r => existsb (String.eqb "libvirt-J-vnet0") (fwcmd_names (fw_cmd r)))
       (fw_rules (ebiptablesTearNewRules_fw "vnet0")) = true.
Proof. vm_compute. repeat split. Qed.

(** C9, what the code does, at a concrete input: for [vnet0] the transaction
    removes the root chain [libvirt-I-vnet0] and a sub-chain [I-vnet0-ipv4]
    that a listing shows. *)
Lemma all_teardown_removes_the_active_generation_witness :
  let fw := ebiptablesAllTeardown_fw "vnet0" in
  removes_ebtables_root fw chainprefixes_host "libvirt-I-vnet0"
  /\ queued fw (ignoring VIR_FIREWALL_LAYER_ETHERNET (FwFlush "I-vnet0-ipv4"))
  /\ queued fw (ignoring VIR_FIREWALL_LAYER_ETHERNET (FwDeleteChain "I-vnet0-ipv4")).
Proof.
  cbv zeta.
  destruct (@all_teardown_removes_the_active_generation concrete "vnet0")
    as (_ & _ & Hroot & _ & Hdiscover & _).
  - simpl. lia.
  - split; [exact Hroot|].
    apply (Hdiscover "-p IPv4 -j I-vnet0-ipv4" "I-vnet0-ipv4").
    split; [reflexivity|]. exists "I"%char. split; [left|]; reflexivity.
Defined.


(** ** The further properties on sample inputs *)

(** X1 on the interface [vnet0]: the temporary root chain of the bridge
    layer is removed, and so is a sub-chain that a listing shows. *)
Lemma tear_new_rules_removes_the_temporary_generation_only_witness :
  let fw := @ebiptablesTearNewRules_fw concrete "vnet0" in
  removes_ebtables_root fw chainprefixes_host_temp "libvirt-J-vnet0"
  /\ queued fw (ignoring VIR_FIREWALL_LAYER_ETHERNET (FwDeleteChain "J-vnet0-ipv4")).
Proof.
  cbv zeta.
  destruct (@tear_new_rules_removes_the_temporary_generation_only concrete "vnet0")
    as (_ & _ & Hroot & _ & Hsub & _).
  - simpl. lia.
  - split; [exact Hroot|].
    apply (Hsub "-p IPv4 -j J-vnet0-ipv4" "J-vnet0-ipv4").
    split; [reflexivity|].
    exists CHAINPREFIX_HOST_IN_TEMP. split; [left; reflexivity | reflexivity].
Defined.

(** X3 on the interface [vnet0]: the root chain [libvirt-J-vnet0] is renamed
    to [libvirt-I-vnet0]. *)
Lemma tear_old_rules_destroys_no_temporary_chain_witness :
  commit_queued (@ebiptablesTearOldRules_rules concrete "vnet0")
    (renaming VIR_FIREWALL_LAYER_ETHERNET "libvirt-J-vnet0" "libvirt-I-vnet0")
  /\ commit_cmd_ok (FwRename "libvirt-J-vnet0" "libvirt-I-vnet0").
Proof.
  destruct (@tear_old_rules_destroys_no_temporary_chain concrete "vnet0")
    as (_ & Hroot & _ & Hok).
  - simpl. lia.
  - split; [exact Hroot|]. apply (Hok _ Hroot).
Defined.

(** X4 on a listing of [libvirt-J-vnet0] with two sub-chains. *)
Lemma rename_callback_renames_to_the_active_name_witness :
  map cr_cmd (@ebtablesRenameTmpSubAndRootChainsQuery concrete sample_listing [])
  = [FwList "J-vnet0-ipv4"; FwFlush "I-vnet0-ipv4"; FwDeleteChain "I-vnet0-ipv4";
     FwRename "J-vnet0-ipv4" "I-vnet0-ipv4";
     FwList "J-vnet0-arp"; FwFlush "I-vnet0-arp"; FwDeleteChain "I-vnet0-arp";
     FwRename "J-vnet0-arp" "I-vnet0-arp"].
Proof.
  rewrite (@rename_callback_renames_to_the_active_name concrete sample_listing []).
  - reflexivity.
  - intros src destbytes Hfits. simpl.
    apply Nat.ltb_lt in Hfits. rewrite Hfits. reflexivity.
  - unfold sample_listing.
    repeat (apply List.Forall_cons; [|]); [| | |apply List.Forall_nil];
      intros tmp Htmp; vm_compute in Htmp;
      first [discriminate Htmp | injection Htmp as <-];
      (split; [reflexivity | simpl; lia]).
Defined.

(** X5 on the interface [vnet0] with one DHCP server. *)
Lemma dhcp_only_rules_pass_dhcp_alone_witness :
  appended_to "libvirt-P-vnet0"
    (fw_rules (@ebtablesApplyDHCPOnlyRules_fw concrete "vnet0" sample_mac
                 ["192.168.122.1"] false))
  = [(["-d"; sample_mac; "-p"; "ipv4"; "--ip-protocol"; "udp";
       "--ip-src"; "192.168.122.1"; "--ip-sport"; "67"; "--ip-dport"; "68"], "ACCEPT");
     (["-d"; "ff:ff:ff:ff:ff:ff"; "-p"; "ipv4"; "--ip-protocol"; "udp";
       "--ip-src"; "192.168.122.1"; "--ip-sport"; "67"; "--ip-dport"; "68"], "ACCEPT");
     ([], "DROP")].
Proof.
  refine (proj2 (@dhcp_only_rules_pass_dhcp_alone concrete "vnet0" sample_mac
                   ["192.168.122.1"] false _)).
  simpl. lia.
Defined.

(** X6 on the interface [vnet0]. *)
Lemma basic_rule_sets_are_filled_before_they_are_linked_witness :
  chain_staged "libvirt-J-vnet0"
    (fw_rules (@ebtablesApplyBasicRules_fw concrete "vnet0" sample_mac))
  /\ stops_at_first_failure (@ebtablesApplyDropAllRules_fw concrete "vnet0").
Proof.
  destruct (@basic_rule_sets_are_filled_before_they_are_linked concrete "vnet0"
              sample_mac [] false)
    as (Hbasic & _ & _ & _ & _ & _ & _ & Hdrop).
  - simpl. lia.
  - split; [exact Hbasic | exact Hdrop].
Defined.

(** X7 on a MAC address item and a buffer of [VIR_MAC_STRING_BUFLEN]
    characters. *)
Lemma printDataType_result_fits_the_buffer_witness :
  @_printDataType concrete [] 18 (item_mac sample_mac) false false = Some sample_mac
  /\ (String.length sample_mac < 18)%nat.
Proof.
  assert (Hrun : @_printDataType concrete [] 18 (item_mac sample_mac) false false
                 = Some sample_mac) by reflexivity.
  split; [exact Hrun|].
  refine (@printDataType_result_fits_the_buffer concrete [] 18 (item_mac sample_mac)
            false false sample_mac _ _ Hrun).
  - intros src destbytes dest. simpl.
    destruct (Nat.ltb_spec (String.length src) destbytes) as [Hlt|Hge];
      [|discriminate].
    intros [= <-]. split; [reflexivity | exact Hlt].
  - simpl. lia.
Defined.

(** X8 on two flags of which the first is set, for an outbound and an
    inbound leg. *)
Lemma ipset_flags_follow_the_direction_witness :
  @printDataTypeDirection concrete [] 32 (item_ipsetflags 2 1) false = Some "src,dst"
  /\ @printDataTypeDirection concrete [] 32 (item_ipsetflags 2 1) true = Some "dst,src".
Proof.
  destruct (@ipset_flags_follow_the_direction concrete [] 32 (item_ipsetflags 2 1) false)
    as [Hout _]; [reflexivity | reflexivity | simpl; lia |].
  destruct (@ipset_flags_follow_the_direction concrete [] 32 (item_ipsetflags 2 1) true)
    as [Hin _]; [reflexivity | reflexivity | simpl; lia |].
  rewrite Hout, Hin. split; reflexivity.
Defined.

(** X10 on an inbound TCP rule to port 80 with the state flag
    [ESTABLISHED], and on the same rule with the state flag [NONE], whose
    command has no state match. *)
Lemma rule_with_state_flags_is_compiled_one_way_witness :
  let st := sample_state CTDIR_STATUS_CORRECTED in
  let rule := with_flags 4 (tcp80_rule VIR_NWFILTER_RULE_DIRECTION_IN
                              VIR_NWFILTER_RULE_ACTION_ACCEPT no_item) in
  let rule_none := with_flags 32 (tcp80_rule VIR_NWFILTER_RULE_DIRECTION_IN
                                    VIR_NWFILTER_RULE_ACTION_ACCEPT no_item) in
  iptablesCreateRuleInstance st rule "vnet0" [] false []
  = flags_leg st rule "vnet0" [] false false ("F"%char, CHAINPREFIX_HOST_OUT_TEMP)
      "ACCEPT" false []
  /\ iptablesCreateRuleInstance st rule "vnet0" [] false []
     = (0%Z,
        [template_of ("$IPT -A FP-vnet0 -p tcp  --dport 80 "
                      +:+ "-m state --state ESTABLISHED -j ACCEPT")])
  /\ printStateMatchFlags (def_flags rule_none) = None
  /\ iptablesCreateRuleInstance st rule_none "vnet0" [] false []
     = (0%Z, [template_of "$IPT -A FP-vnet0 -p tcp  --dport 80 -j ACCEPT"]).
Proof.
  cbv zeta.
  assert (Hlegs := @rule_with_state_flags_is_compiled_one_way concrete
                     (sample_state CTDIR_STATUS_CORRECTED)
                     (with_flags 4 (tcp80_rule VIR_NWFILTER_RULE_DIRECTION_IN
                                      VIR_NWFILTER_RULE_ACTION_ACCEPT no_item))
                     "vnet0" [] false [] eq_refl eq_refl).
  assert (Hnone := @rule_with_state_flags_is_compiled_one_way concrete
                     (sample_state CTDIR_STATUS_CORRECTED)
                     (with_flags 32 (tcp80_rule VIR_NWFILTER_RULE_DIRECTION_IN
                                       VIR_NWFILTER_RULE_ACTION_ACCEPT no_item))
                     "vnet0" [] false [] eq_refl eq_refl).
  split; [exact Hlegs|].
  split; [rewrite Hlegs; vm_compute; reflexivity|].
  split; [reflexivity|].
  rewrite Hnone. vm_compute. reflexivity.
Defined.

(** X12 on a TCP rule to port 80 that accepts at most five connections:
    the inbound leg for the chain [FP-vnet0] adds no command. *)
Lemma connlimit_leg_is_compiled_outbound_only_witness :
  snd (@_iptablesCreateRuleInstance concrete (sample_state CTDIR_STATUS_CORRECTED) true
         ("F"%char, CHAINPREFIX_HOST_OUT_TEMP)
         (tcp_connlimit_rule VIR_NWFILTER_RULE_DIRECTION_OUT 5) "vnet0" []
         (Some m_state_in_str_old) true "ACCEPT" false false [])
  = [].
Proof.
  exact (@connlimit_leg_is_compiled_outbound_only concrete
           (sample_state CTDIR_STATUS_CORRECTED) ("F"%char, CHAINPREFIX_HOST_OUT_TEMP)
           (tcp_connlimit_rule VIR_NWFILTER_RULE_DIRECTION_OUT 5) "vnet0" []
           (Some m_state_in_str_old) true "ACCEPT" false false []
           (ipHdr_connlimit 5) eq_refl eq_refl).
Defined.

(** X13 on a rule for the spanning tree protocol with a source MAC
    address. *)
Lemma stp_inout_rule_with_source_mac_is_refused_witness :
  @ebiptablesCreateRuleInstance concrete (sample_state CTDIR_STATUS_CORRECTED) "stp"
    stp_srcmac_rule "vnet0" []
  = ((-1)%Z, []).
Proof.
  exact (proj2 (@stp_inout_rule_with_source_mac_is_refused concrete
                  (sample_state CTDIR_STATUS_CORRECTED) "stp" stp_srcmac_rule "vnet0" []
                  eq_refl eq_refl eq_refl eq_refl)).
Defined.

(** X16 on the interfaces [vnet0] and [vnet1] and the sub-chains [ipv4]
    and [arp]. *)
Lemma chain_names_are_distinct_when_they_fit_witness :
  (String.length (@PRINT_CHAIN concrete CHAINPREFIX_HOST_IN_TEMP "vnet0" "ipv4")
   < @MAX_CHAINNAME_LENGTH concrete)%nat
  /\ @PRINT_ROOT_CHAIN concrete CHAINPREFIX_HOST_IN_TEMP "vnet0"
     <> @PRINT_ROOT_CHAIN concrete CHAINPREFIX_HOST_IN_TEMP "vnet1".
Proof.
  destruct (@chain_names_are_distinct_when_they_fit concrete
              CHAINPREFIX_HOST_IN_TEMP CHAINPREFIX_HOST_IN_TEMP "F"%char "F"%char
              "vnet0" "vnet1" "ipv4" "arp")
    as ((_ & Hfits & _) & Hroot & _).
  - simpl. lia.
  - simpl. lia.
  - simpl. lia.
  - simpl. lia.
  - simpl. lia.
  - split; [exact Hfits|].
    intros Heq. destruct (Hroot Heq) as [_ Hif]. discriminate Hif.
Defined.

(** X17 on a rule of the chain [arp] and a rule of the chain [ipv4]. *)
Lemma subchains_are_created_for_protocol_chains_only_witness :
  StronglySorted (fun a b => (ebt_priority a <= ebt_priority b)%Z)
    (@needed_chains concrete "vnet0" [rule_arp; rule_ipv4])
  /\ map ebt_priority (@needed_chains concrete "vnet0" [rule_arp; rule_ipv4])
     = [(-700)%Z; (-500)%Z].
Proof.
  destruct (@subchains_are_created_for_protocol_chains_only concrete "vnet0"
              [rule_arp; rule_ipv4])
    as (_ & Hsorted).
  - apply concrete_virHashGetItems.
  - apply concrete_qsort_chains.
  - apply (isort_Permutation virNWFilterRuleInstSortPtr [rule_arp; rule_ipv4]).
  - repeat constructor; simpl; lia.
  - split; [exact Hsorted | reflexivity].
Defined.

(** X19 on two rules of the bridge layer. *)
Lemma bridge_rules_run_the_bridge_tool_only_witness :
  let st := sample_state CTDIR_STATUS_CORRECTED in
  let trace :=
    snd (fst (fst (@ebiptablesApplyNewRules concrete st (world_answering [])
                     "vnet0" [rule_arp; rule_ipv4]))) in
  Forall (fun e => ebtables_script st (ex_script e)) trace
  /\ (length trace <= 5)%nat.
Proof.
  cbv zeta.
  apply (@bridge_rules_run_the_bridge_tool_only concrete
           (sample_state CTDIR_STATUS_CORRECTED) (world_answering []) "vnet0"
           [rule_arp; rule_ipv4]).
  - intros l x. apply isort_In.
  - intros x. apply (isort_In virNWFilterRuleInstSortPtr [rule_arp; rule_ipv4] x).
  - repeat constructor.
Defined.
End Concrete.
